(** * FluxAI: the policy / budget firewall, embedded in Rocq

    A shallow embedding of the policy evaluator ([PolicyEngine]), the usage
    ledger ([DatabaseService]), the cost estimator and the router
    ([checkAndRoute]) of FluxAI, followed by the properties proved about them.

    Modelling conventions.
    - A JavaScript [number] that holds money or units is an exact rational
      ([Q]); the only non-finite value the code produces is [Infinity]
      ([number]).  The arithmetic of the process is exact: the rounding of
      IEEE doubles is not modelled.  The store is not exact: a value
      written to the NUMERIC and INTEGER columns of usage_aggregates and
      policies is rounded or refused as the column type of schema.sql does
      ([Pg]), and the id given to delete_policy is read as the UUID column
      policies.id reads a text.
    - A string is the sequence of its UTF-8 bytes.
    - A [Date] is the instant it denotes, in milliseconds since the epoch.
      The string produced by [toISOString] is represented by the instant
      it spells, and its date part (the text before the 'T', which is also
      what a SQL DATE column keeps of it) by the UTC day number.  The zone
      of the process is a fixed offset [tz] in [Date.Env] (local time =
      UTC + tz); the operations on local time are given as well for a zone
      whose offset changes ([Date.Zone], daylight saving), where they are
      ECMAScript's, and the two agree at a fixed offset.
    - A request reads the clock while it evaluates and stamps its event
      ([Date.now]); [updateAggregates], which is started once the event is
      inserted and is not awaited, reads it again ([Date.later]).
    - The Supabase tables are lists of rows in storage order; a query is a
      filter over the rows, with the cardinality rules of [single] and
      [maybeSingle].  Every store access can answer normally, answer with an
      error object, or reject (throw): see [Faults].  An error answer stands
      for every refusal of the store, among them the constraints of
      schema.sql that the rows of this model do not carry (the users table
      and the foreign keys of usage_events).
    - Columns the database fills in itself (id of an event, created_at,
      updated_at) are left out of the rows. *)

From Stdlib Require Import List String Ascii ZArith QArith Lia Lqa Bool Sorted Permutation Qround.
Import ListNotations.

Local Open Scope string_scope.

(** ** JavaScript values *)

Module JS.

(** A number that may be [Infinity]. *)
Inductive number : Type :=
| Fin (q : Q)
| Infinity.

(** [a - b] for a finite [b]. *)
Definition sub (a : number) (b : Q) : number :=
  match a with
  | Fin q => Fin (q - b)
  | Infinity => Infinity
  end.

(** Numeric equality ([Qeq] on the finite part). *)
Definition eq (a b : number) : Prop :=
  match a, b with
  | Fin x, Fin y => x == y
  | Infinity, Infinity => True
  | _, _ => False
  end.

(** [x > y] on finite numbers. *)
Definition gt (x y : Q) : bool := negb (Qle_bool x y).

(** [x || Infinity]: zero is falsy. *)
Definition orInfinity (x : Q) : number :=
  if Qeq_bool x 0 then Infinity else Fin x.

(** Truthiness of a string: every string but the empty one. *)
Definition truthy (s : string) : bool :=
  match s with
  | EmptyString => false
  | String _ _ => true
  end.

(** Truthiness of [string | null | undefined]. *)
Definition truthyOpt (o : option string) : bool :=
  match o with
  | Some s => truthy s
  | None => false
  end.

(** White space and line terminators of ECMAScript that take one byte:
    TAB, LF, VT, FF, CR and the space. *)
Definition isSpace (c : ascii) : bool :=
  let n := nat_of_ascii c in
  (Nat.eqb n 32 || (Nat.leb 9 n && Nat.leb n 13))%bool.

(** Those that take two bytes, U+00A0, and three: U+1680, U+2000 to
    U+200A, U+2028, U+2029, U+202F, U+205F, U+3000 and U+FEFF. *)
Definition isSpace2 (a b : ascii) : bool :=
  (Nat.eqb (nat_of_ascii a) 194 && Nat.eqb (nat_of_ascii b) 160)%bool.

Definition isSpace3 (a b c : ascii) : bool :=
  let x := nat_of_ascii a in
  let y := nat_of_ascii b in
  let z := nat_of_ascii c in
  ((Nat.eqb x 225 && Nat.eqb y 154 && Nat.eqb z 128) ||
   (Nat.eqb x 226 && Nat.eqb y 128 &&
    ((Nat.leb 128 z && Nat.leb z 138) || Nat.eqb z 168 || Nat.eqb z 169 ||
     Nat.eqb z 175)) ||
   (Nat.eqb x 226 && Nat.eqb y 129 && Nat.eqb z 159) ||
   (Nat.eqb x 227 && Nat.eqb y 128 && Nat.eqb z 128) ||
   (Nat.eqb x 239 && Nat.eqb y 187 && Nat.eqb z 191))%bool.

Fixpoint trimStart (s : string) : string :=
  match s with
  | EmptyString => EmptyString
  | String a r =>
      if isSpace a then trimStart r
      else
        match r with
        | String b r2 =>
            if isSpace2 a b then trimStart r2
            else
              match r2 with
              | String c r3 => if isSpace3 a b c then trimStart r3 else s
              | EmptyString => s
              end
        | EmptyString => s
        end
  end.

(** The bytes of a string, last first. *)
Fixpoint reversed (s : string) (acc : list ascii) : list ascii :=
  match s with
  | EmptyString => acc
  | String c r => reversed r (c :: acc)
  end.

(** Drops the white space at the front of the reversed bytes and turns
    what is left back into a string. *)
Fixpoint trimReversed (l : list ascii) (acc : string) : string :=
  match l with
  | [] => acc
  | c :: r =>
      match acc with
      | String _ _ => trimReversed r (String c acc)
      | EmptyString =>
          if isSpace c then trimReversed r EmptyString
          else
            match r with
            | b :: r2 =>
                if isSpace2 b c then trimReversed r2 EmptyString
                else
                  match r2 with
                  | a :: r3 =>
                      if isSpace3 a b c then trimReversed r3 EmptyString
                      else trimReversed r (String c EmptyString)
                  | [] => trimReversed r (String c EmptyString)
                  end
            | [] => String c EmptyString
            end
      end
  end.

Definition trimEnd (s : string) : string := trimReversed (reversed s []) EmptyString.

(** [String.prototype.trim]. *)
Definition trim (s : string) : string := trimEnd (trimStart s).

End JS.

(** ** Dates *)

Module Date.

Local Open Scope Z_scope.

(** An instant, in milliseconds since 1970-01-01T00:00:00Z. *)
Definition t := Z.

Definition msPerDay : Z := 86400000.

(** The clock of one request and the zone of the process. *)
Record Env : Type := mkEnv {
  now : t;      (* what [new Date()] returns while the request is evaluated
                   and its event stamped *)
  tz : Z;       (* local time minus UTC, in milliseconds *)
  later : t     (* what [new Date()] returns in [updateAggregates] *)
}.

(** The clock as [updateAggregates] reads it. *)
Definition atUpdate (e : Env) : Env := mkEnv (later e) (tz e) (later e).

(** ECMAScript's [Day(t)] and [TimeWithinDay(t)]. *)
Definition Day (x : Z) : Z := x / msPerDay.
Definition TimeWithinDay (x : Z) : Z := x mod msPerDay.

Definition LocalTime (e : Env) (x : t) : Z := x + tz e.
Definition UTC (e : Env) (local : Z) : t := local - tz e.

(** The proleptic Gregorian calendar: day number of a civil date
    ([m] from 1 to 12) and back. *)
Definition days_from_civil (y m d : Z) : Z :=
  let y' := if m <=? 2 then y - 1 else y in
  let era := y' / 400 in
  let yoe := y' - era * 400 in
  let mp := (m + 9) mod 12 in
  let doy := (153 * mp + 2) / 5 + d - 1 in
  let doe := yoe * 365 + yoe / 4 - yoe / 100 + doy in
  era * 146097 + doe - 719468.

(** Inside one era of 400 years (146097 days, from a 1st of March): the
    year of the era, the day of that year, the month counted from March
    and the day of the month. *)
Definition yearOfEra (doe : Z) : Z :=
  (doe - doe / 1460 + doe / 36524 - doe / 146096) / 365.
Definition dayOfYear (doe : Z) : Z :=
  let yoe := yearOfEra doe in doe - (365 * yoe + yoe / 4 - yoe / 100).
Definition monthIndex (doy : Z) : Z := (5 * doy + 2) / 153.
Definition dayOfMonth (doy : Z) : Z := doy - (153 * monthIndex doy + 2) / 5 + 1.

Definition civil_from_days (z : Z) : Z * Z * Z :=
  let z' := z + 719468 in
  let era := z' / 146097 in
  let doe := z' - era * 146097 in
  let yoe := yearOfEra doe in
  let doy := dayOfYear doe in
  let mp := monthIndex doy in
  let d := dayOfMonth doy in
  let m := if mp <? 10 then mp + 3 else mp - 9 in
  let y := yoe + era * 400 in
  (if m <=? 2 then y + 1 else y, m, d).

(** [YearFromTime], [MonthFromTime] (0 to 11) and [DateFromTime] of a
    time value, and [MakeDay] for a month index in range. *)
Definition YearFromTime (x : Z) : Z := fst (fst (civil_from_days (Day x))).
Definition MonthFromTime (x : Z) : Z := snd (fst (civil_from_days (Day x))) - 1.
Definition DateFromTime (x : Z) : Z := snd (civil_from_days (Day x)).
Definition MakeDay (year month date : Z) : Z :=
  days_from_civil year (month + 1) 1 + date - 1.
Definition MakeDate (day time : Z) : Z := day * msPerDay + time.

(** [d.setHours(0, 0, 0, 0)]: local midnight of the local day of [d]. *)
Definition setHours0 (e : Env) (d : t) : t :=
  UTC e (MakeDate (Day (LocalTime e d)) 0).

(** [d.setDate(1)]: the first day of the local month, same local time. *)
Definition setDate1 (e : Env) (d : t) : t :=
  let l := LocalTime e d in
  UTC e (MakeDate (MakeDay (YearFromTime l) (MonthFromTime l) 1) (TimeWithinDay l)).

Definition getFullYear (e : Env) (d : t) : Z := YearFromTime (LocalTime e d).
Definition getMonth (e : Env) (d : t) : Z := MonthFromTime (LocalTime e d).

(** [new Date(year, month, 1)]: local midnight of that day. *)
Definition ofYearMonth1 (e : Env) (year month : Z) : t :=
  UTC e (MakeDate (MakeDay year month 1) 0).

(** The text of [toISOString], represented by the instant it spells. *)
Definition ISOString := Z.
Definition toISOString (d : t) : ISOString := d.

(** The date text 'YYYY-MM-DD', represented by the UTC day number:
    [s.split('T')[0]], and the value a DATE column compares with when it
    is given the whole text. *)
Definition DateString := Z.
Definition splitT0 (s : ISOString) : DateString := Day s.
Definition castToDate (s : ISOString) : DateString := Day s.

(** *** Zones whose offset changes

    ECMAScript's [LocalTZA(t, isUTC)]: the offset in force at an instant,
    and the offset a local time is read with (the one before the change
    when the local time is skipped or repeated by it). *)
Record Zone : Type := mkZone {
  offsetAt : t -> Z;
  offsetOfLocal : Z -> Z
}.

Definition fixedZone (offset : Z) : Zone :=
  mkZone (fun _ => offset) (fun _ => offset).

Definition LocalTimeIn (z : Zone) (x : t) : Z := x + offsetAt z x.
Definition UTCIn (z : Zone) (local : Z) : t := local - offsetOfLocal z local.

Definition setHours0In (z : Zone) (d : t) : t :=
  UTCIn z (MakeDate (Day (LocalTimeIn z d)) 0).

Definition setDate1In (z : Zone) (d : t) : t :=
  let l := LocalTimeIn z d in
  UTCIn z (MakeDate (MakeDay (YearFromTime l) (MonthFromTime l) 1) (TimeWithinDay l)).

Definition getFullYearIn (z : Zone) (d : t) : Z := YearFromTime (LocalTimeIn z d).
Definition getMonthIn (z : Zone) (d : t) : Z := MonthFromTime (LocalTimeIn z d).

Definition ofYearMonth1In (z : Zone) (year month : Z) : t :=
  UTCIn z (MakeDate (MakeDay year month 1) 0).

End Date.

(** ** Column types (schema.sql) *)

Module Pg.

Definition scale (s : nat) : positive := Z.to_pos (10 ^ Z.of_nat s).

(** The nearest whole number, halves away from zero: what NUMERIC does
    with the digits beyond its scale. *)
Definition roundHalfAway (x : Q) : Z :=
  if Qle_bool 0 x then Qfloor (x + (1 # 2)) else (- Qfloor ((1 # 2) - x))%Z.

(** What a NUMERIC(p, s) column keeps of a number: the number rounded to
    [s] decimals, unless that takes more than [p] digits, which is
    refused. *)
Definition numeric (p s : nat) (x : Q) : option Q :=
  let n := roundHalfAway (x * inject_Z (Zpos (scale s))) in
  if (Z.abs n <? 10 ^ Z.of_nat p)%Z then Some (n # scale s) else None.

(** What an INTEGER column keeps: a whole number from -2^31 to 2^31 - 1;
    the text of any other number is refused. *)
Definition integer (x : Q) : option Q :=
  let n := Qfloor x in
  if Qeq_bool x (inject_Z n) && (-2147483648 <=? n)%Z && (n <=? 2147483647)%Z
  then Some (inject_Z n)
  else None.

(** A number the column keeps as it is. *)
Definition keeps (column : Q -> option Q) (x : Q) : Prop :=
  exists y, column x = Some y /\ y == x.

(** A whole number of units of the last decimal of scale [s]. *)
Definition scaled (s : nat) (x : Q) : Prop :=
  exists n : Z, x == n # scale s.

(** Hexadecimal digits, and the lower case of a letter. *)
Definition isxdigit (c : ascii) : bool :=
  let n := nat_of_ascii c in
  ((Nat.leb 48 n && Nat.leb n 57) || (Nat.leb 65 n && Nat.leb n 70) ||
   (Nat.leb 97 n && Nat.leb n 102))%bool.

Definition tolower (c : ascii) : ascii :=
  let n := nat_of_ascii c in
  if (Nat.leb 65 n && Nat.leb n 90)%bool then ascii_of_nat (n + 32) else c.

(** The bytes [i], [i + 1], ... of a uuid, [count] of them, read from the
    text: two hexadecimal digits each, a hyphen being passed over after
    every second byte but the last. The result is the text the column
    prints for them (lower case, hyphens after the bytes 4, 6, 8 and 10)
    and what is left of the input. *)
Fixpoint uuidBytes (count i : nat) (src : string) : option (string * string) :=
  match count with
  | O => Some (EmptyString, src)
  | S count' =>
      match src with
      | String a (String b rest) =>
          if (isxdigit a && isxdigit b)%bool
          then
            let rest' :=
              match rest with
              | String c r =>
                  if (Ascii.eqb c "-" && Nat.odd i && Nat.ltb i 15)%bool
                  then r else rest
              | EmptyString => rest
              end in
            match uuidBytes count' (S i) rest' with
            | Some (text, tail) =>
                Some (String (tolower a)
                        (String (tolower b)
                           (if (Nat.eqb i 3 || Nat.eqb i 5 || Nat.eqb i 7 ||
                                Nat.eqb i 9)%bool
                            then String "-" text else text)),
                      tail)
            | None => None
            end
          else None
      | _ => None
      end
  end.

(** What a UUID column makes of a text: sixteen bytes, between braces or
    not, and nothing after them; any other text is refused. The value is
    represented by the text the column prints for it. *)
Definition uuid (s : string) : option string :=
  let braces := match s with
                | String c _ => Ascii.eqb c "{"
                | EmptyString => false
                end in
  let src := match s with
             | String c r => if Ascii.eqb c "{" then r else s
             | EmptyString => s
             end in
  match uuidBytes 16 0 src with
  | Some (text, tail) =>
      if braces
      then match tail with
           | String c EmptyString => if Ascii.eqb c "}" then Some text else None
           | _ => None
           end
      else match tail with
           | EmptyString => Some text
           | String _ _ => None
           end
  | None => None
  end.

End Pg.

(** ** The data model (src/types) *)

Inductive Plan : Type := free | pro | enterprise.
Inductive Category : Type := llm | search | db | custom.
Inductive Tier : Type := cheap | standard | premium.
Inductive UnitType : Type := tokens | requests.
Inductive Scope : Type := scope_tenant | scope_user | scope_tool.
Inductive LimitType : Type := daily | monthly | per_request.
Inductive PolicyDecision : Type := allow | deny | downgrade | require_approval.
Inductive Decision : Type := allowed | denied | downgraded.
Inductive PeriodType : Type := day | month.

(** The text stored in the [scope] column: the key of ORDER BY scope. *)
Definition scopeText (s : Scope) : string :=
  match s with
  | scope_tenant => "tenant"
  | scope_user => "user"
  | scope_tool => "tool"
  end.

Definition Plan_eqb (a b : Plan) : bool :=
  match a, b with
  | free, free | pro, pro | enterprise, enterprise => true
  | _, _ => false
  end.

Definition Category_eqb (a b : Category) : bool :=
  match a, b with
  | llm, llm | search, search | db, db | custom, custom => true
  | _, _ => false
  end.

Definition Tier_eqb (a b : Tier) : bool :=
  match a, b with
  | cheap, cheap | standard, standard | premium, premium => true
  | _, _ => false
  end.

Definition PeriodType_eqb (a b : PeriodType) : bool :=
  match a, b with
  | day, day | month, month => true
  | _, _ => false
  end.

(** [Record<string, any>], as far as the router looks into it: not at all. *)
Definition Params := list (string * string).

Module Tenant.
Record t : Type := mk {
  id : string;
  name : string;
  plan : Plan;
  soft_limit_usd : Q;
  hard_limit_usd : Q
}.
End Tenant.

Module Tool.
Record t : Type := mk {
  id : string;
  name : string;
  category : Category;
  tier : Tier;
  cost_per_unit : Q;
  unit_type : UnitType
}.
End Tool.

Module Policy.
Record t : Type := mk {
  id : string;
  tenant_id : string;
  scope : Scope;
  scope_id : option string;
  limit_type : LimitType;
  limit_value : Q;
  fallback_tool_id : option string;
  decision : PolicyDecision
}.
End Policy.

(** The reason texts of the evaluator, with the values they interpolate. *)
Inductive Reason : Type :=
| NoPoliciesDefined                            (* 'No policies defined, allowing by default' *)
| WouldExceed (lt : LimitType) (limit : Q)     (* `Would exceed ${limit_type} limit of $${limit_value}` *)
| DowngradingTo (tool : string)                (* `Downgrading to ${fallback_tool_id} due to budget limit` *)
| RequiresApproval                             (* 'Requires manual approval due to budget limit' *)
| WithinBudget.                                (* 'Within budget limits' *)

(** The metadata objects the router attaches to an event. *)
Inductive Metadata : Type :=
| MetaDenied (reason : Reason)
| MetaDowngraded (original_tool : string) (reason : Reason) (params : Params)
| MetaAllowed (params : Params).

Module UsageEvent.
Record t : Type := mk {
  timestamp : Date.ISOString;
  tenant_id : string;
  user_id : string;
  tool_id : string;
  units : Q;
  cost_estimate : Q;
  decision : Decision;
  metadata : Metadata
}.
End UsageEvent.

Module UsageAggregate.
Record t : Type := mk {
  tenant_id : string;
  user_id : string;
  tool_id : string;
  period_type : PeriodType;
  period_start : Date.DateString;
  total_units : Q;
  total_cost : Q
}.
End UsageAggregate.

Module PolicyEvaluationResult.
Record t : Type := mk {
  allowed : bool;
  reason : Reason;
  suggested_tool : option string;
  current_usage : Q;
  limit : JS.number
}.
End PolicyEvaluationResult.

Module CheckAndRouteInput.
Record t : Type := mk {
  tenant_id : string;
  user_id : string;
  tool_id : string;
  estimated_units : Q;
  params : Params
}.
End CheckAndRouteInput.

(** The message texts of the router. *)
Inductive Message : Type :=
| ToolNotFound (tool_id : string)
| NotOnPlanDowngraded (tool_id fallback : string)
| NotOnPlan (tool_id : string)
| ReasonText (r : Reason)
| Approved
| ErrorProcessing.

(** The [result] object of a routed request. *)
Record Routed : Type := mkRouted {
  routed_tool : string;
  routed_params : Params
}.

Module CheckAndRouteOutput.
Record t : Type := mk {
  decision : Decision;
  final_tool_used : string;
  result : option Routed;
  cost_estimate : Q;
  remaining_budget : JS.number;
  message : Message
}.
End CheckAndRouteOutput.

(** ** The store (schema.sql) *)

Record Store : Type := mkStore {
  tenants : list Tenant.t;
  tools : list Tool.t;
  policies : list Policy.t;
  usage_events : list UsageEvent.t;
  usage_aggregates : list UsageAggregate.t
}.

Definition setEvents (st : Store) (evs : list UsageEvent.t) : Store :=
  mkStore (tenants st) (tools st) (policies st) evs (usage_aggregates st).

Definition setAggregates (st : Store) (aggs : list UsageAggregate.t) : Store :=
  mkStore (tenants st) (tools st) (policies st) (usage_events st) aggs.

(** *** Store accesses and their failures *)

(** The places where the code awaits the store. *)
Inductive Site : Type :=
| AtGetTool                 (* DatabaseService.getTool *)
| AtPlanTenant              (* isToolAllowedForPlan: tenants *)
| AtPlanTool                (* isToolAllowedForPlan: tools *)
| AtFallbackTool            (* getSuggestedFallback: the tool *)
| AtFallbackAlternatives    (* getSuggestedFallback: the alternatives *)
| AtPolicies                (* getApplicablePolicies *)
| AtUsageAggregate          (* getCurrentUsage: usage_aggregates *)
| AtUsageEvents             (* getCurrentUsage: usage_events *)
| AtInsertEvent             (* recordUsage: insert *)
| AtSelectAggregate         (* upsertAggregate: select *)
| AtUpdateAggregate         (* upsertAggregate: update *)
| AtInsertAggregate.        (* upsertAggregate: insert *)

Inductive Fault : Type :=
| NoFault       (* the store answers *)
| ErrorReply    (* the client resolves with { data: null, error } *)
| Throws.       (* the awaited promise rejects *)

Definition Faults := Site -> Fault.

Definition no_faults : Faults := fun _ => NoFault.

(** What the client resolves with. *)
Record Reply (A : Type) : Type := mkReply {
  data : option A;
  error : bool
}.
Arguments mkReply {A} _ _.
Arguments data {A} _.
Arguments error {A} _.

(** The outcome of an awaited call: a value, or an exception. *)
Inductive Outcome (A : Type) : Type :=
| Returned (a : A)
| Raised.
Arguments Returned {A} _.
Arguments Raised {A}.

Definition bind {A B : Type} (m : Outcome A) (k : A -> Outcome B) : Outcome B :=
  match m with
  | Returned a => k a
  | Raised => Raised
  end.

Notation "x <- m ;; k" := (bind m (fun x => k))
  (at level 61, m at next level, right associativity).

(** A select of several rows. *)
Definition rows {A : Type} (l : list A) : Reply (list A) :=
  mkReply (Some l) false.

(** [.single()]: exactly one row, otherwise an error. *)
Definition single {A : Type} (l : list A) : Reply A :=
  match l with
  | [r] => mkReply (Some r) false
  | _ => mkReply None true
  end.

(** [.maybeSingle()]: no row is null without error, several are an error. *)
Definition maybeSingle {A : Type} (l : list A) : Reply A :=
  match l with
  | [] => mkReply None false
  | [r] => mkReply (Some r) false
  | _ => mkReply None true
  end.

(** The answer of the store at a site, under a fault plan. *)
Definition await {A : Type} (f : Faults) (s : Site) (r : Reply A) : Outcome (Reply A) :=
  match f s with
  | NoFault => Returned r
  | ErrorReply => Returned (mkReply None true)
  | Throws => Raised
  end.

(** ORDER BY: a stable insertion sort, rows with equal keys stay in storage
    order. [before a b] tells that [a] may stay in front of [b]. *)
Section OrderBy.
Context {A : Type} (before : A -> A -> bool).

Fixpoint insertRow (x : A) (l : list A) : list A :=
  match l with
  | [] => [x]
  | y :: r => if before x y then x :: l else y :: insertRow x r
  end.

Fixpoint orderBy (l : list A) : list A :=
  match l with
  | [] => []
  | x :: r => insertRow x (orderBy r)
  end.
End OrderBy.

(** ** The cost estimator (src/lib/cost-estimator.ts) *)

Module CostEstimator.

Definition estimateCost (tool : Tool.t) (units : Q) : Q :=
  Tool.cost_per_unit tool * units.

End CostEstimator.

(** ** The policy evaluator (src/lib/policy-engine.ts) *)

Module PolicyEngine.

(** The filter of [getApplicablePolicies]: the tenant's policies of scope
    tenant, of scope user for this user, of scope tool for this tool. *)
Definition optEqb (o : option string) (s : string) : bool :=
  match o with
  | Some x => String.eqb x s
  | None => false
  end.

Definition applicable (tenantId userId toolId : string) (p : Policy.t) : bool :=
  String.eqb (Policy.tenant_id p) tenantId &&
  match Policy.scope p with
  | scope_tenant => true
  | scope_user => optEqb (Policy.scope_id p) userId
  | scope_tool => optEqb (Policy.scope_id p) toolId
  end.

(** [.order('scope', { ascending: false })]: by the scope text, greatest
    first. *)
Definition scopeDescending (a b : Policy.t) : bool :=
  negb (String.ltb (scopeText (Policy.scope a)) (scopeText (Policy.scope b))).

Definition getApplicablePolicies (f : Faults) (st : Store)
    (tenantId userId toolId : string) : Outcome (list Policy.t) :=
  r <- await f AtPolicies
         (rows (orderBy scopeDescending
                  (filter (applicable tenantId userId toolId) (policies st)))) ;;
  if error r then Returned []
  else Returned (match data r with Some l => l | None => [] end).

(** The two windows of [getPeriodStart] and [getCurrentUsage]. *)
Inductive Window : Type := Daily | Monthly.

Definition getPeriodStart (e : Date.Env) (periodType : Window) : Date.ISOString :=
  let now := Date.now e in
  match periodType with
  | Daily => Date.toISOString (Date.setHours0 e now)
  | Monthly => Date.toISOString (Date.setHours0 e (Date.setDate1 e now))
  end.

(** [getPeriodStart] in a zone whose offset changes, at the clock value
    [now]. *)
Definition getPeriodStartIn (z : Date.Zone) (now : Date.t) (periodType : Window)
    : Date.ISOString :=
  match periodType with
  | Daily => Date.toISOString (Date.setHours0In z now)
  | Monthly => Date.toISOString (Date.setHours0In z (Date.setDate1In z now))
  end.

Definition windowPeriod (w : Window) : PeriodType :=
  match w with
  | Daily => day
  | Monthly => month
  end.

(** The rows the aggregate read selects: tenant, period type and period
    start. [userId] and [toolId] do not take part. *)
Definition usageRow (tenantId : string) (periodType : Window)
    (periodStart : Date.ISOString) (a : UsageAggregate.t) : bool :=
  String.eqb (UsageAggregate.tenant_id a) tenantId &&
  PeriodType_eqb (UsageAggregate.period_type a) (windowPeriod periodType) &&
  Z.eqb (UsageAggregate.period_start a) (Date.castToDate periodStart).

Definition usageEvent (tenantId : string) (periodStart : Date.ISOString)
    (ev : UsageEvent.t) : bool :=
  String.eqb (UsageEvent.tenant_id ev) tenantId &&
  Z.leb periodStart (UsageEvent.timestamp ev).

Definition sumCosts (events : list UsageEvent.t) : Q :=
  fold_left (fun sum ev => sum + UsageEvent.cost_estimate ev) events 0.

Definition getCurrentUsage (f : Faults) (e : Date.Env) (st : Store)
    (tenantId userId toolId : string) (periodType : Window) : Outcome Q :=
  let periodStart := getPeriodStart e periodType in
  r <- await f AtUsageAggregate
         (maybeSingle (filter (usageRow tenantId periodType periodStart)
                              (usage_aggregates st))) ;;
  match data r with
  | Some aggregate => Returned (UsageAggregate.total_cost aggregate)
  | None =>
      r' <- await f AtUsageEvents
              (rows (filter (usageEvent tenantId periodStart) (usage_events st))) ;;
      match data r' with
      | None => Returned 0
      | Some [] => Returned 0
      | Some events => Returned (sumCosts events)
      end
  end.

(** The window a policy is counted in: per_request counts in the daily
    window. *)
Definition policyWindow (p : Policy.t) : Window :=
  match Policy.limit_type p with
  | per_request => Daily
  | daily => Daily
  | monthly => Monthly
  end.

(** The body of the loop for one breached policy: [Some] is a return,
    [None] goes on to the next policy. *)
Definition onBreach (p : Policy.t) (currentUsage : Q)
    : option PolicyEvaluationResult.t :=
  match Policy.decision p with
  | deny =>
      Some (PolicyEvaluationResult.mk false
              (WouldExceed (Policy.limit_type p) (Policy.limit_value p))
              None currentUsage (JS.Fin (Policy.limit_value p)))
  | downgrade =>
      match Policy.fallback_tool_id p with
      | Some fb =>
          if JS.truthy fb then
            Some (PolicyEvaluationResult.mk true (DowngradingTo fb)
                    (Some fb) currentUsage (JS.Fin (Policy.limit_value p)))
          else None
      | None => None
      end
  | require_approval =>
      Some (PolicyEvaluationResult.mk false RequiresApproval
              None currentUsage (JS.Fin (Policy.limit_value p)))
  | allow => None
  end.

(** The loop [for (const policy of policies)]. *)
Fixpoint checkPolicies (f : Faults) (e : Date.Env) (st : Store)
    (tenantId userId toolId : string) (estimatedCost : Q)
    (ps : list Policy.t) : Outcome (option PolicyEvaluationResult.t) :=
  match ps with
  | [] => Returned None
  | policy :: rest =>
      currentUsage <- getCurrentUsage f e st tenantId userId toolId
                        (policyWindow policy) ;;
      let projectedUsage := currentUsage + estimatedCost in
      match (if JS.gt projectedUsage (Policy.limit_value policy)
             then onBreach policy currentUsage else None) with
      | Some res => Returned (Some res)
      | None => checkPolicies f e st tenantId userId toolId estimatedCost rest
      end
  end.

Definition evaluateRequest (f : Faults) (e : Date.Env) (st : Store)
    (tenantId userId toolId : string) (estimatedCost : Q)
    : Outcome PolicyEvaluationResult.t :=
  ps <- getApplicablePolicies f st tenantId userId toolId ;;
  match ps with
  | [] =>
      Returned (PolicyEvaluationResult.mk true NoPoliciesDefined None 0 JS.Infinity)
  | first :: _ =>
      found <- checkPolicies f e st tenantId userId toolId estimatedCost ps ;;
      match found with
      | Some res => Returned res
      | None =>
          usage <- getCurrentUsage f e st tenantId userId toolId Daily ;;
          Returned (PolicyEvaluationResult.mk true WithinBudget None usage
                      (JS.orInfinity (Policy.limit_value first)))
      end
  end.

Definition isToolAllowedForPlan (f : Faults) (st : Store)
    (tenantId toolId : string) : Outcome bool :=
  rt <- await f AtPlanTenant
          (single (filter (fun t => String.eqb (Tenant.id t) tenantId) (tenants st))) ;;
  ro <- await f AtPlanTool
          (single (filter (fun t => String.eqb (Tool.id t) toolId) (tools st))) ;;
  match data rt, data ro with
  | Some tenant, Some tool =>
      if Plan_eqb (Tenant.plan tenant) free && Tier_eqb (Tool.tier tool) premium
      then Returned false
      else Returned true
  | _, _ => Returned false
  end.

(** The alternatives of [getSuggestedFallback]: same category, another
    id, cheapest first. *)
Definition cheaperFirst (a b : Tool.t) : bool :=
  Qle_bool (Tool.cost_per_unit a) (Tool.cost_per_unit b).

Definition alternativesOf (st : Store) (tool : Tool.t) (toolId : string)
    : list Tool.t :=
  firstn 1
    (orderBy cheaperFirst
       (filter (fun t => Category_eqb (Tool.category t) (Tool.category tool) &&
                         negb (String.eqb (Tool.id t) toolId))
               (tools st))).

Definition getSuggestedFallback (f : Faults) (st : Store) (toolId : string)
    : Outcome (option string) :=
  ro <- await f AtFallbackTool
          (single (filter (fun t => String.eqb (Tool.id t) toolId) (tools st))) ;;
  match data ro with
  | None => Returned None
  | Some tool =>
      ra <- await f AtFallbackAlternatives (rows (alternativesOf st tool toolId)) ;;
      match data ra with
      | Some (alt :: _) => Returned (Some (Tool.id alt))
      | _ => Returned None
      end
  end.

End PolicyEngine.

(** ** The usage ledger (src/lib/database.ts) *)

Module DatabaseService.

(** The five [.eq] filters of [upsertAggregate]. *)
Definition sameKey (tenantId userId toolId : string) (periodType : PeriodType)
    (periodStart : Date.DateString) (a : UsageAggregate.t) : bool :=
  String.eqb (UsageAggregate.tenant_id a) tenantId &&
  String.eqb (UsageAggregate.user_id a) userId &&
  String.eqb (UsageAggregate.tool_id a) toolId &&
  PeriodType_eqb (UsageAggregate.period_type a) periodType &&
  Z.eqb (UsageAggregate.period_start a) periodStart.

(** The first access: select total_cost, total_units of the row. *)
Definition selectExisting (aggs : list UsageAggregate.t)
    (tenantId userId toolId : string) (periodType : PeriodType)
    (periodStart : Date.DateString) : Reply (Q * Q) :=
  maybeSingle
    (map (fun a => (UsageAggregate.total_cost a, UsageAggregate.total_units a))
         (filter (sameKey tenantId userId toolId periodType periodStart) aggs)).

(** What the columns total_cost DECIMAL(10,2) and total_units INTEGER keep
    of the totals of a write; nothing when one of them refuses its
    value. *)
Definition stored (cost units : Q) : option (Q * Q) :=
  match Pg.numeric 10 2 cost, Pg.integer units with
  | Some c, Some n => Some (c, n)
  | _, _ => None
  end.

(** The second access when a row was read: update the rows of the key to
    the totals that were read plus the deltas. A refused update leaves the
    rows as they are; the code does not look at the answer. *)
Definition updateExisting (aggs : list UsageAggregate.t)
    (tenantId userId toolId : string) (periodType : PeriodType)
    (periodStart : Date.DateString) (existing : Q * Q) (cost units : Q)
    : list UsageAggregate.t :=
  match stored (fst existing + cost) (snd existing + units) with
  | Some (total_cost, total_units) =>
      map (fun a =>
             if sameKey tenantId userId toolId periodType periodStart a
             then UsageAggregate.mk (UsageAggregate.tenant_id a)
                    (UsageAggregate.user_id a) (UsageAggregate.tool_id a)
                    (UsageAggregate.period_type a) (UsageAggregate.period_start a)
                    total_units total_cost
             else a)
          aggs
  | None => aggs
  end.

(** The second access when no row was read: insert. The UNIQUE constraint
    on the key refuses a second row, and the columns may refuse the
    totals; the code ignores that error. *)
Definition insertNew (aggs : list UsageAggregate.t)
    (tenantId userId toolId : string) (periodType : PeriodType)
    (periodStart : Date.DateString) (cost units : Q) : list UsageAggregate.t :=
  if existsb (sameKey tenantId userId toolId periodType periodStart) aggs
  then aggs
  else
    match stored cost units with
    | Some (total_cost, total_units) =>
        aggs ++ [UsageAggregate.mk tenantId userId toolId periodType periodStart
                   total_units total_cost]
    | None => aggs
    end.

Definition upsertAggregate (f : Faults) (st : Store)
    (tenantId userId toolId : string) (periodType : PeriodType)
    (periodStart : Date.DateString) (cost units : Q) : Outcome Store :=
  r <- await f AtSelectAggregate
         (selectExisting (usage_aggregates st) tenantId userId toolId
            periodType periodStart) ;;
  match data r with
  | Some existing =>
      match f AtUpdateAggregate with
      | NoFault =>
          Returned (setAggregates st
                      (updateExisting (usage_aggregates st) tenantId userId toolId
                         periodType periodStart existing cost units))
      | ErrorReply => Returned st
      | Throws => Raised
      end
  | None =>
      match f AtInsertAggregate with
      | NoFault =>
          Returned (setAggregates st
                      (insertNew (usage_aggregates st) tenantId userId toolId
                         periodType periodStart cost units))
      | ErrorReply => Returned st
      | Throws => Raised
      end
  end.

(** The period keys of [updateAggregates]. *)
Definition dayKey (e : Date.Env) : Date.DateString :=
  Date.splitT0 (Date.toISOString (Date.setHours0 e (Date.now e))).

Definition monthKey (e : Date.Env) : Date.DateString :=
  Date.splitT0
    (Date.toISOString
       (Date.ofYearMonth1 e (Date.getFullYear e (Date.now e))
                            (Date.getMonth e (Date.now e)))).

(** The period keys in a zone whose offset changes, at the clock value
    [now]. *)
Definition dayKeyIn (z : Date.Zone) (now : Date.t) : Date.DateString :=
  Date.splitT0 (Date.toISOString (Date.setHours0In z now)).

Definition monthKeyIn (z : Date.Zone) (now : Date.t) : Date.DateString :=
  Date.splitT0
    (Date.toISOString
       (Date.ofYearMonth1In z (Date.getFullYearIn z now) (Date.getMonthIn z now))).

(** [updateAggregates] is started by [recordUsage] and not awaited: it
    yields the store it leaves behind, and whether it was rejected (which
    nobody observes). It reads the clock itself. A rejected first upsert
    skips the second. *)
Definition updateAggregates (f : Faults) (e : Date.Env) (st : Store)
    (tenantId userId toolId : string) (cost units : Q) : Store * bool :=
  let now := Date.atUpdate e in
  match upsertAggregate f st tenantId userId toolId day (dayKey now) cost units with
  | Raised => (st, true)
  | Returned st1 =>
      match upsertAggregate f st1 tenantId userId toolId month (monthKey now) cost units with
      | Raised => (st1, true)
      | Returned st2 => (st2, false)
      end
  end.

(** [recordUsage] resolves when the event is inserted; the update of the
    aggregates it has started goes on. The store handed on here is the one
    that update leaves when it has run to its end before anything else
    reaches the store: the requests of this model are served one after the
    other, each after the update of the one before. Updates that are still
    under way when the store is written again are the subject of
    [Interleaving]. *)
Definition recordUsage (f : Faults) (e : Date.Env) (st : Store)
    (event : UsageEvent.t) : Outcome (option UsageEvent.t * Store) :=
  match f AtInsertEvent with
  | Throws => Raised
  | ErrorReply => Returned (None, st)
  | NoFault =>
      let st1 := setEvents st (usage_events st ++ [event]) in
      Returned (Some event,
                fst (updateAggregates f e st1 (UsageEvent.tenant_id event)
                       (UsageEvent.user_id event) (UsageEvent.tool_id event)
                       (UsageEvent.cost_estimate event) (UsageEvent.units event)))
  end.

Definition getTool (f : Faults) (st : Store) (toolId : string)
    : Outcome (option Tool.t) :=
  r <- await f AtGetTool
         (single (filter (fun t => String.eqb (Tool.id t) toolId) (tools st))) ;;
  if error r then Returned None else Returned (data r).

End DatabaseService.

(** ** The router (src/tools/check-and-route.ts) *)

(** The body of the [try] block. *)
Definition route (f : Faults) (e : Date.Env) (st : Store)
    (input : CheckAndRouteInput.t) : Outcome (CheckAndRouteOutput.t * Store) :=
  let tenant_id := JS.trim (CheckAndRouteInput.tenant_id input) in
  let user_id := JS.trim (CheckAndRouteInput.user_id input) in
  let tool_id := CheckAndRouteInput.tool_id input in
  let estimated_units := CheckAndRouteInput.estimated_units input in
  let params := CheckAndRouteInput.params input in
  found <- DatabaseService.getTool f st tool_id ;;
  match found with
  | None =>
      Returned (CheckAndRouteOutput.mk denied tool_id None 0 (JS.Fin 0)
                  (ToolNotFound tool_id), st)
  | Some tool =>
      toolAllowed <- PolicyEngine.isToolAllowedForPlan f st tenant_id tool_id ;;
      if negb toolAllowed then
        fallback <- PolicyEngine.getSuggestedFallback f st tool_id ;;
        match fallback with
        | Some fb =>
            if JS.truthy fb then
              Returned (CheckAndRouteOutput.mk downgraded fb None 0 (JS.Fin 0)
                          (NotOnPlanDowngraded tool_id fb), st)
            else
              Returned (CheckAndRouteOutput.mk denied tool_id None 0 (JS.Fin 0)
                          (NotOnPlan tool_id), st)
        | None =>
            Returned (CheckAndRouteOutput.mk denied tool_id None 0 (JS.Fin 0)
                        (NotOnPlan tool_id), st)
        end
      else
        let estimatedCost := CostEstimator.estimateCost tool estimated_units in
        evaluation <- PolicyEngine.evaluateRequest f e st tenant_id user_id tool_id
                        estimatedCost ;;
        let limit := PolicyEvaluationResult.limit evaluation in
        let current_usage := PolicyEvaluationResult.current_usage evaluation in
        let reason := PolicyEvaluationResult.reason evaluation in
        if negb (PolicyEvaluationResult.allowed evaluation) then
          rec <- DatabaseService.recordUsage f e st
                   (UsageEvent.mk (Date.toISOString (Date.now e)) tenant_id user_id
                      tool_id 0 0 denied (MetaDenied reason)) ;;
          Returned (CheckAndRouteOutput.mk denied tool_id None estimatedCost
                      (JS.sub limit current_usage) (ReasonText reason),
                    snd rec)
        else if JS.truthyOpt (PolicyEvaluationResult.suggested_tool evaluation) then
          let suggested :=
            match PolicyEvaluationResult.suggested_tool evaluation with
            | Some s => s
            | None => EmptyString
            end in
          fallbackTool <- DatabaseService.getTool f st suggested ;;
          let fallbackCost :=
            match fallbackTool with
            | Some ft => CostEstimator.estimateCost ft estimated_units
            | None => estimatedCost
            end in
          rec <- DatabaseService.recordUsage f e st
                   (UsageEvent.mk (Date.toISOString (Date.now e)) tenant_id user_id
                      suggested estimated_units fallbackCost downgraded
                      (MetaDowngraded tool_id reason params)) ;;
          Returned (CheckAndRouteOutput.mk downgraded suggested
                      (Some (mkRouted suggested params)) fallbackCost
                      (JS.sub (JS.sub limit current_usage) fallbackCost)
                      (ReasonText reason),
                    snd rec)
        else
          rec <- DatabaseService.recordUsage f e st
                   (UsageEvent.mk (Date.toISOString (Date.now e)) tenant_id user_id
                      tool_id estimated_units estimatedCost allowed
                      (MetaAllowed params)) ;;
          Returned (CheckAndRouteOutput.mk allowed tool_id
                      (Some (mkRouted tool_id params)) estimatedCost
                      (JS.sub (JS.sub limit current_usage) estimatedCost)
                      Approved,
                    snd rec)
  end.

(** [checkAndRoute]: the [try] block and its [catch]. Whatever can throw in
    [route] throws before the store is written. *)
Definition checkAndRoute (f : Faults) (e : Date.Env) (st : Store)
    (input : CheckAndRouteInput.t) : CheckAndRouteOutput.t * Store :=
  match route f e st input with
  | Returned r => r
  | Raised =>
      (CheckAndRouteOutput.mk denied (CheckAndRouteInput.tool_id input) None 0
         (JS.Fin 0) ErrorProcessing, st)
  end.

(** ** The demo data (demo-data.sql) *)

Module Demo.

Definition FreeCo : string := "11111111-1111-1111-1111-111111111111".
Definition ProCorp : string := "22222222-2222-2222-2222-222222222222".
Definition EnterpriseLLC : string := "33333333-3333-3333-3333-333333333333".

Definition freeUser : string := "aaaaaaaa-aaaa-aaaa-aaaa-aaaaaaaaaaaa".
Definition proUser : string := "bbbbbbbb-bbbb-bbbb-bbbb-bbbbbbbbbbbb".
Definition proAdmin : string := "cccccccc-cccc-cccc-cccc-cccccccccccc".

(** The tools as the table keeps them: cost_per_unit is DECIMAL(10,6), so
    the 0.0000005 of GPT-3.5 Turbo is kept as 0.000001 and the 0.00000025
    of Claude 3 Haiku as 0. *)
Definition demoTools : list Tool.t :=
  [ Tool.mk "gpt-4" "GPT-4" llm premium (3 # 100000) tokens;
    Tool.mk "gpt-4-turbo" "GPT-4 Turbo" llm premium (1 # 100000) tokens;
    Tool.mk "gpt-3.5-turbo" "GPT-3.5 Turbo" llm cheap (1 # 1000000) tokens;
    Tool.mk "claude-3-opus" "Claude 3 Opus" llm premium (15 # 1000000) tokens;
    Tool.mk "claude-3-sonnet" "Claude 3 Sonnet" llm standard (3 # 1000000) tokens;
    Tool.mk "claude-3-haiku" "Claude 3 Haiku" llm cheap 0 tokens;
    Tool.mk "search-api" "Search API" search standard (1 # 1000) requests;
    Tool.mk "vector-db" "Vector Database" db standard (1 # 10000) requests ].

Definition demoTenants : list Tenant.t :=
  [ Tenant.mk FreeCo "FreeCo" free 1 2;
    Tenant.mk ProCorp "ProCorp" pro 40 50;
    Tenant.mk EnterpriseLLC "EnterpriseLLC" enterprise 400 500 ].

Definition demoPolicies : list Policy.t :=
  [ Policy.mk "p1" FreeCo scope_tenant None daily 2 None deny;
    Policy.mk "p2" FreeCo scope_tool (Some "gpt-4") per_request 0
      (Some "gpt-3.5-turbo") downgrade;
    Policy.mk "p3" FreeCo scope_tool (Some "gpt-4-turbo") per_request 0
      (Some "gpt-3.5-turbo") downgrade;
    Policy.mk "p4" FreeCo scope_tool (Some "claude-3-opus") per_request 0
      (Some "claude-3-haiku") downgrade;
    Policy.mk "p5" ProCorp scope_tenant None daily 50 None deny;
    Policy.mk "p6" EnterpriseLLC scope_tenant None monthly 500 None
      require_approval ].

Definition demoStore : Store :=
  mkStore demoTenants demoTools demoPolicies [] [].

(** 2026-11-02T20:00:00Z, seen from a process in UTC and from one at
    UTC+05:30. *)
Definition instant : Date.t := 1793649600000%Z.
Definition utcEnv : Date.Env := Date.mkEnv instant 0 instant.
Definition istEnv : Date.Env := Date.mkEnv instant 19800000 instant.

(** New York around the end of daylight saving on 2026-11-01: UTC-04:00
    until 06:00Z of that day, UTC-05:00 from then on; the local times
    before 02:00 of that day are read with the offset before the change. *)
Definition newYork : Date.Zone :=
  Date.mkZone
    (fun x => if (x <? 1793512800000)%Z then (-14400000)%Z else (-18000000)%Z)
    (fun l => if (l <? 1793498400000)%Z then (-14400000)%Z else (-18000000)%Z).

End Demo.

(** ** The period boundaries, in the words of the specification *)

(** Start of the UTC day that holds the instant. *)
Definition startOfUTCDay (x : Date.t) : Date.t :=
  (Date.Day x * Date.msPerDay)%Z.

(** Start of the UTC month that holds the instant. *)
Definition startOfUTCMonth (x : Date.t) : Date.t :=
  (Date.MakeDay (Date.YearFromTime x) (Date.MonthFromTime x) 1 * Date.msPerDay)%Z.

(** Start of the local day and of the local month that hold the instant,
    in a zone at [tz] from UTC: the day and the month are those of the
    local reading, and the start is the instant that reads as their first
    midnight. *)
Definition startOfLocalDay (tz : Z) (x : Date.t) : Date.t :=
  (startOfUTCDay (x + tz) - tz)%Z.

Definition startOfLocalMonth (tz : Z) (x : Date.t) : Date.t :=
  (startOfUTCMonth (x + tz) - tz)%Z.

(** ** Aggregate keys and the ledger invariant *)

(** The key of an aggregate row: (tenant, user, tool, period type, period
    start). *)
Record AggKey : Type := mkKey {
  key_tenant : string;
  key_user : string;
  key_tool : string;
  key_period_type : PeriodType;
  key_period_start : Date.DateString
}.

Definition hasKey (k : AggKey) (a : UsageAggregate.t) : bool :=
  DatabaseService.sameKey (key_tenant k) (key_user k) (key_tool k)
    (key_period_type k) (key_period_start k) a.

Definition key_eqb (k k' : AggKey) : bool :=
  String.eqb (key_tenant k) (key_tenant k') &&
  String.eqb (key_user k) (key_user k') &&
  String.eqb (key_tool k) (key_tool k') &&
  PeriodType_eqb (key_period_type k) (key_period_type k') &&
  Z.eqb (key_period_start k) (key_period_start k').

(** The stored total of a key; 0 when the key has no row. *)
Definition totalCostOf (aggs : list UsageAggregate.t) (k : AggKey) : Q :=
  match filter (hasKey k) aggs with
  | a :: _ => UsageAggregate.total_cost a
  | [] => 0
  end.

(** The stored units of a key; 0 when the key has no row. *)
Definition totalUnitsOf (aggs : list UsageAggregate.t) (k : AggKey) : Q :=
  match filter (hasKey k) aggs with
  | a :: _ => UsageAggregate.total_units a
  | [] => 0
  end.

(** The row of a key with the given totals. *)
Definition rowFor (k : AggKey) (total_cost total_units : Q) : UsageAggregate.t :=
  UsageAggregate.mk (key_tenant k) (key_user k) (key_tool k) (key_period_type k)
    (key_period_start k) total_units total_cost.

(** What the upsert reads of a key, and the totals it then writes: what
    the columns keep of the totals read plus the deltas, or of the deltas
    when no row was read; nothing when the columns refuse them. *)
Definition rowTotals (aggs : list UsageAggregate.t) (k : AggKey) : option (Q * Q) :=
  data (DatabaseService.selectExisting aggs (key_tenant k) (key_user k) (key_tool k)
          (key_period_type k) (key_period_start k)).

Definition written (existing : option (Q * Q)) (cost units : Q) : option (Q * Q) :=
  match existing with
  | Some totals => DatabaseService.stored (fst totals + cost) (snd totals + units)
  | None => DatabaseService.stored cost units
  end.

(** The columns keep the totals of key [k] grown by an increment as they
    are: nothing is rounded and nothing refused. *)
Definition accepts (aggs : list UsageAggregate.t) (k : AggKey) (cost units : Q) : Prop :=
  Pg.keeps (Pg.numeric 10 2) (totalCostOf aggs k + cost) /\
  Pg.keeps Pg.integer (totalUnitsOf aggs k + units).

(** Rows as the table holds them: totals that the columns keep. *)
Definition KeptRows (aggs : list UsageAggregate.t) : Prop :=
  forall a, In a aggs ->
    Pg.keeps (Pg.numeric 10 2) (UsageAggregate.total_cost a) /\
    Pg.keeps Pg.integer (UsageAggregate.total_units a).

(** The deltas of increments the columns take as they are: whole numbers
    of cents and of units, none negative. *)
Definition plainDeltas (deltas : list (Q * Q)) : Prop :=
  forall d, In d deltas ->
    Pg.scaled 2 (fst d) /\ 0 <= fst d /\ Pg.keeps Pg.integer (snd d) /\ 0 <= snd d.

(** The period an instant falls in, named as period_start names periods:
    by the date on which the local day, or the local month, of the instant
    starts, which is the date part of that start as [toISOString] spells
    it. *)
Definition periodStartOf (tz : Z) (pt : PeriodType) (ts : Date.ISOString)
    : Date.DateString :=
  Date.splitT0
    (Date.toISOString
       match pt with
       | day => startOfLocalDay tz ts
       | month => startOfLocalMonth tz ts
       end).

(** The event matches the key and its timestamp falls in the key's period. *)
Definition inPeriod (tz : Z) (k : AggKey) (ev : UsageEvent.t) : bool :=
  String.eqb (UsageEvent.tenant_id ev) (key_tenant k) &&
  String.eqb (UsageEvent.user_id ev) (key_user k) &&
  String.eqb (UsageEvent.tool_id ev) (key_tool k) &&
  Z.eqb (periodStartOf tz (key_period_type k) (UsageEvent.timestamp ev))
        (key_period_start k).

(** Decision allowed or downgraded. *)
Definition charged (ev : UsageEvent.t) : bool :=
  match UsageEvent.decision ev with
  | denied => false
  | allowed | downgraded => true
  end.

Definition chargedEvents (tz : Z) (k : AggKey) (events : list UsageEvent.t)
    : list UsageEvent.t :=
  filter (fun ev => charged ev && inPeriod tz k ev) events.

Definition chargedSum (tz : Z) (k : AggKey) (events : list UsageEvent.t) : Q :=
  PolicyEngine.sumCosts (chargedEvents tz k events).

(** The UNIQUE constraint of usage_aggregates. *)
Definition UniqueKeys (aggs : list UsageAggregate.t) : Prop :=
  forall k, (List.length (filter (hasKey k) aggs) <= 1)%nat.

(** Every stored total is the sum of the charged events of its key and
    period (and a key without a row has none). *)
Definition LedgerConsistent (tz : Z) (st : Store) : Prop :=
  UniqueKeys (usage_aggregates st) /\
  forall k, totalCostOf (usage_aggregates st) k == chargedSum tz k (usage_events st).

(** The units of the charged events of a key and period. *)
Definition chargedUnits (tz : Z) (k : AggKey) (events : list UsageEvent.t) : Q :=
  fold_left (fun sum ev => sum + UsageEvent.units ev) (chargedEvents tz k events) 0.

(** A ledger whose rows the table can hold and whose totals, of costs and
    of units, are the sums over the charged events. *)
Definition ExactLedger (tz : Z) (st : Store) : Prop :=
  LedgerConsistent tz st /\
  KeptRows (usage_aggregates st) /\
  forall k, totalUnitsOf (usage_aggregates st) k == chargedUnits tz k (usage_events st).

(** Requests served one after the other, each with its own clock, each
    after the aggregate update of the one before has run to its end. *)
Fixpoint serveEach (st : Store) (requests : list (Date.Env * CheckAndRouteInput.t))
    : Store :=
  match requests with
  | [] => st
  | (e, input) :: rest => serveEach (snd (checkAndRoute no_faults e st input)) rest
  end.

(** A request of a process at [tz] from UTC whose update of the aggregates
    reads the clock in the local day and month of its evaluation, for a
    whole number of units. *)
Definition steadyRequest (tz : Z) (r : Date.Env * CheckAndRouteInput.t) : Prop :=
  Date.tz (fst r) = tz /\
  startOfLocalDay tz (Date.later (fst r)) = startOfLocalDay tz (Date.now (fst r)) /\
  startOfLocalMonth tz (Date.later (fst r)) = startOfLocalMonth tz (Date.now (fst r)) /\
  Pg.keeps Pg.integer (CheckAndRouteInput.estimated_units (snd r)) /\
  0 <= CheckAndRouteInput.estimated_units (snd r).

(** A run the columns keep exactly: no price is negative, every request is
    steady, every tool prices the units of every request at a whole number
    of cents below 10000 (usage_events.cost_estimate is DECIMAL(10,6)), and
    at the end the costs and units charged to a key are within the ranges
    of the DECIMAL(10,2) and INTEGER columns of usage_aggregates. *)
Definition ExactRun (tz : Z) (st : Store)
    (requests : list (Date.Env * CheckAndRouteInput.t)) : Prop :=
  (forall tool, In tool (tools st) -> 0 <= Tool.cost_per_unit tool) /\
  (forall r, In r requests -> steadyRequest tz r) /\
  (forall tool r, In tool (tools st) -> In r requests ->
     Pg.scaled 2 (CostEstimator.estimateCost tool
                    (CheckAndRouteInput.estimated_units (snd r))) /\
     CostEstimator.estimateCost tool (CheckAndRouteInput.estimated_units (snd r))
     < 10000) /\
  (forall k,
     chargedSum tz k (usage_events (serveEach st requests)) < 100000000 /\
     chargedUnits tz k (usage_events (serveEach st requests)) <= 2147483647).

(** Requests served one after the other by a process in zone [tz], each at
    its own instant. *)
Fixpoint serve (tz : Z) (st : Store)
    (requests : list (Date.t * CheckAndRouteInput.t)) : Store :=
  match requests with
  | [] => st
  | (at_, input) :: rest =>
      serve tz (snd (checkAndRoute no_faults (Date.mkEnv at_ tz at_) st input)) rest
  end.

(** The aggregate invariant as the specification states it: after any
    sequence of requests served one after the other, every stored total is
    the sum of the costs of the charged events of its key and period. *)
Definition AggregateIsSumOfCharged : Prop :=
  forall (tz : Z) (st : Store) (requests : list (Date.t * CheckAndRouteInput.t))
         (k : AggKey),
    LedgerConsistent tz st ->
    totalCostOf (usage_aggregates (serve tz st requests)) k
    == chargedSum tz k (usage_events (serve tz st requests)).

(** Stored costs are never negative. *)
Definition NonNegativeLedger (st : Store) : Prop :=
  (forall a, In a (usage_aggregates st) -> 0 <= UsageAggregate.total_cost a) /\
  (forall ev, In ev (usage_events st) -> 0 <= UsageEvent.cost_estimate ev).

(** ** Interleaved upserts

    [upsertAggregate] awaits the store twice; between the two, other
    requests run. A task is one call in flight. *)

Module Interleaving.

Inductive Pc : Type :=
| BeforeSelect
| BeforeWrite (existing : option (Q * Q))
| Finished.

Record Task : Type := mkTask {
  key : AggKey;
  cost : Q;
  units : Q;
  pc : Pc
}.

Definition start (k : AggKey) (cost units : Q) : Task :=
  mkTask k cost units BeforeSelect.

(** The next store access of a task. *)
Definition step (aggs : list UsageAggregate.t) (t : Task)
    : list UsageAggregate.t * Task :=
  let k := key t in
  match pc t with
  | BeforeSelect =>
      (aggs,
       mkTask k (cost t) (units t)
         (BeforeWrite
            (data (DatabaseService.selectExisting aggs (key_tenant k) (key_user k)
                     (key_tool k) (key_period_type k) (key_period_start k)))))
  | BeforeWrite (Some existing) =>
      (DatabaseService.updateExisting aggs (key_tenant k) (key_user k) (key_tool k)
         (key_period_type k) (key_period_start k) existing (cost t) (units t),
       mkTask k (cost t) (units t) Finished)
  | BeforeWrite None =>
      (DatabaseService.insertNew aggs (key_tenant k) (key_user k) (key_tool k)
         (key_period_type k) (key_period_start k) (cost t) (units t),
       mkTask k (cost t) (units t) Finished)
  | Finished => (aggs, t)
  end.

(** The task at position [n] takes its next step. *)
Fixpoint stepAt (n : nat) (aggs : list UsageAggregate.t) (ts : list Task)
    : list UsageAggregate.t * list Task :=
  match ts with
  | [] => (aggs, [])
  | t :: r =>
      match n with
      | O => let (aggs', t') := step aggs t in (aggs', t' :: r)
      | S n' => let (aggs', r') := stepAt n' aggs r in (aggs', t :: r')
      end
  end.

(** A schedule names, step after step, the task that moves. *)
Fixpoint run (schedule : list nat) (aggs : list UsageAggregate.t)
    (ts : list Task) : list UsageAggregate.t * list Task :=
  match schedule with
  | [] => (aggs, ts)
  | n :: s => let (aggs', ts') := stepAt n aggs ts in run s aggs' ts'
  end.

Definition finished (t : Task) : bool :=
  match pc t with
  | Finished => true
  | _ => false
  end.

(** One task after the other, each to its end. *)
Fixpoint serial (aggs : list UsageAggregate.t) (ts : list Task)
    : list UsageAggregate.t :=
  match ts with
  | [] => aggs
  | t :: r =>
      let (a1, t1) := step aggs t in
      let (a2, _) := step a1 t1 in
      serial a2 r
  end.

Definition sumOfCosts (ts : list Task) : Q :=
  fold_right (fun t acc => cost t + acc) 0 ts.

Definition sumOfUnits (ts : list Task) : Q :=
  fold_right (fun t acc => units t + acc) 0 ts.

(** No update is lost: however the increments of one key interleave, once
    all are over the stored total has grown by the sum of their costs. *)
Definition NeverLosesUpdates : Prop :=
  forall (aggs : list UsageAggregate.t) (k : AggKey) (deltas : list (Q * Q))
         (schedule : list nat),
    UniqueKeys aggs ->
    let ts := map (fun d => start k (fst d) (snd d)) deltas in
    forallb finished (snd (run schedule aggs ts)) = true ->
    totalCostOf (fst (run schedule aggs ts)) k
    == totalCostOf aggs k + sumOfCosts ts.

End Interleaving.

(** ** Stores and fault plans of the worked cases *)

Module Cases.

(** The policy fetch answers with an error. *)
Definition policiesFail : Faults :=
  fun s => match s with AtPolicies => ErrorReply | _ => NoFault end.

(** The tool lookup rejects. *)
Definition getToolThrows : Faults :=
  fun s => match s with AtGetTool => Throws | _ => NoFault end.

Definition withPolicies (st : Store) (ps : list Policy.t) : Store :=
  mkStore (tenants st) (tools st) ps (usage_events st) (usage_aggregates st).

(** ProCorp with a one-cent daily limit. *)
Definition tightStore : Store :=
  withPolicies Demo.demoStore
    [ Policy.mk "t1" Demo.ProCorp scope_tenant None daily (1 # 100) None deny ].

Definition gpt4Request : CheckAndRouteInput.t :=
  CheckAndRouteInput.mk Demo.ProCorp Demo.proUser "gpt-4" 1000 [].

(** A downgrade policy on the tool and a deny policy on the user, both
    breached by any positive cost. *)
Definition toolDowngrade : Policy.t :=
  Policy.mk "s1" Demo.ProCorp scope_tool (Some "gpt-4") per_request 0
    (Some "gpt-3.5-turbo") downgrade.
Definition userDeny : Policy.t :=
  Policy.mk "s2" Demo.ProCorp scope_user (Some Demo.proUser) daily 0 None deny.
Definition scopedStore : Store :=
  withPolicies Demo.demoStore [toolDowngrade; userDeny].

(** Two policies on the same tool: a daily deny, then the per-request
    downgrade. *)
Definition toolDeny : Policy.t :=
  Policy.mk "s3" Demo.ProCorp scope_tool (Some "gpt-4") daily 0 None deny.
Definition twoToolPolicies : Store :=
  withPolicies Demo.demoStore [toolDeny; toolDowngrade].

(** The ledger after the admin of ProCorp spent 5 dollars on the search
    API today; the other user has spent nothing. *)
Definition adminSpent : Store :=
  mkStore Demo.demoTenants Demo.demoTools Demo.demoPolicies
    [ UsageEvent.mk Demo.instant Demo.ProCorp Demo.proAdmin "search-api"
        5000 5 allowed (MetaAllowed []) ]
    [ UsageAggregate.mk Demo.ProCorp Demo.proAdmin "search-api" day 20759%Z 5000 5;
      UsageAggregate.mk Demo.ProCorp Demo.proAdmin "search-api" month 20758%Z 5000 5 ].

(** The key of the other user's requests for gpt-4 on that day. *)
Definition userKey : AggKey := mkKey Demo.ProCorp Demo.proUser "gpt-4" day 20759%Z.

(** One key with a stored total of 1, and two increments of 1 in flight. *)
Definition oneRow : list UsageAggregate.t :=
  [ UsageAggregate.mk Demo.ProCorp Demo.proUser "gpt-4" day 20759%Z 1000 1 ].
Definition twoIncrements : list (Q * Q) := [ (1, 1000); (1, 1000) ].
Definition bothReadFirst : list nat := [0; 1; 0; 1]%nat.

(** A downgrade policy on the user that names no fallback tool, in front
    of the downgrade policy on the tool. *)
Definition userNoFallback : Policy.t :=
  Policy.mk "s4" Demo.ProCorp scope_user (Some Demo.proUser) daily 0 None downgrade.
Definition skipStore : Store :=
  withPolicies Demo.demoStore [toolDowngrade; userNoFallback].
Definition downgradedToGpt35 : PolicyEvaluationResult.t :=
  PolicyEvaluationResult.mk true (DowngradingTo "gpt-3.5-turbo")
    (Some "gpt-3.5-turbo") 0 (JS.Fin 0).
Definition deniedAtZero : PolicyEvaluationResult.t :=
  PolicyEvaluationResult.mk false (WouldExceed daily 0) None 0 (JS.Fin 0).

Definition gpt4 : Tool.t :=
  Tool.mk "gpt-4" "GPT-4" llm premium (3 # 100000) tokens.
Definition freeCoGpt4Request : CheckAndRouteInput.t :=
  CheckAndRouteInput.mk Demo.FreeCo Demo.freeUser "gpt-4" 1000 [].
Definition freeCo : Tenant.t := Tenant.mk Demo.FreeCo "FreeCo" free 1 2.

(** A catalog of two llm tools: GPT-4, and a cheap one whose id is the
    empty string (tools.id is VARCHAR(100)). *)
Definition namelessTool : Store :=
  mkStore Demo.demoTenants
    [ gpt4; Tool.mk EmptyString "Nameless" llm cheap (1 # 1000000) tokens ]
    [] [] [].

(** Three requests of the member for four searches, 0.004 each. *)
Definition searchRequest : CheckAndRouteInput.t :=
  CheckAndRouteInput.mk Demo.ProCorp Demo.proUser "search-api" 4 [].
Definition threeSearches : list (Date.t * CheckAndRouteInput.t) :=
  [ (Demo.instant, searchRequest); (Demo.instant, searchRequest);
    (Demo.instant, searchRequest) ].
Definition searchKey : AggKey :=
  mkKey Demo.ProCorp Demo.proUser "search-api" day 20759%Z.

(** Two requests of the member for 10000 tokens of gpt-4, 0.30 each, the
    update of each reading the clock 50 ms after its evaluation. *)
Definition bulkRequest : CheckAndRouteInput.t :=
  CheckAndRouteInput.mk Demo.ProCorp Demo.proUser "gpt-4" 10000 [].
Definition bulkEnv : Date.Env :=
  Date.mkEnv Demo.instant 0 (Demo.instant + 50)%Z.
Definition twoBulk : list (Date.Env * CheckAndRouteInput.t) :=
  [ (bulkEnv, bulkRequest); (bulkEnv, bulkRequest) ].

(** ProCorp with a daily limit of half a dollar. *)
Definition halfDollar : Store :=
  withPolicies Demo.demoStore
    [ Policy.mk "t2" Demo.ProCorp scope_tenant None daily (1 # 2) None deny ].

(** The same request served twice. *)
Definition twoRequests : list (Date.t * CheckAndRouteInput.t) :=
  [ (Demo.instant, gpt4Request); (Demo.instant, gpt4Request) ].

(** The ledger after the member also spent 1 dollar on gpt-4 that day: the
    tenant has two rows for the day. *)
Definition bothSpent : Store :=
  mkStore Demo.demoTenants Demo.demoTools Demo.demoPolicies
    [ UsageEvent.mk Demo.instant Demo.ProCorp Demo.proAdmin "search-api"
        5000 5 allowed (MetaAllowed []);
      UsageEvent.mk Demo.instant Demo.ProCorp Demo.proUser "gpt-4"
        1000 1 allowed (MetaAllowed []) ]
    [ UsageAggregate.mk Demo.ProCorp Demo.proAdmin "search-api" day 20759%Z 5000 5;
      UsageAggregate.mk Demo.ProCorp Demo.proAdmin "search-api" month 20758%Z 5000 5;
      UsageAggregate.mk Demo.ProCorp Demo.proUser "gpt-4" day 20759%Z 1000 1;
      UsageAggregate.mk Demo.ProCorp Demo.proUser "gpt-4" month 20758%Z 1000 1 ].

End Cases.

(** ** Further notions for the evaluator and the router *)

Definition isAllow (p : Policy.t) : bool :=
  match Policy.decision p with
  | allow => true
  | _ => false
  end.

(** The store without its policies of decision allow. *)
Definition withoutAllow (st : Store) : Store :=
  mkStore (tenants st) (tools st)
    (filter (fun p => negb (isAllow p)) (policies st))
    (usage_events st) (usage_aggregates st).

(** The rows of a tenant, table by table. *)
Definition policiesOf (T : string) (st : Store) : list Policy.t :=
  filter (fun p => String.eqb (Policy.tenant_id p) T) (policies st).
Definition eventsOf (T : string) (st : Store) : list UsageEvent.t :=
  filter (fun ev => String.eqb (UsageEvent.tenant_id ev) T) (usage_events st).
Definition aggregatesOf (T : string) (st : Store) : list UsageAggregate.t :=
  filter (fun a => String.eqb (UsageAggregate.tenant_id a) T) (usage_aggregates st).

(** Two stores with the same catalog and tenants that hold the same rows
    for tenant [T]. *)
Definition SameFor (T : string) (st st' : Store) : Prop :=
  tenants st = tenants st' /\ tools st = tools st' /\
  policiesOf T st = policiesOf T st' /\
  eventsOf T st = eventsOf T st' /\
  aggregatesOf T st = aggregatesOf T st'.

(** What a tenant was charged in the period of type [pt] filed under [P]:
    the costs of its allowed and downgraded events of that period. *)
Definition tenantPeriodEvents (tz : Z) (T : string) (pt : PeriodType)
    (P : Date.DateString) (events : list UsageEvent.t) : list UsageEvent.t :=
  filter (fun ev => charged ev &&
                    String.eqb (UsageEvent.tenant_id ev) T &&
                    Z.eqb (periodStartOf tz pt (UsageEvent.timestamp ev)) P)
         events.

Definition tenantSpend (tz : Z) (T : string) (pt : PeriodType)
    (P : Date.DateString) (events : list UsageEvent.t) : Q :=
  PolicyEngine.sumCosts (tenantPeriodEvents tz T pt P events).

(** The key of an event for a period type. *)
Definition keyOf (tz : Z) (pt : PeriodType) (ev : UsageEvent.t) : AggKey :=
  mkKey (UsageEvent.tenant_id ev) (UsageEvent.user_id ev) (UsageEvent.tool_id ev)
    pt (periodStartOf tz pt (UsageEvent.timestamp ev)).

(** A ledger as the router leaves it, seen at instant [t]: exact, with a
    day row and a month row for every event, denied events free of charge,
    and no event from the future. *)
Definition RouterLedger (tz : Z) (t : Date.t) (st : Store) : Prop :=
  ExactLedger tz st /\
  (forall ev pt, In ev (usage_events st) ->
     exists a, In a (usage_aggregates st) /\ hasKey (keyOf tz pt ev) a = true) /\
  (forall ev, In ev (usage_events st) ->
     UsageEvent.decision ev = denied -> UsageEvent.cost_estimate ev == 0) /\
  (forall ev, In ev (usage_events st) -> (UsageEvent.timestamp ev <= t)%Z).

(** The period a policy is counted in. *)
Definition policyPeriod (p : Policy.t) : PeriodType :=
  PolicyEngine.windowPeriod (PolicyEngine.policyWindow p).

(** Requests in the order of the clocks of their evaluations. *)
Fixpoint inTimeOrder (t : Date.t) (requests : list (Date.Env * CheckAndRouteInput.t))
    : Prop :=
  match requests with
  | [] => True
  | (e, _) :: rest => (t <= Date.now e)%Z /\ inTimeOrder (Date.now e) rest
  end.

(** A policy that can downgrade: decision downgrade with a fallback tool. *)
Definition canDowngrade (p : Policy.t) : bool :=
  match Policy.decision p with
  | downgrade => JS.truthyOpt (Policy.fallback_tool_id p)
  | _ => false
  end.


(** Two outcomes that are both exceptions, or both values related by [R]. *)
Definition sameOutcome {A : Type} (R : A -> A -> Prop) (x y : Outcome A) : Prop :=
  match x, y with
  | Returned a, Returned b => R a b
  | Raised, Raised => True
  | _, _ => False
  end.

(** The demo store seen by ProCorp alone: the other tenants' policies are
    gone and FreeCo has used the search API. *)
Definition proCorpView : Store :=
  mkStore Demo.demoTenants Demo.demoTools
    [ Policy.mk "p5" Demo.ProCorp scope_tenant None daily 50 None deny ]
    [ UsageEvent.mk Demo.instant Demo.FreeCo Demo.freeUser "search-api"
        100 (1 # 10) allowed (MetaAllowed []) ]
    [ UsageAggregate.mk Demo.FreeCo Demo.freeUser "search-api" day 20759%Z 100 (1 # 10);
      UsageAggregate.mk Demo.FreeCo Demo.freeUser "search-api" month 20758%Z 100 (1 # 10) ].

(** The sites where the ledger is written or read for writing; the others
    are the reads the answer is computed from. *)
Definition ledgerSite (s : Site) : bool :=
  match s with
  | AtInsertEvent | AtSelectAggregate | AtUpdateAggregate | AtInsertAggregate => true
  | _ => false
  end.

(** The usage insert answers with an error; everything else answers. *)
Definition insertFails : Faults :=
  fun s => match s with AtInsertEvent => ErrorReply | _ => NoFault end.

(** FreeCo with one policy: requests for the cheap GPT-3.5 are downgraded
    to GPT-4, a premium tool. *)
Definition upsideDown : Store :=
  Cases.withPolicies Demo.demoStore
    [ Policy.mk "u1" Demo.FreeCo scope_tool (Some "gpt-3.5-turbo") per_request 0
        (Some "gpt-4") downgrade ].

Definition cheapRequest : CheckAndRouteInput.t :=
  CheckAndRouteInput.mk Demo.FreeCo Demo.freeUser "gpt-3.5-turbo" 1000 [].

(** ** Interleaved increments of different keys *)

(** What an increment in flight has done so far, seen from the rows [aggs0]
    it started from: nothing to the rows of its key before its write (and
    what it has read is still there); after it, the rows of its key are
    those the increment run alone, in one go, leaves. *)
Definition taskState (aggs0 aggs : list UsageAggregate.t) (t : Interleaving.Task)
    : Prop :=
  let k := Interleaving.key t in
  match Interleaving.pc t with
  | Interleaving.BeforeSelect =>
      filter (hasKey k) aggs = filter (hasKey k) aggs0
  | Interleaving.BeforeWrite existing =>
      filter (hasKey k) aggs = filter (hasKey k) aggs0 /\
      existing
      = data (DatabaseService.selectExisting aggs (key_tenant k) (key_user k)
                (key_tool k) (key_period_type k) (key_period_start k))
  | Interleaving.Finished =>
      filter (hasKey k) aggs
      = filter (hasKey k)
          (Interleaving.serial aggs0
             [Interleaving.start k (Interleaving.cost t) (Interleaving.units t)])
  end.

(** Tasks at different positions have different keys. *)
Definition distinctKeys (ts : list Interleaving.Task) : Prop :=
  forall i j ti tj,
    nth_error ts i = Some ti -> nth_error ts j = Some tj -> i <> j ->
    key_eqb (Interleaving.key ti) (Interleaving.key tj) = false.

(** Two increments in flight, of the member's gpt-4 day and month rows. *)
Definition dayAndMonth : list Interleaving.Task :=
  [ Interleaving.start Cases.userKey 1 1000;
    Interleaving.start (mkKey Demo.ProCorp Demo.proUser "gpt-4" month 20758%Z) 1 1000 ].

(** The invariant of a run of the tasks [ts0] from the rows [aggs0]: the
    rows keep their unique keys, the rows of a key of no task are as they
    were, and every task is the task it was, in a state that tells what it
    has done. *)
Definition runInvariant (aggs0 : list UsageAggregate.t) (ts0 : list Interleaving.Task)
    (aggs : list UsageAggregate.t) (ts : list Interleaving.Task) : Prop :=
  UniqueKeys aggs /\
  (forall k,
     (forall t, In t ts0 -> key_eqb (Interleaving.key t) k = false) ->
     filter (hasKey k) aggs = filter (hasKey k) aggs0) /\
  forall i,
    match nth_error ts0 i, nth_error ts i with
    | Some t0, Some t =>
        Interleaving.key t = Interleaving.key t0 /\
        Interleaving.cost t = Interleaving.cost t0 /\
        Interleaving.units t = Interleaving.units t0 /\
        taskState aggs0 aggs t
    | None, None => True
    | _, _ => False
    end.

Definition dayThenMonth : list nat := [0; 1; 1; 0]%nat.

(** ** The usage summary (src/lib/database.ts, [getUsageSummary]) *)

Module UsageSummary.

(** *** A JavaScript object used as a map

    [byTool] starts as [{}]: a lookup that finds no own property goes on to
    [Object.prototype], and [Object.entries] lists the own properties, the
    array indices first in ascending order, then the other keys in the
    order of their creation. *)

(** The property names of [Object.prototype]; all their values are truthy. *)
Definition prototypeKeys : list string :=
  [ "constructor"; "__defineGetter__"; "__defineSetter__"; "hasOwnProperty";
    "__lookupGetter__"; "__lookupSetter__"; "isPrototypeOf";
    "propertyIsEnumerable"; "toString"; "valueOf"; "__proto__";
    "toLocaleString" ].

Definition inherited (k : string) : bool := existsb (String.eqb k) prototypeKeys.

Definition digit (c : ascii) : option N :=
  let n := N_of_ascii c in
  if (N.leb 48 n && N.leb n 57)%bool then Some (n - 48)%N else None.

Fixpoint digits (s : string) (acc : N) : option N :=
  match s with
  | EmptyString => Some acc
  | String c r =>
      match digit c with
      | Some d => digits r (10 * acc + d)%N
      | None => None
      end
  end.

(** An array index: the canonical decimal text of an integer from 0 to
    2^32 - 2. *)
Definition arrayIndex (k : string) : option N :=
  match k with
  | EmptyString => None
  | String c r =>
      if (Ascii.eqb c "0" && negb (String.eqb r EmptyString))%bool then None
      else match digits k 0 with
           | Some n => if N.leb n 4294967294 then Some n else None
           | None => None
           end
  end.

Definition isIndex (k : string) : bool :=
  match arrayIndex k with
  | Some _ => true
  | None => false
  end.

Definition indexOf (k : string) : N :=
  match arrayIndex k with
  | Some n => n
  | None => 0%N
  end.

(** The value kept for a tool. *)
Record Entry : Type := mkEntry {
  cost : Q;
  units : Q;
  name : string
}.

(** The own properties of [byTool], in the order of their creation. *)
Definition ByTool := list (string * Entry).

Fixpoint lookup (k : string) (m : ByTool) : option Entry :=
  match m with
  | [] => None
  | (k', v) :: r => if String.eqb k k' then Some v else lookup k r
  end.

(** [byTool[k].cost += c; byTool[k].units += u] for an own property. *)
Fixpoint addTo (k : string) (c u : Q) (m : ByTool) : ByTool :=
  match m with
  | [] => []
  | (k', v) :: r =>
      if String.eqb k k'
      then (k', mkEntry (cost v + c) (units v + u) (name v)) :: r
      else (k', v) :: addTo k c u r
  end.

(** [Object.entries]. *)
Definition entries (m : ByTool) : list (string * Entry) :=
  (orderBy (fun a b => N.leb (indexOf (fst a)) (indexOf (fst b)))
     (filter (fun kv => isIndex (fst kv)) m)
   ++ filter (fun kv => negb (isIndex (fst kv))) m)%list.

(** *** The rows of the query *)

(** A row of [select('*, tools(name)')]: the event and the name of the tool
    its [tool_id] refers to, when there is one. *)
Definition Row : Type := UsageEvent.t * option string.

Definition joinTool (catalog : list Tool.t) (ev : UsageEvent.t) : Row :=
  (ev,
   match find (fun t => String.eqb (Tool.id t) (UsageEvent.tool_id ev)) catalog with
   | Some t => Some (Tool.name t)
   | None => None
   end).

(** [event.tools?.name || event.tool_id]. *)
Definition nameOf (row : Row) : string :=
  match snd row with
  | Some n => if JS.truthy n then n else UsageEvent.tool_id (fst row)
  | None => UsageEvent.tool_id (fst row)
  end.

(** The filters: the tenant; the user when a non-empty [userId] is given;
    the bounds when given.  A bound is given as the instant its text
    denotes; [None] stands for an absent or empty text. *)
Definition selected (tenantId : string) (userId : option string)
    (startDate endDate : option Date.ISOString) (ev : UsageEvent.t) : bool :=
  String.eqb (UsageEvent.tenant_id ev) tenantId &&
  (if JS.truthyOpt userId
   then PolicyEngine.optEqb userId (UsageEvent.user_id ev)
   else true) &&
  match startDate with
  | Some s => Z.leb s (UsageEvent.timestamp ev)
  | None => true
  end &&
  match endDate with
  | Some s => Z.leb (UsageEvent.timestamp ev) s
  | None => true
  end.

(** [.order('timestamp', { ascending: false })]. *)
Definition latestFirst (a b : UsageEvent.t) : bool :=
  Z.leb (UsageEvent.timestamp b) (UsageEvent.timestamp a).

Definition query (st : Store) (tenantId : string) (userId : option string)
    (startDate endDate : option Date.ISOString) : list Row :=
  map (joinTool (tools st))
    (firstn 50
       (orderBy latestFirst
          (filter (selected tenantId userId startDate endDate) (usage_events st)))).

(** *** The aggregation *)

(** The three accumulators of the [forEach]. *)
Record Acc : Type := mkAcc {
  byTool : ByTool;
  totalCost : Q;
  totalUnits : Q
}.

(** The body of the [forEach].  For a tool id that names a property of
    [Object.prototype] the lookup is truthy, no entry is created, and the
    two [+=] land on the inherited object. *)
Definition visit (acc : Acc) (row : Row) : Acc :=
  let ev := fst row in
  let c := UsageEvent.cost_estimate ev in
  let k := UsageEvent.tool_id ev in
  let created :=
    if inherited k then byTool acc
    else match lookup k (byTool acc) with
         | Some _ => byTool acc
         | None => (byTool acc ++ [(k, mkEntry 0 0 (nameOf row))])%list
         end in
  mkAcc (if inherited k then created else addTo k c (UsageEvent.units ev) created)
        (totalCost acc + c)
        (totalUnits acc + UsageEvent.units ev).

Record ToolUsage : Type := mkToolUsage {
  tool_id : string;
  tool_name : string;
  tool_cost : Q;
  tool_units : Q
}.

Record t : Type := mk {
  tenant_id : string;
  user_id : option string;
  period : PeriodType;
  total_cost : Q;
  total_units : Q;
  by_tool : list ToolUsage;
  recent_events : list Row
}.

(** The object built from an entry of [Object.entries(byTool)]. *)
Definition toUsage (kv : string * Entry) : ToolUsage :=
  mkToolUsage (fst kv) (name (snd kv)) (cost (snd kv)) (units (snd kv)).

(** [getUsageSummary]: [None] is the [null] returned on an error answer. *)
Definition getUsageSummary (fault : Fault) (st : Store) (tenantId : string)
    (userId : option string) (period : PeriodType)
    (startDate endDate : option Date.ISOString) : Outcome (option t) :=
  match fault with
  | Throws => Raised
  | ErrorReply => Returned None
  | NoFault =>
      let events := query st tenantId userId startDate endDate in
      let acc := fold_left visit events (mkAcc [] 0 0) in
      Returned
        (Some (mk tenantId userId period (totalCost acc) (totalUnits acc)
                 (map toUsage (entries (byTool acc)))
                 events))
  end.

(** The answer of the tool (src/tools/get-usage-summary.ts). *)
Inductive Answer : Type :=
| Summary (s : t)
| FailedToFetch          (* 'Failed to fetch usage summary' *)
| ErrorFetching.         (* `Error fetching usage: ...` *)

Definition getUsageSummaryTool (fault : Fault) (st : Store) (tenantId : string)
    (userId : option string) (period : PeriodType)
    (startDate endDate : option Date.ISOString) : Answer :=
  match getUsageSummary fault st tenantId userId period startDate endDate with
  | Returned (Some s) => Summary s
  | Returned None => FailedToFetch
  | Raised => ErrorFetching
  end.

(** Sums over the summary. *)
Definition sumToolCosts (l : list ToolUsage) : Q :=
  fold_right (fun b acc => tool_cost b + acc) 0 l.
Definition sumToolUnits (l : list ToolUsage) : Q :=
  fold_right (fun b acc => tool_units b + acc) 0 l.
Definition inheritedRows (rows : list Row) : list UsageEvent.t :=
  filter (fun ev => inherited (UsageEvent.tool_id ev)) (map fst rows).
Definition sumUnits (events : list UsageEvent.t) : Q :=
  fold_right (fun ev acc => UsageEvent.units ev + acc) 0 events.

(** The name the catalog gives a tool id: the tool's name, or the id when
    the catalog has no such tool or an empty name for it. *)
Definition nameInCatalog (catalog : list Tool.t) (k : string) : string :=
  match find (fun t => String.eqb (Tool.id t) k) catalog with
  | Some t => if JS.truthy (Tool.name t) then Tool.name t else k
  | None => k
  end.

(** The totals kept for a key; 0 when the key has no entry. *)
Definition costAt (k : string) (m : ByTool) : Q :=
  match lookup k m with
  | Some v => cost v
  | None => 0
  end.

Definition unitsAt (k : string) (m : ByTool) : Q :=
  match lookup k m with
  | Some v => units v
  | None => 0
  end.

End UsageSummary.

(** The summary of ProCorp's usage on the ledger of [Cases.bothSpent]. *)
Definition bothSpentSummary : UsageSummary.t :=
  UsageSummary.mk Demo.ProCorp None day (0 + 5 + 1) (0 + 5000 + 1000)
    [ UsageSummary.mkToolUsage "search-api" "Search API" (0 + 5) (0 + 5000);
      UsageSummary.mkToolUsage "gpt-4" "GPT-4" (0 + 1) (0 + 1000) ]
    (map (UsageSummary.joinTool Demo.demoTools) (usage_events Cases.bothSpent)).

(** ** The policy tools (src/tools/policy-tools.ts) *)

Module PolicyTools.

(** What [SetPolicySchema] yields once parsed: [decision] has its default
    filled in. *)
Record SetPolicyInput : Type := mkInput {
  tenant_id : string;
  scope : Scope;
  scope_id : option string;
  limit_type : LimitType;
  limit_value : Q;
  fallback_tool_id : option string;
  decision : PolicyDecision
}.

(** [tenant_id: z.string().min(1)], [limit_value: z.number().positive()]. *)
Definition SetPolicySchema (input : SetPolicyInput) : bool :=
  JS.truthy (tenant_id input) && negb (Qle_bool (limit_value input) 0).

(** The row of the insert as the table keeps it; [id] is what the store
    generates, and [limit] what the column limit_value has kept. *)
Definition rowOf (id : string) (input : SetPolicyInput) (limit : Q) : Policy.t :=
  Policy.mk id (JS.trim (tenant_id input)) (scope input)
    (match scope_id input with
     | Some s => if JS.truthy s then Some (JS.trim s) else None
     | None => None
     end)
    (limit_type input) limit (fallback_tool_id input) (decision input).

(** limit_value is DECIMAL(10,2): the limit is kept to the cent, and read
    back as that number in lowest terms; a limit that rounds to 100000000
    or more is refused. *)
Definition newRow (id : string) (input : SetPolicyInput) : option Policy.t :=
  match Pg.numeric 10 2 (limit_value input) with
  | Some limit => Some (rowOf id input (Qred limit))
  | None => None
  end.

(** The constraints of the policies table (schema.sql): the primary key,
    the tenant and the fallback tool the row refers to. *)
Definition constraintsHold (st : Store) (p : Policy.t) : bool :=
  negb (existsb (fun q => String.eqb (Policy.id q) (Policy.id p)) (policies st)) &&
  existsb (fun t => String.eqb (Tenant.id t) (Policy.tenant_id p)) (tenants st) &&
  match Policy.fallback_tool_id p with
  | Some fb => existsb (fun t => String.eqb (Tool.id t) fb) (tools st)
  | None => true
  end.

Definition setPolicies (st : Store) (ps : list Policy.t) : Store :=
  mkStore (tenants st) (tools st) ps (usage_events st) (usage_aggregates st).

(** The answer of [setPolicy]: the created row, or [{ error }]. *)
Inductive SetPolicyResult : Type :=
| Created (p : Policy.t)
| ErrorMessage            (* { error: error.message } *)
| ErrorCreatingPolicy.    (* { error: `Error creating policy: ...` } *)

(** [setPolicy]: an insert, whatever policies exist. *)
Definition setPolicy (fault : Fault) (id : string) (st : Store)
    (input : SetPolicyInput) : SetPolicyResult * Store :=
  match fault with
  | NoFault =>
      match newRow id input with
      | Some p =>
          if constraintsHold st p
          then (Created p, setPolicies st (policies st ++ [p]))
          else (ErrorMessage, st)
      | None => (ErrorMessage, st)
      end
  | ErrorReply => (ErrorMessage, st)
  | Throws => (ErrorCreatingPolicy, st)
  end.

(** [deletePolicy]: policies.id is a UUID column, so the trimmed
    [policy_id] is read as a uuid; when it is one, the rows of that id go,
    and when it is not, the store answers with an error. The answer is
    [{ success }]. *)
Definition deletePolicy (fault : Fault) (st : Store) (policy_id : string)
    : bool * Store :=
  match fault with
  | NoFault =>
      match Pg.uuid (JS.trim policy_id) with
      | Some id =>
          (true,
           setPolicies st
             (filter (fun p => negb (String.eqb (Policy.id p) id)) (policies st)))
      | None => (false, st)
      end
  | ErrorReply | Throws => (false, st)
  end.

End PolicyTools.

(** A policy that blocks when breached. *)
Definition blocks (p : Policy.t) : bool :=
  match Policy.decision p with
  | deny | require_approval => true
  | allow | downgrade => false
  end.

(** A two-dollar daily cap for ProCorp, as [set_policy] receives it, with
    white space around the tenant id. *)
Definition capProCorp : PolicyTools.SetPolicyInput :=
  PolicyTools.mkInput (" " ++ Demo.ProCorp ++ " ") scope_tenant None daily 2 None deny.

(** An id as the store generates them. *)
Definition newId : string := "99999999-9999-4999-8999-999999999999".

(** A request of ProCorp for 100000 tokens of gpt-4: three dollars. *)
Definition bigRequest : CheckAndRouteInput.t :=
  CheckAndRouteInput.mk Demo.ProCorp Demo.proUser "gpt-4" 100000 [].

(** ** The token and price estimates of the cost estimator
    (src/lib/cost-estimator.ts, the static methods besides [estimateCost]) *)

Module TokenCosts.

(** [Math.ceil(s.length / 4)]; a character of the string stands for one
    UTF-16 code unit. *)
Definition inputTokens (input : string) : Z :=
  Qceiling (inject_Z (Z.of_nat (String.length input)) / 4).

(** [estimateTokens(input, maxOutputTokens = 1000)]. *)
Definition estimateTokens (input : string) (maxOutputTokens : option Q) : Q :=
  inject_Z (inputTokens input)
  + match maxOutputTokens with
    | Some m => m
    | None => 1000
    end.

Record Price : Type := mkPrice {
  input : Q;
  output : Q
}.

(** The object literal [costs]. *)
Definition costs : list (string * Price) :=
  [ ("gpt-4", mkPrice (3 # 100000) (6 # 100000));
    ("gpt-4-turbo", mkPrice (1 # 100000) (3 # 100000));
    ("gpt-3.5-turbo", mkPrice (5 # 10000000) (15 # 10000000));
    ("claude-3-opus", mkPrice (15 # 1000000) (75 # 1000000));
    ("claude-3-sonnet", mkPrice (3 # 1000000) (15 # 1000000));
    ("claude-3-haiku", mkPrice (25 # 100000000) (125 # 100000000)) ].

Definition defaultPrice : Price := mkPrice (1 # 100000) (3 # 100000).

(** [costs[modelId] || default].  For a name of [Object.prototype] the
    lookup finds the inherited property, which is truthy and has neither
    [input] nor [output]: [None]. *)
Definition getModelCostPerToken (modelId : string) : option Price :=
  match find (fun kv => String.eqb (fst kv) modelId) costs with
  | Some kv => Some (snd kv)
  | None => if UsageSummary.inherited modelId then None else Some defaultPrice
  end.

(** [estimateLLMCost]; [None] is NaN. *)
Definition estimateLLMCost (modelId : string) (inputTokens outputTokens : Q)
    : option Q :=
  match getModelCostPerToken modelId with
  | Some c => Some (inputTokens * input c + outputTokens * output c)
  | None => None
  end.

End TokenCosts.

(** ** The model registry (src/lib/model-registry.ts) *)

Module ModelRegistry.

Inductive Provider : Type := google | anthropic | openai.
Inductive ModelTier : Type := fast | balanced | premium.
Inductive Capability : Type := text | code | image | reasoning.

Record Capabilities : Type := mkCapabilities {
  cap_text : bool;
  cap_code : bool;
  cap_image : bool;
  cap_reasoning : bool
}.

Record ModelDefinition : Type := mk {
  id : string;
  provider : Provider;
  name : string;
  displayName : string;
  tier : ModelTier;
  capabilities : Capabilities;
  inputCostPer1MTokens : Q;
  outputCostPer1MTokens : Q;
  contextWindow : Z;
  enabled : bool
}.

Definition ModelTier_eqb (a b : ModelTier) : bool :=
  match a, b with
  | fast, fast | balanced, balanced | premium, premium => true
  | _, _ => false
  end.

(** [m.capabilities[capability]]. *)
Definition has (capability : Capability) (m : ModelDefinition) : bool :=
  match capability with
  | text => cap_text (capabilities m)
  | code => cap_code (capabilities m)
  | image => cap_image (capabilities m)
  | reasoning => cap_reasoning (capabilities m)
  end.

Definition textAndCode : Capabilities := mkCapabilities true true false true.
Definition imageOnly : Capabilities := mkCapabilities false false true false.

Definition MODEL_REGISTRY : list ModelDefinition :=
  [ mk "gemini-2.5-flash" google "gemini-2.5-flash" "Gemini 2.5 Flash" fast
       textAndCode (75 # 1000) (30 # 100) 1000000 true;
    mk "gemini-2.5-flash-image-preview" google "gemini-2.5-flash-image-preview"
       "Gemini 2.5 Flash Image" fast imageOnly (75 # 1000) (30 # 100) 1000000 false;
    mk "gemini-2.5-flash-lite" google "gemini-2.5-flash-lite" "gemini-2.5-flash-lite"
       balanced textAndCode (125 # 100) 5 2000000 true;
    mk "gemini-exp-1206 " google "gemini-exp-1206 " "gemini-exp-1206 " premium
       textAndCode (125 # 100) 5 2000000 true;
    mk "imagen-3" google "imagen-3" "Imagen 3" premium imageOnly 0 0 0 false;
    mk "claude-3.5-haiku" anthropic "claude-3-5-haiku-20241022" "Claude 3.5 Haiku" fast
       textAndCode 1 5 200000 false;
    mk "claude-3.5-sonnet" anthropic "claude-3-5-sonnet-20241022" "Claude 3.5 Sonnet"
       balanced textAndCode 3 15 200000 false;
    mk "claude-3-opus" anthropic "claude-3-opus-20240229" "Claude 3 Opus" premium
       textAndCode 15 75 200000 false;
    mk "gpt-3.5-turbo" openai "gpt-3.5-turbo" "GPT-3.5 Turbo" fast
       textAndCode (50 # 100) (150 # 100) 16385 false;
    mk "gpt-4-turbo" openai "gpt-4-turbo" "GPT-4 Turbo" balanced
       textAndCode 10 30 128000 false;
    mk "gpt-4" openai "gpt-4" "GPT-4" premium textAndCode 30 60 8192 false ].

(** The helper functions, over the registry they read ([MODEL_REGISTRY] in
    the module). *)
Section Registry.
Variable registry : list ModelDefinition.

Definition getModelById (modelId : string) : option ModelDefinition :=
  find (fun m => String.eqb (id m) modelId) registry.

Definition getEnabledModels : list ModelDefinition :=
  filter (fun m => enabled m) registry.

Definition getModelsByTier (t : ModelTier) : list ModelDefinition :=
  filter (fun m => enabled m && ModelTier_eqb (tier m) t) registry.

Definition getModelsByCapability (capability : Capability) : list ModelDefinition :=
  filter (fun m => enabled m && has capability m) registry.

(** The sum the reducer of [getCheapestModel] compares. *)
Definition listPrice (m : ModelDefinition) : Q :=
  inputCostPer1MTokens m + outputCostPer1MTokens m.

Definition cheaper (cheapest current : ModelDefinition) : ModelDefinition :=
  if negb (Qle_bool (listPrice cheapest) (listPrice current))
  then current else cheapest.

(** [models.reduce(...)] without an initial value. *)
Definition getCheapestModel (capability : Capability) : option ModelDefinition :=
  match getModelsByCapability capability with
  | [] => None
  | first :: rest => Some (fold_left cheaper rest first)
  end.

Definition estimateCost (modelId : string) (inputTokens outputTokens : Q) : Q :=
  match getModelById modelId with
  | None => 0
  | Some model =>
      (inputTokens / 1000000) * inputCostPer1MTokens model
      + (outputTokens / 1000000) * outputCostPer1MTokens model
  end.

End Registry.

End ModelRegistry.

(** ** The model selector (src/lib/model-selector.ts) *)

Module ModelSelector.

Import ModelRegistry.

Inductive TaskComplexity : Type := simple | medium | complex.

Record PromptAnalysis : Type := mkAnalysis {
  complexity : TaskComplexity;
  taskType : Capability;            (* 'text' | 'code' | 'image' | 'reasoning' *)
  estimatedTokens : Q;
  keywords : list string;
  confidence : Q
}.

(** The flags are read for their truthiness; [budgetRemaining] is compared
    with [undefined]; [maxCostPerRequest] is read for its truthiness, then
    compared. *)
Record SelectionPreferences : Type := mkPreferences {
  preferSpeed : bool;
  preferCost : bool;
  preferQuality : bool;
  budgetRemaining : option Q;
  maxCostPerRequest : option Q
}.

Definition noPreferences : SelectionPreferences :=
  mkPreferences false false false None None.

Inductive SelectionReason : Type :=
| BudgetExhausted                   (* 'Budget exhausted - using cheapest available model' *)
| CostPreference                    (* 'Cost optimization preference - selected cheapest model' *)
| SpeedPreference                   (* 'Speed preference - selected fast tier model' *)
| QualityPreference                 (* 'Quality preference - selected premium tier model' *)
| ComplexityBased (c : TaskComplexity)  (* `Complexity-based selection (${complexity})` *)
| FallbackToCheapest                (* 'Fallback to cheapest available model' *)
| CostExceedsLimit (displayName : string)
                                    (* `Cost per request exceeds limit - downgraded to ${displayName}` *)
| ImageTask.                        (* 'Image generation task detected' *)

Record ModelSelection : Type := mkSelection {
  model : ModelDefinition;
  reason : SelectionReason;
  estimatedCost : Q;
  alternatives : list ModelDefinition
}.

(** Input and output tokens are taken equal. *)
Definition estimateCostForModel (m : ModelDefinition) (tokens : Q) : Q :=
  (tokens / 1000000) * inputCostPer1MTokens m
  + (tokens / 1000000) * outputCostPer1MTokens m.

(** [Math.max(0, premiumCost - actualCost)]. *)
Definition calculateSavings (actualModel premiumModel : ModelDefinition)
    (tokens : Q) : Q :=
  let actualCost := estimateCostForModel actualModel tokens in
  let premiumCost := estimateCostForModel premiumModel tokens in
  if Qle_bool 0 (premiumCost - actualCost) then premiumCost - actualCost else 0.

Section Selector.
Variable registry : list ModelDefinition.

Definition selectByComplexity (c : TaskComplexity) : option ModelDefinition :=
  match c with
  | simple =>
      match getModelsByTier registry fast with
      | m :: _ => Some m
      | [] => getCheapestModel registry text
      end
  | medium => hd_error (getModelsByTier registry balanced)
  | complex =>
      hd_error (filter (fun m => has text m) (getModelsByTier registry premium))
  end.

(** Throws when no image model is enabled. *)
Definition selectImageModel (preferences : SelectionPreferences)
    : Outcome ModelSelection :=
  match getModelsByCapability registry image with
  | [] => Raised
  | m :: others => Returned (mkSelection m ImageTask (4 # 100) others)
  end.

Definition isImage (t : Capability) : bool :=
  match t with
  | image => true
  | _ => false
  end.

Definition isCode (t : Capability) : bool :=
  match t with
  | code => true
  | _ => false
  end.

(** [budgetRemaining !== undefined && budgetRemaining <= 0]. *)
Definition budgetExhausted (preferences : SelectionPreferences) : bool :=
  match budgetRemaining preferences with
  | Some b => Qle_bool b 0
  | None => false
  end.

(** [maxCostPerRequest && estimatedCost > maxCostPerRequest]. *)
Definition overCap (preferences : SelectionPreferences) (cost : Q) : bool :=
  match maxCostPerRequest preferences with
  | Some cap => negb (Qeq_bool cap 0) && negb (Qle_bool cost cap)
  | None => false
  end.

(** The model and the reason chosen from the preferences and the
    complexity. *)
Definition choose (analysis : PromptAnalysis) (preferences : SelectionPreferences)
    : option ModelDefinition * SelectionReason :=
  if preferCost preferences then (getCheapestModel registry text, CostPreference)
  else if preferSpeed preferences
  then (hd_error (getModelsByTier registry fast), SpeedPreference)
  else if preferQuality preferences
  then (hd_error (getModelsByTier registry balanced), QualityPreference)
  else (selectByComplexity (complexity analysis),
        ComplexityBased (complexity analysis)).

(** [if (!selectedModel)]: the cheapest text model when nothing was
    chosen. *)
Definition orCheapest (chosen : option ModelDefinition * SelectionReason)
    : option ModelDefinition * SelectionReason :=
  match fst chosen with
  | Some m => (Some m, snd chosen)
  | None => (getCheapestModel registry text, FallbackToCheapest)
  end.

(** [selectModel].  Reading the price of a model that is [undefined]
    throws. *)
Definition selectModel (analysis : PromptAnalysis)
    (preferences : SelectionPreferences) : Outcome ModelSelection :=
  if isImage (taskType analysis) then selectImageModel preferences
  else
    let candidates :=
      getModelsByCapability registry
        (if isCode (taskType analysis) then code else text) in
    let rest :=
      let selected := orCheapest (choose analysis preferences) in
      match fst selected with
      | None => Raised
      | Some selectedModel =>
          let cost := estimateCostForModel selectedModel (estimatedTokens analysis) in
          let normal :=
            Returned
              (mkSelection selectedModel (snd selected) cost
                 (firstn 3
                    (filter (fun m => negb (String.eqb (id m) (id selectedModel)))
                            candidates))) in
          if overCap preferences cost then
            match getCheapestModel registry text with
            | Some cheapest =>
                Returned
                  (mkSelection cheapest (CostExceedsLimit (displayName cheapest))
                     (estimateCostForModel cheapest (estimatedTokens analysis))
                     [selectedModel])
            | None => normal
            end
          else normal
      end in
    if budgetExhausted preferences then
      match getCheapestModel registry text with
      | Some cheapest =>
          Returned
            (mkSelection cheapest BudgetExhausted
               (estimateCostForModel cheapest (estimatedTokens analysis)) [])
      | None => rest
      end
    else rest.

End Selector.

End ModelSelector.

(** ** The list_models tool (src/tools/list-models.ts) *)

Module ListModels.

Import ModelRegistry.

Record Listed : Type := mkListed {
  id : string;
  display_name : string;
  provider : Provider;
  tier : ModelTier;
  capabilities : list Capability;
  input_per_1m : Q;
  output_per_1m : Q;
  enabled : bool
}.

Record ListModelsOutput : Type := mkOutput {
  models : list Listed;
  total_count : nat;
  enabled_count : nat
}.

(** [Object.entries(model.capabilities)], the true ones, by name. *)
Definition capabilityNames (m : ModelDefinition) : list Capability :=
  filter (fun c => has c m) [text; code; image; reasoning].

Definition listed (m : ModelDefinition) : Listed :=
  mkListed (ModelRegistry.id m) (displayName m) (ModelRegistry.provider m)
    (ModelRegistry.tier m) (capabilityNames m)
    (inputCostPer1MTokens m) (outputCostPer1MTokens m) (ModelRegistry.enabled m).

Definition listModels (registry : list ModelDefinition) (show_all : bool)
    : ListModelsOutput :=
  let modelsToShow := if show_all then registry else getEnabledModels registry in
  mkOutput (map listed modelsToShow) (List.length registry)
    (List.length (getEnabledModels registry)).

End ListModels.

(** A short question, as the analyzer describes it. *)
Definition shortQuestion : ModelSelector.PromptAnalysis :=
  ModelSelector.mkAnalysis ModelSelector.simple ModelRegistry.text 10 ["what"] (7 # 10).

(** A cap of a millionth of a dollar per request. *)
Definition tinyCap : ModelSelector.SelectionPreferences :=
  ModelSelector.mkPreferences false false true None (Some (1 # 1000000)).

(** What the selector answers to the short question, as shipped. *)
Definition flash : ModelRegistry.ModelDefinition :=
  ModelRegistry.mk "gemini-2.5-flash" ModelRegistry.google "gemini-2.5-flash"
    "Gemini 2.5 Flash" ModelRegistry.fast ModelRegistry.textAndCode
    (75 # 1000) (30 # 100) 1000000 true.

Definition flashSelection : ModelSelector.ModelSelection :=
  ModelSelector.mkSelection flash
    (ModelSelector.ComplexityBased ModelSelector.simple)
    (ModelSelector.estimateCostForModel flash 10)
    (firstn 3
       (filter (fun m => negb (String.eqb (ModelRegistry.id m) "gemini-2.5-flash"))
          (ModelRegistry.getModelsByCapability ModelRegistry.MODEL_REGISTRY
             ModelRegistry.text))).

(** ** The prompt analyzer (src/lib/prompt-analyzer.ts) *)

Module PromptAnalyzer.

Import ModelRegistry ModelSelector.

Definition SIMPLE_KEYWORDS : list string :=
  [ "typo"; "fix"; "comment"; "what"; "explain"; "simple"; "quick";
    "add"; "remove"; "change"; "update"; "rename"; "format" ].

Definition MEDIUM_KEYWORDS : list string :=
  [ "review"; "optimize"; "improve"; "test"; "validate"; "check";
    "implement"; "create"; "build"; "write"; "develop"; "modify" ].

Definition COMPLEX_KEYWORDS : list string :=
  [ "refactor"; "architecture"; "design"; "debug"; "analyze"; "migrate";
    "integrate"; "scale"; "performance"; "security"; "algorithm"; "system";
    "infrastructure"; "database"; "authentication"; "authorization" ].

Definition CODE_KEYWORDS : list string :=
  [ "function"; "class"; "method"; "variable"; "code"; "script"; "program";
    "bug"; "error"; "compile"; "syntax"; "api"; "endpoint"; "database";
    "json"; "xml"; "sql"; "query"; "interface"; "struct" ].

Definition IMAGE_KEYWORDS : list string :=
  [ "image"; "picture"; "photo"; "draw"; "visualize";
    "illustration"; "graphic"; "render"; "artwork"; "painting";
    "sketch"; "diagram" ].

Definition REASONING_KEYWORDS : list string :=
  [ "why"; "how"; "explain"; "reason"; "analyze"; "compare"; "evaluate";
    "decide"; "choose"; "recommend"; "suggest"; "think"; "consider" ].

(** [text.includes(keyword)]. *)
Fixpoint includes (s keyword : string) : bool :=
  String.prefix keyword s ||
  match s with
  | String _ rest => includes rest keyword
  | EmptyString => false
  end.

(** [keywords.some(keyword => text.includes(keyword))]. *)
Definition containsKeywords (s : string) (keywords : list string) : bool :=
  existsb (includes s) keywords.

Definition detectTaskType (fullText : string) : Capability :=
  if containsKeywords fullText IMAGE_KEYWORDS then
    if includes fullText "code" || includes fullText "function" ||
       (includes fullText "architecture" && negb (includes fullText "diagram"))
    then text
    else image
  else if containsKeywords fullText CODE_KEYWORDS then code
  else if containsKeywords fullText REASONING_KEYWORDS then reasoning
  else text.

Definition detectComplexity (prompt fullText : string) : TaskComplexity :=
  let promptLength := String.length prompt in
  let contextLength := String.length fullText in
  if containsKeywords prompt COMPLEX_KEYWORDS then complex
  else if (Nat.ltb 500 promptLength || Nat.ltb 2000 contextLength)%bool then complex
  else if containsKeywords prompt MEDIUM_KEYWORDS then medium
  else if (Nat.ltb 100 promptLength || Nat.ltb 500 contextLength)%bool then medium
  else if containsKeywords prompt SIMPLE_KEYWORDS then simple
  else if Nat.ltb promptLength 50 then simple
  else medium.

Definition extractKeywords (s : string) : list string :=
  filter (includes s)
    (SIMPLE_KEYWORDS ++ MEDIUM_KEYWORDS ++ COMPLEX_KEYWORDS ++ CODE_KEYWORDS
     ++ IMAGE_KEYWORDS ++ REASONING_KEYWORDS)%list.

(** [Math.min]. *)
Definition min (a b : Q) : Q := if Qle_bool a b then a else b.

Definition calculateConfidence (prompt : string) (keywords : list string)
    (estimatedTokens : Z) : Q :=
  let base := 5 # 10 in
  let withKeywords :=
    if Nat.ltb 0 (List.length keywords)
    then base + min (inject_Z (Z.of_nat (List.length keywords)) * (1 # 10)) (3 # 10)
    else base in
  let withLength :=
    if (Nat.ltb (String.length prompt) 20 || Nat.ltb 500 (String.length prompt))%bool
    then withKeywords + (1 # 10)
    else withKeywords in
  min withLength 1.

(** [analyzePrompt], over the lowering of the text: [toLowerCase] follows
    the Unicode case mappings, of which nothing is assumed here. *)
Section Analyzer.
Variable toLowerCase : string -> string.

Definition analyzePrompt (prompt : string) (context : option string)
    : PromptAnalysis :=
  let lowerPrompt := toLowerCase prompt in
  let fullText :=
    match context with
    | Some c => if JS.truthy c then toLowerCase (prompt ++ " " ++ c) else lowerPrompt
    | None => lowerPrompt
    end in
  let estimatedTokens := Qceiling (inject_Z (Z.of_nat (String.length fullText)) / 4) in
  let keywords := extractKeywords lowerPrompt in
  mkAnalysis (detectComplexity lowerPrompt fullText) (detectTaskType fullText)
    (inject_Z estimatedTokens) keywords
    (calculateConfidence lowerPrompt keywords estimatedTokens).

End Analyzer.

(** The lowering of the ASCII letters. *)
Definition lowerAscii (c : ascii) : ascii :=
  let n := nat_of_ascii c in
  if (Nat.leb 65 n && Nat.leb n 90)%bool then ascii_of_nat (n + 32) else c.

Fixpoint toLowerCaseAscii (s : string) : string :=
  match s with
  | EmptyString => EmptyString
  | String c r => String (lowerAscii c) (toLowerCaseAscii r)
  end.

End PromptAnalyzer.
(** * Properties *)

Local Open Scope Q_scope.

(** ** Lists, ordering and store accesses *)

Lemma In_insertRow {A : Type} (before : A -> A -> bool) (x y : A) (l : list A) :
  In y (insertRow before x l) <-> y = x \/ In y l.
Proof.
  induction l as [|z r IH]; simpl.
  - intuition congruence.
  - destruct (before x z); simpl; rewrite ?IH; intuition congruence.
Qed.

Lemma In_orderBy {A : Type} (before : A -> A -> bool) (y : A) (l : list A) :
  In y (orderBy before l) <-> In y l.
Proof.
  induction l as [|x r IH]; simpl.
  - tauto.
  - rewrite In_insertRow, IH. intuition congruence.
Qed.

Lemma await_no_faults {A : Type} (s : Site) (r : Reply A) :
  await no_faults s r = Returned r.
Proof. reflexivity. Qed.

Lemma Returned_inj {A : Type} (a b : A) : Returned a = Returned b -> a = b.
Proof. intros H. injection H as H. exact H. Qed.

Lemma gt_true (x y : Q) : JS.gt x y = true <-> y < x.
Proof.
  unfold JS.gt. rewrite negb_true_iff.
  split.
  - intro H. apply Qnot_le_lt. intro Hle.
    apply Qle_bool_iff in Hle. congruence.
  - intro H. destruct (Qle_bool x y) eqn:E; [|reflexivity].
    apply Qle_bool_iff in E. lra.
Qed.

Lemma truthy_nonempty (s : string) : JS.truthy s = true <-> s <> EmptyString.
Proof. destruct s; simpl; split; congruence. Qed.

(** ** The evaluator's loop *)

(** What a breached policy returns, read off [onBreach]. *)
Lemma onBreach_suggests (p : Policy.t) (u : Q) (r : PolicyEvaluationResult.t) (s : string) :
  PolicyEngine.onBreach p u = Some r ->
  PolicyEvaluationResult.suggested_tool r = Some s ->
  Policy.decision p = downgrade /\ Policy.fallback_tool_id p = Some s /\
  s <> EmptyString /\ PolicyEvaluationResult.allowed r = true /\
  PolicyEvaluationResult.current_usage r = u /\
  PolicyEvaluationResult.limit r = JS.Fin (Policy.limit_value p).
Proof.
  unfold PolicyEngine.onBreach.
  destruct (Policy.decision p) eqn:D; try discriminate.
  - intros H; inversion H; subst; simpl; discriminate.
  - destruct (Policy.fallback_tool_id p) as [fb|] eqn:F; try discriminate.
    destruct (JS.truthy fb) eqn:T; try discriminate.
    intros H; inversion H; subst; simpl. intros Hs; inversion Hs; subst.
    apply truthy_nonempty in T. repeat split; auto.
  - intros H; inversion H; subst; simpl; discriminate.
Qed.

Lemma onBreach_no_fallback (p : Policy.t) (u : Q) :
  Policy.decision p = downgrade ->
  JS.truthyOpt (Policy.fallback_tool_id p) = false ->
  PolicyEngine.onBreach p u = None.
Proof.
  unfold PolicyEngine.onBreach, JS.truthyOpt. intros -> H.
  destruct (Policy.fallback_tool_id p); [rewrite H|]; reflexivity.
Qed.

Lemma checkPolicies_suggests (f : Faults) (e : Date.Env) (st : Store)
    (T U X : string) (c : Q) (ps : list Policy.t)
    (r : PolicyEvaluationResult.t) (s : string) :
  PolicyEngine.checkPolicies f e st T U X c ps = Returned (Some r) ->
  PolicyEvaluationResult.suggested_tool r = Some s ->
  exists p u,
    In p ps /\ Policy.decision p = downgrade /\
    Policy.fallback_tool_id p = Some s /\ s <> EmptyString /\
    PolicyEngine.getCurrentUsage f e st T U X (PolicyEngine.policyWindow p) = Returned u /\
    JS.gt (u + c) (Policy.limit_value p) = true /\
    PolicyEvaluationResult.allowed r = true /\
    PolicyEvaluationResult.current_usage r = u /\
    PolicyEvaluationResult.limit r = JS.Fin (Policy.limit_value p).
Proof.
  induction ps as [|p rest IH]; simpl; [discriminate|].
  destruct (PolicyEngine.getCurrentUsage f e st T U X (PolicyEngine.policyWindow p))
    as [u|] eqn:EU; simpl; [|discriminate].
  destruct (JS.gt (u + c) (Policy.limit_value p)) eqn:G.
  - destruct (PolicyEngine.onBreach p u) as [res|] eqn:B.
    + intros H Hs. inversion H; subst res.
      destruct (onBreach_suggests _ _ _ _ B Hs) as (D & F & N & A & CU & L).
      exists p, u. intuition.
    + intros H Hs. destruct (IH H Hs) as (q & v & Hin & Hq).
      exists q, v. split; [right; exact Hin | exact Hq].
  - intros H Hs. destruct (IH H Hs) as (q & v & Hin & Hq).
    exists q, v. split; [right; exact Hin | exact Hq].
Qed.

Lemma onBreach_blocks (p : Policy.t) (u : Q) (r : PolicyEvaluationResult.t) :
  PolicyEngine.onBreach p u = Some r ->
  PolicyEvaluationResult.allowed r = false ->
  Policy.decision p = deny \/ Policy.decision p = require_approval.
Proof.
  unfold PolicyEngine.onBreach.
  destruct (Policy.decision p) eqn:D; try discriminate; auto.
  destruct (Policy.fallback_tool_id p) as [fb|]; try discriminate.
  destruct (JS.truthy fb); try discriminate.
  intros H; inversion H; subst; simpl; discriminate.
Qed.

Lemma checkPolicies_blocks (f : Faults) (e : Date.Env) (st : Store)
    (T U X : string) (c : Q) (ps : list Policy.t) (r : PolicyEvaluationResult.t) :
  PolicyEngine.checkPolicies f e st T U X c ps = Returned (Some r) ->
  PolicyEvaluationResult.allowed r = false ->
  exists p u,
    In p ps /\
    (Policy.decision p = deny \/ Policy.decision p = require_approval) /\
    PolicyEngine.getCurrentUsage f e st T U X (PolicyEngine.policyWindow p) = Returned u /\
    JS.gt (u + c) (Policy.limit_value p) = true.
Proof.
  induction ps as [|p rest IH]; simpl; [discriminate|].
  destruct (PolicyEngine.getCurrentUsage f e st T U X (PolicyEngine.policyWindow p))
    as [u|] eqn:EU; simpl; [|discriminate].
  destruct (JS.gt (u + c) (Policy.limit_value p)) eqn:G.
  - destruct (PolicyEngine.onBreach p u) as [res|] eqn:B.
    + intros H Hb. inversion H; subst res.
      exists p, u. pose proof (onBreach_blocks _ _ _ B Hb). auto.
    + intros H Hb. destruct (IH H Hb) as (q & v & Hin & Hq).
      exists q, v. split; [right; exact Hin | exact Hq].
  - intros H Hb. destruct (IH H Hb) as (q & v & Hin & Hq).
    exists q, v. split; [right; exact Hin | exact Hq].
Qed.

Lemma getApplicablePolicies_In (f : Faults) (st : Store) (T U X : string)
    (ps : list Policy.t) (p : Policy.t) :
  PolicyEngine.getApplicablePolicies f st T U X = Returned ps ->
  In p ps ->
  In p (policies st) /\ PolicyEngine.applicable T U X p = true.
Proof.
  unfold PolicyEngine.getApplicablePolicies, await.
  destruct (f AtPolicies); simpl; try discriminate.
  - intros H; inversion H; subst. rewrite In_orderBy, filter_In. tauto.
  - intros H; inversion H; subst. simpl. tauto.
Qed.

(** C10. A breached downgrade policy whose fallback_tool_id is missing
    (absent or empty) neither blocks nor downgrades: once its usage has been
    read, the loop goes on with the remaining policies exactly as if the
    policy were not there. Consequently a result of [evaluateRequest] that
    carries a suggested_tool carries the non-empty fallback_tool_id of an
    applicable downgrade policy whose limit the projected usage exceeds, and
    a result that is not allowed comes from a breached deny or
    require_approval policy. *)
Theorem C10_downgrade_without_fallback_skipped
    (f : Faults) (e : Date.Env) (st : Store) (T U X : string) (c : Q) :
  (forall (p : Policy.t) (rest : list Policy.t) (u : Q),
      Policy.decision p = downgrade ->
      JS.truthyOpt (Policy.fallback_tool_id p) = false ->
      PolicyEngine.getCurrentUsage f e st T U X (PolicyEngine.policyWindow p) = Returned u ->
      PolicyEngine.checkPolicies f e st T U X c (p :: rest)
      = PolicyEngine.checkPolicies f e st T U X c rest) /\
  (forall (r : PolicyEvaluationResult.t) (s : string),
      PolicyEngine.evaluateRequest f e st T U X c = Returned r ->
      PolicyEvaluationResult.suggested_tool r = Some s ->
      s <> EmptyString /\
      PolicyEvaluationResult.allowed r = true /\
      exists p u,
        In p (policies st) /\ PolicyEngine.applicable T U X p = true /\
        Policy.decision p = downgrade /\
        Policy.fallback_tool_id p = Some s /\
        PolicyEngine.getCurrentUsage f e st T U X (PolicyEngine.policyWindow p) = Returned u /\
        JS.gt (u + c) (Policy.limit_value p) = true) /\
  (forall (r : PolicyEvaluationResult.t),
      PolicyEngine.evaluateRequest f e st T U X c = Returned r ->
      PolicyEvaluationResult.allowed r = false ->
      exists p u,
        In p (policies st) /\ PolicyEngine.applicable T U X p = true /\
        (Policy.decision p = deny \/ Policy.decision p = require_approval) /\
        PolicyEngine.getCurrentUsage f e st T U X (PolicyEngine.policyWindow p) = Returned u /\
        JS.gt (u + c) (Policy.limit_value p) = true).
Proof.
  split; [|split].
  - intros p rest u D F EU. simpl. rewrite EU. simpl.
    rewrite (onBreach_no_fallback p u D F).
    destruct (JS.gt (u + c) (Policy.limit_value p)); reflexivity.
  - intros r s. unfold PolicyEngine.evaluateRequest.
    destruct (PolicyEngine.getApplicablePolicies f st T U X) as [ps|] eqn:EP;
      simpl; [|discriminate].
    destruct ps as [|first more].
    + intros H; inversion H; subst; simpl; discriminate.
    + destruct (PolicyEngine.checkPolicies f e st T U X c (first :: more))
        as [[res|]|] eqn:EC; simpl; try discriminate.
      * intros H Hs. inversion H; subst res.
        destruct (checkPolicies_suggests _ _ _ _ _ _ _ _ _ _ EC Hs)
          as (p & u & Hin & D & F & N & EU & G & A & _).
        destruct (getApplicablePolicies_In _ _ _ _ _ _ p EP Hin) as [Hst Happ].
        split; [exact N|]. split; [exact A|].
        exists p, u. intuition.
      * destruct (PolicyEngine.getCurrentUsage f e st T U X PolicyEngine.Daily);
          simpl; [|discriminate].
        intros H; inversion H; subst; simpl; discriminate.
  - intros r. unfold PolicyEngine.evaluateRequest.
    destruct (PolicyEngine.getApplicablePolicies f st T U X) as [ps|] eqn:EP;
      simpl; [|discriminate].
    destruct ps as [|first more].
    + intros H; inversion H; subst; simpl; discriminate.
    + destruct (PolicyEngine.checkPolicies f e st T U X c (first :: more))
        as [[res|]|] eqn:EC; simpl; try discriminate.
      * intros H Hb. inversion H; subst res.
        destruct (checkPolicies_blocks _ _ _ _ _ _ _ _ _ EC Hb)
          as (p & u & Hin & D & EU & G).
        destruct (getApplicablePolicies_In _ _ _ _ _ _ p EP Hin) as [Hst Happ].
        exists p, u. intuition.
      * destruct (PolicyEngine.getCurrentUsage f e st T U X PolicyEngine.Daily);
          simpl; [|discriminate].
        intros H; inversion H; subst; simpl; discriminate.
Qed.

Lemma C10_downgrade_without_fallback_skipped_witness :
  PolicyEngine.checkPolicies no_faults Demo.utcEnv Cases.skipStore
    Demo.ProCorp Demo.proUser "gpt-4" (3 # 100) [Cases.userNoFallback; Cases.toolDowngrade]
  = PolicyEngine.checkPolicies no_faults Demo.utcEnv Cases.skipStore
      Demo.ProCorp Demo.proUser "gpt-4" (3 # 100) [Cases.toolDowngrade]
  /\ "gpt-3.5-turbo" <> EmptyString.
Proof.
  destruct (C10_downgrade_without_fallback_skipped no_faults Demo.utcEnv
              Cases.skipStore Demo.ProCorp Demo.proUser "gpt-4" (3 # 100))
    as [Hskip [Hsuggested _]].
  split.
  - apply (Hskip Cases.userNoFallback [Cases.toolDowngrade] 0); reflexivity.
  - apply (Hsuggested Cases.downgradedToGpt35 "gpt-3.5-turbo"); reflexivity.
Defined.

(** ** Reading the usage *)

Lemma sumCosts_from_nonneg (l : list UsageEvent.t) (acc : Q) :
  0 <= acc ->
  (forall ev, In ev l -> 0 <= UsageEvent.cost_estimate ev) ->
  0 <= fold_left (fun sum ev => sum + UsageEvent.cost_estimate ev) l acc.
Proof.
  revert acc. induction l as [|ev r IH]; simpl; intros acc Hacc Hl; [exact Hacc|].
  apply IH.
  - assert (0 <= UsageEvent.cost_estimate ev) by (apply Hl; auto). lra.
  - intros ev' Hin. apply Hl. auto.
Qed.

Lemma maybeSingle_In {A : Type} (l : list A) (a : A) :
  data (maybeSingle l) = Some a -> In a l.
Proof.
  destruct l as [|x [|y r]]; simpl; try discriminate.
  intros H; inversion H; auto.
Qed.

(** Without faults the usage read always returns, and what it returns is
    not negative when no stored cost is. *)
Lemma getCurrentUsage_returns (e : Date.Env) (st : Store) (T U X : string)
    (w : PolicyEngine.Window) :
  exists u,
    PolicyEngine.getCurrentUsage no_faults e st T U X w = Returned u /\
    (NonNegativeLedger st -> 0 <= u).
Proof.
  unfold PolicyEngine.getCurrentUsage. rewrite await_no_faults. simpl.
  destruct (data (maybeSingle
             (filter (PolicyEngine.usageRow T w (PolicyEngine.getPeriodStart e w))
                     (usage_aggregates st)))) as [a|] eqn:EA.
  - exists (UsageAggregate.total_cost a). split; [reflexivity|].
    intros [Hagg _]. apply Hagg.
    apply maybeSingle_In in EA. apply filter_In in EA. tauto.
  - destruct (filter (PolicyEngine.usageEvent T (PolicyEngine.getPeriodStart e w))
                     (usage_events st)) as [|ev r] eqn:EE.
    + exists 0. split; [reflexivity | intros _; lra].
    + exists (PolicyEngine.sumCosts (ev :: r)). split; [reflexivity|].
      intros [_ Hev]. unfold PolicyEngine.sumCosts.
      apply sumCosts_from_nonneg; [lra|].
      intros ev' Hin. apply Hev. rewrite <- EE in Hin.
      apply filter_In in Hin. tauto.
Qed.

Lemma checkPolicies_app (f : Faults) (e : Date.Env) (st : Store)
    (T U X : string) (c : Q) (pre l : list Policy.t) :
  PolicyEngine.checkPolicies f e st T U X c pre = Returned None ->
  PolicyEngine.checkPolicies f e st T U X c (pre ++ l)%list
  = PolicyEngine.checkPolicies f e st T U X c l.
Proof.
  induction pre as [|p r IH]; simpl; [reflexivity|].
  destruct (PolicyEngine.getCurrentUsage f e st T U X (PolicyEngine.policyWindow p));
    simpl; [|discriminate].
  destruct (if JS.gt (a + c) (Policy.limit_value p)
            then PolicyEngine.onBreach p a else None); [discriminate|].
  exact IH.
Qed.

(** C4 (amended). A per_request policy with limit_value 0, decision
    downgrade and a fallback tool is counted in the daily window; for a
    request of positive cost, on a ledger without negative costs, it is
    breached whatever the current usage is, and when no policy evaluated
    before it fires the evaluation returns allowed = true with
    suggested_tool = that fallback_tool_id. *)
Theorem C4_zero_per_request_limit_downgrades
    (e : Date.Env) (st : Store) (T U X : string) (c : Q)
    (pre post : list Policy.t) (p : Policy.t) (fb : string) :
  PolicyEngine.getApplicablePolicies no_faults st T U X = Returned (pre ++ p :: post)%list ->
  PolicyEngine.checkPolicies no_faults e st T U X c pre = Returned None ->
  Policy.limit_type p = per_request ->
  Policy.limit_value p == 0 ->
  Policy.decision p = downgrade ->
  Policy.fallback_tool_id p = Some fb ->
  fb <> EmptyString ->
  0 < c ->
  NonNegativeLedger st ->
  PolicyEngine.policyWindow p = PolicyEngine.Daily /\
  exists u,
    PolicyEngine.getCurrentUsage no_faults e st T U X PolicyEngine.Daily = Returned u /\
    JS.gt (u + c) (Policy.limit_value p) = true /\
    PolicyEngine.evaluateRequest no_faults e st T U X c
    = Returned (PolicyEvaluationResult.mk true (DowngradingTo fb) (Some fb) u
                  (JS.Fin (Policy.limit_value p))).
Proof.
  intros EP Hpre LT LV D F N Hc NN.
  assert (W : PolicyEngine.policyWindow p = PolicyEngine.Daily)
    by (unfold PolicyEngine.policyWindow; rewrite LT; reflexivity).
  split; [exact W|].
  destruct (getCurrentUsage_returns e st T U X PolicyEngine.Daily) as (u & EU & Hu).
  specialize (Hu NN).
  assert (G : JS.gt (u + c) (Policy.limit_value p) = true)
    by (apply gt_true; rewrite LV; lra).
  exists u. split; [exact EU|]. split; [exact G|].
  unfold PolicyEngine.evaluateRequest. rewrite EP. simpl.
  assert (EC : PolicyEngine.checkPolicies no_faults e st T U X c (pre ++ p :: post)%list
               = Returned (Some (PolicyEvaluationResult.mk true (DowngradingTo fb)
                                   (Some fb) u (JS.Fin (Policy.limit_value p))))).
  { rewrite (checkPolicies_app _ _ _ _ _ _ _ _ _ Hpre). simpl.
    rewrite W, EU. simpl. rewrite G.
    unfold PolicyEngine.onBreach. rewrite D, F.
    apply truthy_nonempty in N. rewrite N. reflexivity. }
  destruct (pre ++ p :: post)%list as [|first more] eqn:EL.
  - destruct pre; discriminate.
  - rewrite EC. reflexivity.
Qed.

Lemma C4_zero_per_request_limit_downgrades_witness :
  PolicyEngine.policyWindow Cases.toolDowngrade = PolicyEngine.Daily /\
  exists u,
    PolicyEngine.getCurrentUsage no_faults Demo.utcEnv Cases.scopedStore
      Demo.ProCorp Demo.proAdmin "gpt-4" PolicyEngine.Daily = Returned u /\
    JS.gt (u + (3 # 100)) (Policy.limit_value Cases.toolDowngrade) = true /\
    PolicyEngine.evaluateRequest no_faults Demo.utcEnv Cases.scopedStore
      Demo.ProCorp Demo.proAdmin "gpt-4" (3 # 100)
    = Returned (PolicyEvaluationResult.mk true (DowngradingTo "gpt-3.5-turbo")
                  (Some "gpt-3.5-turbo") u
                  (JS.Fin (Policy.limit_value Cases.toolDowngrade))).
Proof.
  apply (C4_zero_per_request_limit_downgrades Demo.utcEnv Cases.scopedStore
           Demo.ProCorp Demo.proAdmin "gpt-4" (3 # 100) [] []
           Cases.toolDowngrade "gpt-3.5-turbo").
  - reflexivity.
  - reflexivity.
  - reflexivity.
  - reflexivity.
  - reflexivity.
  - reflexivity.
  - discriminate.
  - reflexivity.
  - split; simpl; intros x [].
Defined.

(** C4, as stated, fails: gpt-4 carries the per_request / 0 / downgrade
    policy and the request has a positive cost, but a daily deny policy on
    the same tool is evaluated first and the request is denied. *)
Lemma C4_counterexample :
  In Cases.toolDowngrade (policies Cases.twoToolPolicies) /\
  PolicyEngine.applicable Demo.ProCorp Demo.proUser "gpt-4" Cases.toolDowngrade = true /\
  Policy.scope Cases.toolDowngrade = scope_tool /\
  Policy.limit_type Cases.toolDowngrade = per_request /\
  Policy.limit_value Cases.toolDowngrade = 0 /\
  Policy.decision Cases.toolDowngrade = downgrade /\
  Policy.fallback_tool_id Cases.toolDowngrade = Some "gpt-3.5-turbo" /\
  0 < 3 # 100 /\
  PolicyEngine.evaluateRequest no_faults Demo.utcEnv Cases.twoToolPolicies
    Demo.ProCorp Demo.proUser "gpt-4" (3 # 100)
  = Returned Cases.deniedAtZero /\
  PolicyEvaluationResult.allowed Cases.deniedAtZero = false /\
  PolicyEvaluationResult.suggested_tool Cases.deniedAtZero = None.
Proof.
  repeat split; try reflexivity. simpl. auto.
Qed.

(** *** The order of the applicable policies *)

Lemma scopeDescending_total (a b : Policy.t) :
  PolicyEngine.scopeDescending a b = false -> PolicyEngine.scopeDescending b a = true.
Proof.
  unfold PolicyEngine.scopeDescending.
  destruct (Policy.scope a), (Policy.scope b); simpl; congruence.
Qed.

Lemma scopeDescending_trans (a b c : Policy.t) :
  PolicyEngine.scopeDescending a b = true ->
  PolicyEngine.scopeDescending b c = true ->
  PolicyEngine.scopeDescending a c = true.
Proof.
  unfold PolicyEngine.scopeDescending.
  destruct (Policy.scope a), (Policy.scope b), (Policy.scope c); simpl; congruence.
Qed.

Lemma insertRow_sorted (x : Policy.t) (l : list Policy.t) :
  StronglySorted (fun a b => PolicyEngine.scopeDescending a b = true) l ->
  StronglySorted (fun a b => PolicyEngine.scopeDescending a b = true)
    (insertRow PolicyEngine.scopeDescending x l).
Proof.
  induction l as [|y r IH]; intros S; simpl.
  - constructor; constructor.
  - inversion S as [|? ? Sr Fy]; subst.
    destruct (PolicyEngine.scopeDescending x y) eqn:E.
    + constructor; [exact S|]. constructor; [exact E|].
      rewrite Forall_forall in *. intros z Hz.
      exact (scopeDescending_trans x y z E (Fy z Hz)).
    + constructor; [apply IH; exact Sr|].
      rewrite Forall_forall in *. intros z Hz.
      apply In_insertRow in Hz. destruct Hz as [->|Hz].
      * apply scopeDescending_total. exact E.
      * apply Fy. exact Hz.
Qed.

Lemma orderBy_sorted (l : list Policy.t) :
  StronglySorted (fun a b => PolicyEngine.scopeDescending a b = true)
    (orderBy PolicyEngine.scopeDescending l).
Proof.
  induction l as [|x r IH]; simpl; [constructor|].
  apply insertRow_sorted. exact IH.
Qed.

(** C2. The applicable policies always come out ordered by the scope text,
    greatest first: user before tool before tenant. On the failing input
    the tool-scope downgrade policy and the user-scope deny policy are both
    breached; the evaluator lists the user-scope policy first and acts on
    it: the request is denied, not downgraded. *)
Theorem C2_user_scope_evaluated_before_tool_scope :
  (forall st T U X,
     exists ps,
       PolicyEngine.getApplicablePolicies no_faults st T U X = Returned ps /\
       StronglySorted (fun a b => PolicyEngine.scopeDescending a b = true) ps) /\
  (forall a b,
     PolicyEngine.scopeDescending a b
     = match Policy.scope a, Policy.scope b with
       | scope_user, _ => true
       | scope_tool, scope_user => false
       | scope_tool, _ => true
       | scope_tenant, scope_tenant => true
       | scope_tenant, _ => false
       end) /\
  PolicyEngine.getApplicablePolicies no_faults Cases.scopedStore
    Demo.ProCorp Demo.proUser "gpt-4"
  = Returned [Cases.userDeny; Cases.toolDowngrade] /\
  PolicyEngine.evaluateRequest no_faults Demo.utcEnv Cases.scopedStore
    Demo.ProCorp Demo.proUser "gpt-4" (3 # 100)
  = Returned Cases.deniedAtZero.
Proof.
  split; [|split; [|split; reflexivity]].
  - intros st T U X. eexists. split; [reflexivity|]. apply orderBy_sorted.
  - intros a b. unfold PolicyEngine.scopeDescending.
    destruct (Policy.scope a), (Policy.scope b); reflexivity.
Qed.

(** ** Failures of the store *)

(** C1, as stated, fails: with a one-cent daily limit the request is denied
    when the store answers, and allowed when the policy fetch answers with
    an error. *)
Lemma C1_counterexample :
  Cases.policiesFail AtPolicies = ErrorReply /\
  CheckAndRouteOutput.decision
    (fst (checkAndRoute no_faults Demo.utcEnv Cases.tightStore Cases.gpt4Request))
  = denied /\
  CheckAndRouteOutput.decision
    (fst (checkAndRoute Cases.policiesFail Demo.utcEnv Cases.tightStore Cases.gpt4Request))
  = allowed.
Proof.
  repeat split; reflexivity.
Qed.

(** C1 (amended). Whatever is thrown inside the router is caught at its
    boundary: the outcome is denied with cost_estimate 0 and
    remaining_budget 0 and the store is left as it was. An error answer
    while looking up the tool gives a denial, and one while looking up the
    tenant closes the plan gate. An error answer while fetching the policies
    is taken as the empty policy list, so that the evaluation allows by
    default with an unbounded limit, and a usage read whose two accesses
    answer with an error counts as usage 0. A tool lookup or a policy fetch
    that throws ends in the denial of the boundary. *)
Theorem C1_failures_inside_the_router
    (f : Faults) (e : Date.Env) (st : Store) (input : CheckAndRouteInput.t) :
  (route f e st input = Raised ->
   checkAndRoute f e st input
   = (CheckAndRouteOutput.mk denied (CheckAndRouteInput.tool_id input) None 0
        (JS.Fin 0) ErrorProcessing, st)) /\
  (f AtGetTool = ErrorReply ->
   checkAndRoute f e st input
   = (CheckAndRouteOutput.mk denied (CheckAndRouteInput.tool_id input) None 0
        (JS.Fin 0) (ToolNotFound (CheckAndRouteInput.tool_id input)), st)) /\
  (f AtPlanTenant = ErrorReply -> f AtPlanTool <> Throws ->
   forall T X, PolicyEngine.isToolAllowedForPlan f st T X = Returned false) /\
  (f AtPolicies = ErrorReply ->
   forall T U X c,
     PolicyEngine.evaluateRequest f e st T U X c
     = Returned (PolicyEvaluationResult.mk true NoPoliciesDefined None 0 JS.Infinity)) /\
  (f AtUsageAggregate = ErrorReply -> f AtUsageEvents = ErrorReply ->
   forall T U X w, PolicyEngine.getCurrentUsage f e st T U X w = Returned 0) /\
  (f AtGetTool = Throws ->
   checkAndRoute f e st input
   = (CheckAndRouteOutput.mk denied (CheckAndRouteInput.tool_id input) None 0
        (JS.Fin 0) ErrorProcessing, st)) /\
  (f AtPolicies = Throws ->
   forall T U X c, PolicyEngine.evaluateRequest f e st T U X c = Raised).
Proof.
  repeat split.
  - intros H. unfold checkAndRoute. rewrite H. reflexivity.
  - intros H. unfold checkAndRoute, route, DatabaseService.getTool, await.
    rewrite H. reflexivity.
  - intros H1 H2 T X. unfold PolicyEngine.isToolAllowedForPlan, await.
    rewrite H1. simpl. destruct (f AtPlanTool); simpl; congruence.
  - intros H T U X c.
    unfold PolicyEngine.evaluateRequest, PolicyEngine.getApplicablePolicies, await.
    rewrite H. reflexivity.
  - intros H1 H2 T U X w. unfold PolicyEngine.getCurrentUsage, await.
    rewrite H1. simpl. rewrite H2. reflexivity.
  - intros H. unfold checkAndRoute, route, DatabaseService.getTool, await.
    rewrite H. reflexivity.
  - intros H T U X c.
    unfold PolicyEngine.evaluateRequest, PolicyEngine.getApplicablePolicies, await.
    rewrite H. reflexivity.
Qed.

Lemma C1_failures_inside_the_router_witness :
  checkAndRoute Cases.getToolThrows Demo.utcEnv Cases.tightStore Cases.gpt4Request
  = (CheckAndRouteOutput.mk denied "gpt-4" None 0 (JS.Fin 0) ErrorProcessing,
     Cases.tightStore) /\
  PolicyEngine.evaluateRequest Cases.policiesFail Demo.utcEnv Cases.tightStore
    Demo.ProCorp Demo.proUser "gpt-4" (3 # 100)
  = Returned (PolicyEvaluationResult.mk true NoPoliciesDefined None 0 JS.Infinity).
Proof.
  split.
  - apply (proj1 (C1_failures_inside_the_router Cases.getToolThrows Demo.utcEnv
                    Cases.tightStore Cases.gpt4Request)).
    reflexivity.
  - apply (proj1 (proj2 (proj2 (proj2
             (C1_failures_inside_the_router Cases.policiesFail Demo.utcEnv
                Cases.tightStore Cases.gpt4Request))))).
    reflexivity.
Defined.

(** ** What the ledger writes *)

Lemma upsertAggregate_events (f : Faults) (st st' : Store) (T U X : string)
    (pt : PeriodType) (ps : Date.DateString) (c n : Q) :
  DatabaseService.upsertAggregate f st T U X pt ps c n = Returned st' ->
  usage_events st' = usage_events st /\ tenants st' = tenants st /\
  tools st' = tools st /\ policies st' = policies st.
Proof.
  unfold DatabaseService.upsertAggregate, await.
  destruct (f AtSelectAggregate); simpl; try discriminate.
  - destruct (data (DatabaseService.selectExisting (usage_aggregates st) T U X pt ps)).
    + destruct (f AtUpdateAggregate); intros H; inversion H; subst; simpl; auto.
    + destruct (f AtInsertAggregate); intros H; inversion H; subst; simpl; auto.
  - destruct (f AtInsertAggregate); intros H; inversion H; subst; simpl; auto.
Qed.

Lemma updateAggregates_events (f : Faults) (e : Date.Env) (st : Store)
    (T U X : string) (c n : Q) :
  usage_events (fst (DatabaseService.updateAggregates f e st T U X c n))
  = usage_events st.
Proof.
  unfold DatabaseService.updateAggregates. cbv zeta.
  destruct (DatabaseService.upsertAggregate f st T U X day
              (DatabaseService.dayKey (Date.atUpdate e)) c n) as [st1|] eqn:E1;
    [|reflexivity].
  apply upsertAggregate_events in E1. destruct E1 as [E1 _].
  destruct (DatabaseService.upsertAggregate f st1 T U X month
              (DatabaseService.monthKey (Date.atUpdate e)) c n) as [st2|] eqn:E2;
    simpl; [|exact E1].
  apply upsertAggregate_events in E2. destruct E2 as [E2 _]. congruence.
Qed.

Lemma recordUsage_events (f : Faults) (e : Date.Env) (st : Store)
    (ev : UsageEvent.t) (r : option UsageEvent.t * Store) :
  DatabaseService.recordUsage f e st ev = Returned r ->
  f AtInsertEvent = NoFault ->
  usage_events (snd r) = (usage_events st ++ [ev])%list.
Proof.
  unfold DatabaseService.recordUsage. intros H NF. rewrite NF in H.
  inversion H; subst; simpl. rewrite updateAggregates_events. reflexivity.
Qed.

Lemma sub_zero (a : JS.number) : JS.eq a (JS.sub a 0).
Proof. destruct a; simpl; [lra | exact I]. Qed.

Lemma eq_refl_number (a : JS.number) : JS.eq a a.
Proof. destruct a; simpl; [lra | exact I]. Qed.

(** C5. For a request that reaches the policy evaluation and is answered,
    remaining_budget = limit - current_usage - charged, with the limit and
    usage of the evaluation, where the charged cost is 0 when denied, the
    cost re-estimated at the fallback tool's price when downgraded (the
    original estimate if that tool cannot be fetched), and the estimate for
    the requested tool when allowed; it is the cost of the usage event the
    router records. *)
Theorem C5_remaining_budget
    (f : Faults) (e : Date.Env) (st st' : Store) (input : CheckAndRouteInput.t)
    (out : CheckAndRouteOutput.t) (tool : Tool.t) :
  let tenant_id := JS.trim (CheckAndRouteInput.tenant_id input) in
  let user_id := JS.trim (CheckAndRouteInput.user_id input) in
  let tool_id := CheckAndRouteInput.tool_id input in
  let units := CheckAndRouteInput.estimated_units input in
  route f e st input = Returned (out, st') ->
  DatabaseService.getTool f st tool_id = Returned (Some tool) ->
  PolicyEngine.isToolAllowedForPlan f st tenant_id tool_id = Returned true ->
  exists (evaluation : PolicyEvaluationResult.t) (charged : Q),
    PolicyEngine.evaluateRequest f e st tenant_id user_id tool_id
      (CostEstimator.estimateCost tool units) = Returned evaluation /\
    JS.eq (CheckAndRouteOutput.remaining_budget out)
          (JS.sub (JS.sub (PolicyEvaluationResult.limit evaluation)
                          (PolicyEvaluationResult.current_usage evaluation))
                  charged) /\
    match CheckAndRouteOutput.decision out with
    | denied => charged = 0
    | downgraded =>
        exists fb,
          PolicyEvaluationResult.suggested_tool evaluation = Some fb /\
          CheckAndRouteOutput.final_tool_used out = fb /\
          ((exists ft, DatabaseService.getTool f st fb = Returned (Some ft) /\
                       charged = CostEstimator.estimateCost ft units) \/
           (DatabaseService.getTool f st fb = Returned None /\
            charged = CostEstimator.estimateCost tool units))
    | allowed => charged = CostEstimator.estimateCost tool units
    end /\
    (f AtInsertEvent = NoFault ->
     exists ev,
       usage_events st' = (usage_events st ++ [ev])%list /\
       UsageEvent.cost_estimate ev = charged /\
       UsageEvent.decision ev = CheckAndRouteOutput.decision out).
Proof.
  intros tenant_id user_id tool_id units R G A.
  unfold route in R. fold tenant_id user_id tool_id units in R.
  rewrite G in R. simpl in R. rewrite A in R. simpl in R.
  destruct (PolicyEngine.evaluateRequest f e st tenant_id user_id tool_id
              (CostEstimator.estimateCost tool units)) as [ev|] eqn:EV;
    simpl in R; [|discriminate].
  exists ev.
  destruct (PolicyEvaluationResult.allowed ev) eqn:AL; simpl in R.
  - destruct (JS.truthyOpt (PolicyEvaluationResult.suggested_tool ev)) eqn:TS.
    + destruct (PolicyEvaluationResult.suggested_tool ev) as [fb|] eqn:SG;
        [|discriminate].
      destruct (DatabaseService.getTool f st fb) as [ft|] eqn:GF;
        simpl in R; [|discriminate].
      match type of R with
      | context [DatabaseService.recordUsage f e st ?x] =>
          destruct (DatabaseService.recordUsage f e st x) as [rec|] eqn:RU;
            simpl in R; [|discriminate]
      end.
      inversion R; subst out st'; simpl.
      exists (match ft with
              | Some t => CostEstimator.estimateCost t units
              | None => CostEstimator.estimateCost tool units
              end).
      split; [reflexivity|]. split; [apply eq_refl_number|]. split.
      * exists fb. split; [reflexivity|]. split; [reflexivity|].
        destruct ft as [t|]; [left; exists t; auto | right; auto].
      * intros NF. eexists. split; [exact (recordUsage_events _ _ _ _ _ RU NF)|].
        split; reflexivity.
    + match type of R with
      | context [DatabaseService.recordUsage f e st ?x] =>
          destruct (DatabaseService.recordUsage f e st x) as [rec|] eqn:RU;
            simpl in R; [|discriminate]
      end.
      inversion R; subst out st'; simpl.
      exists (CostEstimator.estimateCost tool units).
      split; [reflexivity|]. split; [apply eq_refl_number|]. split; [reflexivity|].
      intros NF. eexists. split; [exact (recordUsage_events _ _ _ _ _ RU NF)|].
      split; reflexivity.
  - match type of R with
    | context [DatabaseService.recordUsage f e st ?x] =>
        destruct (DatabaseService.recordUsage f e st x) as [rec|] eqn:RU;
          simpl in R; [|discriminate]
    end.
    inversion R; subst out st'; simpl.
    exists 0.
    split; [reflexivity|]. split; [apply sub_zero|]. split; [reflexivity|].
    intros NF. eexists. split; [exact (recordUsage_events _ _ _ _ _ RU NF)|].
    split; reflexivity.
Qed.

Lemma C5_remaining_budget_witness :
  let served := checkAndRoute no_faults Demo.utcEnv Demo.demoStore Cases.gpt4Request in
  exists (evaluation : PolicyEvaluationResult.t) (charged : Q),
    PolicyEngine.evaluateRequest no_faults Demo.utcEnv Demo.demoStore
      Demo.ProCorp Demo.proUser "gpt-4" (CostEstimator.estimateCost Cases.gpt4 1000)
    = Returned evaluation /\
    JS.eq (CheckAndRouteOutput.remaining_budget (fst served))
          (JS.sub (JS.sub (PolicyEvaluationResult.limit evaluation)
                          (PolicyEvaluationResult.current_usage evaluation))
                  charged) /\
    match CheckAndRouteOutput.decision (fst served) with
    | denied => charged = 0
    | downgraded =>
        exists fb,
          PolicyEvaluationResult.suggested_tool evaluation = Some fb /\
          CheckAndRouteOutput.final_tool_used (fst served) = fb /\
          ((exists ft, DatabaseService.getTool no_faults Demo.demoStore fb
                       = Returned (Some ft) /\
                       charged = CostEstimator.estimateCost ft 1000) \/
           (DatabaseService.getTool no_faults Demo.demoStore fb = Returned None /\
            charged = CostEstimator.estimateCost Cases.gpt4 1000))
    | allowed => charged = CostEstimator.estimateCost Cases.gpt4 1000
    end /\
    (no_faults AtInsertEvent = NoFault ->
     exists ev,
       usage_events (snd served) = (usage_events Demo.demoStore ++ [ev])%list /\
       UsageEvent.cost_estimate ev = charged /\
       UsageEvent.decision ev = CheckAndRouteOutput.decision (fst served)).
Proof.
  intros served.
  apply (C5_remaining_budget no_faults Demo.utcEnv Demo.demoStore (snd served)
           Cases.gpt4Request (fst served) Cases.gpt4); reflexivity.
Defined.

(** ** The plan gate *)

Lemma orderBy_nil {A : Type} (before : A -> A -> bool) (l : list A) :
  orderBy before l = [] -> l = [].
Proof.
  destruct l as [|x r]; [reflexivity|]. intros H.
  assert (Hin : In x (orderBy before (x :: r))) by (apply In_orderBy; left; reflexivity).
  rewrite H in Hin. destruct Hin.
Qed.

(** The first row of ORDER BY cost_per_unit is a row of least cost. *)
Lemma cheapest_first (l : list Tool.t) (x : Tool.t) (r : list Tool.t) :
  orderBy PolicyEngine.cheaperFirst l = x :: r ->
  In x l /\ forall y, In y l -> Tool.cost_per_unit x <= Tool.cost_per_unit y.
Proof.
  revert x r. induction l as [|a l' IH]; simpl; [discriminate|].
  intros x r. destruct (orderBy PolicyEngine.cheaperFirst l') as [|z s] eqn:EO.
  - apply orderBy_nil in EO. subst l'. simpl. intros H; inversion H; subst.
    split; [auto|]. intros y [<-|[]]. lra.
  - destruct (IH z s eq_refl) as [Hz Hmin]. simpl.
    unfold PolicyEngine.cheaperFirst at 1.
    destruct (Qle_bool (Tool.cost_per_unit a) (Tool.cost_per_unit z)) eqn:E.
    + apply Qle_bool_iff in E. intros H; inversion H; subst.
      split; [auto|]. intros y [<-|Hy]; [lra|].
      specialize (Hmin y Hy). lra.
    + assert (Hlt : Tool.cost_per_unit z < Tool.cost_per_unit a).
      { apply Qnot_le_lt. intro Hle. apply Qle_bool_iff in Hle. congruence. }
      intros H; inversion H; subst.
      split; [auto|]. intros y [<-|Hy]; [lra|]. apply Hmin. exact Hy.
Qed.

(** What the plan gate answers when it is closed: the first of the other
    tools of the category in the order of their costs, when its id is not
    empty. *)
Lemma plan_gate_closed
    (e : Date.Env) (st : Store) (input : CheckAndRouteInput.t)
    (tenant : Tenant.t) (tool : Tool.t) (ps : list Policy.t)
    (events : list UsageEvent.t) (aggs : list UsageAggregate.t) :
  let tenant_id := JS.trim (CheckAndRouteInput.tenant_id input) in
  let tool_id := CheckAndRouteInput.tool_id input in
  let alternatives :=
    filter (fun t => Category_eqb (Tool.category t) (Tool.category tool) &&
                     negb (String.eqb (Tool.id t) tool_id)) (tools st) in
  filter (fun t => String.eqb (Tenant.id t) tenant_id) (tenants st) = [tenant] ->
  Tenant.plan tenant = free ->
  filter (fun t => String.eqb (Tool.id t) tool_id) (tools st) = [tool] ->
  Tool.tier tool = premium ->
  checkAndRoute no_faults e (mkStore (tenants st) (tools st) ps events aggs) input
  = (match orderBy PolicyEngine.cheaperFirst alternatives with
     | alt :: _ =>
         if JS.truthy (Tool.id alt)
         then CheckAndRouteOutput.mk downgraded (Tool.id alt) None 0 (JS.Fin 0)
                (NotOnPlanDowngraded tool_id (Tool.id alt))
         else CheckAndRouteOutput.mk denied tool_id None 0 (JS.Fin 0) (NotOnPlan tool_id)
     | [] => CheckAndRouteOutput.mk denied tool_id None 0 (JS.Fin 0) (NotOnPlan tool_id)
     end,
     mkStore (tenants st) (tools st) ps events aggs).
Proof.
  intros tenant_id tool_id alternatives HT HP HO HR.
  unfold checkAndRoute, route, DatabaseService.getTool,
    PolicyEngine.isToolAllowedForPlan, PolicyEngine.getSuggestedFallback,
    PolicyEngine.alternativesOf.
  rewrite !await_no_faults. cbn [tools tenants].
  fold tenant_id tool_id. rewrite HT, HO. cbn [bind single data error].
  rewrite !await_no_faults. cbn [bind single data error].
  rewrite HP, HR. cbn [Plan_eqb Tier_eqb andb negb bind].
  rewrite ?await_no_faults. cbn [bind single data error rows].
  fold alternatives.
  destruct (orderBy PolicyEngine.cheaperFirst alternatives) as [|alt more];
    [reflexivity|].
  cbn [firstn data bind].
  destruct (JS.truthy (Tool.id alt)); reflexivity.
Qed.

(** C6, as stated, fails: the catalog holds GPT-4 and another llm tool
    whose id is the empty string; the free-plan tenant asks for GPT-4, an
    alternative exists, and the request is denied. *)
Lemma C6_counterexample :
  let out := fst (checkAndRoute no_faults Demo.utcEnv Cases.namelessTool
                    Cases.freeCoGpt4Request) in
  filter (fun t => Category_eqb (Tool.category t) (Tool.category Cases.gpt4) &&
                   negb (String.eqb (Tool.id t) "gpt-4")) (tools Cases.namelessTool)
  <> [] /\
  CheckAndRouteOutput.decision out = denied.
Proof.
  split; [discriminate | reflexivity].
Qed.

(** C6 (amended). A free-plan tenant asking for a premium-tier tool is
    stopped at the plan gate, before any cost is estimated or any policy
    read: the answer does not depend on the policies or on the ledger, the
    store is left untouched (no usage event), cost_estimate is 0. When
    there is no other tool of the same category the request is denied;
    when there is one, a tool of least cost among them is found, and the
    request is downgraded to it when its id is not empty and denied when it
    is (the router tests the id it is given for truthiness). *)
Theorem C6_plan_gate
    (e : Date.Env) (st : Store) (input : CheckAndRouteInput.t)
    (tenant : Tenant.t) (tool : Tool.t) :
  let tenant_id := JS.trim (CheckAndRouteInput.tenant_id input) in
  let tool_id := CheckAndRouteInput.tool_id input in
  let alternatives :=
    filter (fun t => Category_eqb (Tool.category t) (Tool.category tool) &&
                     negb (String.eqb (Tool.id t) tool_id)) (tools st) in
  let out := fst (checkAndRoute no_faults e st input) in
  filter (fun t => String.eqb (Tenant.id t) tenant_id) (tenants st) = [tenant] ->
  Tenant.plan tenant = free ->
  filter (fun t => String.eqb (Tool.id t) tool_id) (tools st) = [tool] ->
  Tool.tier tool = premium ->
  snd (checkAndRoute no_faults e st input) = st /\
  CheckAndRouteOutput.cost_estimate out = 0 /\
  (alternatives = [] ->
   CheckAndRouteOutput.decision out = denied /\
   CheckAndRouteOutput.final_tool_used out = tool_id) /\
  (alternatives <> [] ->
   exists alt,
     In alt alternatives /\
     (forall a, In a alternatives -> Tool.cost_per_unit alt <= Tool.cost_per_unit a) /\
     (Tool.id alt <> EmptyString ->
      CheckAndRouteOutput.decision out = downgraded /\
      CheckAndRouteOutput.final_tool_used out = Tool.id alt) /\
     (Tool.id alt = EmptyString ->
      CheckAndRouteOutput.decision out = denied /\
      CheckAndRouteOutput.final_tool_used out = tool_id)) /\
  (forall ps events aggs,
     fst (checkAndRoute no_faults e (mkStore (tenants st) (tools st) ps events aggs) input)
     = out).
Proof.
  intros tenant_id tool_id alternatives out HT HP HO HR.
  pose proof (fun ps events aggs =>
                plan_gate_closed e st input tenant tool ps events aggs HT HP HO HR)
    as Gate.
  cbv zeta in Gate. fold tenant_id tool_id alternatives in Gate.
  assert (Here : checkAndRoute no_faults e st input
                 = checkAndRoute no_faults e
                     (mkStore (tenants st) (tools st) (policies st)
                        (usage_events st) (usage_aggregates st)) input)
    by (destruct st; reflexivity).
  assert (Same : mkStore (tenants st) (tools st) (policies st)
                   (usage_events st) (usage_aggregates st) = st)
    by (destruct st; reflexivity).
  unfold out. rewrite Here, Gate. cbn [fst snd].
  split; [exact Same|].
  destruct (orderBy PolicyEngine.cheaperFirst alternatives) as [|alt more] eqn:EO.
  - pose proof (orderBy_nil _ _ EO) as Hnil.
    split; [reflexivity|]. split; [auto|].
    split; [intros NE; contradiction|].
    intros ps events aggs. rewrite Gate, ?EO. reflexivity.
  - destruct (cheapest_first _ _ _ EO) as [Hin Hmin].
    split; [destruct (JS.truthy (Tool.id alt)); reflexivity|].
    split; [intros Hnil; rewrite Hnil in Hin; destruct Hin|].
    split.
    + intros _. exists alt. split; [exact Hin|]. split; [exact Hmin|]. split.
      * intros NE. apply truthy_nonempty in NE. rewrite NE. split; reflexivity.
      * intros E. rewrite E. split; reflexivity.
    + intros ps events aggs. rewrite Gate, ?EO. reflexivity.
Qed.

Lemma C6_plan_gate_witness :
  let served := checkAndRoute no_faults Demo.utcEnv Demo.demoStore Cases.freeCoGpt4Request in
  snd served = Demo.demoStore /\
  CheckAndRouteOutput.cost_estimate (fst served) = 0 /\
  CheckAndRouteOutput.decision (fst served) = downgraded /\
  CheckAndRouteOutput.final_tool_used (fst served) = "claude-3-haiku".
Proof.
  intros served.
  destruct (C6_plan_gate Demo.utcEnv Demo.demoStore Cases.freeCoGpt4Request
              Cases.freeCo Cases.gpt4 eq_refl eq_refl eq_refl eq_refl)
    as (S & C & _ & _ & _).
  split; [exact S|]. split; [exact C|]. split; reflexivity.
Defined.

(** ** The calendar *)

(** The calendar of one era, day by day: the year of the era and the month
    are in range, the day of the month is at least 1, the pieces add up to
    the day, and the first day of its month is a day of the same era, year
    and month, numbered 1. *)
Lemma era_day (doe : Z) :
  (0 <= doe < 146097)%Z ->
  let yoe := Date.yearOfEra doe in
  let doy := Date.dayOfYear doe in
  let mp := Date.monthIndex doy in
  let d := Date.dayOfMonth doy in
  let first := (doe - (d - 1))%Z in
  (0 <= yoe < 400)%Z /\ (0 <= mp < 12)%Z /\ (1 <= d)%Z /\
  (yoe * 365 + yoe / 4 - yoe / 100 + ((153 * mp + 2) / 5 + d - 1) = doe)%Z /\
  (0 <= first)%Z /\ Date.yearOfEra first = yoe /\
  Date.monthIndex (Date.dayOfYear first) = mp /\
  Date.dayOfMonth (Date.dayOfYear first) = 1%Z.
Proof.
  intros H yoe doy mp d first.
  assert (Hy : (0 <= yoe < 400)%Z)
    by (unfold yoe, Date.yearOfEra; Z.to_euclidean_division_equations; lia).
  assert (Hdoy : (0 <= doy <= 365)%Z)
    by (unfold doy, Date.dayOfYear, Date.yearOfEra;
        Z.to_euclidean_division_equations; lia).
  assert (Hm : (0 <= mp < 12)%Z)
    by (unfold mp, Date.monthIndex; Z.to_euclidean_division_equations; lia).
  assert (Hd : (1 <= d)%Z)
    by (unfold d, Date.dayOfMonth, mp, Date.monthIndex;
        Z.to_euclidean_division_equations; lia).
  assert (Eq : (yoe * 365 + yoe / 4 - yoe / 100 + ((153 * mp + 2) / 5 + d - 1) = doe)%Z)
    by (unfold d, Date.dayOfMonth; fold mp; unfold doy, Date.dayOfYear; fold yoe; lia).
  assert (Hf : (0 <= first)%Z).
  { unfold first. unfold d, Date.dayOfMonth. fold mp.
    unfold doy, Date.dayOfYear. fold yoe.
    Z.to_euclidean_division_equations; lia. }
  assert (Ef : first = (365 * yoe + yoe / 4 - yoe / 100 + (153 * mp + 2) / 5)%Z)
    by (unfold first; lia).
  assert (Ey : Date.yearOfEra first = yoe).
  { rewrite Ef. unfold Date.yearOfEra at 1.
    generalize dependent yoe. intros yoe. intros.
    clear - Hy Hm. Z.to_euclidean_division_equations; lia. }
  assert (Edoy : Date.dayOfYear first = ((153 * mp + 2) / 5)%Z).
  { unfold Date.dayOfYear. rewrite Ey. lia. }
  assert (Emp : Date.monthIndex ((153 * mp + 2) / 5) = mp).
  { unfold Date.monthIndex. clear - Hm. Z.to_euclidean_division_equations; lia. }
  repeat split; try lia.
  - rewrite Edoy. exact Emp.
  - rewrite Edoy. unfold Date.dayOfMonth. rewrite Emp. lia.
Qed.

Lemma civil_from_days_era (z : Z) :
  exists era doe,
    (z + 719468 = era * 146097 + doe)%Z /\ (0 <= doe < 146097)%Z /\
    Date.civil_from_days z
    = (let mp := Date.monthIndex (Date.dayOfYear doe) in
       let m := if (mp <? 10)%Z then (mp + 3)%Z else (mp - 9)%Z in
       let y := (Date.yearOfEra doe + era * 400)%Z in
       (if (m <=? 2)%Z then (y + 1)%Z else y, m,
        Date.dayOfMonth (Date.dayOfYear doe))).
Proof.
  exists ((z + 719468) / 146097)%Z,
         ((z + 719468) - (z + 719468) / 146097 * 146097)%Z.
  pose proof (Z.div_mod (z + 719468) 146097) as DM.
  pose proof (Z.mod_pos_bound (z + 719468) 146097) as MB.
  split; [lia|]. split; [lia|]. reflexivity.
Qed.

Lemma days_from_civil_of_era (era yoe mp d : Z) :
  (0 <= yoe < 400)%Z -> (0 <= mp < 12)%Z ->
  let m := if (mp <? 10)%Z then (mp + 3)%Z else (mp - 9)%Z in
  let y := (yoe + era * 400)%Z in
  Date.days_from_civil (if (m <=? 2)%Z then (y + 1)%Z else y) m d
  = (era * 146097
     + (yoe * 365 + yoe / 4 - yoe / 100 + ((153 * mp + 2) / 5 + d - 1)) - 719468)%Z.
Proof.
  intros Hy Hm m y. unfold Date.days_from_civil.
  assert (Em : ((m + 9) mod 12 = mp)%Z).
  { unfold m. destruct (mp <? 10)%Z eqn:E.
    - apply Z.ltb_lt in E. replace (mp + 3 + 9)%Z with (mp + 1 * 12)%Z by lia.
      rewrite Z.mod_add by lia. apply Z.mod_small. lia.
    - apply Z.ltb_ge in E. replace (mp - 9 + 9)%Z with mp by lia.
      apply Z.mod_small. lia. }
  assert (Ey : (if (m <=? 2)%Z
                then ((if (m <=? 2)%Z then (y + 1)%Z else y) - 1)%Z
                else (if (m <=? 2)%Z then (y + 1)%Z else y))
               = (yoe + era * 400)%Z).
  { destruct (m <=? 2)%Z; unfold y; lia. }
  rewrite Ey, Em.
  assert (Ee : ((yoe + era * 400) / 400 = era)%Z).
  { rewrite Z.div_add by lia. rewrite Z.div_small by lia. lia. }
  rewrite Ee. replace (yoe + era * 400 - era * 400)%Z with yoe by lia. reflexivity.
Qed.

(** The two conversions are inverse to each other, and the first day of
    the month of a day is the day of the same year and month numbered 1. *)
Lemma civil_roundtrip (z : Z) :
  let '(y, m, d) := Date.civil_from_days z in
  Date.days_from_civil y m d = z /\ (1 <= d)%Z /\ (1 <= m <= 12)%Z /\
  Date.days_from_civil y m 1 = (z - (d - 1))%Z /\
  Date.civil_from_days (z - (d - 1)) = (y, m, 1%Z).
Proof.
  destruct (civil_from_days_era z) as (era & doe & Ez & Hdoe & ->).
  pose proof (era_day doe Hdoe) as Ok. cbv zeta in Ok.
  destruct Ok as ([O1 O2] & [O3 O4] & O5 & O6 & O7 & O8 & O9 & O10).
  cbv zeta.
  set (mp := Date.monthIndex (Date.dayOfYear doe)) in *.
  set (d := Date.dayOfMonth (Date.dayOfYear doe)) in *.
  set (yoe := Date.yearOfEra doe) in *.
  pose proof (days_from_civil_of_era era yoe mp d (conj O1 O2) (conj O3 O4)) as R.
  pose proof (days_from_civil_of_era era yoe mp 1 (conj O1 O2) (conj O3 O4)) as R1.
  cbv zeta in R, R1.
  split; [rewrite R; lia|]. split; [exact O5|].
  split; [destruct (mp <? 10)%Z eqn:E;
          [apply Z.ltb_lt in E | apply Z.ltb_ge in E]; lia|].
  split; [rewrite R1; lia|].
  destruct (civil_from_days_era (z - (d - 1))) as (era' & doe' & Ez' & Hdoe' & ->).
  assert (era' = era /\ doe' = (doe - (d - 1))%Z) as [-> ->] by nia.
  cbv zeta. rewrite O8, O9, O10. reflexivity.
Qed.

(** [MakeDay] of the year and month of a time value and of the date 1 is
    the first day of its month: a day not after it, of the same year and
    month, numbered 1. *)
Lemma first_of_month (x : Z) :
  let first := Date.MakeDay (Date.YearFromTime x) (Date.MonthFromTime x) 1 in
  (first <= Date.Day x)%Z /\
  Date.civil_from_days first
  = (Date.YearFromTime x, (Date.MonthFromTime x + 1)%Z, 1%Z).
Proof.
  unfold Date.MakeDay, Date.YearFromTime, Date.MonthFromTime.
  pose proof (civil_roundtrip (Date.Day x)) as R.
  destruct (Date.civil_from_days (Date.Day x)) as [[y m] d].
  destruct R as (_ & Hd & _ & R1 & R2). cbn [fst snd].
  replace (m - 1 + 1)%Z with m by lia.
  replace (Date.days_from_civil y m 1 + 1 - 1)%Z with (Date.days_from_civil y m 1) by lia.
  rewrite R1. split; [lia | exact R2].
Qed.

(** ** The usage read and the keys of the ledger *)

Lemma Day_MakeDate (d r : Z) :
  (0 <= r < Date.msPerDay)%Z -> Date.Day (Date.MakeDate d r) = d.
Proof.
  intros Hr. unfold Date.Day, Date.MakeDate.
  rewrite Z.add_comm, Z.div_add by (unfold Date.msPerDay; lia).
  rewrite Z.div_small by exact Hr. reflexivity.
Qed.

Lemma TimeWithinDay_range (x : Z) : (0 <= Date.TimeWithinDay x < Date.msPerDay)%Z.
Proof. apply Z.mod_pos_bound. reflexivity. Qed.

Lemma LocalTime_UTC (e : Date.Env) (x : Z) : Date.LocalTime e (Date.UTC e x) = x.
Proof. unfold Date.LocalTime, Date.UTC. lia. Qed.

(** The reader's [setDate(1); setHours(0,0,0,0)] and the writer's
    [new Date(year, month, 1)] are the same instant. *)
Lemma month_start_agrees (e : Date.Env) :
  Date.setHours0 e (Date.setDate1 e (Date.now e))
  = Date.ofYearMonth1 e (Date.getFullYear e (Date.now e)) (Date.getMonth e (Date.now e)).
Proof.
  unfold Date.setHours0, Date.setDate1, Date.ofYearMonth1, Date.getFullYear,
    Date.getMonth.
  rewrite LocalTime_UTC, Day_MakeDate by apply TimeWithinDay_range.
  reflexivity.
Qed.

(** The period_start the reader filters on and the one the writer stores
    are the same date. *)
Lemma period_start_agrees (e : Date.Env) :
  Date.castToDate (PolicyEngine.getPeriodStart e PolicyEngine.Daily)
  = DatabaseService.dayKey e /\
  Date.castToDate (PolicyEngine.getPeriodStart e PolicyEngine.Monthly)
  = DatabaseService.monthKey e.
Proof.
  split; [reflexivity|].
  unfold PolicyEngine.getPeriodStart, DatabaseService.monthKey,
    Date.castToDate, Date.splitT0.
  rewrite month_start_agrees. reflexivity.
Qed.

(** C3. The usage read does not look at the user or the tool. On the
    first failing input the row of the request's own key (ProCorp, the
    member, gpt-4, day, today) does not exist, so its total is 0 and the
    ledger would create it; the evaluator nevertheless measures the request
    against 5, the total of the admin's search-api row, and reports a
    remaining budget of 50 - 5 - 0.03. On the second the row of the key
    exists with a total of 1, the read finds two rows of the tenant, gets an
    error from [maybeSingle] and falls back to the sum of all the tenant's
    events, 6. The period start is not at fault: the read filters on the
    date the ledger writes. *)
Theorem C3_usage_read_ignores_user_and_tool :
  (forall f e st T U X U' X' w,
     PolicyEngine.getCurrentUsage f e st T U X w
     = PolicyEngine.getCurrentUsage f e st T U' X' w) /\
  (totalCostOf (usage_aggregates Cases.adminSpent) Cases.userKey = 0 /\
   key_period_start Cases.userKey = DatabaseService.dayKey Demo.utcEnv /\
   PolicyEngine.getCurrentUsage no_faults Demo.utcEnv Cases.adminSpent
     Demo.ProCorp Demo.proUser "gpt-4" PolicyEngine.Daily = Returned 5 /\
   CheckAndRouteOutput.remaining_budget
     (fst (checkAndRoute no_faults Demo.utcEnv Cases.adminSpent Cases.gpt4Request))
   = JS.Fin (50 - 5 - (3 # 100000) * 1000) /\
   totalCostOf
     (usage_aggregates
        (snd (checkAndRoute no_faults Demo.utcEnv Cases.adminSpent Cases.gpt4Request)))
     Cases.userKey
   = 3 # 100) /\
  (totalCostOf (usage_aggregates Cases.bothSpent) Cases.userKey = 1 /\
   PolicyEngine.getCurrentUsage no_faults Demo.utcEnv Cases.bothSpent
     Demo.ProCorp Demo.proUser "gpt-4" PolicyEngine.Daily = Returned (0 + 5 + 1)) /\
  (forall e,
     Date.castToDate (PolicyEngine.getPeriodStart e PolicyEngine.Daily)
     = DatabaseService.dayKey e /\
     Date.castToDate (PolicyEngine.getPeriodStart e PolicyEngine.Monthly)
     = DatabaseService.monthKey e).
Proof.
  split; [intros; reflexivity|].
  split; [repeat split; reflexivity|].
  split; [split; reflexivity|].
  exact period_start_agrees.
Qed.

(** ** Period boundaries *)

(** C9, as stated, fails: in a process at UTC+05:30 the daily window of
    2026-11-02T20:00Z starts at 2026-11-02T18:30Z (local midnight), not at
    the start of the UTC day. *)
Lemma C9_counterexample :
  PolicyEngine.getPeriodStart Demo.istEnv PolicyEngine.Daily
  <> Date.toISOString (startOfUTCDay (Date.now Demo.istEnv)).
Proof.
  intros H. vm_compute in H. discriminate H.
Qed.

Lemma upsertAggregate_keeps (f : Faults) (st st' : Store) (T U X : string)
    (pt : PeriodType) (ps : Date.DateString) (c n : Q) (a : UsageAggregate.t) :
  DatabaseService.upsertAggregate f st T U X pt ps c n = Returned st' ->
  (List.length (usage_aggregates st) <= List.length (usage_aggregates st'))%nat /\
  (In a (usage_aggregates st) ->
   DatabaseService.sameKey T U X pt ps a = false -> In a (usage_aggregates st')).
Proof.
  unfold DatabaseService.upsertAggregate, await.
  assert (Upd : forall ex,
    (List.length (usage_aggregates st)
     <= List.length (DatabaseService.updateExisting (usage_aggregates st) T U X pt ps ex c n))%nat /\
    (In a (usage_aggregates st) -> DatabaseService.sameKey T U X pt ps a = false ->
     In a (DatabaseService.updateExisting (usage_aggregates st) T U X pt ps ex c n))).
  { intros ex. unfold DatabaseService.updateExisting.
    destruct (DatabaseService.stored (fst ex + c) (snd ex + n)) as [[tc tu]|];
      [|split; [lia | auto]].
    rewrite length_map.
    split; [lia|]. intros Hin Hk. apply in_map_iff. exists a.
    rewrite Hk. auto. }
  assert (Ins :
    (List.length (usage_aggregates st)
     <= List.length (DatabaseService.insertNew (usage_aggregates st) T U X pt ps c n))%nat /\
    (In a (usage_aggregates st) ->
     In a (DatabaseService.insertNew (usage_aggregates st) T U X pt ps c n))).
  { unfold DatabaseService.insertNew.
    destruct (existsb (DatabaseService.sameKey T U X pt ps) (usage_aggregates st)).
    - split; [lia | auto].
    - destruct (DatabaseService.stored c n) as [[tc tu]|]; [|split; [lia | auto]].
      rewrite length_app. split; [lia|]. intros Hin. apply in_or_app. auto. }
  destruct (f AtSelectAggregate); simpl; try discriminate.
  - destruct (data (DatabaseService.selectExisting (usage_aggregates st) T U X pt ps))
      as [ex|].
    + destruct (Upd ex) as [U1 U2].
      destruct (f AtUpdateAggregate); intros H; inversion H; subst; simpl;
        split; auto.
    + destruct Ins as [I1 I2].
      destruct (f AtInsertAggregate); intros H; inversion H; subst; simpl;
        split; auto.
  - destruct Ins as [I1 I2].
    destruct (f AtInsertAggregate); intros H; inversion H; subst; simpl;
      split; auto.
Qed.

Lemma sameKey_other_period (T U X : string) (pt : PeriodType)
    (ps : Date.DateString) (a : UsageAggregate.t) :
  UsageAggregate.period_start a <> ps ->
  DatabaseService.sameKey T U X pt ps a = false.
Proof.
  intros H. unfold DatabaseService.sameKey.
  apply Z.eqb_neq in H. rewrite H. apply andb_false_r.
Qed.

Lemma recordUsage_keeps (f : Faults) (e : Date.Env) (st : Store)
    (ev : UsageEvent.t) (r : option UsageEvent.t * Store) (a : UsageAggregate.t) :
  DatabaseService.recordUsage f e st ev = Returned r ->
  In a (usage_aggregates st) ->
  (List.length (usage_aggregates st) <= List.length (usage_aggregates (snd r)))%nat /\
  (UsageAggregate.period_start a <> DatabaseService.dayKey (Date.atUpdate e) ->
   UsageAggregate.period_start a <> DatabaseService.monthKey (Date.atUpdate e) ->
   In a (usage_aggregates (snd r))).
Proof.
  unfold DatabaseService.recordUsage.
  destruct (f AtInsertEvent); try discriminate.
  - intros H Hin. inversion H; subst; clear H. simpl.
    unfold DatabaseService.updateAggregates. cbv zeta.
    set (st0 := setEvents st (usage_events st ++ [ev])).
    assert (Hin0 : In a (usage_aggregates st0)) by exact Hin.
    change (usage_aggregates st) with (usage_aggregates st0).
    destruct (DatabaseService.upsertAggregate f st0 (UsageEvent.tenant_id ev)
                (UsageEvent.user_id ev) (UsageEvent.tool_id ev) day
                (DatabaseService.dayKey (Date.atUpdate e)) (UsageEvent.cost_estimate ev)
                (UsageEvent.units ev)) as [st1|] eqn:E1; simpl; [|split; auto].
    destruct (upsertAggregate_keeps _ _ _ _ _ _ _ _ _ _ a E1) as [L1 K1].
    destruct (DatabaseService.upsertAggregate f st1 (UsageEvent.tenant_id ev)
                (UsageEvent.user_id ev) (UsageEvent.tool_id ev) month
                (DatabaseService.monthKey (Date.atUpdate e)) (UsageEvent.cost_estimate ev)
                (UsageEvent.units ev)) as [st2|] eqn:E2; simpl.
    + destruct (upsertAggregate_keeps _ _ _ _ _ _ _ _ _ _ a E2) as [L2 K2].
      split; [exact (Nat.le_trans _ _ _ L1 L2)|].
      intros Hd Hm. apply K2; [|apply sameKey_other_period; exact Hm].
      apply K1; [exact Hin0 | apply sameKey_other_period; exact Hd].
    + split; [exact L1|]. intros Hd _. apply K1; [exact Hin0|].
      apply sameKey_other_period. exact Hd.
  - intros H Hin. inversion H; subst. simpl. split; auto.
Qed.

Lemma daily_start (e : Date.Env) :
  let d := Date.setHours0 e (Date.now e) in
  (Date.LocalTime e d mod Date.msPerDay = 0)%Z /\
  (d <= Date.now e < d + Date.msPerDay)%Z.
Proof.
  intros d. unfold d, Date.setHours0. rewrite LocalTime_UTC.
  unfold Date.UTC, Date.MakeDate, Date.Day, Date.LocalTime.
  generalize (Date.now e) (Date.tz e). intros n z.
  assert (Hpos : (0 < Date.msPerDay)%Z) by reflexivity.
  assert (Hnz : Date.msPerDay <> 0%Z) by lia.
  pose proof (Z.div_mod (n + z) Date.msPerDay Hnz) as DM.
  pose proof (Z.mod_pos_bound (n + z) Date.msPerDay Hpos) as MB.
  generalize dependent Date.msPerDay. intros D Hpos Hnz DM MB.
  split.
  - rewrite Z.add_0_r. apply Z.mod_mul. exact Hnz.
  - lia.
Qed.

Lemma monthly_start (e : Date.Env) :
  let m := Date.ofYearMonth1 e (Date.getFullYear e (Date.now e))
             (Date.getMonth e (Date.now e)) in
  (Date.LocalTime e m mod Date.msPerDay = 0)%Z /\
  (m <= Date.now e)%Z /\
  Date.getFullYear e m = Date.getFullYear e (Date.now e) /\
  Date.getMonth e m = Date.getMonth e (Date.now e) /\
  Date.DateFromTime (Date.LocalTime e m) = 1%Z.
Proof.
  intros m. unfold m, Date.ofYearMonth1, Date.getFullYear, Date.getMonth.
  rewrite !LocalTime_UTC.
  destruct (first_of_month (Date.LocalTime e (Date.now e))) as [Hle Hciv].
  set (l := Date.LocalTime e (Date.now e)) in *.
  assert (El : Date.now e = (l - Date.tz e)%Z) by (unfold l, Date.LocalTime; lia).
  rewrite El. clearbody l. clear El.
  set (first := Date.MakeDay (Date.YearFromTime l) (Date.MonthFromTime l) 1) in *.
  clearbody first.
  assert (ED : Date.Day (Date.MakeDate first 0) = first).
  { apply Day_MakeDate. split; [lia | reflexivity]. }
  split; [|split; [|split; [|split]]].
  - unfold Date.MakeDate. rewrite Z.add_0_r. apply Z.mod_mul. discriminate.
  - unfold Date.UTC, Date.MakeDate. unfold Date.Day in Hle.
    assert (Hpos : (0 < Date.msPerDay)%Z) by reflexivity.
    pose proof (Z.mul_div_le l Date.msPerDay Hpos) as Hd.
    assert (Hm : (first * Date.msPerDay <= l / Date.msPerDay * Date.msPerDay)%Z)
      by (apply Z.mul_le_mono_nonneg_r; [lia | exact Hle]).
    generalize dependent Date.msPerDay. intros D. intros. lia.
  - unfold Date.YearFromTime at 1. rewrite ED, Hciv. reflexivity.
  - unfold Date.MonthFromTime at 1. rewrite ED, Hciv. cbn [fst snd]. lia.
  - unfold Date.DateFromTime. rewrite ED, Hciv. reflexivity.
Qed.

Lemma utc_starts (e : Date.Env) :
  Date.tz e = 0%Z ->
  Date.setHours0 e (Date.now e) = startOfUTCDay (Date.now e) /\
  Date.ofYearMonth1 e (Date.getFullYear e (Date.now e)) (Date.getMonth e (Date.now e))
  = startOfUTCMonth (Date.now e).
Proof.
  intros Htz.
  unfold Date.setHours0, Date.ofYearMonth1, Date.getFullYear, Date.getMonth,
    startOfUTCDay, startOfUTCMonth, Date.UTC, Date.MakeDate, Date.LocalTime.
  rewrite Htz, !Z.add_0_r, !Z.sub_0_r. split; reflexivity.
Qed.

Lemma period_keys (e : Date.Env) :
  Date.castToDate (Date.setHours0 e (Date.now e)) = DatabaseService.dayKey e /\
  Date.castToDate
    (Date.ofYearMonth1 e (Date.getFullYear e (Date.now e)) (Date.getMonth e (Date.now e)))
  = DatabaseService.monthKey e.
Proof.
  unfold DatabaseService.dayKey, DatabaseService.monthKey, Date.castToDate,
    Date.splitT0, Date.toISOString.
  split; reflexivity.
Qed.

Lemma startOfUTCDay_bounds (x : Z) :
  (startOfUTCDay x <= x < startOfUTCDay x + Date.msPerDay)%Z.
Proof.
  unfold startOfUTCDay, Date.Day.
  assert (Hpos : (0 < Date.msPerDay)%Z) by reflexivity.
  pose proof (Z.div_mod x Date.msPerDay) as DM.
  pose proof (Z.mod_pos_bound x Date.msPerDay Hpos) as MB.
  generalize dependent Date.msPerDay. intros D Hpos DM MB.
  specialize (DM ltac:(lia)). lia.
Qed.

(** Local midnight of the first day of the month, as a local time: a
    midnight not after the local time, of its year and month, numbered 1. *)
Lemma startOfUTCMonth_first (l : Z) :
  (startOfUTCMonth l <= l)%Z /\
  Date.YearFromTime (startOfUTCMonth l) = Date.YearFromTime l /\
  Date.MonthFromTime (startOfUTCMonth l) = Date.MonthFromTime l /\
  Date.DateFromTime (startOfUTCMonth l) = 1%Z.
Proof.
  destruct (first_of_month l) as [Hle Hciv].
  unfold startOfUTCMonth.
  set (first := Date.MakeDay (Date.YearFromTime l) (Date.MonthFromTime l) 1) in *.
  clearbody first.
  assert (ED : Date.Day (first * Date.msPerDay) = first).
  { unfold Date.Day. apply Z.div_mul. discriminate. }
  split; [|split; [|split]].
  - pose proof (startOfUTCDay_bounds l) as B. unfold startOfUTCDay in B.
    assert (Hm : (first * Date.msPerDay <= Date.Day l * Date.msPerDay)%Z)
      by (apply Z.mul_le_mono_nonneg_r; [discriminate | exact Hle]).
    lia.
  - unfold Date.YearFromTime at 1. rewrite ED, Hciv. reflexivity.
  - unfold Date.MonthFromTime at 1. rewrite ED, Hciv. cbn [fst snd]. lia.
  - unfold Date.DateFromTime. rewrite ED, Hciv. reflexivity.
Qed.

(** At a fixed offset the operations on local time are those of a zone
    whose offset does not change. *)
Lemma fixed_zone (e : Date.Env) :
  forall w,
    PolicyEngine.getPeriodStart e w
    = PolicyEngine.getPeriodStartIn (Date.fixedZone (Date.tz e)) (Date.now e) w.
Proof.
  intros [|];
    unfold PolicyEngine.getPeriodStart, PolicyEngine.getPeriodStartIn,
      Date.setHours0, Date.setHours0In, Date.setDate1, Date.setDate1In,
      Date.LocalTime, Date.LocalTimeIn, Date.UTC, Date.UTCIn, Date.fixedZone;
    cbn [Date.offsetAt Date.offsetOfLocal]; reflexivity.
Qed.

Lemma fixed_zone_keys (e : Date.Env) :
  DatabaseService.dayKey e
  = DatabaseService.dayKeyIn (Date.fixedZone (Date.tz e)) (Date.now e) /\
  DatabaseService.monthKey e
  = DatabaseService.monthKeyIn (Date.fixedZone (Date.tz e)) (Date.now e).
Proof.
  split;
    unfold DatabaseService.dayKey, DatabaseService.dayKeyIn,
      DatabaseService.monthKey, DatabaseService.monthKeyIn,
      Date.setHours0, Date.setHours0In, Date.ofYearMonth1, Date.ofYearMonth1In,
      Date.getFullYear, Date.getFullYearIn, Date.getMonth, Date.getMonthIn,
      Date.LocalTime, Date.LocalTimeIn, Date.UTC, Date.UTCIn, Date.fixedZone;
    cbn [Date.offsetAt Date.offsetOfLocal]; reflexivity.
Qed.

Lemma setHours0In_start (z : Date.Zone) (d : Date.t) :
  Date.setHours0In z d = Date.UTCIn z (startOfUTCDay (Date.LocalTimeIn z d)).
Proof.
  unfold Date.setHours0In, startOfUTCDay, Date.MakeDate.
  rewrite Z.add_0_r. reflexivity.
Qed.

Lemma ofYearMonth1In_start (z : Date.Zone) (now : Date.t) :
  Date.ofYearMonth1In z (Date.getFullYearIn z now) (Date.getMonthIn z now)
  = Date.UTCIn z (startOfUTCMonth (Date.LocalTimeIn z now)).
Proof.
  unfold Date.ofYearMonth1In, Date.getFullYearIn, Date.getMonthIn,
    startOfUTCMonth, Date.MakeDate.
  rewrite Z.add_0_r. reflexivity.
Qed.

Lemma startOfUTCDay_of_day (first r : Z) :
  (0 <= r < Date.msPerDay)%Z ->
  startOfUTCDay (first * Date.msPerDay + r)%Z = (first * Date.msPerDay)%Z.
Proof.
  intros Hr. unfold startOfUTCDay. f_equal.
  exact (Day_MakeDate first r Hr).
Qed.

Lemma startOfUTCDay_in_month (l : Z) :
  startOfUTCDay (startOfUTCMonth l + Date.TimeWithinDay l)%Z = startOfUTCMonth l.
Proof.
  unfold startOfUTCMonth.
  generalize (Date.MakeDay (Date.YearFromTime l) (Date.MonthFromTime l) 1).
  intros first. apply startOfUTCDay_of_day. apply TimeWithinDay_range.
Qed.

Lemma zone_daily (z : Date.Zone) (now : Date.t) :
  PolicyEngine.getPeriodStartIn z now PolicyEngine.Daily
  = Date.toISOString (Date.UTCIn z (startOfUTCDay (Date.LocalTimeIn z now))) /\
  (startOfUTCDay (Date.LocalTimeIn z now) <= Date.LocalTimeIn z now
   < startOfUTCDay (Date.LocalTimeIn z now) + Date.msPerDay)%Z /\
  (Date.offsetAt z (PolicyEngine.getPeriodStartIn z now PolicyEngine.Daily)
   = Date.offsetOfLocal z (startOfUTCDay (Date.LocalTimeIn z now)) ->
   Date.LocalTimeIn z (PolicyEngine.getPeriodStartIn z now PolicyEngine.Daily)
   = startOfUTCDay (Date.LocalTimeIn z now)).
Proof.
  assert (Ed : PolicyEngine.getPeriodStartIn z now PolicyEngine.Daily
               = Date.UTCIn z (startOfUTCDay (Date.LocalTimeIn z now))).
  { change (PolicyEngine.getPeriodStartIn z now PolicyEngine.Daily)
      with (Date.setHours0In z now).
    apply setHours0In_start. }
  split; [exact Ed|]. split; [apply startOfUTCDay_bounds|].
  rewrite Ed. generalize (startOfUTCDay (Date.LocalTimeIn z now)). intros l Hoff.
  unfold Date.LocalTimeIn. rewrite Hoff. unfold Date.UTCIn. lia.
Qed.

Lemma zone_monthly (z : Date.Zone) (now : Date.t) :
  Date.ofYearMonth1In z (Date.getFullYearIn z now) (Date.getMonthIn z now)
  = Date.UTCIn z (startOfUTCMonth (Date.LocalTimeIn z now)) /\
  (Date.LocalTimeIn z (Date.setDate1In z now)
   = (startOfUTCMonth (Date.LocalTimeIn z now)
      + Date.TimeWithinDay (Date.LocalTimeIn z now))%Z ->
   PolicyEngine.getPeriodStartIn z now PolicyEngine.Monthly
   = Date.toISOString
       (Date.ofYearMonth1In z (Date.getFullYearIn z now) (Date.getMonthIn z now))).
Proof.
  split; [apply ofYearMonth1In_start|].
  intros Back. rewrite ofYearMonth1In_start.
  change (PolicyEngine.getPeriodStartIn z now PolicyEngine.Monthly)
    with (Date.setHours0In z (Date.setDate1In z now)).
  rewrite setHours0In_start, Back, startOfUTCDay_in_month.
  unfold Date.toISOString. reflexivity.
Qed.

Lemma zone_keys (z : Date.Zone) (now : Date.t) :
  Date.castToDate (PolicyEngine.getPeriodStartIn z now PolicyEngine.Daily)
  = DatabaseService.dayKeyIn z now /\
  Date.castToDate
    (Date.toISOString
       (Date.ofYearMonth1In z (Date.getFullYearIn z now) (Date.getMonthIn z now)))
  = DatabaseService.monthKeyIn z now.
Proof.
  unfold DatabaseService.dayKeyIn, DatabaseService.monthKeyIn,
    PolicyEngine.getPeriodStartIn, Date.castToDate, Date.splitT0.
  split; reflexivity.
Qed.

Lemma fixed_offset_starts (e : Date.Env) :
  (forall w,
     PolicyEngine.getPeriodStart e w
     = PolicyEngine.getPeriodStartIn (Date.fixedZone (Date.tz e)) (Date.now e) w) /\
  (DatabaseService.dayKey e
   = DatabaseService.dayKeyIn (Date.fixedZone (Date.tz e)) (Date.now e) /\
   DatabaseService.monthKey e
   = DatabaseService.monthKeyIn (Date.fixedZone (Date.tz e)) (Date.now e)) /\
  ((Date.LocalTime e (PolicyEngine.getPeriodStart e PolicyEngine.Daily)
    mod Date.msPerDay = 0)%Z /\
   (PolicyEngine.getPeriodStart e PolicyEngine.Daily <= Date.now e
    < PolicyEngine.getPeriodStart e PolicyEngine.Daily + Date.msPerDay)%Z) /\
  ((Date.LocalTime e (PolicyEngine.getPeriodStart e PolicyEngine.Monthly)
    mod Date.msPerDay = 0)%Z /\
   (PolicyEngine.getPeriodStart e PolicyEngine.Monthly <= Date.now e)%Z /\
   Date.getFullYear e (PolicyEngine.getPeriodStart e PolicyEngine.Monthly)
   = Date.getFullYear e (Date.now e) /\
   Date.getMonth e (PolicyEngine.getPeriodStart e PolicyEngine.Monthly)
   = Date.getMonth e (Date.now e) /\
   Date.DateFromTime
     (Date.LocalTime e (PolicyEngine.getPeriodStart e PolicyEngine.Monthly)) = 1%Z) /\
  (Date.tz e = 0%Z ->
   PolicyEngine.getPeriodStart e PolicyEngine.Daily
   = Date.toISOString (startOfUTCDay (Date.now e)) /\
   PolicyEngine.getPeriodStart e PolicyEngine.Monthly
   = Date.toISOString (startOfUTCMonth (Date.now e))) /\
  (Date.castToDate (PolicyEngine.getPeriodStart e PolicyEngine.Daily)
   = DatabaseService.dayKey e /\
   Date.castToDate (PolicyEngine.getPeriodStart e PolicyEngine.Monthly)
   = DatabaseService.monthKey e).
Proof.
  split; [exact (fixed_zone e)|]. split; [exact (fixed_zone_keys e)|].
  unfold PolicyEngine.getPeriodStart, Date.toISOString.
  rewrite month_start_agrees.
  split; [exact (daily_start e)|].
  split; [exact (monthly_start e)|].
  split; [exact (utc_starts e)|].
  exact (period_keys e).
Qed.

(** C9 (amended). The period boundary is computed from the clock at the
    time of the evaluation, in the local time zone of the process, whatever
    its offsets are. The daily window starts at the instant the zone gives
    to 00:00 of the current local day, a local midnight not after the local
    time and less than a day before it; the ledger's month starts at the
    instant the zone gives to 00:00 of day 1 of the current local year and
    month, and the monthly window of the evaluation starts there as well
    when the zone reads the instant of [setDate(1)] as the local time it
    was made from; the local time of the daily start is that midnight when
    the zone reads the start with the offset it gave it (a midnight that
    the zone does not skip). At a fixed offset these are the operations
    used throughout, the daily start is at most a day before the clock, and
    in UTC the starts are those of the UTC day and month. The ledger files
    its increments under the dates of these instants, and recording never
    removes a row nor touches the rows of other period starts: no counter
    is cleared at a boundary. *)
Theorem C9_period_boundaries (z : Date.Zone) (now : Date.t) (e : Date.Env) :
  let local := Date.LocalTimeIn z now in
  let midnight := startOfUTCDay local in
  let first := startOfUTCMonth local in
  let d := PolicyEngine.getPeriodStartIn z now PolicyEngine.Daily in
  let m := PolicyEngine.getPeriodStartIn z now PolicyEngine.Monthly in
  let written :=
    Date.ofYearMonth1In z (Date.getFullYearIn z now) (Date.getMonthIn z now) in
  (d = Date.toISOString (Date.UTCIn z midnight) /\
   (midnight <= local < midnight + Date.msPerDay)%Z /\
   (Date.offsetAt z d = Date.offsetOfLocal z midnight -> Date.LocalTimeIn z d = midnight)) /\
  (written = Date.UTCIn z first /\
   (first <= local)%Z /\
   Date.YearFromTime first = Date.YearFromTime local /\
   Date.MonthFromTime first = Date.MonthFromTime local /\
   Date.DateFromTime first = 1%Z /\
   (Date.LocalTimeIn z (Date.setDate1In z now)
    = (first + Date.TimeWithinDay local)%Z ->
    m = Date.toISOString written)) /\
  (Date.castToDate d = DatabaseService.dayKeyIn z now /\
   Date.castToDate (Date.toISOString written) = DatabaseService.monthKeyIn z now) /\
  (let d' := PolicyEngine.getPeriodStart e PolicyEngine.Daily in
   let m' := PolicyEngine.getPeriodStart e PolicyEngine.Monthly in
   (forall w,
      PolicyEngine.getPeriodStart e w
      = PolicyEngine.getPeriodStartIn (Date.fixedZone (Date.tz e)) (Date.now e) w) /\
   (DatabaseService.dayKey e
    = DatabaseService.dayKeyIn (Date.fixedZone (Date.tz e)) (Date.now e) /\
    DatabaseService.monthKey e
    = DatabaseService.monthKeyIn (Date.fixedZone (Date.tz e)) (Date.now e)) /\
   ((Date.LocalTime e d' mod Date.msPerDay = 0)%Z /\
    (d' <= Date.now e < d' + Date.msPerDay)%Z) /\
   ((Date.LocalTime e m' mod Date.msPerDay = 0)%Z /\
    (m' <= Date.now e)%Z /\
    Date.getFullYear e m' = Date.getFullYear e (Date.now e) /\
    Date.getMonth e m' = Date.getMonth e (Date.now e) /\
    Date.DateFromTime (Date.LocalTime e m') = 1%Z) /\
   (Date.tz e = 0%Z ->
    d' = Date.toISOString (startOfUTCDay (Date.now e)) /\
    m' = Date.toISOString (startOfUTCMonth (Date.now e))) /\
   (Date.castToDate d' = DatabaseService.dayKey e /\
    Date.castToDate m' = DatabaseService.monthKey e)) /\
  (forall f st ev r a,
     DatabaseService.recordUsage f e st ev = Returned r ->
     In a (usage_aggregates st) ->
     (List.length (usage_aggregates st) <= List.length (usage_aggregates (snd r)))%nat /\
     (UsageAggregate.period_start a <> DatabaseService.dayKey (Date.atUpdate e) ->
      UsageAggregate.period_start a <> DatabaseService.monthKey (Date.atUpdate e) ->
      In a (usage_aggregates (snd r)))).
Proof.
  intros local midnight first d m written.
  destruct (zone_daily z now) as (D1 & D2 & D3).
  destruct (zone_monthly z now) as (M1 & M2).
  destruct (startOfUTCMonth_first (Date.LocalTimeIn z now)) as (F1 & F2 & F3 & F4).
  split; [exact (conj D1 (conj D2 D3))|].
  split; [exact (conj M1 (conj F1 (conj F2 (conj F3 (conj F4 M2)))))|].
  split; [exact (zone_keys z now)|].
  split; [exact (fixed_offset_starts e)|].
  intros f st ev r a. apply recordUsage_keeps.
Qed.

Lemma C9_period_boundaries_witness :
  PolicyEngine.getPeriodStartIn Demo.newYork Demo.instant PolicyEngine.Monthly
  = 1793505600000%Z /\
  Date.LocalTimeIn Demo.newYork
    (PolicyEngine.getPeriodStartIn Demo.newYork Demo.instant PolicyEngine.Daily)
  = startOfUTCDay (Date.LocalTimeIn Demo.newYork Demo.instant).
Proof.
  destruct (C9_period_boundaries Demo.newYork Demo.instant Demo.utcEnv)
    as ((_ & _ & Day0) & (_ & _ & _ & _ & _ & Month0) & _).
  split.
  - rewrite Month0; [vm_compute; reflexivity | vm_compute; reflexivity].
  - apply Day0. vm_compute. reflexivity.
Defined.

(** ** What the columns keep *)

Lemma Qfloor_unique (x : Q) (n : Z) :
  inject_Z n <= x -> x < inject_Z (n + 1) -> Qfloor x = n.
Proof.
  intros Lo Hi.
  pose proof (Qfloor_le x) as F1. pose proof (Qlt_floor x) as F2.
  assert (A : (Qfloor x < n + 1)%Z).
  { rewrite Zlt_Qlt. eapply Qle_lt_trans; [exact F1 | exact Hi]. }
  assert (B : (n < Qfloor x + 1)%Z).
  { rewrite Zlt_Qlt. eapply Qle_lt_trans; [exact Lo | exact F2]. }
  lia.
Qed.

Lemma roundHalfAway_comp (x y : Q) : x == y -> Pg.roundHalfAway x = Pg.roundHalfAway y.
Proof.
  intros E. unfold Pg.roundHalfAway.
  assert (B : Qle_bool 0 x = Qle_bool 0 y).
  { destruct (Qle_bool 0 x) eqn:Ex; destruct (Qle_bool 0 y) eqn:Ey; try reflexivity.
    - apply Qle_bool_iff in Ex. rewrite E in Ex. apply Qle_bool_iff in Ex. congruence.
    - apply Qle_bool_iff in Ey. rewrite <- E in Ey. apply Qle_bool_iff in Ey. congruence. }
  rewrite B. destruct (Qle_bool 0 y).
  - apply Qfloor_comp. rewrite E. reflexivity.
  - f_equal. apply Qfloor_comp. rewrite E. reflexivity.
Qed.

Lemma roundHalfAway_whole (n : Z) : Pg.roundHalfAway (inject_Z n) = n.
Proof.
  unfold Pg.roundHalfAway.
  destruct (Qle_bool 0 (inject_Z n)) eqn:E.
  - apply Qfloor_unique.
    + lra.
    + rewrite inject_Z_plus. change (inject_Z 1) with 1. lra.
  - assert (H : Qfloor ((1 # 2) - inject_Z n) = (- n)%Z).
    { apply Qfloor_unique.
      + rewrite inject_Z_opp. lra.
      + rewrite inject_Z_plus, inject_Z_opp. change (inject_Z 1) with 1. lra. }
    rewrite H. lia.
Qed.

Lemma roundHalfAway_nonneg (x : Q) : 0 <= x -> (0 <= Pg.roundHalfAway x)%Z.
Proof.
  intros H. unfold Pg.roundHalfAway.
  apply Qle_bool_iff in H. rewrite H. apply Qle_bool_iff in H.
  change 0%Z with (Qfloor 0). apply Qfloor_resp_le. lra.
Qed.

Lemma scaled_times (s : nat) (n : Z) :
  (n # Pg.scale s) * inject_Z (Zpos (Pg.scale s)) == inject_Z n.
Proof.
  unfold Qeq, Qmult, inject_Z. cbn [Qnum Qden]. lia.
Qed.

Lemma numeric_comp (p s : nat) (x y : Q) : x == y -> Pg.numeric p s x = Pg.numeric p s y.
Proof.
  intros E. unfold Pg.numeric. cbv zeta.
  rewrite (roundHalfAway_comp (x * inject_Z (Zpos (Pg.scale s)))
             (y * inject_Z (Zpos (Pg.scale s)))) by (rewrite E; reflexivity).
  reflexivity.
Qed.

Lemma numeric_of_scaled (p s : nat) (n : Z) :
  Pg.numeric p s (n # Pg.scale s)
  = if (Z.abs n <? 10 ^ Z.of_nat p)%Z then Some (n # Pg.scale s) else None.
Proof.
  unfold Pg.numeric. cbv zeta.
  rewrite (roundHalfAway_comp _ _ (scaled_times s n)), roundHalfAway_whole.
  reflexivity.
Qed.

(** What a NUMERIC column gives back is a value it keeps. *)
Lemma numeric_kept (p s : nat) (x y : Q) :
  Pg.numeric p s x = Some y -> Pg.numeric p s y = Some y.
Proof.
  unfold Pg.numeric at 1. cbv zeta.
  set (n := Pg.roundHalfAway _).
  destruct (Z.abs n <? 10 ^ Z.of_nat p)%Z eqn:E; [|discriminate].
  intros H. injection H as <-. rewrite numeric_of_scaled, E. reflexivity.
Qed.

Lemma numeric_nonneg (p s : nat) (x y : Q) :
  Pg.numeric p s x = Some y -> 0 <= x -> 0 <= y.
Proof.
  unfold Pg.numeric. cbv zeta.
  set (n := Pg.roundHalfAway _).
  destruct (Z.abs n <? 10 ^ Z.of_nat p)%Z; [|discriminate].
  intros H Hx. injection H as <-.
  assert (Hn : (0 <= n)%Z).
  { apply roundHalfAway_nonneg. apply Qmult_le_0_compat; [exact Hx|].
    unfold Qle, inject_Z. cbn. lia. }
  unfold Qle. cbn. lia.
Qed.

Lemma keeps_numeric (p s : nat) (x : Q) :
  Pg.keeps (Pg.numeric p s) x <->
  exists n : Z, x == n # Pg.scale s /\ (Z.abs n < 10 ^ Z.of_nat p)%Z.
Proof.
  split.
  - intros (y & N & E). unfold Pg.numeric in N. cbv zeta in N.
    set (n := Pg.roundHalfAway _) in N.
    destruct (Z.abs n <? 10 ^ Z.of_nat p)%Z eqn:B; [|discriminate].
    injection N as <-. exists n. split; [symmetry; exact E|].
    apply Z.ltb_lt. exact B.
  - intros (n & E & B). exists (n # Pg.scale s).
    rewrite (numeric_comp p s _ _ E), numeric_of_scaled.
    apply Z.ltb_lt in B. rewrite B. split; [reflexivity | symmetry; exact E].
Qed.

(** The sum of two kept values is kept when it is in the column's range. *)
Lemma keeps_numeric_sum (p s : nat) (a c : Q) :
  Pg.keeps (Pg.numeric p s) a -> Pg.scaled s c ->
  - inject_Z (10 ^ Z.of_nat p) < (a + c) * inject_Z (Zpos (Pg.scale s))
    < inject_Z (10 ^ Z.of_nat p) ->
  Pg.keeps (Pg.numeric p s) (a + c).
Proof.
  intros Ka (m & Ec) Range. apply keeps_numeric in Ka. destruct Ka as (n & Ea & _).
  apply keeps_numeric. exists (n + m)%Z.
  assert (E : a + c == (n + m) # Pg.scale s).
  { rewrite Ea, Ec. unfold Qeq, Qplus. cbn [Qnum Qden]. nia. }
  split; [exact E|].
  rewrite E, scaled_times in Range. destruct Range as [Lo Hi].
  rewrite <- inject_Z_opp in Lo. rewrite <- Zlt_Qlt in Lo, Hi. lia.
Qed.

Lemma integer_comp (x y : Q) : x == y -> Pg.integer x = Pg.integer y.
Proof.
  intros E. unfold Pg.integer. cbv zeta.
  rewrite (Qfloor_comp x y E).
  rewrite E. reflexivity.
Qed.

Lemma keeps_integer (x : Q) :
  Pg.keeps Pg.integer x <->
  exists n : Z, x == inject_Z n /\ (-2147483648 <= n <= 2147483647)%Z.
Proof.
  split.
  - intros (y & N & E). unfold Pg.integer in N. cbv zeta in N.
    destruct (Qeq_bool x (inject_Z (Qfloor x))) eqn:B1; [|discriminate].
    destruct (-2147483648 <=? Qfloor x)%Z eqn:B2; [|discriminate].
    destruct (Qfloor x <=? 2147483647)%Z eqn:B3; [|discriminate].
    exists (Qfloor x). split; [apply Qeq_bool_iff; exact B1|].
    apply Z.leb_le in B2, B3. lia.
  - intros (n & E & B). exists (inject_Z n).
    rewrite (integer_comp _ _ E). unfold Pg.integer. cbv zeta.
    rewrite Qfloor_Z.
    assert (B1 : Qeq_bool (inject_Z n) (inject_Z n) = true)
      by (apply Qeq_bool_iff; reflexivity).
    rewrite B1.
    destruct B as [B2 B3]. apply Z.leb_le in B2, B3. rewrite B2, B3.
    split; [reflexivity | symmetry; exact E].
Qed.

Lemma integer_value (x y : Q) : Pg.integer x = Some y -> y == x.
Proof.
  unfold Pg.integer. cbv zeta.
  destruct (Qeq_bool x (inject_Z (Qfloor x))) eqn:B1; [|discriminate].
  destruct (_ && _)%bool; [|discriminate].
  intros H. injection H as <-. apply Qeq_bool_iff in B1. symmetry. exact B1.
Qed.

Lemma integer_kept (x y : Q) : Pg.integer x = Some y -> Pg.integer y = Some y.
Proof.
  intros H. pose proof (integer_value x y H) as E.
  rewrite (integer_comp y x E). exact H.
Qed.

(** ** The upsert, one key at a time *)

Lemma PeriodType_eqb_eq (a b : PeriodType) : PeriodType_eqb a b = true <-> a = b.
Proof. destruct a, b; simpl; split; congruence. Qed.

Lemma hasKey_both (k k' : AggKey) (a : UsageAggregate.t) :
  hasKey k a = true -> hasKey k' a = true -> key_eqb k k' = true.
Proof.
  unfold hasKey, DatabaseService.sameKey, key_eqb.
  rewrite !andb_true_iff, !String.eqb_eq, !Z.eqb_eq, !PeriodType_eqb_eq.
  intuition congruence.
Qed.

Lemma hasKey_of_eqb (k k' : AggKey) (a : UsageAggregate.t) :
  key_eqb k k' = true -> hasKey k' a = hasKey k a.
Proof.
  unfold key_eqb.
  rewrite !andb_true_iff, !String.eqb_eq, !Z.eqb_eq, !PeriodType_eqb_eq.
  destruct k, k'; simpl. intros [[[[-> ->] ->] ->] ->]. reflexivity.
Qed.

Lemma totalCostOf_of_eqb (aggs : list UsageAggregate.t) (k k' : AggKey) :
  key_eqb k k' = true -> totalCostOf aggs k' = totalCostOf aggs k.
Proof.
  intros H. unfold totalCostOf.
  rewrite (filter_ext (hasKey k') (hasKey k)); [reflexivity|].
  intros a. apply hasKey_of_eqb. exact H.
Qed.

Lemma filter_map_same {A : Type} (P : A -> bool) (g : A -> A) (l : list A) :
  (forall a, P (g a) = P a) -> filter P (map g l) = map g (filter P l).
Proof.
  intros H. induction l as [|x r IH]; simpl; [reflexivity|].
  rewrite H. destruct (P x); simpl; rewrite IH; reflexivity.
Qed.

Lemma existsb_filter_nil {A : Type} (P : A -> bool) (l : list A) :
  filter P l = [] -> existsb P l = false.
Proof.
  induction l as [|x r IH]; simpl; [reflexivity|].
  destruct (P x); [discriminate | exact IH].
Qed.

Lemma map_fixed {A : Type} (g : A -> A) (l : list A) :
  (forall a, In a l -> g a = a) -> map g l = l.
Proof.
  induction l as [|x r IH]; simpl; intros H; [reflexivity|].
  rewrite H by auto. rewrite IH by auto. reflexivity.
Qed.

(** One upsert run to its end, seen through the rows of a key: the rows
    of the key become the one row of what was written, or stay when
    nothing was; the rows of the other keys stay. *)
Lemma hasKey_rowFor (k : AggKey) (tc tu : Q) : hasKey k (rowFor k tc tu) = true.
Proof.
  unfold hasKey, DatabaseService.sameKey, rowFor.
  cbn [UsageAggregate.tenant_id UsageAggregate.user_id UsageAggregate.tool_id
       UsageAggregate.period_type UsageAggregate.period_start].
  rewrite !String.eqb_refl, Z.eqb_refl.
  destruct (key_period_type k); reflexivity.
Qed.

Lemma hasKey_fields (k : AggKey) (a : UsageAggregate.t) (tc tu : Q) :
  hasKey k a = true ->
  UsageAggregate.mk (UsageAggregate.tenant_id a) (UsageAggregate.user_id a)
    (UsageAggregate.tool_id a) (UsageAggregate.period_type a)
    (UsageAggregate.period_start a) tu tc
  = rowFor k tc tu.
Proof.
  unfold hasKey, DatabaseService.sameKey, rowFor.
  rewrite !andb_true_iff, !String.eqb_eq, Z.eqb_eq, PeriodType_eqb_eq.
  intros [[[[-> ->] ->] ->] ->]. reflexivity.
Qed.

Lemma hasKey_other (k0 k : AggKey) (a : UsageAggregate.t) :
  key_eqb k0 k = false -> hasKey k0 a = true -> hasKey k a = false.
Proof.
  intros Ek H0. destruct (hasKey k a) eqn:E; [|reflexivity].
  rewrite (hasKey_both k0 k a H0 E) in Ek. discriminate Ek.
Qed.

Lemma serial_one_rows (aggs : list UsageAggregate.t) (k0 : AggKey) (c n : Q)
    (k : AggKey) :
  UniqueKeys aggs ->
  filter (hasKey k) (Interleaving.serial aggs [Interleaving.start k0 c n])
  = if key_eqb k0 k
    then match written (rowTotals aggs k0) c n with
         | Some (tc, tu) => [rowFor k0 tc tu]
         | None => filter (hasKey k0) aggs
         end
    else filter (hasKey k) aggs.
Proof.
  intros UK.
  assert (Same : key_eqb k0 k = true ->
                 forall l, filter (hasKey k) l = filter (hasKey k0) l).
  { intros Ek l. apply filter_ext. intros a. apply hasKey_of_eqb. exact Ek. }
  unfold Interleaving.serial, Interleaving.start, Interleaving.step, rowTotals,
    DatabaseService.selectExisting.
  cbn [Interleaving.pc Interleaving.key Interleaving.cost Interleaving.units].
  change (DatabaseService.sameKey (key_tenant k0) (key_user k0) (key_tool k0)
            (key_period_type k0) (key_period_start k0)) with (hasKey k0).
  pose proof (UK k0) as U0.
  destruct (filter (hasKey k0) aggs) as [|r0 [|r1 more]] eqn:EF.
  - (* no row: insert *)
    cbn [map maybeSingle data written].
    unfold DatabaseService.insertNew.
    change (DatabaseService.sameKey (key_tenant k0) (key_user k0) (key_tool k0)
              (key_period_type k0) (key_period_start k0)) with (hasKey k0).
    rewrite (existsb_filter_nil _ _ EF).
    destruct (DatabaseService.stored c n) as [[tc tu]|].
    + fold (rowFor k0 tc tu). rewrite filter_app. cbn [filter].
      destruct (key_eqb k0 k) eqn:Ek.
      * rewrite (Same eq_refl), EF.
        rewrite (hasKey_of_eqb k0 k _ Ek), hasKey_rowFor. reflexivity.
      * rewrite (hasKey_other k0 k _ Ek (hasKey_rowFor k0 tc tu)).
        apply app_nil_r.
    + destruct (key_eqb k0 k) eqn:Ek; [|reflexivity].
      rewrite (Same eq_refl), EF. reflexivity.
  - (* one row: update *)
    cbn [map maybeSingle data written fst snd].
    unfold DatabaseService.updateExisting.
    change (DatabaseService.sameKey (key_tenant k0) (key_user k0) (key_tool k0)
              (key_period_type k0) (key_period_start k0)) with (hasKey k0).
    cbn [fst snd].
    assert (H0 : hasKey k0 r0 = true).
    { assert (Hin : In r0 (filter (hasKey k0) aggs)) by (rewrite EF; left; reflexivity).
      apply filter_In in Hin. tauto. }
    destruct (DatabaseService.stored (UsageAggregate.total_cost r0 + c)
                (UsageAggregate.total_units r0 + n)) as [[tc tu]|].
    + rewrite filter_map_same
        by (intros a; destruct (hasKey k0 a); reflexivity).
      destruct (key_eqb k0 k) eqn:Ek.
      * rewrite (Same eq_refl), EF. cbn [map]. rewrite H0.
        rewrite (hasKey_fields k0 r0 tc tu H0). reflexivity.
      * apply map_fixed. intros a Ha. apply filter_In in Ha. destruct Ha as [_ Hk].
        destruct (hasKey k0 a) eqn:E0; [|reflexivity].
        rewrite (hasKey_other k0 k a Ek E0) in Hk. discriminate Hk.
    + destruct (key_eqb k0 k) eqn:Ek; [|reflexivity].
      rewrite (Same eq_refl), EF. reflexivity.
  - cbn [List.length] in U0. lia.
Qed.

Lemma serial_one_unique (aggs : list UsageAggregate.t) (k0 : AggKey) (c n : Q) :
  UniqueKeys aggs ->
  UniqueKeys (Interleaving.serial aggs [Interleaving.start k0 c n]).
Proof.
  intros UK k. rewrite (serial_one_rows aggs k0 c n k UK).
  destruct (key_eqb k0 k); [|apply UK].
  destruct (written (rowTotals aggs k0) c n) as [[tc tu]|]; [cbn; lia | apply UK].
Qed.

(** What the upsert reads are the totals of the key. *)
Lemma rowTotals_totals (aggs : list UsageAggregate.t) (k : AggKey) :
  UniqueKeys aggs ->
  match rowTotals aggs k with
  | Some totals => fst totals = totalCostOf aggs k /\ snd totals = totalUnitsOf aggs k
  | None => totalCostOf aggs k = 0 /\ totalUnitsOf aggs k = 0
  end.
Proof.
  intros UK. pose proof (UK k) as U0.
  unfold rowTotals, DatabaseService.selectExisting, totalCostOf, totalUnitsOf.
  change (DatabaseService.sameKey (key_tenant k) (key_user k) (key_tool k)
            (key_period_type k) (key_period_start k)) with (hasKey k).
  destruct (filter (hasKey k) aggs) as [|r0 [|r1 more]].
  - split; reflexivity.
  - split; reflexivity.
  - cbn [List.length] in U0. lia.
Qed.

Lemma stored_comp (c c' n n' : Q) :
  c == c' -> n == n' -> DatabaseService.stored c n = DatabaseService.stored c' n'.
Proof.
  intros Ec En. unfold DatabaseService.stored.
  rewrite (numeric_comp 10 2 c c' Ec), (integer_comp n n' En). reflexivity.
Qed.

(** Totals that the columns keep are written as they are. *)
Lemma written_accepted (aggs : list UsageAggregate.t) (k : AggKey) (c n : Q) :
  UniqueKeys aggs -> accepts aggs k c n ->
  exists tc tu,
    written (rowTotals aggs k) c n = Some (tc, tu) /\
    tc == totalCostOf aggs k + c /\ tu == totalUnitsOf aggs k + n.
Proof.
  intros UK [(tc & Nc & Ec) (tu & Nu & Eu)].
  exists tc, tu. split; [|split; assumption].
  pose proof (rowTotals_totals aggs k UK) as RT.
  destruct (rowTotals aggs k) as [[tc0 tu0]|]; cbn [written fst snd] in *.
  - destruct RT as [-> ->]. unfold DatabaseService.stored. rewrite Nc, Nu. reflexivity.
  - destruct RT as [Zc Zu]. rewrite Zc in Nc. rewrite Zu in Nu.
    rewrite (stored_comp c (0 + c) n (0 + n)) by lra.
    unfold DatabaseService.stored. rewrite Nc, Nu. reflexivity.
Qed.

(** One upsert run to its end when the columns keep the new totals: the
    key keeps a single row, its totals have grown by the cost and the
    units, and the totals of the other keys are as before. *)
Lemma serial_one (aggs : list UsageAggregate.t) (k0 : AggKey) (c n : Q) :
  UniqueKeys aggs -> accepts aggs k0 c n ->
  UniqueKeys (Interleaving.serial aggs [Interleaving.start k0 c n]) /\
  (forall k,
     totalCostOf (Interleaving.serial aggs [Interleaving.start k0 c n]) k
     == totalCostOf aggs k + (if key_eqb k0 k then c else 0)) /\
  (forall k,
     totalUnitsOf (Interleaving.serial aggs [Interleaving.start k0 c n]) k
     == totalUnitsOf aggs k + (if key_eqb k0 k then n else 0)).
Proof.
  intros UK Acc. split; [apply serial_one_unique; exact UK|].
  destruct (written_accepted aggs k0 c n UK Acc) as (tc & tu & W & Ec & Eu).
  split; intros k; unfold totalCostOf, totalUnitsOf;
    rewrite (serial_one_rows aggs k0 c n k UK), W;
    destruct (key_eqb k0 k) eqn:Ek.
  - cbn [rowFor UsageAggregate.total_cost]. rewrite Ec.
    rewrite <- (totalCostOf_of_eqb aggs k0 k Ek). unfold totalCostOf. reflexivity.
  - destruct (filter (hasKey k) aggs); lra.
  - cbn [rowFor UsageAggregate.total_units]. rewrite Eu.
    unfold totalUnitsOf.
    rewrite (filter_ext (hasKey k) (hasKey k0))
      by (intros a; apply hasKey_of_eqb; exact Ek).
    reflexivity.
  - destruct (filter (hasKey k) aggs); lra.
Qed.

(** The rows an upsert leaves are rows the columns keep. *)
Lemma serial_one_kept (aggs : list UsageAggregate.t) (k0 : AggKey) (c n : Q) :
  KeptRows aggs ->
  KeptRows (Interleaving.serial aggs [Interleaving.start k0 c n]).
Proof.
  intros KR.
  assert (St : forall x y tc tu,
            DatabaseService.stored x y = Some (tc, tu) ->
            Pg.keeps (Pg.numeric 10 2) tc /\ Pg.keeps Pg.integer tu).
  { intros x y tc tu. unfold DatabaseService.stored.
    destruct (Pg.numeric 10 2 x) as [c'|] eqn:Nc; [|discriminate].
    destruct (Pg.integer y) as [n'|] eqn:Nu; [|discriminate].
    intros H. injection H as <- <-. split.
    - exists c'. split; [exact (numeric_kept _ _ _ _ Nc) | reflexivity].
    - exists n'. split; [exact (integer_kept _ _ Nu) | reflexivity]. }
  unfold Interleaving.serial, Interleaving.start, Interleaving.step.
  cbn [Interleaving.pc Interleaving.key Interleaving.cost Interleaving.units].
  destruct (data (DatabaseService.selectExisting aggs (key_tenant k0) (key_user k0)
              (key_tool k0) (key_period_type k0) (key_period_start k0)))
    as [[tc0 tu0]|].
  - unfold DatabaseService.updateExisting. cbn [fst snd].
    destruct (DatabaseService.stored (tc0 + c) (tu0 + n)) as [[tc tu]|] eqn:S;
      [|exact KR].
    intros a Ha. apply in_map_iff in Ha. destruct Ha as (b & <- & Hb).
    destruct (DatabaseService.sameKey _ _ _ _ _ b); [|exact (KR b Hb)].
    exact (St _ _ _ _ S).
  - unfold DatabaseService.insertNew.
    destruct (existsb _ aggs); [exact KR|].
    destruct (DatabaseService.stored c n) as [[tc tu]|] eqn:S; [|exact KR].
    intros a Ha. apply in_app_or in Ha. destruct Ha as [Ha|[<-|[]]];
      [exact (KR a Ha)|].
    exact (St _ _ _ _ S).
Qed.

Lemma KeptRows_totals (aggs : list UsageAggregate.t) (k : AggKey) :
  KeptRows aggs ->
  Pg.keeps (Pg.numeric 10 2) (totalCostOf aggs k) /\
  Pg.keeps Pg.integer (totalUnitsOf aggs k).
Proof.
  intros KR. unfold totalCostOf, totalUnitsOf.
  destruct (filter (hasKey k) aggs) as [|a r] eqn:E.
  - split.
    + exists (0 # Pg.scale 2). split; [reflexivity | reflexivity].
    + exists (inject_Z 0). split; reflexivity.
  - apply KR. assert (Hin : In a (filter (hasKey k) aggs)) by (rewrite E; left; reflexivity).
    apply filter_In in Hin. tauto.
Qed.

(** Room in the columns: a total the column keeps, grown by a whole
    number of cents that is not negative, is kept when it stays below
    10^8; units likewise below 2^31. *)
Lemma room_for_cost (total c : Q) :
  Pg.keeps (Pg.numeric 10 2) total -> Pg.scaled 2 c -> 0 <= c ->
  total + c < 100000000 ->
  Pg.keeps (Pg.numeric 10 2) (total + c).
Proof.
  intros K (m & Ec) Pos Room.
  apply keeps_numeric in K. destruct K as (a & Ea & Ba).
  apply keeps_numeric. exists (a + m)%Z.
  change (Pg.scale 2) with 100%positive in *.
  change (10 ^ Z.of_nat 10)%Z with 10000000000%Z in *.
  assert (E : total + c == (a + m) # 100).
  { rewrite Ea, Ec. unfold Qeq, Qplus. cbn [Qnum Qden]. lia. }
  split; [exact E|].
  rewrite E in Room. rewrite Ec in Pos.
  unfold Qlt in Room. unfold Qle in Pos. cbn [Qnum Qden] in Room, Pos. lia.
Qed.

Lemma room_for_units (total n : Q) :
  Pg.keeps Pg.integer total -> Pg.keeps Pg.integer n -> 0 <= n ->
  total + n <= 2147483647 ->
  Pg.keeps Pg.integer (total + n).
Proof.
  intros K Kn Pos Room.
  apply keeps_integer in K, Kn. destruct K as (a & Ea & Ba). destruct Kn as (m & Em & Bm).
  apply keeps_integer. exists (a + m)%Z.
  assert (E : total + n == inject_Z (a + m)).
  { rewrite Ea, Em, inject_Z_plus. reflexivity. }
  split; [exact E|].
  rewrite E in Room. rewrite Em in Pos.
  change 0 with (inject_Z 0) in Pos. change 2147483647 with (inject_Z 2147483647) in Room.
  rewrite <- Zle_Qle in Room, Pos. lia.
Qed.

(** Without faults [upsertAggregate] is its two accesses, one after the
    other. *)
Lemma upsertAggregate_serial (st : Store) (k : AggKey) (c n : Q) :
  DatabaseService.upsertAggregate no_faults st (key_tenant k) (key_user k)
    (key_tool k) (key_period_type k) (key_period_start k) c n
  = Returned (setAggregates st
                (Interleaving.serial (usage_aggregates st) [Interleaving.start k c n])).
Proof.
  unfold DatabaseService.upsertAggregate, Interleaving.serial, Interleaving.start,
    Interleaving.step.
  rewrite await_no_faults. cbn [bind no_faults Interleaving.pc Interleaving.key
    Interleaving.cost Interleaving.units].
  destruct (data (DatabaseService.selectExisting (usage_aggregates st) (key_tenant k)
              (key_user k) (key_tool k) (key_period_type k) (key_period_start k)));
    reflexivity.
Qed.

Lemma key_eqb_refl (k : AggKey) : key_eqb k k = true.
Proof.
  unfold key_eqb. rewrite !String.eqb_refl, Z.eqb_refl.
  destruct (key_period_type k); reflexivity.
Qed.

Lemma serial_cons (aggs : list UsageAggregate.t) (t : Interleaving.Task)
    (r : list Interleaving.Task) :
  Interleaving.serial aggs (t :: r)
  = Interleaving.serial (Interleaving.serial aggs [t]) r.
Proof.
  simpl. destruct (Interleaving.step aggs t) as [a1 t1].
  destruct (Interleaving.step a1 t1) as [a2 t2]. reflexivity.
Qed.

Lemma serial_all (k : AggKey) (deltas : list (Q * Q)) (aggs : list UsageAggregate.t) :
  let ts := map (fun d => Interleaving.start k (fst d) (snd d)) deltas in
  UniqueKeys aggs ->
  Pg.keeps (Pg.numeric 10 2) (totalCostOf aggs k) ->
  Pg.keeps Pg.integer (totalUnitsOf aggs k) ->
  plainDeltas deltas ->
  totalCostOf aggs k + Interleaving.sumOfCosts ts < 100000000 ->
  totalUnitsOf aggs k + Interleaving.sumOfUnits ts <= 2147483647 ->
  totalCostOf (Interleaving.serial aggs ts) k
  == totalCostOf aggs k + Interleaving.sumOfCosts ts.
Proof.
  cbv zeta. revert aggs.
  induction deltas as [|[c n] rest IH]; intros aggs UK Kc Ku Plain Rc Ru.
  - simpl. lra.
  - cbn [map fst snd] in *. rewrite serial_cons.
    cbn [Interleaving.sumOfCosts Interleaving.sumOfUnits fold_right
         Interleaving.cost Interleaving.units Interleaving.start] in Rc, Ru |- *.
    fold (Interleaving.sumOfCosts
            (map (fun d => Interleaving.start k (fst d) (snd d)) rest)) in Rc |- *.
    fold (Interleaving.sumOfUnits
            (map (fun d => Interleaving.start k (fst d) (snd d)) rest)) in Ru.
    set (sc := Interleaving.sumOfCosts _) in *.
    set (su := Interleaving.sumOfUnits _) in *.
    destruct (Plain (c, n) (or_introl eq_refl)) as (Sc & Pc & Kn & Pn).
    cbn [fst snd] in Sc, Pc, Kn, Pn.
    assert (Psc : 0 <= sc).
    { unfold sc. clear - Plain. induction rest as [|[c' n'] r IHr]; [cbn; lra|].
      cbn [map Interleaving.sumOfCosts fold_right Interleaving.cost Interleaving.start
           fst snd].
      destruct (Plain (c', n') (or_intror (or_introl eq_refl))) as (_ & P & _).
      cbn [fst] in P.
      assert (0 <= Interleaving.sumOfCosts
                     (map (fun d => Interleaving.start k (fst d) (snd d)) r)).
      { apply IHr. intros d [<-|Hd]; apply Plain; [left; reflexivity | right; right; exact Hd]. }
      unfold Interleaving.sumOfCosts in *. lra. }
    assert (Psu : 0 <= su).
    { unfold su. clear - Plain. induction rest as [|[c' n'] r IHr]; [cbn; lra|].
      cbn [map Interleaving.sumOfUnits fold_right Interleaving.units Interleaving.start
           fst snd].
      destruct (Plain (c', n') (or_intror (or_introl eq_refl))) as (_ & _ & _ & P).
      cbn [snd] in P.
      assert (0 <= Interleaving.sumOfUnits
                     (map (fun d => Interleaving.start k (fst d) (snd d)) r)).
      { apply IHr. intros d [<-|Hd]; apply Plain; [left; reflexivity | right; right; exact Hd]. }
      unfold Interleaving.sumOfUnits in *. lra. }
    assert (Acc : accepts aggs k c n).
    { split; [apply room_for_cost | apply room_for_units]; try assumption; lra. }
    destruct (serial_one aggs k c n UK Acc) as (UK' & Tc & Tu).
    specialize (Tc k). specialize (Tu k). rewrite key_eqb_refl in Tc, Tu.
    pose proof (serial_one_kept aggs k c n) as Kept.
    destruct Acc as [Ac Au].
    assert (Kc' : Pg.keeps (Pg.numeric 10 2)
                    (totalCostOf (Interleaving.serial aggs [Interleaving.start k c n]) k)).
    { destruct Ac as (y & N & E). exists y. split; [|lra].
      rewrite <- N. apply numeric_comp. lra. }
    assert (Ku' : Pg.keeps Pg.integer
                    (totalUnitsOf (Interleaving.serial aggs [Interleaving.start k c n]) k)).
    { destruct Au as (y & N & E). exists y. split; [|lra].
      rewrite <- N. apply integer_comp. lra. }
    rewrite (IH _ UK' Kc' Ku').
    + fold sc. lra.
    + intros d Hd. apply Plain. right. exact Hd.
    + fold sc. lra.
    + fold su. lra.
Qed.

(** ** Concurrent increments *)



Lemma UniqueKeys_oneRow : UniqueKeys Cases.oneRow.
Proof.
  intros k. unfold Cases.oneRow. cbn [filter].
  destruct (hasKey k _); cbn [List.length]; lia.
Qed.


(** ** The ledger invariant *)

Lemma sumCosts_app (l : list UsageEvent.t) (ev : UsageEvent.t) :
  PolicyEngine.sumCosts (l ++ [ev])
  = PolicyEngine.sumCosts l + UsageEvent.cost_estimate ev.
Proof.
  unfold PolicyEngine.sumCosts. rewrite fold_left_app. reflexivity.
Qed.

Lemma chargedSum_app (tz : Z) (k : AggKey) (events : list UsageEvent.t)
    (ev : UsageEvent.t) :
  chargedSum tz k (events ++ [ev])
  = if charged ev && inPeriod tz k ev
    then chargedSum tz k events + UsageEvent.cost_estimate ev
    else chargedSum tz k events.
Proof.
  unfold chargedSum, chargedEvents. rewrite filter_app. simpl.
  destruct (charged ev && inPeriod tz k ev).
  - apply sumCosts_app.
  - rewrite app_nil_r. reflexivity.
Qed.

(** The keys the ledger computes from a clock value name the periods the
    clock value falls in. *)
Lemma periodStartOf_now (e : Date.Env) (pt : PeriodType) :
  periodStartOf (Date.tz e) pt (Date.now e)
  = match pt with
    | day => DatabaseService.dayKey e
    | month => DatabaseService.monthKey e
    end.
Proof.
  destruct pt;
    unfold periodStartOf, DatabaseService.dayKey, DatabaseService.monthKey,
      startOfLocalDay, startOfLocalMonth, startOfUTCDay, startOfUTCMonth,
      Date.setHours0, Date.ofYearMonth1, Date.getFullYear, Date.getMonth,
      Date.UTC, Date.LocalTime, Date.MakeDate;
    rewrite Z.add_0_r; reflexivity.
Qed.

(** An event stamped with the clock of its request falls in the periods of
    exactly the two keys the ledger files it under. *)
Lemma inPeriod_keys (e : Date.Env) (k : AggKey) (ev : UsageEvent.t) :
  UsageEvent.timestamp ev = Date.toISOString (Date.now e) ->
  inPeriod (Date.tz e) k ev
  = key_eqb (mkKey (UsageEvent.tenant_id ev) (UsageEvent.user_id ev)
               (UsageEvent.tool_id ev) day (DatabaseService.dayKey e)) k
    || key_eqb (mkKey (UsageEvent.tenant_id ev) (UsageEvent.user_id ev)
                  (UsageEvent.tool_id ev) month (DatabaseService.monthKey e)) k.
Proof.
  intros TS. unfold inPeriod, key_eqb. rewrite TS.
  unfold Date.toISOString. rewrite periodStartOf_now.
  cbn [key_tenant key_user key_tool key_period_type key_period_start].
  generalize (DatabaseService.dayKey e) (DatabaseService.monthKey e).
  intros dk mk.
  destruct (String.eqb (UsageEvent.tenant_id ev) (key_tenant k));
    destruct (String.eqb (UsageEvent.user_id ev) (key_user k));
    destruct (String.eqb (UsageEvent.tool_id ev) (key_tool k));
    destruct (key_period_type k); simpl;
    rewrite ?orb_false_r; reflexivity.
Qed.

Lemma day_and_month_keys_differ (T U X : string) (d m : Date.DateString) (k : AggKey) :
  key_eqb (mkKey T U X day d) k = true ->
  key_eqb (mkKey T U X month m) k = false.
Proof.
  unfold key_eqb. simpl. rewrite !andb_true_iff.
  intros [[_ Hp] _]. destruct (key_period_type k); [|discriminate].
  simpl. rewrite andb_false_r. reflexivity.
Qed.

Lemma two_upserts (st : Store) (T U X : string) (dk mk : Date.DateString) (c n : Q) :
  match DatabaseService.upsertAggregate no_faults st T U X day dk c n with
  | Raised => (st, true)
  | Returned st1 =>
      match DatabaseService.upsertAggregate no_faults st1 T U X month mk c n with
      | Raised => (st1, true)
      | Returned st2 => (st2, false)
      end
  end
  = (setAggregates st
       (Interleaving.serial
          (Interleaving.serial (usage_aggregates st)
             [Interleaving.start (mkKey T U X day dk) c n])
          [Interleaving.start (mkKey T U X month mk) c n]),
     false).
Proof.
  pose proof (upsertAggregate_serial st (mkKey T U X day dk) c n) as E1.
  cbn [key_tenant key_user key_tool key_period_type key_period_start] in E1.
  rewrite E1. clear E1.
  match goal with
  | |- context [DatabaseService.upsertAggregate no_faults ?s _ _ _ month _ _ _] =>
      pose proof (upsertAggregate_serial s (mkKey T U X month mk) c n) as E2
  end.
  cbn [key_tenant key_user key_tool key_period_type key_period_start] in E2.
  rewrite E2. reflexivity.
Qed.

Lemma recordUsage_no_faults (e : Date.Env) (st : Store) (ev : UsageEvent.t) :
  DatabaseService.recordUsage no_faults e st ev
  = Returned
      (Some ev,
       setAggregates (setEvents st (usage_events st ++ [ev]))
         (Interleaving.serial
            (Interleaving.serial (usage_aggregates st)
               [Interleaving.start
                  (mkKey (UsageEvent.tenant_id ev) (UsageEvent.user_id ev)
                     (UsageEvent.tool_id ev) day
                     (DatabaseService.dayKey (Date.atUpdate e)))
                  (UsageEvent.cost_estimate ev) (UsageEvent.units ev)])
            [Interleaving.start
               (mkKey (UsageEvent.tenant_id ev) (UsageEvent.user_id ev)
                  (UsageEvent.tool_id ev) month
                  (DatabaseService.monthKey (Date.atUpdate e)))
               (UsageEvent.cost_estimate ev) (UsageEvent.units ev)])).
Proof.
  unfold DatabaseService.recordUsage, DatabaseService.updateAggregates.
  cbn [no_faults]. cbv zeta. rewrite two_upserts. reflexivity.
Qed.

Lemma sumCosts_constant (l : list UsageEvent.t) (c acc : Q) :
  (forall ev, In ev l -> UsageEvent.cost_estimate ev == c) ->
  fold_left (fun sum ev => sum + UsageEvent.cost_estimate ev) l acc
  == acc + inject_Z (Z.of_nat (List.length l)) * c.
Proof.
  revert acc. induction l as [|ev r IH]; intros acc H.
  - simpl. unfold inject_Z. lra.
  - cbn [fold_left List.length].
    rewrite IH by (intros ev' Hin; apply H; right; exact Hin).
    rewrite Nat2Z.inj_succ. unfold Z.succ. rewrite inject_Z_plus.
    assert (Hev : UsageEvent.cost_estimate ev == c) by (apply H; left; reflexivity).
    rewrite Hev. change (inject_Z 1) with 1. lra.
Qed.

(** * Further properties of the evaluator and the router *)

(** ** The loop over the policies *)

Lemma onBreach_reason (p : Policy.t) (u : Q) (r : PolicyEvaluationResult.t) :
  PolicyEngine.onBreach p u = Some r ->
  PolicyEvaluationResult.reason r <> WithinBudget /\
  PolicyEvaluationResult.reason r <> NoPoliciesDefined.
Proof.
  unfold PolicyEngine.onBreach.
  destruct (Policy.decision p); try discriminate.
  - intros H; inversion H; subst; simpl; split; discriminate.
  - destruct (Policy.fallback_tool_id p) as [fb|]; try discriminate.
    destruct (JS.truthy fb); try discriminate.
    intros H; inversion H; subst; simpl; split; discriminate.
  - intros H; inversion H; subst; simpl; split; discriminate.
Qed.

Lemma checkPolicies_reason (f : Faults) (e : Date.Env) (st : Store)
    (T U X : string) (c : Q) (ps : list Policy.t) (r : PolicyEvaluationResult.t) :
  PolicyEngine.checkPolicies f e st T U X c ps = Returned (Some r) ->
  PolicyEvaluationResult.reason r <> WithinBudget /\
  PolicyEvaluationResult.reason r <> NoPoliciesDefined.
Proof.
  induction ps as [|p rest IH]; simpl; [discriminate|].
  destruct (PolicyEngine.getCurrentUsage f e st T U X (PolicyEngine.policyWindow p))
    as [u|]; simpl; [|discriminate].
  destruct (JS.gt (u + c) (Policy.limit_value p)); [|exact IH].
  destruct (PolicyEngine.onBreach p u) as [res|] eqn:B; [|exact IH].
  intros H. apply Returned_inj in H. inversion H; subst res.
  exact (onBreach_reason _ _ _ B).
Qed.

Lemma gt_mono (x y l : Q) : x <= y -> JS.gt x l = true -> JS.gt y l = true.
Proof. intros H G. apply gt_true in G. apply gt_true. lra. Qed.

(** A loop that passes every policy at a cost passes them at a lower one. *)
Lemma checkPolicies_cheaper (f : Faults) (e : Date.Env) (st : Store)
    (T U X : string) (c c' : Q) (ps : list Policy.t) :
  c <= c' ->
  PolicyEngine.checkPolicies f e st T U X c' ps = Returned None ->
  PolicyEngine.checkPolicies f e st T U X c ps = Returned None.
Proof.
  intros Hc. induction ps as [|p rest IH]; simpl; [reflexivity|].
  destruct (PolicyEngine.getCurrentUsage f e st T U X (PolicyEngine.policyWindow p))
    as [u|]; simpl; [|discriminate].
  destruct (JS.gt (u + c) (Policy.limit_value p)) eqn:G.
  - assert (G' : JS.gt (u + c') (Policy.limit_value p) = true)
      by (apply (gt_mono (u + c) (u + c')); [lra | exact G]).
    rewrite G'. destruct (PolicyEngine.onBreach p u); [discriminate | exact IH].
  - destruct (JS.gt (u + c') (Policy.limit_value p)); [|exact IH].
    destruct (PolicyEngine.onBreach p u); [discriminate | exact IH].
Qed.

(** X3. The budget check is monotone in the cost: when a request of cost
    [c'] passes every policy (the evaluation answers 'Within budget' or
    'No policies defined'), a request of any lower cost on the same store
    gets the identical answer. *)
Theorem evaluateRequest_monotone_in_cost
    (f : Faults) (e : Date.Env) (st : Store) (T U X : string) (c c' : Q)
    (r : PolicyEvaluationResult.t) :
  c <= c' ->
  PolicyEngine.evaluateRequest f e st T U X c' = Returned r ->
  (PolicyEvaluationResult.reason r = WithinBudget \/
   PolicyEvaluationResult.reason r = NoPoliciesDefined) ->
  PolicyEngine.evaluateRequest f e st T U X c = Returned r.
Proof.
  intros Hc. unfold PolicyEngine.evaluateRequest.
  destruct (PolicyEngine.getApplicablePolicies f st T U X) as [ps|];
    simpl; [|discriminate].
  destruct ps as [|first more]; [intros H _; exact H|].
  destruct (PolicyEngine.checkPolicies f e st T U X c' (first :: more))
    as [[res|]|] eqn:EC; cbn [bind]; try discriminate.
  - intros H Hr. apply Returned_inj in H. subst res.
    destruct (checkPolicies_reason _ _ _ _ _ _ _ _ _ EC) as [N1 N2].
    destruct Hr; contradiction.
  - rewrite (checkPolicies_cheaper _ _ _ _ _ _ _ _ _ Hc EC). cbn [bind].
    intros H _. exact H.
Qed.

Lemma evaluateRequest_monotone_in_cost_witness :
  PolicyEngine.evaluateRequest no_faults Demo.utcEnv Demo.demoStore
    Demo.ProCorp Demo.proUser "gpt-4" (3 # 100)
  = Returned (PolicyEvaluationResult.mk true WithinBudget None 0 (JS.Fin 50)).
Proof.
  apply (evaluateRequest_monotone_in_cost no_faults Demo.utcEnv Demo.demoStore
           Demo.ProCorp Demo.proUser "gpt-4" (3 # 100) 7).
  - discriminate.
  - reflexivity.
  - left. reflexivity.
Defined.

(** *** Policies of decision allow *)

Lemma onBreach_allow (p : Policy.t) (u : Q) :
  isAllow p = true -> PolicyEngine.onBreach p u = None.
Proof.
  unfold isAllow, PolicyEngine.onBreach.
  destruct (Policy.decision p); try discriminate. reflexivity.
Qed.

Lemma checkPolicies_without_allow (e : Date.Env) (st : Store) (T U X : string)
    (c : Q) (ps : list Policy.t) :
  PolicyEngine.checkPolicies no_faults e st T U X c
    (filter (fun p => negb (isAllow p)) ps)
  = PolicyEngine.checkPolicies no_faults e st T U X c ps.
Proof.
  induction ps as [|p rest IH]; [reflexivity|].
  cbn [filter]. destruct (isAllow p) eqn:A; cbn [negb].
  - rewrite IH. cbn [PolicyEngine.checkPolicies].
    destruct (getCurrentUsage_returns e st T U X (PolicyEngine.policyWindow p))
      as (u & EU & _).
    rewrite EU. cbn [bind]. rewrite (onBreach_allow p u A).
    destruct (JS.gt (u + c) (Policy.limit_value p)); reflexivity.
  - cbn [PolicyEngine.checkPolicies]. rewrite IH. reflexivity.
Qed.

Lemma insertRow_head {A : Type} (before : A -> A -> bool) (x : A) (l : list A) :
  (forall z, In z l -> before x z = true) -> insertRow before x l = x :: l.
Proof.
  destruct l as [|y r]; [reflexivity|]. intros H. simpl.
  rewrite (H y) by (left; reflexivity). reflexivity.
Qed.

(** Filtering commutes with the stable ordering of the policies. *)
Lemma filter_insertRow (P : Policy.t -> bool) (x : Policy.t) (l : list Policy.t) :
  StronglySorted (fun a b => PolicyEngine.scopeDescending a b = true) l ->
  filter P (insertRow PolicyEngine.scopeDescending x l)
  = if P x then insertRow PolicyEngine.scopeDescending x (filter P l)
    else filter P l.
Proof.
  induction l as [|y r IH]; intros S.
  - simpl. destruct (P x); reflexivity.
  - inversion S as [|? ? Sr Fy]; subst. cbn [insertRow].
    destruct (PolicyEngine.scopeDescending x y) eqn:E.
    + cbn [filter]. destruct (P x); [|reflexivity].
      symmetry. apply insertRow_head. intros z Hz.
      assert (Hin : In z (y :: r)).
      { destruct (P y); [|right; apply filter_In in Hz; tauto].
        destruct Hz as [<-|Hz]; [left; reflexivity|].
        right. apply filter_In in Hz. tauto. }
      destruct Hin as [<-|Hin]; [exact E|].
      rewrite Forall_forall in Fy.
      exact (scopeDescending_trans x y z E (Fy z Hin)).
    + cbn [filter]. rewrite (IH Sr).
      destruct (P y), (P x); cbn [insertRow]; rewrite ?E; reflexivity.
Qed.

Lemma filter_orderBy (P : Policy.t -> bool) (l : list Policy.t) :
  filter P (orderBy PolicyEngine.scopeDescending l)
  = orderBy PolicyEngine.scopeDescending (filter P l).
Proof.
  induction l as [|x r IH]; [reflexivity|].
  cbn [orderBy filter]. rewrite filter_insertRow by apply orderBy_sorted.
  rewrite IH. destruct (P x); reflexivity.
Qed.

Lemma filter_comm {A : Type} (P Q : A -> bool) (l : list A) :
  filter P (filter Q l) = filter Q (filter P l).
Proof.
  induction l as [|x r IH]; [reflexivity|]. simpl.
  destruct (P x) eqn:EP, (Q x) eqn:EQ; simpl; rewrite ?EP, ?EQ, IH; reflexivity.
Qed.

Lemma getCurrentUsage_withoutAllow (e : Date.Env) (st : Store) (T U X : string)
    (w : PolicyEngine.Window) :
  PolicyEngine.getCurrentUsage no_faults e (withoutAllow st) T U X w
  = PolicyEngine.getCurrentUsage no_faults e st T U X w.
Proof. reflexivity. Qed.

Lemma checkPolicies_withoutAllow_store (e : Date.Env) (st : Store) (T U X : string)
    (c : Q) (ps : list Policy.t) :
  PolicyEngine.checkPolicies no_faults e (withoutAllow st) T U X c ps
  = PolicyEngine.checkPolicies no_faults e st T U X c ps.
Proof.
  induction ps as [|p rest IH]; [reflexivity|].
  cbn [PolicyEngine.checkPolicies]. rewrite getCurrentUsage_withoutAllow, IH.
  reflexivity.
Qed.

(** X4. Policies of decision allow never block nor downgrade: without
    faults, the evaluation of a request is allowed, and suggests a tool,
    exactly as it would if the allow policies were not stored; an answer
    that blocks or downgrades is the same answer. *)
Theorem allow_policies_never_decide
    (e : Date.Env) (st : Store) (T U X : string) (c : Q) :
  exists r r',
    PolicyEngine.evaluateRequest no_faults e st T U X c = Returned r /\
    PolicyEngine.evaluateRequest no_faults e (withoutAllow st) T U X c = Returned r' /\
    PolicyEvaluationResult.allowed r = PolicyEvaluationResult.allowed r' /\
    PolicyEvaluationResult.suggested_tool r = PolicyEvaluationResult.suggested_tool r' /\
    (PolicyEvaluationResult.reason r <> WithinBudget ->
     PolicyEvaluationResult.reason r <> NoPoliciesDefined -> r = r').
Proof.
  unfold PolicyEngine.evaluateRequest, PolicyEngine.getApplicablePolicies.
  rewrite !await_no_faults. cbn [bind rows data error withoutAllow policies].
  set (ps := orderBy PolicyEngine.scopeDescending
               (filter (PolicyEngine.applicable T U X) (policies st))).
  replace (orderBy PolicyEngine.scopeDescending
             (filter (PolicyEngine.applicable T U X)
                (filter (fun p => negb (isAllow p)) (policies st))))
    with (filter (fun p => negb (isAllow p)) ps)
    by (unfold ps; rewrite filter_orderBy, filter_comm; reflexivity).
  fold (withoutAllow st).
  destruct (getCurrentUsage_returns e st T U X PolicyEngine.Daily) as (u & EU & _).
  pose proof (checkPolicies_without_allow e st T U X c ps) as EW.
  destruct (PolicyEngine.checkPolicies no_faults e st T U X c ps) as [[res|]|] eqn:EC.
  - (* a policy fires: it is not an allow policy, and it fires in both *)
    destruct ps as [|p0 more] eqn:Eps; [discriminate EC|].
    destruct (filter (fun p => negb (isAllow p)) (p0 :: more)) as [|q0 more'] eqn:EF;
      [discriminate EW|].
    rewrite checkPolicies_withoutAllow_store, EW. cbn [bind].
    exists res, res. repeat split; reflexivity.
  - destruct ps as [|p0 more] eqn:Eps.
    + cbn [filter]. eexists. eexists. repeat split; try reflexivity.
    + destruct (filter (fun p => negb (isAllow p)) (p0 :: more)) as [|q0 more'] eqn:EF.
      * cbn [bind]. rewrite EU. cbn [bind].
        eexists. eexists. split; [reflexivity|]. split; [reflexivity|].
        cbn. repeat split; try reflexivity. intros H; contradiction.
      * rewrite checkPolicies_withoutAllow_store, EW. cbn [bind].
        rewrite getCurrentUsage_withoutAllow, EU. cbn [bind].
        eexists. eexists. split; [reflexivity|]. split; [reflexivity|].
        cbn. repeat split; try reflexivity. intros H; contradiction.
  - (* the usage read always returns *)
    exfalso. clear EW. revert EC. generalize ps. intros l.
    induction l as [|p rest IH]; [discriminate|]. cbn [PolicyEngine.checkPolicies].
    destruct (getCurrentUsage_returns e st T U X (PolicyEngine.policyWindow p))
      as (v & EV & _).
    rewrite EV. cbn [bind].
    destruct (if JS.gt (v + c) (Policy.limit_value p)
              then PolicyEngine.onBreach p v else None); [discriminate | exact IH].
Qed.

(** ** What a request can change *)

Lemma upsertAggregate_frame (f : Faults) (st st' : Store) (T U X : string)
    (pt : PeriodType) (ps : Date.DateString) (c n : Q) :
  DatabaseService.upsertAggregate f st T U X pt ps c n = Returned st' ->
  (List.length (usage_aggregates st) <= List.length (usage_aggregates st'))%nat.
Proof.
  intros H.
  destruct (upsertAggregate_keeps f st st' T U X pt ps c n
              (UsageAggregate.mk T U X pt ps 0 0) H) as [L _].
  exact L.
Qed.

Lemma recordUsage_frame (f : Faults) (e : Date.Env) (st : Store)
    (ev : UsageEvent.t) (r : option UsageEvent.t * Store) :
  DatabaseService.recordUsage f e st ev = Returned r ->
  tenants (snd r) = tenants st /\ tools (snd r) = tools st /\
  policies (snd r) = policies st /\
  (usage_events (snd r) = usage_events st \/
   usage_events (snd r) = (usage_events st ++ [ev])%list) /\
  (List.length (usage_aggregates st) <= List.length (usage_aggregates (snd r)))%nat.
Proof.
  unfold DatabaseService.recordUsage.
  destruct (f AtInsertEvent); try discriminate.
  - intros H. apply Returned_inj in H. subst r. cbn [snd].
    unfold DatabaseService.updateAggregates. cbv zeta.
    set (st0 := setEvents st (usage_events st ++ [ev])).
    destruct (DatabaseService.upsertAggregate f st0 _ _ _ day _ _ _) as [st1|] eqn:E1;
      cbn [fst]; [|repeat split; auto].
    pose proof (upsertAggregate_frame _ _ _ _ _ _ _ _ _ _ E1) as L1.
    apply upsertAggregate_events in E1. destruct E1 as (A1 & B1 & C1 & D1).
    destruct (DatabaseService.upsertAggregate f st1 _ _ _ month _ _ _) as [st2|] eqn:E2;
      cbn [fst].
    + pose proof (upsertAggregate_frame _ _ _ _ _ _ _ _ _ _ E2) as L2.
      apply upsertAggregate_events in E2. destruct E2 as (A2 & B2 & C2 & D2).
      rewrite A2, B2, C2, D2, A1, B1, C1, D1.
      repeat split; auto. exact (Nat.le_trans _ _ _ L1 L2).
    + rewrite A1, B1, C1, D1. repeat split; auto.
  - intros H. apply Returned_inj in H. subst r. cbn [snd]. repeat split; auto.
Qed.

(** Whatever the faults, a request leaves the store as it is or goes
    through one [recordUsage]. *)
Lemma checkAndRoute_store_any (f : Faults) (e : Date.Env) (st : Store)
    (input : CheckAndRouteInput.t) :
  snd (checkAndRoute f e st input) = st \/
  exists ev r,
    DatabaseService.recordUsage f e st ev = Returned r /\
    snd (checkAndRoute f e st input) = snd r /\
    UsageEvent.tenant_id ev = JS.trim (CheckAndRouteInput.tenant_id input).
Proof.
  unfold checkAndRoute, route.
  destruct (DatabaseService.getTool f st (CheckAndRouteInput.tool_id input))
    as [[tool|]|]; cbn [bind snd]; auto.
  destruct (PolicyEngine.isToolAllowedForPlan f st _ _) as [[|]|];
    cbn [bind negb snd]; auto.
  - destruct (PolicyEngine.evaluateRequest f e st _ _ _ _) as [evaluation|];
      cbn [bind snd]; auto.
    destruct (PolicyEvaluationResult.allowed evaluation); cbn [negb].
    + destruct (JS.truthyOpt (PolicyEvaluationResult.suggested_tool evaluation)).
      * destruct (DatabaseService.getTool f st _) as [ft|]; cbn [bind snd]; auto.
        match goal with
        | |- context [DatabaseService.recordUsage f e st ?x] =>
            destruct (DatabaseService.recordUsage f e st x) as [r|] eqn:R;
              cbn [bind snd]; [right; exists x, r; auto | left; reflexivity]
        end.
      * match goal with
        | |- context [DatabaseService.recordUsage f e st ?x] =>
            destruct (DatabaseService.recordUsage f e st x) as [r|] eqn:R;
              cbn [bind snd]; [right; exists x, r; auto | left; reflexivity]
        end.
    + match goal with
      | |- context [DatabaseService.recordUsage f e st ?x] =>
          destruct (DatabaseService.recordUsage f e st x) as [r|] eqn:R;
            cbn [bind snd]; [right; exists x, r; auto | left; reflexivity]
      end.
  - destruct (PolicyEngine.getSuggestedFallback f st _) as [[fb|]|];
      cbn [bind snd]; auto.
    destruct (JS.truthy fb); cbn [snd]; auto.
Qed.

(** X5. Whatever the store answers, a request never changes the tenants,
    the tool catalog or the policies, never removes or rewrites a usage
    event, appends at most one, all events it appends being of the
    requesting tenant, and never removes an aggregate row. *)
Theorem request_only_appends
    (f : Faults) (e : Date.Env) (st : Store) (input : CheckAndRouteInput.t) :
  let st' := snd (checkAndRoute f e st input) in
  tenants st' = tenants st /\ tools st' = tools st /\ policies st' = policies st /\
  (exists new,
     usage_events st' = (usage_events st ++ new)%list /\
     (List.length new <= 1)%nat /\
     forall ev, In ev new ->
       UsageEvent.tenant_id ev = JS.trim (CheckAndRouteInput.tenant_id input)) /\
  (List.length (usage_aggregates st) <= List.length (usage_aggregates st'))%nat.
Proof.
  intros st'. unfold st'.
  destruct (checkAndRoute_store_any f e st input) as [E | (ev & r & R & E & TE)];
    rewrite E.
  - repeat split; auto. exists []. rewrite app_nil_r.
    repeat split; auto. intros ev [].
  - destruct (recordUsage_frame f e st ev r R) as (A & B & C & D & L).
    repeat split; auto.
    destruct D as [D|D]; rewrite D.
    + exists []. rewrite app_nil_r. repeat split; auto. intros x [].
    + exists [ev]. repeat split; auto. intros x [<-|[]]. exact TE.
Qed.

(** ** Requests of unknown tenants *)

Lemma filter_none {A : Type} (P : A -> bool) (l : list A) :
  (forall x, In x l -> P x = false) -> filter P l = [].
Proof.
  induction l as [|x l IH]; intros H; [reflexivity|].
  cbn [filter]. rewrite (H x (or_introl eq_refl)).
  apply IH. intros y Hy. apply H. right. exact Hy.
Qed.

Lemma isToolAllowedForPlan_unknown_tenant (f : Faults) (st : Store) (T X : string) :
  (forall t, In t (tenants st) -> Tenant.id t <> T) ->
  PolicyEngine.isToolAllowedForPlan f st T X = Returned false \/
  PolicyEngine.isToolAllowedForPlan f st T X = Raised.
Proof.
  intros H. unfold PolicyEngine.isToolAllowedForPlan.
  rewrite (filter_none (fun t => String.eqb (Tenant.id t) T) (tenants st)).
  - unfold await. destruct (f AtPlanTenant); cbn [bind single data]; auto;
      destruct (f AtPlanTool); cbn [bind data]; auto.
  - intros t Ht. apply String.eqb_neq. apply H. exact Ht.
Qed.



(** ** Tenants do not see each other *)

Lemma filter_filter_imp {A : Type} (g h : A -> bool) (l : list A) :
  (forall x, g x = true -> h x = true) ->
  filter g (filter h l) = filter g l.
Proof.
  intros H. induction l as [|x l IH]; [reflexivity|].
  cbn [filter]. destruct (h x) eqn:Hh.
  - cbn [filter]. rewrite IH. reflexivity.
  - destruct (g x) eqn:Hg; [|exact IH].
    rewrite (H x Hg) in Hh. discriminate Hh.
Qed.

Lemma existsb_filter_imp {A : Type} (g h : A -> bool) (l : list A) :
  (forall x, g x = true -> h x = true) ->
  existsb g (filter h l) = existsb g l.
Proof.
  intros H. induction l as [|x l IH]; [reflexivity|].
  cbn [filter existsb]. destruct (h x) eqn:Hh.
  - cbn [existsb]. rewrite IH. reflexivity.
  - destruct (g x) eqn:Hg; [|exact IH].
    rewrite (H x Hg) in Hh. discriminate Hh.
Qed.

Lemma filter_map_untouched {A : Type} (P : A -> bool) (g : A -> A) (l : list A) :
  (forall a, P (g a) = P a) -> (forall a, P a = true -> g a = a) ->
  filter P (map g l) = filter P l.
Proof.
  intros H1 H2. induction l as [|x l IH]; [reflexivity|].
  cbn [map filter]. rewrite H1. destruct (P x) eqn:Hx; [|exact IH].
  rewrite (H2 x Hx), IH. reflexivity.
Qed.

Lemma applicable_tenant (T U X : string) (p : Policy.t) :
  PolicyEngine.applicable T U X p = true -> String.eqb (Policy.tenant_id p) T = true.
Proof.
  unfold PolicyEngine.applicable. intros H. apply andb_prop in H. apply H.
Qed.

Lemma usageRow_tenant (T : string) (w : PolicyEngine.Window) (ps : Date.ISOString)
    (a : UsageAggregate.t) :
  PolicyEngine.usageRow T w ps a = true ->
  String.eqb (UsageAggregate.tenant_id a) T = true.
Proof.
  unfold PolicyEngine.usageRow. intros H.
  apply andb_prop in H. destruct H as [H _]. apply andb_prop in H. apply H.
Qed.

Lemma usageEvent_tenant (T : string) (ps : Date.ISOString) (ev : UsageEvent.t) :
  PolicyEngine.usageEvent T ps ev = true ->
  String.eqb (UsageEvent.tenant_id ev) T = true.
Proof.
  unfold PolicyEngine.usageEvent. intros H. apply andb_prop in H. apply H.
Qed.

Lemma sameKey_tenant (T U X : string) (pt : PeriodType) (ps : Date.DateString)
    (a : UsageAggregate.t) :
  DatabaseService.sameKey T U X pt ps a = true ->
  String.eqb (UsageAggregate.tenant_id a) T = true.
Proof.
  unfold DatabaseService.sameKey. intros H.
  repeat (apply andb_prop in H; destruct H as [H _]). exact H.
Qed.

Lemma getApplicablePolicies_same (f : Faults) (st st' : Store) (T U X : string) :
  policiesOf T st = policiesOf T st' ->
  PolicyEngine.getApplicablePolicies f st T U X
  = PolicyEngine.getApplicablePolicies f st' T U X.
Proof.
  unfold policiesOf, PolicyEngine.getApplicablePolicies. intros H.
  rewrite <- (filter_filter_imp (PolicyEngine.applicable T U X)
                (fun p => String.eqb (Policy.tenant_id p) T) (policies st)
                (applicable_tenant T U X)).
  rewrite <- (filter_filter_imp (PolicyEngine.applicable T U X)
                (fun p => String.eqb (Policy.tenant_id p) T) (policies st')
                (applicable_tenant T U X)).
  rewrite H. reflexivity.
Qed.

Lemma getCurrentUsage_same (f : Faults) (e : Date.Env) (st st' : Store)
    (T U X : string) (w : PolicyEngine.Window) :
  eventsOf T st = eventsOf T st' ->
  aggregatesOf T st = aggregatesOf T st' ->
  PolicyEngine.getCurrentUsage f e st T U X w
  = PolicyEngine.getCurrentUsage f e st' T U X w.
Proof.
  unfold eventsOf, aggregatesOf, PolicyEngine.getCurrentUsage. intros HE HA.
  set (ps := PolicyEngine.getPeriodStart e w).
  rewrite <- (filter_filter_imp (PolicyEngine.usageRow T w ps)
                (fun a => String.eqb (UsageAggregate.tenant_id a) T)
                (usage_aggregates st) (usageRow_tenant T w ps)).
  rewrite <- (filter_filter_imp (PolicyEngine.usageRow T w ps)
                (fun a => String.eqb (UsageAggregate.tenant_id a) T)
                (usage_aggregates st') (usageRow_tenant T w ps)).
  rewrite <- (filter_filter_imp (PolicyEngine.usageEvent T ps)
                (fun ev => String.eqb (UsageEvent.tenant_id ev) T)
                (usage_events st) (usageEvent_tenant T ps)).
  rewrite <- (filter_filter_imp (PolicyEngine.usageEvent T ps)
                (fun ev => String.eqb (UsageEvent.tenant_id ev) T)
                (usage_events st') (usageEvent_tenant T ps)).
  rewrite HE, HA. reflexivity.
Qed.

Lemma checkPolicies_same (f : Faults) (e : Date.Env) (st st' : Store)
    (T U X : string) (c : Q) (ps : list Policy.t) :
  eventsOf T st = eventsOf T st' ->
  aggregatesOf T st = aggregatesOf T st' ->
  PolicyEngine.checkPolicies f e st T U X c ps
  = PolicyEngine.checkPolicies f e st' T U X c ps.
Proof.
  intros HE HA. induction ps as [|p rest IH]; [reflexivity|].
  cbn [PolicyEngine.checkPolicies].
  rewrite (getCurrentUsage_same f e st st' T U X _ HE HA), IH. reflexivity.
Qed.

Lemma evaluateRequest_same (f : Faults) (e : Date.Env) (st st' : Store)
    (T U X : string) (c : Q) :
  SameFor T st st' ->
  PolicyEngine.evaluateRequest f e st T U X c
  = PolicyEngine.evaluateRequest f e st' T U X c.
Proof.
  intros (_ & _ & HP & HE & HA). unfold PolicyEngine.evaluateRequest.
  rewrite (getApplicablePolicies_same f st st' T U X HP).
  destruct (PolicyEngine.getApplicablePolicies f st' T U X) as [[|first more]|];
    cbn [bind]; try reflexivity.
  rewrite (checkPolicies_same f e st st' T U X c _ HE HA).
  rewrite (getCurrentUsage_same f e st st' T U X _ HE HA). reflexivity.
Qed.

Lemma upsertAggregate_same (f : Faults) (st st' : Store) (T U X : string)
    (pt : PeriodType) (ps : Date.DateString) (c n : Q) :
  SameFor T st st' ->
  sameOutcome (SameFor T)
    (DatabaseService.upsertAggregate f st T U X pt ps c n)
    (DatabaseService.upsertAggregate f st' T U X pt ps c n).
Proof.
  intros (HT & HO & HP & HE & HA).
  assert (Sel : DatabaseService.selectExisting (usage_aggregates st) T U X pt ps
                = DatabaseService.selectExisting (usage_aggregates st') T U X pt ps).
  { unfold DatabaseService.selectExisting.
    rewrite <- (filter_filter_imp (DatabaseService.sameKey T U X pt ps)
                  (fun a => String.eqb (UsageAggregate.tenant_id a) T)
                  (usage_aggregates st) (sameKey_tenant T U X pt ps)).
    rewrite <- (filter_filter_imp (DatabaseService.sameKey T U X pt ps)
                  (fun a => String.eqb (UsageAggregate.tenant_id a) T)
                  (usage_aggregates st') (sameKey_tenant T U X pt ps)).
    unfold aggregatesOf in HA. rewrite HA. reflexivity. }
  assert (Upd : forall existing,
            SameFor T
              (setAggregates st
                 (DatabaseService.updateExisting (usage_aggregates st) T U X pt ps
                    existing c n))
              (setAggregates st'
                 (DatabaseService.updateExisting (usage_aggregates st') T U X pt ps
                    existing c n))).
  { intros existing. repeat split; auto.
    unfold aggregatesOf, DatabaseService.updateExisting in *.
    destruct (DatabaseService.stored (fst existing + c) (snd existing + n))
      as [[tc tu]|]; cbn [usage_aggregates setAggregates]; [|exact HA].
    rewrite !filter_map_same, HA; [reflexivity| |];
      intros a; destruct (DatabaseService.sameKey T U X pt ps a); reflexivity. }
  assert (Ins : SameFor T
              (setAggregates st
                 (DatabaseService.insertNew (usage_aggregates st) T U X pt ps c n))
              (setAggregates st'
                 (DatabaseService.insertNew (usage_aggregates st') T U X pt ps c n))).
  { repeat split; auto.
    unfold aggregatesOf, DatabaseService.insertNew in *.
    cbn [usage_aggregates setAggregates].
    rewrite <- (existsb_filter_imp (DatabaseService.sameKey T U X pt ps)
                  (fun a => String.eqb (UsageAggregate.tenant_id a) T)
                  (usage_aggregates st) (sameKey_tenant T U X pt ps)).
    rewrite <- (existsb_filter_imp (DatabaseService.sameKey T U X pt ps)
                  (fun a => String.eqb (UsageAggregate.tenant_id a) T)
                  (usage_aggregates st') (sameKey_tenant T U X pt ps)).
    rewrite HA.
    destruct (existsb _ _); [exact HA|].
    destruct (DatabaseService.stored c n) as [[tc tu]|]; [|exact HA].
    rewrite !filter_app, HA. reflexivity. }
  assert (Same : SameFor T st st') by (repeat split; auto).
  unfold DatabaseService.upsertAggregate, await.
  destruct (f AtSelectAggregate); cbn [bind data sameOutcome]; auto.
  - rewrite <- Sel.
    destruct (data (DatabaseService.selectExisting (usage_aggregates st) T U X pt ps)).
    + destruct (f AtUpdateAggregate); cbn [sameOutcome]; auto.
    + destruct (f AtInsertAggregate); cbn [sameOutcome]; auto.
  - destruct (f AtInsertAggregate); cbn [sameOutcome]; auto.
Qed.

Lemma recordUsage_same (f : Faults) (e : Date.Env) (st st' : Store)
    (ev : UsageEvent.t) :
  SameFor (UsageEvent.tenant_id ev) st st' ->
  sameOutcome (fun r r' => SameFor (UsageEvent.tenant_id ev) (snd r) (snd r'))
    (DatabaseService.recordUsage f e st ev)
    (DatabaseService.recordUsage f e st' ev).
Proof.
  intros Same. unfold DatabaseService.recordUsage.
  destruct (f AtInsertEvent); cbn [sameOutcome snd]; auto.
  set (T := UsageEvent.tenant_id ev) in *.
  assert (S1 : SameFor T (setEvents st (usage_events st ++ [ev]))
                 (setEvents st' (usage_events st' ++ [ev]))).
  { destruct Same as (HT & HO & HP & HE & HA). repeat split; auto.
    unfold eventsOf in *. cbn [usage_events setEvents].
    rewrite !filter_app, HE. reflexivity. }
  unfold DatabaseService.updateAggregates. cbv zeta.
  pose proof (upsertAggregate_same f _ _ T (UsageEvent.user_id ev)
                (UsageEvent.tool_id ev) day (DatabaseService.dayKey (Date.atUpdate e))
                (UsageEvent.cost_estimate ev) (UsageEvent.units ev) S1) as D1.
  destruct (DatabaseService.upsertAggregate f (setEvents st _) _ _ _ day _ _ _)
    as [a1|];
    destruct (DatabaseService.upsertAggregate f (setEvents st' _) _ _ _ day _ _ _)
      as [b1|]; cbn [sameOutcome] in D1; try contradiction; cbn [fst]; auto.
  pose proof (upsertAggregate_same f _ _ T (UsageEvent.user_id ev)
                (UsageEvent.tool_id ev) month (DatabaseService.monthKey (Date.atUpdate e))
                (UsageEvent.cost_estimate ev) (UsageEvent.units ev) D1) as D2.
  destruct (DatabaseService.upsertAggregate f a1 _ _ _ month _ _ _) as [a2|];
    destruct (DatabaseService.upsertAggregate f b1 _ _ _ month _ _ _) as [b2|];
    cbn [sameOutcome] in D2; try contradiction; cbn [fst]; auto.
Qed.

Lemma getTool_same (f : Faults) (st st' : Store) (X : string) :
  tools st = tools st' ->
  DatabaseService.getTool f st X = DatabaseService.getTool f st' X.
Proof.
  intros H. unfold DatabaseService.getTool. rewrite H. reflexivity.
Qed.

Lemma isToolAllowedForPlan_same (f : Faults) (st st' : Store) (T X : string) :
  tenants st = tenants st' -> tools st = tools st' ->
  PolicyEngine.isToolAllowedForPlan f st T X
  = PolicyEngine.isToolAllowedForPlan f st' T X.
Proof.
  intros H1 H2. unfold PolicyEngine.isToolAllowedForPlan. rewrite H1, H2. reflexivity.
Qed.

Lemma getSuggestedFallback_same (f : Faults) (st st' : Store) (X : string) :
  tools st = tools st' ->
  PolicyEngine.getSuggestedFallback f st X = PolicyEngine.getSuggestedFallback f st' X.
Proof.
  intros H. unfold PolicyEngine.getSuggestedFallback, PolicyEngine.alternativesOf.
  rewrite H. reflexivity.
Qed.

(** The branches of the router that record an event, on two stores. *)
Ltac recorded_alike f e st st' Same :=
  match goal with
  | |- context [DatabaseService.recordUsage f e st ?x] =>
      pose proof (recordUsage_same f e st st' x Same) as RS;
      destruct (DatabaseService.recordUsage f e st x) as [r|];
      destruct (DatabaseService.recordUsage f e st' x) as [r'|];
      cbn [sameOutcome] in RS; try contradiction;
      cbn [bind sameOutcome fst snd UsageEvent.tenant_id] in *; auto
  end.

Lemma route_same (f : Faults) (e : Date.Env) (st st' : Store)
    (input : CheckAndRouteInput.t) :
  let T := JS.trim (CheckAndRouteInput.tenant_id input) in
  SameFor T st st' ->
  sameOutcome (fun r r' => fst r = fst r' /\ SameFor T (snd r) (snd r'))
    (route f e st input) (route f e st' input).
Proof.
  intros T Same. pose proof Same as (HT & HO & _).
  unfold route. fold T.
  rewrite (getTool_same f st st' _ HO).
  destruct (DatabaseService.getTool f st' (CheckAndRouteInput.tool_id input))
    as [[tool|]|]; cbn [bind sameOutcome fst snd]; auto.
  rewrite (isToolAllowedForPlan_same f st st' T _ HT HO).
  destruct (PolicyEngine.isToolAllowedForPlan f st' T _) as [[|]|];
    cbn [bind negb sameOutcome]; auto.
  - rewrite (evaluateRequest_same f e st st' T _ _ _ Same).
    destruct (PolicyEngine.evaluateRequest f e st' T _ _ _) as [evaluation|];
      cbn [bind sameOutcome]; auto.
    destruct (PolicyEvaluationResult.allowed evaluation); cbn [negb].
    + destruct (JS.truthyOpt (PolicyEvaluationResult.suggested_tool evaluation)).
      * rewrite (getTool_same f st st' _ HO).
        destruct (DatabaseService.getTool f st' _) as [ft|];
          cbn [bind sameOutcome]; auto.
        recorded_alike f e st st' Same.
      * recorded_alike f e st st' Same.
    + recorded_alike f e st st' Same.
  - rewrite (getSuggestedFallback_same f st st' _ HO).
    destruct (PolicyEngine.getSuggestedFallback f st' _) as [[fb|]|];
      cbn [bind sameOutcome fst snd]; auto.
    destruct (JS.truthy fb); cbn [sameOutcome fst snd]; auto.
Qed.



Lemma SameFor_refl (T : string) (st : Store) : SameFor T st st.
Proof. repeat split; reflexivity. Qed.

Lemma SameFor_trans (T : string) (a b c : Store) :
  SameFor T a b -> SameFor T b c -> SameFor T a c.
Proof.
  intros (A1 & A2 & A3 & A4 & A5) (B1 & B2 & B3 & B4 & B5).
  repeat split; congruence.
Qed.

Lemma upsertAggregate_other (f : Faults) (st st' : Store) (T T' U X : string)
    (pt : PeriodType) (ps : Date.DateString) (c n : Q) :
  T' <> T ->
  DatabaseService.upsertAggregate f st T' U X pt ps c n = Returned st' ->
  SameFor T st st'.
Proof.
  intros NE.
  assert (Other : forall a, String.eqb (UsageAggregate.tenant_id a) T = true ->
                            DatabaseService.sameKey T' U X pt ps a = false).
  { intros a Ha. destruct (DatabaseService.sameKey T' U X pt ps a) eqn:K; [|reflexivity].
    apply sameKey_tenant in K. apply String.eqb_eq in Ha, K. congruence. }
  assert (Upd : forall existing,
            SameFor T st
              (setAggregates st
                 (DatabaseService.updateExisting (usage_aggregates st) T' U X pt ps
                    existing c n))).
  { intros existing. repeat split.
    unfold aggregatesOf, DatabaseService.updateExisting.
    destruct (DatabaseService.stored (fst existing + c) (snd existing + n))
      as [[tc tu]|]; cbn [usage_aggregates setAggregates]; [|reflexivity].
    rewrite filter_map_untouched; [reflexivity| |].
    - intros a. destruct (DatabaseService.sameKey T' U X pt ps a); reflexivity.
    - intros a Ha. rewrite (Other a Ha). reflexivity. }
  assert (Ins : SameFor T st
              (setAggregates st
                 (DatabaseService.insertNew (usage_aggregates st) T' U X pt ps c n))).
  { repeat split. unfold aggregatesOf, DatabaseService.insertNew.
    cbn [usage_aggregates setAggregates].
    destruct (existsb _ _); [reflexivity|].
    destruct (DatabaseService.stored c n) as [[tc tu]|]; [|reflexivity].
    rewrite filter_app. cbn [filter UsageAggregate.tenant_id].
    apply String.eqb_neq in NE. rewrite NE, app_nil_r. reflexivity. }
  unfold DatabaseService.upsertAggregate, await.
  destruct (f AtSelectAggregate); cbn [bind data]; try discriminate.
  - destruct (data (DatabaseService.selectExisting (usage_aggregates st) T' U X pt ps)).
    + destruct (f AtUpdateAggregate); try discriminate; intros H;
        apply Returned_inj in H; subst st'; auto using SameFor_refl.
    + destruct (f AtInsertAggregate); try discriminate; intros H;
        apply Returned_inj in H; subst st'; auto using SameFor_refl.
  - destruct (f AtInsertAggregate); try discriminate; intros H;
      apply Returned_inj in H; subst st'; auto using SameFor_refl.
Qed.

Lemma recordUsage_other (f : Faults) (e : Date.Env) (st : Store) (T : string)
    (ev : UsageEvent.t) (r : option UsageEvent.t * Store) :
  UsageEvent.tenant_id ev <> T ->
  DatabaseService.recordUsage f e st ev = Returned r ->
  SameFor T st (snd r).
Proof.
  intros NE. unfold DatabaseService.recordUsage.
  destruct (f AtInsertEvent); try discriminate; intros H;
    apply Returned_inj in H; subst r; cbn [snd]; [|apply SameFor_refl].
  assert (S1 : SameFor T st (setEvents st (usage_events st ++ [ev]))).
  { repeat split. unfold eventsOf. cbn [usage_events setEvents].
    rewrite filter_app. cbn [filter].
    apply String.eqb_neq in NE. rewrite NE, app_nil_r. reflexivity. }
  unfold DatabaseService.updateAggregates. cbv zeta.
  destruct (DatabaseService.upsertAggregate f _ _ _ _ day _ _ _) as [st1|] eqn:E1;
    cbn [fst]; [|exact S1].
  apply (upsertAggregate_other f _ _ T) in E1; [|exact NE].
  destruct (DatabaseService.upsertAggregate f st1 _ _ _ month _ _ _) as [st2|] eqn:E2;
    cbn [fst].
  - apply (upsertAggregate_other f _ _ T) in E2; [|exact NE].
    exact (SameFor_trans T _ _ _ S1 (SameFor_trans T _ _ _ E1 E2)).
  - exact (SameFor_trans T _ _ _ S1 E1).
Qed.



(** ** Sums of costs, and what a pass of the evaluation tells *)

Lemma fold_costs_acc (l : list UsageEvent.t) (acc : Q) :
  fold_left (fun sum ev => sum + UsageEvent.cost_estimate ev) l acc
  == acc + PolicyEngine.sumCosts l.
Proof.
  unfold PolicyEngine.sumCosts. revert acc.
  induction l as [|x l IH]; intros acc; cbn [fold_left]; [lra|].
  rewrite (IH (acc + UsageEvent.cost_estimate x)),
          (IH (0 + UsageEvent.cost_estimate x)). lra.
Qed.

Lemma sumCosts_cons (x : UsageEvent.t) (l : list UsageEvent.t) :
  PolicyEngine.sumCosts (x :: l)
  == UsageEvent.cost_estimate x + PolicyEngine.sumCosts l.
Proof.
  unfold PolicyEngine.sumCosts at 1. cbn [fold_left].
  rewrite fold_costs_acc. lra.
Qed.

(** Two selections of events that differ by events of cost 0 only have the
    same sum. *)
Lemma sumCosts_filter_zero (A B : UsageEvent.t -> bool) (l : list UsageEvent.t) :
  (forall ev, In ev l ->
     A ev = B ev \/ (A ev = true /\ B ev = false /\ UsageEvent.cost_estimate ev == 0)) ->
  PolicyEngine.sumCosts (filter A l) == PolicyEngine.sumCosts (filter B l).
Proof.
  induction l as [|x l IH]; intros H; [reflexivity|].
  assert (IH' : PolicyEngine.sumCosts (filter A l) == PolicyEngine.sumCosts (filter B l)).
  { apply IH. intros ev Hev. apply H. right. exact Hev. }
  cbn [filter].
  destruct (H x (or_introl eq_refl)) as [E | (EA & EB & Z0)].
  - rewrite E. destruct (B x); [|exact IH'].
    rewrite !sumCosts_cons, IH'. reflexivity.
  - rewrite EA, EB, sumCosts_cons, IH', Z0. lra.
Qed.

Lemma hasKey_own (a : UsageAggregate.t) :
  hasKey (mkKey (UsageAggregate.tenant_id a) (UsageAggregate.user_id a)
            (UsageAggregate.tool_id a) (UsageAggregate.period_type a)
            (UsageAggregate.period_start a)) a = true.
Proof.
  unfold hasKey, DatabaseService.sameKey.
  cbn [key_tenant key_user key_tool key_period_type key_period_start].
  rewrite !String.eqb_refl, Z.eqb_refl.
  destruct (UsageAggregate.period_type a); reflexivity.
Qed.

Lemma unique_row (aggs : list UsageAggregate.t) (k : AggKey) (a : UsageAggregate.t) :
  UniqueKeys aggs -> In a aggs -> hasKey k a = true -> filter (hasKey k) aggs = [a].
Proof.
  intros UK Hin Hk. pose proof (UK k) as L.
  assert (Hf : In a (filter (hasKey k) aggs)) by (apply filter_In; auto).
  destruct (filter (hasKey k) aggs) as [|x [|y more]]; cbn [List.length] in L.
  - destruct Hf.
  - destruct Hf as [->|[]]. reflexivity.
  - lia.
Qed.

Lemma onBreach_allowed_suggests (p : Policy.t) (u : Q) (r : PolicyEvaluationResult.t) :
  PolicyEngine.onBreach p u = Some r ->
  PolicyEvaluationResult.allowed r = true ->
  JS.truthyOpt (PolicyEvaluationResult.suggested_tool r) = true.
Proof.
  unfold PolicyEngine.onBreach.
  destruct (Policy.decision p); try discriminate.
  - intros H. injection H as <-. discriminate.
  - destruct (Policy.fallback_tool_id p) as [fb|]; try discriminate.
    destruct (JS.truthy fb) eqn:Tr; try discriminate.
    intros H. injection H as <-. intros _. exact Tr.
  - intros H. injection H as <-. discriminate.
Qed.

Lemma checkPolicies_allowed_suggests (f : Faults) (e : Date.Env) (st : Store)
    (T U X : string) (c : Q) (ps : list Policy.t) (r : PolicyEvaluationResult.t) :
  PolicyEngine.checkPolicies f e st T U X c ps = Returned (Some r) ->
  PolicyEvaluationResult.allowed r = true ->
  JS.truthyOpt (PolicyEvaluationResult.suggested_tool r) = true.
Proof.
  induction ps as [|p rest IH]; cbn [PolicyEngine.checkPolicies]; [discriminate|].
  destruct (PolicyEngine.getCurrentUsage f e st T U X (PolicyEngine.policyWindow p))
    as [u|]; cbn [bind]; [|discriminate].
  destruct (JS.gt (u + c) (Policy.limit_value p)); [|exact IH].
  destruct (PolicyEngine.onBreach p u) as [res|] eqn:OB; [|exact IH].
  intros H. apply Returned_inj in H. injection H as <-.
  exact (onBreach_allowed_suggests p u res OB).
Qed.

(** When the loop ends without a return, every policy that blocks was
    within its limit. *)
Lemma checkPolicies_none_within (f : Faults) (e : Date.Env) (st : Store)
    (T U X : string) (c : Q) (ps : list Policy.t) (p : Policy.t) :
  PolicyEngine.checkPolicies f e st T U X c ps = Returned None ->
  In p ps ->
  Policy.decision p = deny \/ Policy.decision p = require_approval ->
  exists u,
    PolicyEngine.getCurrentUsage f e st T U X (PolicyEngine.policyWindow p) = Returned u /\
    u + c <= Policy.limit_value p.
Proof.
  intros H Hin Blocks. induction ps as [|q rest IH]; [destruct Hin|].
  cbn [PolicyEngine.checkPolicies] in H.
  destruct (PolicyEngine.getCurrentUsage f e st T U X (PolicyEngine.policyWindow q))
    as [u|] eqn:EU; cbn [bind] in H; [|discriminate H].
  destruct (JS.gt (u + c) (Policy.limit_value q)) eqn:G.
  - destruct (PolicyEngine.onBreach q u) as [res|] eqn:OB; [discriminate H|].
    destruct Hin as [->|Hin]; [|exact (IH H Hin)].
    unfold PolicyEngine.onBreach in OB.
    destruct Blocks as [B|B]; rewrite B in OB; discriminate OB.
  - destruct Hin as [->|Hin]; [|exact (IH H Hin)].
    exists u. split; [exact EU|].
    unfold JS.gt in G. apply negb_false_iff in G. apply Qle_bool_iff. exact G.
Qed.

Lemma evaluateRequest_pass_within (e : Date.Env) (st : Store) (T U X : string) (c : Q)
    (res : PolicyEvaluationResult.t) (p : Policy.t) :
  PolicyEngine.evaluateRequest no_faults e st T U X c = Returned res ->
  PolicyEvaluationResult.allowed res = true ->
  JS.truthyOpt (PolicyEvaluationResult.suggested_tool res) = false ->
  In p (policies st) ->
  PolicyEngine.applicable T U X p = true ->
  Policy.decision p = deny \/ Policy.decision p = require_approval ->
  exists u,
    PolicyEngine.getCurrentUsage no_faults e st T U X (PolicyEngine.policyWindow p)
    = Returned u /\
    u + c <= Policy.limit_value p.
Proof.
  intros EV AL NS Hin App Blocks.
  unfold PolicyEngine.evaluateRequest, PolicyEngine.getApplicablePolicies in EV.
  rewrite await_no_faults in EV. cbn [bind rows data error] in EV.
  set (ps := orderBy PolicyEngine.scopeDescending
               (filter (PolicyEngine.applicable T U X) (policies st))) in *.
  assert (Hps : In p ps).
  { unfold ps. apply In_orderBy. apply filter_In. auto. }
  destruct ps as [|first more] eqn:Eps; [destruct Hps|].
  destruct (PolicyEngine.checkPolicies no_faults e st T U X c (first :: more))
    as [[r|]|] eqn:EC; cbn [bind] in EV; [| |discriminate EV].
  - apply Returned_inj in EV. subst r.
    rewrite (checkPolicies_allowed_suggests _ _ _ _ _ _ _ _ _ EC AL) in NS.
    discriminate NS.
  - exact (checkPolicies_none_within _ _ _ _ _ _ _ _ p EC Hps Blocks).
Qed.

Lemma evaluateRequest_suggested_by (f : Faults) (e : Date.Env) (st : Store)
    (T U X : string) (c : Q) (r : PolicyEvaluationResult.t) :
  PolicyEngine.evaluateRequest f e st T U X c = Returned r ->
  JS.truthyOpt (PolicyEvaluationResult.suggested_tool r) = true ->
  exists p, In p (policies st) /\ PolicyEngine.applicable T U X p = true /\
            canDowngrade p = true.
Proof.
  unfold PolicyEngine.evaluateRequest. intros EV TS.
  destruct (PolicyEngine.getApplicablePolicies f st T U X) as [ps|] eqn:EP;
    cbn [bind] in EV; [|discriminate EV].
  destruct ps as [|first more]; [apply Returned_inj in EV; subst r; discriminate TS|].
  destruct (PolicyEngine.checkPolicies f e st T U X c (first :: more))
    as [[res|]|] eqn:EC; cbn [bind] in EV; [| |discriminate EV].
  - apply Returned_inj in EV. subst res.
    destruct (PolicyEvaluationResult.suggested_tool r) as [s|] eqn:ES;
      [|discriminate TS].
    destruct (checkPolicies_suggests _ _ _ _ _ _ _ _ _ s EC ES)
      as (p & u & Hin & Dec & Fb & Ne & _).
    destruct (getApplicablePolicies_In _ _ _ _ _ _ p EP Hin) as [Hp App].
    exists p. repeat split; auto.
    unfold canDowngrade. rewrite Dec, Fb. exact TS.
  - destruct (PolicyEngine.getCurrentUsage f e st T U X PolicyEngine.Daily);
      cbn [bind] in EV; [|discriminate EV].
    apply Returned_inj in EV. subst r. discriminate TS.
Qed.


(** ** The usage summary *)

Lemma Permutation_insertRow {A : Type} (before : A -> A -> bool) (x : A) (l : list A) :
  Permutation (insertRow before x l) (x :: l).
Proof.
  induction l as [|y r IH]; cbn [insertRow]; [apply Permutation_refl|].
  destruct (before x y); [apply Permutation_refl|].
  apply perm_trans with (y :: x :: r); [apply perm_skip; exact IH | apply perm_swap].
Qed.

Lemma Permutation_orderBy {A : Type} (before : A -> A -> bool) (l : list A) :
  Permutation (orderBy before l) l.
Proof.
  induction l as [|x r IH]; cbn [orderBy]; [apply perm_nil|].
  apply perm_trans with (x :: orderBy before r);
    [apply Permutation_insertRow | apply perm_skip; exact IH].
Qed.

Lemma Permutation_split {A : Type} (P : A -> bool) (l : list A) :
  Permutation (filter P l ++ filter (fun x => negb (P x)) l) l.
Proof.
  induction l as [|x r IH]; cbn [filter]; [apply perm_nil|].
  destruct (P x); cbn [negb app].
  - apply perm_skip. exact IH.
  - apply Permutation_sym, Permutation_cons_app, Permutation_sym. exact IH.
Qed.

Lemma Permutation_entries (m : UsageSummary.ByTool) :
  Permutation (UsageSummary.entries m) m.
Proof.
  unfold UsageSummary.entries.
  apply perm_trans with
    (filter (fun kv => UsageSummary.isIndex (fst kv)) m
     ++ filter (fun kv => negb (UsageSummary.isIndex (fst kv))) m)%list.
  - apply Permutation_app_tail. apply Permutation_orderBy.
  - apply (Permutation_split (fun kv => UsageSummary.isIndex (fst kv))).
Qed.

(** The sums of the entries of [byTool]. *)
Lemma sumToolCosts_perm (l l' : list UsageSummary.ToolUsage) :
  Permutation l l' ->
  UsageSummary.sumToolCosts l == UsageSummary.sumToolCosts l' /\
  UsageSummary.sumToolUnits l == UsageSummary.sumToolUnits l'.
Proof.
  unfold UsageSummary.sumToolCosts, UsageSummary.sumToolUnits.
  induction 1 as [|x l l' _ [IH1 IH2]|x y l|l l' l'' _ [IH1 IH2] _ [IH3 IH4]];
    cbn [fold_right].
  - split; reflexivity.
  - rewrite IH1, IH2. split; reflexivity.
  - split; lra.
  - rewrite IH1, IH2. split; assumption.
Qed.

Lemma addTo_keys (k : string) (c u : Q) (m : UsageSummary.ByTool) :
  map fst (UsageSummary.addTo k c u m) = map fst m.
Proof.
  induction m as [|[k' v] r IH]; cbn [UsageSummary.addTo]; [reflexivity|].
  destruct (String.eqb k k'); cbn [map fst]; [reflexivity|].
  rewrite IH. reflexivity.
Qed.

Lemma lookup_None (k : string) (m : UsageSummary.ByTool) :
  UsageSummary.lookup k m = None <-> ~ In k (map fst m).
Proof.
  induction m as [|[k' v] r IH]; cbn [UsageSummary.lookup map fst In].
  - split; [intros _ [] | reflexivity].
  - destruct (String.eqb k k') eqn:E.
    + apply String.eqb_eq in E. subst k'. split; [discriminate|]. intros H.
      exfalso. apply H. left. reflexivity.
    + apply String.eqb_neq in E. rewrite IH. split.
      * intros H [H'|H']; [congruence | exact (H H')].
      * intros H H'. apply H. right. exact H'.
Qed.

Lemma lookup_In (k : string) (v : UsageSummary.Entry) (m : UsageSummary.ByTool) :
  NoDup (map fst m) -> In (k, v) m -> UsageSummary.lookup k m = Some v.
Proof.
  induction m as [|[k' v'] r IH]; cbn [UsageSummary.lookup map fst In];
    intros ND Hin; [destruct Hin|].
  inversion ND as [|? ? Hnot ND']; subst.
  destruct Hin as [E|Hin].
  - injection E as -> ->. rewrite String.eqb_refl. reflexivity.
  - destruct (String.eqb k k') eqn:E; [|exact (IH ND' Hin)].
    apply String.eqb_eq in E. subst k'. exfalso. apply Hnot.
    apply (in_map fst) in Hin. exact Hin.
Qed.

Lemma sumTool_app (l r : list UsageSummary.ToolUsage) :
  UsageSummary.sumToolCosts (l ++ r)%list
  == UsageSummary.sumToolCosts l + UsageSummary.sumToolCosts r /\
  UsageSummary.sumToolUnits (l ++ r)%list
  == UsageSummary.sumToolUnits l + UsageSummary.sumToolUnits r.
Proof.
  unfold UsageSummary.sumToolCosts, UsageSummary.sumToolUnits.
  induction l as [|x l [IH1 IH2]]; cbn [app fold_right]; [split; lra|].
  rewrite IH1, IH2. split; lra.
Qed.

Lemma addTo_sum (k : string) (c u : Q) (m : UsageSummary.ByTool)
    (v : UsageSummary.Entry) :
  UsageSummary.lookup k m = Some v ->
  UsageSummary.sumToolCosts (map UsageSummary.toUsage (UsageSummary.addTo k c u m))
  == UsageSummary.sumToolCosts (map UsageSummary.toUsage m) + c /\
  UsageSummary.sumToolUnits (map UsageSummary.toUsage (UsageSummary.addTo k c u m))
  == UsageSummary.sumToolUnits (map UsageSummary.toUsage m) + u.
Proof.
  unfold UsageSummary.sumToolCosts, UsageSummary.sumToolUnits.
  induction m as [|[k' v'] r IH]; cbn [UsageSummary.lookup UsageSummary.addTo];
    [discriminate|].
  destruct (String.eqb k k'); cbn [map fold_right UsageSummary.toUsage fst snd
    UsageSummary.tool_cost UsageSummary.tool_units UsageSummary.cost UsageSummary.units].
  - intros _. split; lra.
  - intros H. destruct (IH H) as [IH1 IH2]. rewrite IH1, IH2. split; lra.
Qed.

Lemma addTo_app (k : string) (c u : Q) (m r : UsageSummary.ByTool) :
  UsageSummary.lookup k m = None ->
  UsageSummary.addTo k c u (m ++ r)%list = (m ++ UsageSummary.addTo k c u r)%list.
Proof.
  induction m as [|[k' v'] m IH]; cbn [UsageSummary.lookup UsageSummary.addTo app];
    [reflexivity|].
  destruct (String.eqb k k'); [discriminate|].
  intros H. rewrite (IH H). reflexivity.
Qed.

Lemma lookup_addTo (k' k : string) (c u : Q) (m : UsageSummary.ByTool) :
  UsageSummary.lookup k' (UsageSummary.addTo k c u m)
  = if String.eqb k' k
    then match UsageSummary.lookup k m with
         | Some v => Some (UsageSummary.mkEntry (UsageSummary.cost v + c)
                             (UsageSummary.units v + u) (UsageSummary.name v))
         | None => None
         end
    else UsageSummary.lookup k' m.
Proof.
  induction m as [|[k1 v1] r IH]; cbn [UsageSummary.lookup UsageSummary.addTo].
  - destruct (String.eqb k' k); reflexivity.
  - destruct (String.eqb k k1) eqn:E1; cbn [UsageSummary.lookup].
    + apply String.eqb_eq in E1. subst k1.
      destruct (String.eqb k' k); reflexivity.
    + rewrite IH. destruct (String.eqb k' k1) eqn:E2; [|reflexivity].
      apply String.eqb_eq in E2. subst k1.
      rewrite String.eqb_sym, E1. reflexivity.
Qed.

Lemma lookup_app_one (k' k : string) (e : UsageSummary.Entry) (m : UsageSummary.ByTool) :
  UsageSummary.lookup k' (m ++ [(k, e)])%list
  = match UsageSummary.lookup k' m with
    | Some v => Some v
    | None => if String.eqb k' k then Some e else None
    end.
Proof.
  induction m as [|[k1 v1] r IH]; cbn [UsageSummary.lookup app]; [reflexivity|].
  destruct (String.eqb k' k1); [reflexivity | exact IH].
Qed.

(** What one round of the [forEach] does to the entry of a key. *)
Lemma visit_lookup (acc : UsageSummary.Acc) (row : UsageSummary.Row) (k' : string) :
  let k := UsageEvent.tool_id (fst row) in
  UsageSummary.lookup k' (UsageSummary.byTool (UsageSummary.visit acc row))
  = if negb (UsageSummary.inherited k) && String.eqb k' k
    then Some (match UsageSummary.lookup k (UsageSummary.byTool acc) with
               | Some v =>
                   UsageSummary.mkEntry
                     (UsageSummary.cost v + UsageEvent.cost_estimate (fst row))
                     (UsageSummary.units v + UsageEvent.units (fst row))
                     (UsageSummary.name v)
               | None =>
                   UsageSummary.mkEntry
                     (0 + UsageEvent.cost_estimate (fst row))
                     (0 + UsageEvent.units (fst row))
                     (UsageSummary.nameOf row)
               end)
    else UsageSummary.lookup k' (UsageSummary.byTool acc).
Proof.
  intros k. unfold UsageSummary.visit. fold k. cbn [UsageSummary.byTool].
  destruct (UsageSummary.inherited k); cbn [negb andb]; [reflexivity|].
  destruct (UsageSummary.lookup k (UsageSummary.byTool acc)) as [v|] eqn:L.
  - rewrite lookup_addTo, L. reflexivity.
  - rewrite (addTo_app _ _ _ _ _ L). cbn [UsageSummary.addTo].
    rewrite String.eqb_refl, lookup_app_one.
    cbn [UsageSummary.cost UsageSummary.units UsageSummary.name].
    destruct (String.eqb k' k) eqn:E.
    + apply String.eqb_eq in E. subst k'. rewrite L. reflexivity.
    + destruct (UsageSummary.lookup k' (UsageSummary.byTool acc)); reflexivity.
Qed.

Lemma visit_keys (acc : UsageSummary.Acc) (row : UsageSummary.Row) :
  NoDup (map fst (UsageSummary.byTool acc)) ->
  NoDup (map fst (UsageSummary.byTool (UsageSummary.visit acc row))).
Proof.
  intros ND. unfold UsageSummary.visit. cbn [UsageSummary.byTool].
  destruct (UsageSummary.inherited _); [exact ND|].
  rewrite addTo_keys.
  destruct (UsageSummary.lookup _ (UsageSummary.byTool acc)) eqn:L; [exact ND|].
  rewrite map_app. cbn [map fst].
  apply lookup_None in L.
  apply NoDup_app; [exact ND | repeat constructor; intros [] | ].
  intros x Hx [<-|[]]. exact (L Hx).
Qed.

Lemma visit_sums (acc : UsageSummary.Acc) (row : UsageSummary.Row) :
  let ev := fst row in
  let acc' := UsageSummary.visit acc row in
  let own := if UsageSummary.inherited (UsageEvent.tool_id ev) then 0 else 1 in
  UsageSummary.sumToolCosts (map UsageSummary.toUsage (UsageSummary.byTool acc'))
  == UsageSummary.sumToolCosts (map UsageSummary.toUsage (UsageSummary.byTool acc))
     + own * UsageEvent.cost_estimate ev /\
  UsageSummary.sumToolUnits (map UsageSummary.toUsage (UsageSummary.byTool acc'))
  == UsageSummary.sumToolUnits (map UsageSummary.toUsage (UsageSummary.byTool acc))
     + own * UsageEvent.units ev.
Proof.
  intros ev acc' own. unfold acc', own, UsageSummary.visit. fold ev.
  cbn [UsageSummary.byTool].
  destruct (UsageSummary.inherited (UsageEvent.tool_id ev)); [split; lra|].
  destruct (UsageSummary.lookup (UsageEvent.tool_id ev) (UsageSummary.byTool acc))
    as [v|] eqn:L.
  - destruct (addTo_sum _ (UsageEvent.cost_estimate ev) (UsageEvent.units ev) _ _ L)
      as [S1 S2].
    rewrite S1, S2. split; lra.
  - rewrite (addTo_app _ _ _ _ _ L). cbn [UsageSummary.addTo].
    rewrite String.eqb_refl, map_app.
    destruct (sumTool_app (map UsageSummary.toUsage (UsageSummary.byTool acc))
                (map UsageSummary.toUsage
                   [(UsageEvent.tool_id ev,
                     UsageSummary.mkEntry
                       (UsageSummary.cost (UsageSummary.mkEntry 0 0 (UsageSummary.nameOf row))
                        + UsageEvent.cost_estimate ev)
                       (UsageSummary.units (UsageSummary.mkEntry 0 0 (UsageSummary.nameOf row))
                        + UsageEvent.units ev)
                       (UsageSummary.name (UsageSummary.mkEntry 0 0 (UsageSummary.nameOf row))))]))
      as [S1 S2].
    rewrite S1, S2.
    unfold UsageSummary.sumToolCosts, UsageSummary.sumToolUnits.
    cbn [map fold_right UsageSummary.toUsage fst snd UsageSummary.tool_cost
         UsageSummary.tool_units UsageSummary.cost UsageSummary.units].
    split; lra.
Qed.

(** The accumulators after the [forEach]. *)
Lemma fold_visit_sums (rows : list UsageSummary.Row) (acc : UsageSummary.Acc) :
  let acc' := fold_left UsageSummary.visit rows acc in
  (UsageSummary.sumToolCosts (map UsageSummary.toUsage (UsageSummary.byTool acc'))
   + PolicyEngine.sumCosts (UsageSummary.inheritedRows rows)
   == UsageSummary.sumToolCosts (map UsageSummary.toUsage (UsageSummary.byTool acc))
      + PolicyEngine.sumCosts (map fst rows)) /\
  (UsageSummary.sumToolUnits (map UsageSummary.toUsage (UsageSummary.byTool acc'))
   + UsageSummary.sumUnits (UsageSummary.inheritedRows rows)
   == UsageSummary.sumToolUnits (map UsageSummary.toUsage (UsageSummary.byTool acc))
      + UsageSummary.sumUnits (map fst rows)) /\
  UsageSummary.totalCost acc'
  == UsageSummary.totalCost acc + PolicyEngine.sumCosts (map fst rows) /\
  UsageSummary.totalUnits acc'
  == UsageSummary.totalUnits acc + UsageSummary.sumUnits (map fst rows) /\
  (NoDup (map fst (UsageSummary.byTool acc)) ->
   NoDup (map fst (UsageSummary.byTool acc'))).
Proof.
  revert acc. induction rows as [|row rows IH]; intros acc; cbn [fold_left].
  - unfold UsageSummary.inheritedRows. cbn [map filter UsageSummary.sumUnits fold_right].
    change (PolicyEngine.sumCosts []) with 0.
    repeat split; try lra. auto.
  - destruct (IH (UsageSummary.visit acc row)) as (C & N & TC & TU & ND).
    destruct (visit_sums acc row) as [VC VN].
    cbv zeta in VC, VN.
    unfold UsageSummary.inheritedRows in *. cbn [map filter].
    cbn [UsageSummary.sumUnits fold_right].
    fold (UsageSummary.sumUnits (map fst rows)).
    rewrite sumCosts_cons.
    assert (TC1 : UsageSummary.totalCost (UsageSummary.visit acc row)
                  = UsageSummary.totalCost acc + UsageEvent.cost_estimate (fst row))
      by reflexivity.
    assert (TU1 : UsageSummary.totalUnits (UsageSummary.visit acc row)
                  = UsageSummary.totalUnits acc + UsageEvent.units (fst row))
      by reflexivity.
    rewrite TC1 in TC. rewrite TU1 in TU.
    destruct (UsageSummary.inherited (UsageEvent.tool_id (fst row)));
      [rewrite sumCosts_cons; cbn [UsageSummary.sumUnits fold_right];
       fold (UsageSummary.sumUnits
               (filter (fun ev => UsageSummary.inherited (UsageEvent.tool_id ev))
                       (map fst rows)))|];
      (split; [lra|]); (split; [lra|]); (split; [lra|]); (split; [lra|]);
      intros H; apply ND, visit_keys, H.
Qed.

Lemma fold_visit_key (g : string -> string) (k : string) (rows : list UsageSummary.Row)
    (acc : UsageSummary.Acc) :
  let acc' := fold_left UsageSummary.visit rows acc in
  let ofKey := filter (fun ev => String.eqb (UsageEvent.tool_id ev) k) (map fst rows) in
  UsageSummary.inherited k = false ->
  UsageSummary.costAt k (UsageSummary.byTool acc')
  == UsageSummary.costAt k (UsageSummary.byTool acc) + PolicyEngine.sumCosts ofKey /\
  UsageSummary.unitsAt k (UsageSummary.byTool acc')
  == UsageSummary.unitsAt k (UsageSummary.byTool acc) + UsageSummary.sumUnits ofKey /\
  (UsageSummary.lookup k (UsageSummary.byTool acc') <> None <->
   UsageSummary.lookup k (UsageSummary.byTool acc) <> None \/ ofKey <> []) /\
  ((forall row, In row rows -> UsageSummary.nameOf row = g (UsageEvent.tool_id (fst row))) ->
   (forall v, UsageSummary.lookup k (UsageSummary.byTool acc) = Some v ->
              UsageSummary.name v = g k) ->
   forall v, UsageSummary.lookup k (UsageSummary.byTool acc') = Some v ->
             UsageSummary.name v = g k).
Proof.
  intros acc' ofKey NI. unfold acc', ofKey. clear acc' ofKey.
  revert acc. induction rows as [|row rows IH]; intros acc; cbn [fold_left map filter].
  - change (PolicyEngine.sumCosts []) with 0. cbn [UsageSummary.sumUnits fold_right].
    repeat split; try lra; auto.
    intros [H|H]; [exact H | contradiction].
  - destruct (IH (UsageSummary.visit acc row)) as (C & N & P & Nm).
    pose proof (visit_lookup acc row k) as VL. cbv zeta in VL.
    unfold UsageSummary.costAt, UsageSummary.unitsAt in *.
    rewrite VL in C, N, P. rewrite (String.eqb_sym (UsageEvent.tool_id (fst row)) k).
    destruct (String.eqb k (UsageEvent.tool_id (fst row))) eqn:E.
    + apply String.eqb_eq in E.
      rewrite <- E, NI, ?String.eqb_refl in C, N, P, VL.
      cbn [negb andb] in C, N, P, VL. rewrite sumCosts_cons.
      cbn [UsageSummary.sumUnits fold_right].
      fold (UsageSummary.sumUnits
              (filter (fun ev => String.eqb (UsageEvent.tool_id ev) k) (map fst rows))).
      split; [|split; [|split]].
      * destruct (UsageSummary.lookup k (UsageSummary.byTool acc));
          cbn [UsageSummary.cost] in C; lra.
      * destruct (UsageSummary.lookup k (UsageSummary.byTool acc));
          cbn [UsageSummary.units] in N; lra.
      * split; intros _; [right; discriminate|].
        apply P. left. discriminate.
      * intros Hrows Hacc. apply Nm.
        -- intros r Hr. apply Hrows. right. exact Hr.
        -- rewrite VL. intros v Hv. injection Hv as <-.
           destruct (UsageSummary.lookup k (UsageSummary.byTool acc)) as [v0|] eqn:L;
             cbn [UsageSummary.name].
           ++ apply Hacc. reflexivity.
           ++ rewrite E. apply Hrows. left. reflexivity.
    + rewrite andb_false_r in *.
      split; [exact C|]. split; [exact N|]. split; [exact P|].
      intros Hrows Hacc. apply Nm.
      * intros r Hr. apply Hrows. right. exact Hr.
      * rewrite VL. exact Hacc.
Qed.

Lemma fold_visit_inherited (k : string) (rows : list UsageSummary.Row)
    (acc : UsageSummary.Acc) :
  UsageSummary.inherited k = true ->
  UsageSummary.lookup k (UsageSummary.byTool (fold_left UsageSummary.visit rows acc))
  = UsageSummary.lookup k (UsageSummary.byTool acc).
Proof.
  intros I. revert acc. induction rows as [|row rows IH]; intros acc;
    cbn [fold_left]; [reflexivity|].
  rewrite IH. pose proof (visit_lookup acc row k) as VL. cbv zeta in VL.
  rewrite VL.
  destruct (String.eqb k (UsageEvent.tool_id (fst row))) eqn:E;
    [|rewrite andb_false_r; reflexivity].
  apply String.eqb_eq in E. rewrite <- E, I. reflexivity.
Qed.

Lemma lookup_Some_In (k : string) (v : UsageSummary.Entry) (m : UsageSummary.ByTool) :
  UsageSummary.lookup k m = Some v -> In (k, v) m.
Proof.
  induction m as [|[k' v'] r IH]; cbn [UsageSummary.lookup]; [discriminate|].
  destruct (String.eqb k k') eqn:E.
  - apply String.eqb_eq in E. subst k'. intros H. injection H as ->. left. reflexivity.
  - intros H. right. exact (IH H).
Qed.

Lemma nameOf_joinTool (catalog : list Tool.t) (ev : UsageEvent.t) :
  UsageSummary.nameOf (UsageSummary.joinTool catalog ev)
  = UsageSummary.nameInCatalog catalog (UsageEvent.tool_id ev).
Proof.
  unfold UsageSummary.nameOf, UsageSummary.joinTool, UsageSummary.nameInCatalog.
  cbn [fst snd].
  destruct (find _ catalog); reflexivity.
Qed.

Lemma map_fst_joinTool (catalog : list Tool.t) (l : list UsageEvent.t) :
  map fst (map (UsageSummary.joinTool catalog) l) = l.
Proof.
  rewrite map_map. cbn [UsageSummary.joinTool fst]. apply map_id.
Qed.

(** X9. The totals of the usage summary are conserved by the breakdown:
    total_cost and total_units are the sums over the returned events, and
    they equal the sums over by_tool plus what the events whose tool id
    names a property of Object.prototype (constructor, toString, __proto__
    and the like) contribute: such events are counted in the totals but get
    no by_tool entry. *)
Theorem summary_totals_are_conserved
    (fault : Fault) (st : Store) (tenantId : string) (userId : option string)
    (period : PeriodType) (startDate endDate : option Date.ISOString)
    (s : UsageSummary.t) :
  UsageSummary.getUsageSummary fault st tenantId userId period startDate endDate
  = Returned (Some s) ->
  let recent := map fst (UsageSummary.recent_events s) in
  UsageSummary.total_cost s == PolicyEngine.sumCosts recent /\
  UsageSummary.total_units s == UsageSummary.sumUnits recent /\
  UsageSummary.total_cost s
  == UsageSummary.sumToolCosts (UsageSummary.by_tool s)
     + PolicyEngine.sumCosts (UsageSummary.inheritedRows (UsageSummary.recent_events s)) /\
  UsageSummary.total_units s
  == UsageSummary.sumToolUnits (UsageSummary.by_tool s)
     + UsageSummary.sumUnits (UsageSummary.inheritedRows (UsageSummary.recent_events s)).
Proof.
  unfold UsageSummary.getUsageSummary.
  destruct fault; try discriminate. intros H. apply Returned_inj in H.
  injection H as <-. cbv zeta.
  cbn [UsageSummary.total_cost UsageSummary.total_units UsageSummary.by_tool
       UsageSummary.recent_events].
  set (rows := UsageSummary.query st tenantId userId startDate endDate).
  destruct (fold_visit_sums rows (UsageSummary.mkAcc [] 0 0)) as (C & N & TC & TU & _).
  cbv zeta in C, N, TC, TU.
  set (acc := fold_left UsageSummary.visit rows (UsageSummary.mkAcc [] 0 0)) in *.
  cbn [UsageSummary.byTool UsageSummary.totalCost UsageSummary.totalUnits map] in C, N, TC, TU.
  change (UsageSummary.sumToolCosts []) with 0 in C.
  change (UsageSummary.sumToolUnits []) with 0 in N.
  destruct (sumToolCosts_perm _ _
              (Permutation_map UsageSummary.toUsage
                 (Permutation_entries (UsageSummary.byTool acc)))) as [PC PN].
  rewrite PC, PN. repeat split; lra.
Qed.

Lemma summary_totals_are_conserved_witness :
  UsageSummary.total_cost bothSpentSummary
  == PolicyEngine.sumCosts (map fst (UsageSummary.recent_events bothSpentSummary)).
Proof.
  apply (summary_totals_are_conserved NoFault Cases.bothSpent Demo.ProCorp None day
           None None).
  reflexivity.
Defined.

(** X10. by_tool is the breakdown of the returned events by tool: its tool
    ids are pairwise distinct, none names a property of Object.prototype,
    every entry stands for at least one returned event and carries the sum
    of the costs and of the units of the returned events of its tool, under
    the name the catalog gives the tool (the id itself when the catalog has
    no name for it); and every returned event whose tool id is not such a
    property name has its entry. *)
Theorem summary_breaks_down_by_tool
    (fault : Fault) (st : Store) (tenantId : string) (userId : option string)
    (period : PeriodType) (startDate endDate : option Date.ISOString)
    (s : UsageSummary.t) :
  UsageSummary.getUsageSummary fault st tenantId userId period startDate endDate
  = Returned (Some s) ->
  let recent := map fst (UsageSummary.recent_events s) in
  let ofTool := fun k => filter (fun ev => String.eqb (UsageEvent.tool_id ev) k) recent in
  NoDup (map UsageSummary.tool_id (UsageSummary.by_tool s)) /\
  (forall b, In b (UsageSummary.by_tool s) ->
     UsageSummary.inherited (UsageSummary.tool_id b) = false /\
     ofTool (UsageSummary.tool_id b) <> [] /\
     UsageSummary.tool_cost b == PolicyEngine.sumCosts (ofTool (UsageSummary.tool_id b)) /\
     UsageSummary.tool_units b == UsageSummary.sumUnits (ofTool (UsageSummary.tool_id b)) /\
     UsageSummary.tool_name b
     = UsageSummary.nameInCatalog (tools st) (UsageSummary.tool_id b)) /\
  (forall ev, In ev recent ->
     UsageSummary.inherited (UsageEvent.tool_id ev) = false ->
     exists b, In b (UsageSummary.by_tool s) /\
               UsageSummary.tool_id b = UsageEvent.tool_id ev).
Proof.
  unfold UsageSummary.getUsageSummary.
  destruct fault; try discriminate. intros H. apply Returned_inj in H.
  injection H as <-. cbv zeta.
  cbn [UsageSummary.by_tool UsageSummary.recent_events].
  set (rows := UsageSummary.query st tenantId userId startDate endDate).
  set (acc := fold_left UsageSummary.visit rows (UsageSummary.mkAcc [] 0 0)).
  assert (ND : NoDup (map fst (UsageSummary.byTool acc))).
  { apply (fold_visit_sums rows (UsageSummary.mkAcc [] 0 0)). constructor. }
  assert (Names : forall row, In row rows ->
            UsageSummary.nameOf row
            = UsageSummary.nameInCatalog (tools st) (UsageEvent.tool_id (fst row))).
  { intros row Hrow. unfold rows, UsageSummary.query in Hrow.
    apply in_map_iff in Hrow. destruct Hrow as (ev & <- & _).
    apply nameOf_joinTool. }
  pose proof (Permutation_entries (UsageSummary.byTool acc)) as PE.
  assert (Keys : map UsageSummary.tool_id
                   (map UsageSummary.toUsage (UsageSummary.entries (UsageSummary.byTool acc)))
                 = map fst (UsageSummary.entries (UsageSummary.byTool acc))).
  { rewrite map_map. reflexivity. }
  split; [|split].
  - rewrite Keys.
    apply (Permutation_NoDup (Permutation_sym (Permutation_map fst PE)) ND).
  - intros b Hb. apply in_map_iff in Hb. destruct Hb as ([k v] & <- & Hkv).
    apply (Permutation_in _ PE) in Hkv.
    pose proof (lookup_In k v _ ND Hkv) as L.
    cbn [UsageSummary.toUsage UsageSummary.tool_id UsageSummary.tool_cost
         UsageSummary.tool_units UsageSummary.tool_name fst snd].
    assert (NI : UsageSummary.inherited k = false).
    { destruct (UsageSummary.inherited k) eqn:I; [|reflexivity].
      unfold acc in L. rewrite (fold_visit_inherited k rows _ I) in L.
      discriminate L. }
    destruct (fold_visit_key (UsageSummary.nameInCatalog (tools st)) k rows
                (UsageSummary.mkAcc [] 0 0) NI) as (C & N & P & Nm).
    fold acc in C, N, P, Nm.
    unfold UsageSummary.costAt, UsageSummary.unitsAt in C, N.
    rewrite L in C, N. cbn [UsageSummary.byTool UsageSummary.lookup] in C, N, P, Nm.
    split; [exact NI|]. split.
    + destruct (proj1 P) as [H|H]; [rewrite L; discriminate | contradiction | exact H].
    + split; [rewrite C; lra|]. split; [rewrite N; lra|].
      apply (Nm Names); [discriminate | exact L].
  - intros ev Hev NI.
    destruct (fold_visit_key (UsageSummary.nameInCatalog (tools st))
                (UsageEvent.tool_id ev) rows (UsageSummary.mkAcc [] 0 0) NI)
      as (_ & _ & P & _).
    fold acc in P.
    destruct (UsageSummary.lookup (UsageEvent.tool_id ev) (UsageSummary.byTool acc))
      as [v|] eqn:L.
    + exists (UsageSummary.toUsage (UsageEvent.tool_id ev, v)). split; [|reflexivity].
      apply in_map. apply (Permutation_in _ (Permutation_sym PE)).
      apply lookup_Some_In. exact L.
    + exfalso. apply (proj2 P); [|reflexivity]. right.
      intros E.
      assert (Hin : In ev (filter (fun x => String.eqb (UsageEvent.tool_id x)
                                               (UsageEvent.tool_id ev))
                             (map fst rows))).
      { apply filter_In. split; [exact Hev | apply String.eqb_refl]. }
      rewrite E in Hin. destruct Hin.
Qed.

Lemma summary_breaks_down_by_tool_witness :
  NoDup (map UsageSummary.tool_id (UsageSummary.by_tool bothSpentSummary)).
Proof.
  apply (summary_breaks_down_by_tool NoFault Cases.bothSpent Demo.ProCorp None day
           None None).
  reflexivity.
Defined.

Lemma latestFirst_insert_sorted (x : UsageEvent.t) (l : list UsageEvent.t) :
  StronglySorted (fun a b => UsageSummary.latestFirst a b = true) l ->
  StronglySorted (fun a b => UsageSummary.latestFirst a b = true)
    (insertRow UsageSummary.latestFirst x l).
Proof.
  unfold UsageSummary.latestFirst.
  induction l as [|y r IH]; intros S; cbn [insertRow].
  - constructor; constructor.
  - inversion S as [|? ? Sr Fy]; subst.
    destruct (Z.leb (UsageEvent.timestamp y) (UsageEvent.timestamp x)) eqn:E.
    + constructor; [exact S|]. constructor; [exact E|].
      rewrite Forall_forall in *. intros z Hz. specialize (Fy z Hz).
      apply Z.leb_le in E, Fy. apply Z.leb_le. lia.
    + constructor; [apply IH; exact Sr|].
      rewrite Forall_forall in *. intros z Hz.
      apply In_insertRow in Hz. destruct Hz as [->|Hz].
      * apply Z.leb_gt in E. apply Z.leb_le. lia.
      * apply Fy. exact Hz.
Qed.

Lemma latestFirst_sorted (l : list UsageEvent.t) :
  StronglySorted (fun a b => UsageSummary.latestFirst a b = true)
    (orderBy UsageSummary.latestFirst l).
Proof.
  induction l as [|x r IH]; cbn [orderBy]; [constructor|].
  apply latestFirst_insert_sorted. exact IH.
Qed.

Lemma StronglySorted_app_cross {A : Type} (R : A -> A -> Prop) (a b : list A) :
  StronglySorted R (a ++ b) ->
  StronglySorted R a /\ forall x y, In x a -> In y b -> R x y.
Proof.
  induction a as [|h a IH]; cbn [app]; intros S.
  - split; [constructor | intros x y []].
  - inversion S as [|? ? Sr Fh]; subst. destruct (IH Sr) as [Sa Cross].
    rewrite Forall_forall in Fh. split.
    + constructor; [exact Sa|]. rewrite Forall_forall. intros z Hz.
      apply Fh. apply in_or_app. left. exact Hz.
    + intros x y [<-|Hx] Hy.
      * apply Fh. apply in_or_app. right. exact Hy.
      * exact (Cross x y Hx Hy).
Qed.

Lemma StronglySorted_imp {A : Type} (R R' : A -> A -> Prop) (l : list A) :
  (forall a b, R a b -> R' a b) -> StronglySorted R l -> StronglySorted R' l.
Proof.
  intros H. induction 1 as [|x l S IH F]; constructor; [exact IH|].
  rewrite Forall_forall in *. intros y Hy. apply H, F, Hy.
Qed.

Lemma In_firstn_of {A : Type} (n : nat) (l : list A) (x : A) :
  In x (firstn n l) -> In x l.
Proof.
  intros H. rewrite <- (firstn_skipn n l). apply in_or_app. left. exact H.
Qed.

(** X11. The summary covers the latest 50 events of the selection and no
    more: the returned events are at most 50 events of the log, all of the
    given tenant (and of the given user and inside the given bounds, when
    given), latest first; an event of the selection that is not returned
    exists only when 50 are returned, and it is not later than any of
    them.  The totals are those of the returned events alone. *)
Theorem summary_covers_the_latest_fifty
    (fault : Fault) (st : Store) (tenantId : string) (userId : option string)
    (period : PeriodType) (startDate endDate : option Date.ISOString)
    (s : UsageSummary.t) :
  UsageSummary.getUsageSummary fault st tenantId userId period startDate endDate
  = Returned (Some s) ->
  let recent := map fst (UsageSummary.recent_events s) in
  (List.length recent <= 50)%nat /\
  (forall ev, In ev recent ->
     In ev (usage_events st) /\ UsageEvent.tenant_id ev = tenantId /\
     UsageSummary.selected tenantId userId startDate endDate ev = true) /\
  StronglySorted
    (fun a b => (UsageEvent.timestamp b <= UsageEvent.timestamp a)%Z) recent /\
  (forall ev, In ev (usage_events st) ->
     UsageSummary.selected tenantId userId startDate endDate ev = true ->
     In ev recent \/
     (List.length recent = 50%nat /\
      forall x, In x recent -> (UsageEvent.timestamp ev <= UsageEvent.timestamp x)%Z)) /\
  UsageSummary.total_cost s == PolicyEngine.sumCosts recent.
Proof.
  unfold UsageSummary.getUsageSummary.
  destruct fault; try discriminate. intros H. apply Returned_inj in H.
  injection H as <-. cbv zeta.
  cbn [UsageSummary.recent_events UsageSummary.total_cost].
  pose proof (fold_visit_sums (UsageSummary.query st tenantId userId startDate endDate)
                (UsageSummary.mkAcc [] 0 0)) as (_ & _ & TC & _).
  cbv zeta in TC. cbn [UsageSummary.totalCost] in TC.
  unfold UsageSummary.query in *. rewrite map_fst_joinTool in *.
  set (sel := filter (UsageSummary.selected tenantId userId startDate endDate)
                (usage_events st)) in *.
  set (sorted := orderBy UsageSummary.latestFirst sel) in *.
  pose proof (latestFirst_sorted sel) as Sorted. fold sorted in Sorted.
  rewrite <- (firstn_skipn 50 sorted) in Sorted.
  apply StronglySorted_app_cross in Sorted. destruct Sorted as [S50 Cross].
  assert (InSel : forall ev, In ev sorted <->
            In ev (usage_events st) /\
            UsageSummary.selected tenantId userId startDate endDate ev = true).
  { intros ev. unfold sorted, sel. rewrite In_orderBy. apply filter_In. }
  split; [apply firstn_le_length|].
  split; [|split; [|split]].
  - intros ev Hev. apply In_firstn_of in Hev. apply InSel in Hev.
    destruct Hev as [Hin Hsel]. repeat split; auto.
    unfold UsageSummary.selected in Hsel.
    repeat (apply andb_prop in Hsel; destruct Hsel as [Hsel _]).
    apply String.eqb_eq. exact Hsel.
  - apply (StronglySorted_imp (fun a b => UsageSummary.latestFirst a b = true));
      [|exact S50].
    intros a b Hab. unfold UsageSummary.latestFirst in Hab.
    apply Z.leb_le. exact Hab.
  - intros ev Hin Hsel.
    assert (Hs : In ev sorted) by (apply InSel; auto).
    rewrite <- (firstn_skipn 50 sorted) in Hs. apply in_app_or in Hs.
    destruct Hs as [Hs|Hs]; [left; exact Hs|]. right. split.
    + apply firstn_length_le.
      destruct (Nat.le_gt_cases 50 (List.length sorted)) as [L|L]; [exact L|].
      rewrite skipn_all2 in Hs by lia. destruct Hs.
    + intros x Hx. specialize (Cross x ev Hx Hs).
      unfold UsageSummary.latestFirst in Cross. apply Z.leb_le. exact Cross.
  - rewrite TC. lra.
Qed.

Lemma summary_covers_the_latest_fifty_witness :
  (List.length (map fst (UsageSummary.recent_events bothSpentSummary)) <= 50)%nat.
Proof.
  apply (summary_covers_the_latest_fifty NoFault Cases.bothSpent Demo.ProCorp None day
           None None).
  reflexivity.
Defined.

(** X12. The period argument and an empty user id select nothing: the
    summary for another period holds the same figures and events (the
    period is only echoed), and a summary asked with an empty user id is
    the summary of all the users of the tenant. *)
Theorem summary_ignores_period_and_empty_user
    (fault : Fault) (st : Store) (tenantId : string) (userId : option string)
    (period period' : PeriodType) (startDate endDate : option Date.ISOString)
    (s : UsageSummary.t) :
  UsageSummary.getUsageSummary fault st tenantId userId period startDate endDate
  = Returned (Some s) ->
  UsageSummary.getUsageSummary fault st tenantId userId period' startDate endDate
  = Returned (Some (UsageSummary.mk tenantId userId period'
                      (UsageSummary.total_cost s) (UsageSummary.total_units s)
                      (UsageSummary.by_tool s) (UsageSummary.recent_events s))) /\
  (JS.truthyOpt userId = false ->
   UsageSummary.getUsageSummary fault st tenantId None period startDate endDate
   = Returned (Some (UsageSummary.mk tenantId None period
                       (UsageSummary.total_cost s) (UsageSummary.total_units s)
                       (UsageSummary.by_tool s) (UsageSummary.recent_events s)))).
Proof.
  unfold UsageSummary.getUsageSummary.
  destruct fault; try discriminate. intros H. apply Returned_inj in H.
  injection H as <-.
  cbn [UsageSummary.total_cost UsageSummary.total_units UsageSummary.by_tool
       UsageSummary.recent_events].
  split; [reflexivity|]. intros Falsy.
  assert (Q0 : UsageSummary.query st tenantId None startDate endDate
               = UsageSummary.query st tenantId userId startDate endDate).
  { unfold UsageSummary.query. do 3 f_equal. apply filter_ext. intros ev.
    unfold UsageSummary.selected. rewrite Falsy. reflexivity. }
  rewrite Q0. reflexivity.
Qed.

Lemma summary_ignores_period_and_empty_user_witness :
  UsageSummary.getUsageSummary NoFault Cases.bothSpent Demo.ProCorp None month None None
  = Returned (Some (UsageSummary.mk Demo.ProCorp None month
                      (UsageSummary.total_cost bothSpentSummary)
                      (UsageSummary.total_units bothSpentSummary)
                      (UsageSummary.by_tool bothSpentSummary)
                      (UsageSummary.recent_events bothSpentSummary))).
Proof.
  apply (summary_ignores_period_and_empty_user NoFault Cases.bothSpent Demo.ProCorp
           None day month None None bothSpentSummary).
  reflexivity.
Defined.

(** ** Requests over a blocking limit, and the policy tools *)

Lemma blocks_decision (p : Policy.t) :
  blocks p = true ->
  Policy.decision p = deny \/ Policy.decision p = require_approval.
Proof.
  unfold blocks. destruct (Policy.decision p); try discriminate; auto.
Qed.

Lemma over_limit_not_allowed
    (e : Date.Env) (st : Store) (input : CheckAndRouteInput.t) (p : Policy.t) :
  let T := JS.trim (CheckAndRouteInput.tenant_id input) in
  let U := JS.trim (CheckAndRouteInput.user_id input) in
  let X := CheckAndRouteInput.tool_id input in
  NonNegativeLedger st ->
  In p (policies st) ->
  PolicyEngine.applicable T U X p = true ->
  blocks p = true ->
  (forall tool, DatabaseService.getTool no_faults st X = Returned (Some tool) ->
     Policy.limit_value p
     < CostEstimator.estimateCost tool (CheckAndRouteInput.estimated_units input)) ->
  CheckAndRouteOutput.decision (fst (checkAndRoute no_faults e st input)) <> allowed.
Proof.
  intros T U X NN Hp App Bl Over.
  unfold checkAndRoute, route. fold T U X.
  destruct (DatabaseService.getTool no_faults st X) as [[tool|]|] eqn:GT;
    cbn [bind fst]; try discriminate.
  pose proof (Over tool eq_refl) as Ov. clear GT Over.
  destruct (PolicyEngine.isToolAllowedForPlan no_faults st T X) as [[|]|];
    cbn [bind negb fst]; try discriminate.
  - destruct (PolicyEngine.evaluateRequest no_faults e st T U X _)
      as [r|] eqn:EV; cbn [bind fst]; try discriminate.
    destruct (PolicyEvaluationResult.allowed r) eqn:AL; cbn [negb].
    + destruct (JS.truthyOpt (PolicyEvaluationResult.suggested_tool r)) eqn:TS.
      * destruct (DatabaseService.getTool no_faults st _) as [ft|];
          cbn [bind fst]; discriminate.
      * exfalso.
        destruct (evaluateRequest_pass_within _ _ _ _ _ _ _ p EV AL TS Hp App
                    (blocks_decision p Bl)) as (u & EU & Le).
        destruct (getCurrentUsage_returns e st T U X (PolicyEngine.policyWindow p))
          as (u' & EU' & Pos).
        rewrite EU in EU'. apply Returned_inj in EU'. subst u'.
        specialize (Pos NN). lra.
    + first [discriminate
            | rewrite recordUsage_no_faults; cbn [bind fst]; discriminate].
  - destruct (PolicyEngine.getSuggestedFallback no_faults st X) as [[fb|]|];
      cbn [bind fst]; try discriminate.
    destruct (JS.truthy fb); cbn [fst]; discriminate.
Qed.

(** X13. A request whose estimated cost alone exceeds the limit of an
    applicable policy that denies or requires approval is never answered
    allowed (no store faults, no negative cost in the ledger): it is denied
    or, when the plan gate or an earlier policy says so, downgraded. *)
Theorem over_a_blocking_limit_is_never_allowed
    (e : Date.Env) (st : Store) (input : CheckAndRouteInput.t) (p : Policy.t) :
  let T := JS.trim (CheckAndRouteInput.tenant_id input) in
  let U := JS.trim (CheckAndRouteInput.user_id input) in
  let X := CheckAndRouteInput.tool_id input in
  NonNegativeLedger st ->
  In p (policies st) ->
  PolicyEngine.applicable T U X p = true ->
  blocks p = true ->
  (forall tool, DatabaseService.getTool no_faults st X = Returned (Some tool) ->
     Policy.limit_value p
     < CostEstimator.estimateCost tool (CheckAndRouteInput.estimated_units input)) ->
  CheckAndRouteOutput.decision (fst (checkAndRoute no_faults e st input)) <> allowed.
Proof.
  intros T U X NN Hp App Bl Over.
  exact (over_limit_not_allowed e st input p NN Hp App Bl Over).
Qed.

Lemma over_a_blocking_limit_is_never_allowed_witness :
  CheckAndRouteOutput.decision
    (fst (checkAndRoute no_faults Demo.utcEnv Cases.tightStore Cases.gpt4Request))
  <> allowed.
Proof.
  apply (over_a_blocking_limit_is_never_allowed Demo.utcEnv Cases.tightStore
           Cases.gpt4Request
           (Policy.mk "t1" Demo.ProCorp scope_tenant None daily (1 # 100) None deny)).
  - split; intros x [].
  - left. reflexivity.
  - reflexivity.
  - reflexivity.
  - intros tool H. apply Returned_inj in H. injection H as <-. reflexivity.
Defined.

Lemma setPolicy_created (fault : Fault) (id : string) (st st' : Store)
    (input : PolicyTools.SetPolicyInput) (p : Policy.t) :
  PolicyTools.setPolicy fault id st input = (PolicyTools.Created p, st') ->
  (exists limit,
     Pg.numeric 10 2 (PolicyTools.limit_value input) = Some limit /\
     p = PolicyTools.rowOf id input (Qred limit)) /\
  PolicyTools.constraintsHold st p = true /\
  st' = PolicyTools.setPolicies st (policies st ++ [p]).
Proof.
  unfold PolicyTools.setPolicy, PolicyTools.newRow. destruct fault; try discriminate.
  destruct (Pg.numeric 10 2 (PolicyTools.limit_value input)) as [limit|];
    try discriminate.
  destruct (PolicyTools.constraintsHold st
              (PolicyTools.rowOf id input (Qred limit))) eqn:C;
    try discriminate.
  intros H. injection H as <- <-. split; [|auto]. exists limit. auto.
Qed.



(** X15. set_policy and the router together. The policy that set_policy
    creates carries the limit as the column limit_value keeps it, the
    limit given rounded to the cent; once a tenant-wide policy that denies
    or requires approval has been created, no request of that tenant (ids
    compared after trimming) whose estimated cost exceeds the limit the
    policy carries is answered allowed. *)
Theorem cap_set_is_enforced
    (fault : Fault) (id : string) (st st' : Store)
    (input : PolicyTools.SetPolicyInput) (p : Policy.t)
    (e : Date.Env) (request : CheckAndRouteInput.t) :
  PolicyTools.setPolicy fault id st input = (PolicyTools.Created p, st') ->
  (exists kept,
     Pg.numeric 10 2 (PolicyTools.limit_value input) = Some kept /\
     Policy.limit_value p == kept) /\
  (PolicyTools.scope input = scope_tenant ->
   PolicyTools.decision input = deny \/ PolicyTools.decision input = require_approval ->
   NonNegativeLedger st ->
   JS.trim (CheckAndRouteInput.tenant_id request)
   = JS.trim (PolicyTools.tenant_id input) ->
   (forall tool,
      In tool (tools st) ->
      Tool.id tool = CheckAndRouteInput.tool_id request ->
      Policy.limit_value p
      < CostEstimator.estimateCost tool (CheckAndRouteInput.estimated_units request)) ->
   CheckAndRouteOutput.decision (fst (checkAndRoute no_faults e st' request))
   <> allowed).
Proof.
  intros H.
  destruct (setPolicy_created _ _ _ _ _ _ H) as ((limit & Kept & ->) & C & ->).
  split.
  { exists limit. split; [exact Kept|].
    cbn [PolicyTools.rowOf Policy.limit_value]. apply Qred_correct. }
  intros Sc Dec NN ET Over.
  apply (over_limit_not_allowed e _ request (PolicyTools.rowOf id input (Qred limit))).
  - exact NN.
  - cbn [policies PolicyTools.setPolicies]. apply in_or_app. right. left. reflexivity.
  - unfold PolicyEngine.applicable, PolicyTools.rowOf.
    cbn [Policy.tenant_id Policy.scope]. rewrite Sc, ET, String.eqb_refl. reflexivity.
  - unfold blocks, PolicyTools.rowOf. cbn [Policy.decision].
    destruct Dec as [-> | ->]; reflexivity.
  - intros tool GT.
    unfold DatabaseService.getTool in GT. rewrite await_no_faults in GT.
    cbn [bind tools PolicyTools.setPolicies] in GT.
    destruct (filter (fun t => String.eqb (Tool.id t) (CheckAndRouteInput.tool_id request))
                (tools st)) as [|x [|y more]] eqn:EF;
      cbn [single error data] in GT; apply Returned_inj in GT; try discriminate GT.
    injection GT as ->.
    assert (Hin : In tool (filter (fun t => String.eqb (Tool.id t)
                                     (CheckAndRouteInput.tool_id request)) (tools st)))
      by (rewrite EF; left; reflexivity).
    apply filter_In in Hin. destruct Hin as [Hin E]. apply String.eqb_eq in E.
    exact (Over tool Hin E).
Qed.

Lemma cap_set_is_enforced_witness :
  Policy.limit_value
    (Policy.mk "p9" Demo.ProCorp scope_tenant None daily 2 None deny) == 2 /\
  CheckAndRouteOutput.decision
    (fst (checkAndRoute no_faults Demo.utcEnv
            (snd (PolicyTools.setPolicy NoFault "p9" Demo.demoStore capProCorp))
            bigRequest))
  <> allowed.
Proof.
  destruct (cap_set_is_enforced NoFault "p9" Demo.demoStore _ capProCorp
              (Policy.mk "p9" Demo.ProCorp scope_tenant None daily 2 None deny)
              Demo.utcEnv bigRequest eq_refl) as [_ Enforced].
  split; [reflexivity|].
  apply Enforced.
  - reflexivity.
  - left. reflexivity.
  - split; intros x [].
  - reflexivity.
  - intros tool Hin E. simpl in Hin.
    repeat (destruct Hin as [<-|Hin]; [try discriminate E; reflexivity|]).
    destruct Hin.
Defined.

Lemma filter_all {A : Type} (P : A -> bool) (l : list A) :
  (forall x, In x l -> P x = true) -> filter P l = l.
Proof.
  induction l as [|x l IH]; intros H; [reflexivity|].
  cbn [filter]. rewrite (H x (or_introl eq_refl)).
  rewrite IH; [reflexivity|]. intros y Hy. apply H. right. exact Hy.
Qed.

Lemma setPolicies_same (st : Store) : PolicyTools.setPolicies st (policies st) = st.
Proof. destruct st. reflexivity. Qed.

(** X16. delete_policy undoes set_policy: deleting the policy that a
    successful set_policy created (its id, trimmed, being read by the UUID
    column as itself) leaves the store exactly as it was before the two
    calls; deleting a uuid that no policy carries answers success and
    changes nothing; and an id that is not of uuid form answers
    success false and changes nothing. *)
Theorem delete_undoes_set
    (fault : Fault) (id : string) (st st' : Store)
    (input : PolicyTools.SetPolicyInput) (p : Policy.t) :
  PolicyTools.setPolicy fault id st input = (PolicyTools.Created p, st') ->
  Pg.uuid (JS.trim id) = Some id ->
  PolicyTools.deletePolicy NoFault st' (Policy.id p) = (true, st) /\
  (forall policy_id u,
     Pg.uuid (JS.trim policy_id) = Some u ->
     (forall q, In q (policies st) -> Policy.id q <> u) ->
     PolicyTools.deletePolicy NoFault st policy_id = (true, st)) /\
  (forall policy_id,
     Pg.uuid (JS.trim policy_id) = None ->
     PolicyTools.deletePolicy NoFault st' policy_id = (false, st')).
Proof.
  intros H Tr.
  destruct (setPolicy_created _ _ _ _ _ _ H) as ((limit & _ & ->) & C & ->).
  unfold PolicyTools.constraintsHold in C.
  apply andb_prop in C. destruct C as [C _]. apply andb_prop in C.
  destruct C as [C _]. apply negb_true_iff in C.
  cbn [PolicyTools.rowOf Policy.id] in C |- *.
  assert (Keep : forall k, (forall q, In q (policies st) -> Policy.id q <> k) ->
                 filter (fun q => negb (String.eqb (Policy.id q) k)) (policies st)
                 = policies st).
  { intros k Hk. apply filter_all. intros q Hq. apply negb_true_iff.
    apply String.eqb_neq. exact (Hk q Hq). }
  unfold PolicyTools.deletePolicy. split; [|split].
  - rewrite Tr. f_equal. cbn [policies PolicyTools.setPolicies].
    rewrite filter_app, Keep.
    + cbn [filter Policy.id]. rewrite String.eqb_refl. cbn [negb].
      rewrite app_nil_r. unfold PolicyTools.setPolicies.
      cbn [tenants tools usage_events usage_aggregates]. destruct st. reflexivity.
    + intros q Hq E.
      assert (Ex : existsb (fun q => String.eqb (Policy.id q) id) (policies st) = true).
      { apply existsb_exists. exists q.
        split; [exact Hq | apply String.eqb_eq; exact E]. }
      rewrite C in Ex. discriminate Ex.
  - intros policy_id u Hu Hk. rewrite Hu. f_equal.
    rewrite (Keep _ Hk). apply setPolicies_same.
  - intros policy_id Hu. rewrite Hu. reflexivity.
Qed.

Lemma delete_undoes_set_witness :
  Pg.uuid (JS.trim newId) = Some newId /\
  PolicyTools.deletePolicy NoFault
    (snd (PolicyTools.setPolicy NoFault newId Demo.demoStore capProCorp)) newId
  = (true, Demo.demoStore) /\
  PolicyTools.deletePolicy NoFault
    (snd (PolicyTools.setPolicy NoFault newId Demo.demoStore capProCorp)) "p9"
  = (false, snd (PolicyTools.setPolicy NoFault newId Demo.demoStore capProCorp)).
Proof.
  assert (U : Pg.uuid (JS.trim newId) = Some newId) by (vm_compute; reflexivity).
  destruct (delete_undoes_set NoFault newId Demo.demoStore
              (snd (PolicyTools.setPolicy NoFault newId Demo.demoStore capProCorp))
              capProCorp
              (Policy.mk newId Demo.ProCorp scope_tenant None daily 2 None deny)
              eq_refl U) as (Undo & _ & Refused).
  split; [exact U|]. split; [exact Undo|].
  apply Refused. vm_compute. reflexivity.
Defined.

(** ** Token and price estimates *)

(** X17. The token estimate counts one token per four characters, rounded
    up: four times the input tokens is at least the length and less than
    the length plus four; the estimate never decreases when the input
    grows, and the output allowance is added to it, 1000 when none is
    given. *)
Theorem estimateTokens_rounds_up (input longer : string) (m : Q) :
  let n := Z.of_nat (String.length input) in
  (n <= 4 * TokenCosts.inputTokens input < n + 4)%Z /\
  TokenCosts.estimateTokens input (Some m)
  = inject_Z (TokenCosts.inputTokens input) + m /\
  TokenCosts.estimateTokens input None
  = inject_Z (TokenCosts.inputTokens input) + 1000 /\
  ((String.length input <= String.length longer)%nat ->
   TokenCosts.estimateTokens input (Some m)
   <= TokenCosts.estimateTokens longer (Some m)).
Proof.
  intros n.
  assert (Ceil : forall k : Z,
            Qceiling (inject_Z k / 4) = ((k + 3) / 4)%Z).
  { intros k. unfold Qceiling, Qfloor, Qdiv, Qmult, Qinv, Qopp, inject_Z. simpl.
    rewrite !Z.mul_1_r. change (Z.pos (1 * 4)) with 4%Z.
    Z.to_euclidean_division_equations. lia. }
  unfold TokenCosts.estimateTokens, TokenCosts.inputTokens. fold n.
  rewrite !Ceil. split; [|split; [reflexivity|split; [reflexivity|]]].
  - Z.to_euclidean_division_equations. lia.
  - intros L. apply Qplus_le_l. rewrite <- Zle_Qle.
    apply Z.div_le_mono; lia.
Qed.

Lemma estimateTokens_rounds_up_witness :
  TokenCosts.estimateTokens "hello" (Some 10)
  <= TokenCosts.estimateTokens "hello world" (Some 10).
Proof.
  apply (estimateTokens_rounds_up "hello" "hello world" 10).
  simpl. lia.
Defined.

Lemma costs_lookup (modelId : string) :
  TokenCosts.getModelCostPerToken modelId
  = if String.eqb "gpt-4" modelId then Some (TokenCosts.mkPrice (3 # 100000) (6 # 100000))
    else if String.eqb "gpt-4-turbo" modelId
    then Some (TokenCosts.mkPrice (1 # 100000) (3 # 100000))
    else if String.eqb "gpt-3.5-turbo" modelId
    then Some (TokenCosts.mkPrice (5 # 10000000) (15 # 10000000))
    else if String.eqb "claude-3-opus" modelId
    then Some (TokenCosts.mkPrice (15 # 1000000) (75 # 1000000))
    else if String.eqb "claude-3-sonnet" modelId
    then Some (TokenCosts.mkPrice (3 # 1000000) (15 # 1000000))
    else if String.eqb "claude-3-haiku" modelId
    then Some (TokenCosts.mkPrice (25 # 100000000) (125 # 100000000))
    else if UsageSummary.inherited modelId then None
    else Some TokenCosts.defaultPrice.
Proof.
  unfold TokenCosts.getModelCostPerToken, TokenCosts.costs. cbn [find fst snd].
  repeat match goal with
         | |- context [String.eqb ?a modelId] =>
             destruct (String.eqb a modelId); [reflexivity|]
         end.
  reflexivity.
Qed.

(** X18. The price of an LLM call: for every model id that is not a
    property name of Object.prototype and every non-negative token counts,
    the cost is a number between the claude-3-haiku price and the price at
    the dearest input rate (gpt-4) and output rate (claude-3-opus) of the
    table; a model id that the table does not list is priced exactly as
    gpt-4-turbo. *)
Theorem estimateLLMCost_bounds (modelId : string) (i o : Q) :
  UsageSummary.inherited modelId = false ->
  0 <= i -> 0 <= o ->
  exists c,
    TokenCosts.estimateLLMCost modelId i o = Some c /\
    TokenCosts.estimateLLMCost "claude-3-haiku" i o
    = Some (i * (25 # 100000000) + o * (125 # 100000000)) /\
    i * (25 # 100000000) + o * (125 # 100000000) <= c /\
    c <= i * (3 # 100000) + o * (75 # 1000000) /\
    ((forall kv, In kv TokenCosts.costs -> fst kv <> modelId) ->
     TokenCosts.estimateLLMCost "gpt-4-turbo" i o = Some c).
Proof.
  intros NI Hi Ho. unfold TokenCosts.estimateLLMCost.
  rewrite (costs_lookup modelId), NI.
  assert (Listed : forall k, In k (map fst TokenCosts.costs) ->
            String.eqb k modelId = true ->
            (forall kv, In kv TokenCosts.costs -> fst kv <> modelId) -> False).
  { intros k Hk E H. apply in_map_iff in Hk. destruct Hk as (kv & <- & Hkv).
    apply String.eqb_eq in E. exact (H kv Hkv E). }
  repeat match goal with
         | |- context [String.eqb ?a modelId] =>
             destruct (String.eqb a modelId) eqn:?
         end;
    eexists; (split; [reflexivity|]); (split; [reflexivity|]);
    cbn [TokenCosts.input TokenCosts.output TokenCosts.defaultPrice];
    (split; [nra|]); (split; [nra|]);
    try reflexivity;
    intros H; exfalso;
    match goal with
    | E : String.eqb ?a modelId = true |- _ =>
        apply (Listed a); [cbn; tauto | exact E | exact H]
    end.
Qed.

Lemma estimateLLMCost_bounds_witness :
  exists c,
    TokenCosts.estimateLLMCost "mistral-large" 1000 500 = Some c /\
    TokenCosts.estimateLLMCost "gpt-4-turbo" 1000 500 = Some c.
Proof.
  destruct (estimateLLMCost_bounds "mistral-large" 1000 500)
    as (c & E & _ & _ & _ & D).
  - reflexivity.
  - discriminate.
  - discriminate.
  - exists c. split; [exact E|]. apply D.
    intros kv Hkv. cbn in Hkv.
    repeat (destruct Hkv as [<-|Hkv]; [discriminate|]). destruct Hkv.
Defined.

(** ** The model registry and the model selector *)

Lemma cheaper_fold (rest pre mid : list ModelRegistry.ModelDefinition)
    (cur : ModelRegistry.ModelDefinition) :
  (forall m, In m pre -> ModelRegistry.listPrice cur < ModelRegistry.listPrice m) ->
  (forall m, In m mid -> ModelRegistry.listPrice cur <= ModelRegistry.listPrice m) ->
  exists pre' post',
    (pre ++ cur :: mid ++ rest
     = pre' ++ fold_left ModelRegistry.cheaper rest cur :: post')%list /\
    (forall m, In m pre' ->
       ModelRegistry.listPrice (fold_left ModelRegistry.cheaper rest cur)
       < ModelRegistry.listPrice m) /\
    (forall m, In m post' ->
       ModelRegistry.listPrice (fold_left ModelRegistry.cheaper rest cur)
       <= ModelRegistry.listPrice m).
Proof.
  revert pre mid cur. induction rest as [|x rest IH]; intros pre mid cur Hpre Hmid.
  - exists pre, mid. rewrite app_nil_r. cbn [fold_left]. auto.
  - cbn [fold_left]. unfold ModelRegistry.cheaper at 2 4 6.
    destruct (Qle_bool (ModelRegistry.listPrice cur) (ModelRegistry.listPrice x)) eqn:E;
      cbn [negb].
    + apply Qle_bool_iff in E.
      destruct (IH pre (mid ++ [x])%list cur Hpre) as (pre' & post' & Eq & A & B).
      { intros m Hm. apply in_app_or in Hm. destruct Hm as [Hm|[<-|[]]]; auto. }
      exists pre', post'. rewrite <- Eq, <- app_assoc. auto.
    + assert (Lt : ModelRegistry.listPrice x < ModelRegistry.listPrice cur).
      { apply Qnot_le_lt. intros H. apply Qle_bool_iff in H. congruence. }
      destruct (IH (pre ++ cur :: mid)%list [] x) as (pre' & post' & Eq & A & B).
      { intros m Hm. apply in_app_or in Hm. destruct Hm as [Hm|[<-|Hm]].
        - specialize (Hpre m Hm). lra.
        - exact Lt.
        - specialize (Hmid m Hm). lra. }
      { intros m []. }
      exists pre', post'. rewrite <- Eq, <- app_assoc. auto.
Qed.

(** X19. The cheapest model for a capability is the first of the cheapest:
    [getCheapestModel] answers nothing exactly when no enabled model has
    the capability; otherwise it answers an enabled model with the
    capability whose list price (input plus output per million tokens) is
    strictly below that of every such model before it in the registry and
    not above that of any such model after it. *)
Theorem cheapest_is_first_of_the_cheapest
    (registry : list ModelRegistry.ModelDefinition)
    (capability : ModelRegistry.Capability) :
  match ModelRegistry.getCheapestModel registry capability with
  | None =>
      forall m, In m registry -> ModelRegistry.enabled m = true ->
                ModelRegistry.has capability m = false
  | Some c =>
      In c registry /\ ModelRegistry.enabled c = true /\
      ModelRegistry.has capability c = true /\
      exists before after,
        ModelRegistry.getModelsByCapability registry capability
        = (before ++ c :: after)%list /\
        (forall m, In m before ->
           ModelRegistry.listPrice c < ModelRegistry.listPrice m) /\
        (forall m, In m after ->
           ModelRegistry.listPrice c <= ModelRegistry.listPrice m)
  end.
Proof.
  unfold ModelRegistry.getCheapestModel.
  destruct (ModelRegistry.getModelsByCapability registry capability)
    as [|first rest] eqn:EL.
  - intros m Hm En.
    destruct (ModelRegistry.has capability m) eqn:Hc; [|reflexivity].
    assert (Hin : In m (ModelRegistry.getModelsByCapability registry capability)).
    { apply filter_In. rewrite En, Hc. auto. }
    rewrite EL in Hin. destruct Hin.
  - destruct (cheaper_fold rest [] [] first) as (pre & post & Eq & A & B);
      try (intros m []).
    cbn [app] in Eq.
    assert (Hin : In (fold_left ModelRegistry.cheaper rest first)
                    (ModelRegistry.getModelsByCapability registry capability)).
    { rewrite EL, Eq. apply in_or_app. right. left. reflexivity. }
    apply filter_In in Hin. destruct Hin as [Hin Hf].
    apply andb_prop in Hf. destruct Hf as [En Hc].
    repeat split; auto. exists pre, post. auto.
Qed.

Lemma byTier_enabled (registry : list ModelRegistry.ModelDefinition)
    (t : ModelRegistry.ModelTier) (m : ModelRegistry.ModelDefinition) :
  In m (ModelRegistry.getModelsByTier registry t) ->
  In m registry /\ ModelRegistry.enabled m = true.
Proof.
  intros H. apply filter_In in H. destruct H as [H E].
  apply andb_prop in E. tauto.
Qed.

Lemma byCapability_enabled (registry : list ModelRegistry.ModelDefinition)
    (c : ModelRegistry.Capability) (m : ModelRegistry.ModelDefinition) :
  In m (ModelRegistry.getModelsByCapability registry c) ->
  In m registry /\ ModelRegistry.enabled m = true /\ ModelRegistry.has c m = true.
Proof.
  intros H. apply filter_In in H. destruct H as [H E].
  apply andb_prop in E. tauto.
Qed.

Lemma cheapest_enabled (registry : list ModelRegistry.ModelDefinition)
    (c : ModelRegistry.Capability) (m : ModelRegistry.ModelDefinition) :
  ModelRegistry.getCheapestModel registry c = Some m ->
  In m registry /\ ModelRegistry.enabled m = true /\ ModelRegistry.has c m = true.
Proof.
  unfold ModelRegistry.getCheapestModel.
  destruct (ModelRegistry.getModelsByCapability registry c) as [|first rest] eqn:EL;
    [discriminate|].
  intros H. injection H as <-.
  destruct (cheaper_fold rest [] [] first) as (pre & post & Eq & _);
    try (intros m []).
  cbn [app] in Eq. apply (byCapability_enabled registry c).
  rewrite EL, Eq. apply in_or_app. right. left. reflexivity.
Qed.

Lemma hd_error_In {A : Type} (l : list A) (x : A) : hd_error l = Some x -> In x l.
Proof. destruct l; [discriminate|]. intros H. injection H as ->. left. reflexivity. Qed.

Lemma selectByComplexity_enabled (registry : list ModelRegistry.ModelDefinition)
    (c : ModelSelector.TaskComplexity) (m : ModelRegistry.ModelDefinition) :
  ModelSelector.selectByComplexity registry c = Some m ->
  In m registry /\ ModelRegistry.enabled m = true.
Proof.
  destruct c; cbn [ModelSelector.selectByComplexity].
  - destruct (ModelRegistry.getModelsByTier registry ModelRegistry.fast) as [|x r] eqn:E.
    + intros H. apply cheapest_enabled in H. tauto.
    + intros H. injection H as <-.
      apply (byTier_enabled registry ModelRegistry.fast). rewrite E. left. reflexivity.
  - intros H. apply hd_error_In in H. exact (byTier_enabled _ _ _ H).
  - intros H. apply hd_error_In in H. apply filter_In in H.
    exact (byTier_enabled _ _ _ (proj1 H)).
Qed.

Lemma choose_enabled (registry : list ModelRegistry.ModelDefinition)
    (analysis : ModelSelector.PromptAnalysis)
    (preferences : ModelSelector.SelectionPreferences)
    (m : ModelRegistry.ModelDefinition) :
  fst (ModelSelector.choose registry analysis preferences) = Some m ->
  In m registry /\ ModelRegistry.enabled m = true.
Proof.
  unfold ModelSelector.choose.
  destruct (ModelSelector.preferCost preferences); cbn [fst].
  { intros H. apply cheapest_enabled in H. tauto. }
  destruct (ModelSelector.preferSpeed preferences); cbn [fst].
  { intros H. apply hd_error_In in H. exact (byTier_enabled _ _ _ H). }
  destruct (ModelSelector.preferQuality preferences); cbn [fst].
  { intros H. apply hd_error_In in H. exact (byTier_enabled _ _ _ H). }
  apply selectByComplexity_enabled.
Qed.

Lemma orCheapest_enabled (registry : list ModelRegistry.ModelDefinition)
    (analysis : ModelSelector.PromptAnalysis)
    (preferences : ModelSelector.SelectionPreferences)
    (m : ModelRegistry.ModelDefinition) :
  fst (ModelSelector.orCheapest registry
         (ModelSelector.choose registry analysis preferences)) = Some m ->
  In m registry /\ ModelRegistry.enabled m = true.
Proof.
  unfold ModelSelector.orCheapest.
  destruct (fst (ModelSelector.choose registry analysis preferences)) as [x|] eqn:C;
    cbn [fst]; intros H.
  - injection H as ->. exact (choose_enabled _ _ _ _ C).
  - apply cheapest_enabled in H. tauto.
Qed.

(** What [selectModel] returns for a task that is not an image task. *)
Lemma selectModel_cases (registry : list ModelRegistry.ModelDefinition)
    (analysis : ModelSelector.PromptAnalysis)
    (preferences : ModelSelector.SelectionPreferences)
    (sel : ModelSelector.ModelSelection) :
  ModelSelector.isImage (ModelSelector.taskType analysis) = false ->
  ModelSelector.selectModel registry analysis preferences = Returned sel ->
  let tokens := ModelSelector.estimatedTokens analysis in
  ModelSelector.estimatedCost sel
  = ModelSelector.estimateCostForModel (ModelSelector.model sel) tokens /\
  ((ModelRegistry.getCheapestModel registry ModelRegistry.text
    = Some (ModelSelector.model sel) /\
    (ModelSelector.alternatives sel = [] \/
     exists m, ModelSelector.alternatives sel = [m] /\ In m registry /\
               ModelRegistry.enabled m = true /\
               ModelSelector.overCap preferences
                 (ModelSelector.estimateCostForModel m tokens) = true)) \/
   (In (ModelSelector.model sel) registry /\
    ModelRegistry.enabled (ModelSelector.model sel) = true /\
    (ModelSelector.overCap preferences (ModelSelector.estimatedCost sel) = false \/
     ModelRegistry.getCheapestModel registry ModelRegistry.text = None) /\
    ModelSelector.alternatives sel
    = firstn 3
        (filter (fun m => negb (String.eqb (ModelRegistry.id m)
                                  (ModelRegistry.id (ModelSelector.model sel))))
           (ModelRegistry.getModelsByCapability registry
              (if ModelSelector.isCode (ModelSelector.taskType analysis)
               then ModelRegistry.code else ModelRegistry.text))))).
Proof.
  intros NI. unfold ModelSelector.selectModel. rewrite NI.
  pose proof (orCheapest_enabled registry analysis preferences) as Rest.
  destruct (ModelSelector.budgetExhausted preferences);
    [destruct (ModelRegistry.getCheapestModel registry ModelRegistry.text)
       as [cheapest|] eqn:G|].
  - intros H. apply Returned_inj in H. subst sel. cbn.
    split; [reflexivity|]. left. auto.
  - destruct (fst (ModelSelector.orCheapest registry
                     (ModelSelector.choose registry analysis preferences)))
      as [m|]; [|discriminate].
    specialize (Rest m eq_refl).
    destruct (ModelSelector.overCap preferences _) eqn:OC;
      intros H; apply Returned_inj in H; subst sel; cbn;
      (split; [reflexivity|]); right; repeat split; try tauto.
  - destruct (fst (ModelSelector.orCheapest registry
                     (ModelSelector.choose registry analysis preferences)))
      as [m|]; [|discriminate].
    specialize (Rest m eq_refl).
    destruct (ModelSelector.overCap preferences _) eqn:OC.
    + destruct (ModelRegistry.getCheapestModel registry ModelRegistry.text)
        as [cheapest|] eqn:G;
        intros H; apply Returned_inj in H; subst sel; cbn;
        (split; [reflexivity|]).
      * left. split; [reflexivity|]. right. exists m. tauto.
      * right. repeat split; try tauto.
    + intros H; apply Returned_inj in H; subst sel; cbn.
      split; [reflexivity|]. right. repeat split; try tauto.
Qed.

(** X20. Whatever the registry, the analysis and the preferences, a
    selection names enabled models of the registry only, the selected one
    and the alternatives alike; for a task that is not an image task the
    estimated cost is that of the selected model at the estimated tokens
    (input and output taken equal) and there are at most three
    alternatives. *)
Theorem selection_is_enabled
    (registry : list ModelRegistry.ModelDefinition)
    (analysis : ModelSelector.PromptAnalysis)
    (preferences : ModelSelector.SelectionPreferences)
    (sel : ModelSelector.ModelSelection) :
  ModelSelector.selectModel registry analysis preferences = Returned sel ->
  (In (ModelSelector.model sel) registry /\
   ModelRegistry.enabled (ModelSelector.model sel) = true) /\
  (forall a, In a (ModelSelector.alternatives sel) ->
     In a registry /\ ModelRegistry.enabled a = true) /\
  (ModelSelector.isImage (ModelSelector.taskType analysis) = false ->
   ModelSelector.estimatedCost sel
   = ModelSelector.estimateCostForModel (ModelSelector.model sel)
       (ModelSelector.estimatedTokens analysis) /\
   (List.length (ModelSelector.alternatives sel) <= 3)%nat).
Proof.
  intros H.
  destruct (ModelSelector.isImage (ModelSelector.taskType analysis)) eqn:Img.
  - unfold ModelSelector.selectModel in H. rewrite Img in H.
    unfold ModelSelector.selectImageModel in H.
    destruct (ModelRegistry.getModelsByCapability registry ModelRegistry.image)
      as [|m others] eqn:E; [discriminate H|].
    apply Returned_inj in H. subst sel. cbn.
    assert (All : forall a, In a (m :: others) ->
              In a registry /\ ModelRegistry.enabled a = true).
    { intros a Ha. rewrite <- E in Ha. apply byCapability_enabled in Ha. tauto. }
    split; [apply All; left; reflexivity|].
    split; [intros a Ha; apply All; right; exact Ha | discriminate].
  - destruct (selectModel_cases registry analysis preferences sel Img H)
      as [Cost [[G Alt] | (Hin & En & _ & Alt)]].
    + apply cheapest_enabled in G. destruct G as (Hin & En & _).
      split; [auto|]. split.
      * destruct Alt as [-> | (m & -> & Hm & Em & _)]; [intros a []|].
        intros a [<-|[]]. auto.
      * intros _. split; [exact Cost|].
        destruct Alt as [-> | (m & -> & _)]; cbn; lia.
    + split; [auto|]. split.
      * intros a Ha. rewrite Alt in Ha. apply In_firstn_of in Ha.
        apply filter_In in Ha. destruct Ha as [Ha _].
        apply byCapability_enabled in Ha. tauto.
      * intros _. split; [exact Cost|]. rewrite Alt. apply firstn_le_length.
Qed.

Lemma selection_is_enabled_witness :
  ModelRegistry.enabled (ModelSelector.model flashSelection) = true.
Proof.
  exact (proj2 (proj1 (selection_is_enabled ModelRegistry.MODEL_REGISTRY shortQuestion
                         ModelSelector.noPreferences flashSelection eq_refl))).
Defined.

(** X21. The cost cap is kept as far as the registry allows: for a task
    that is not an image task and a non-zero maxCostPerRequest, the
    selection either costs no more than the cap, or it is the cheapest
    enabled text model (the first of the cheapest), or no text model is
    enabled at all. *)
Theorem cost_cap_is_best_effort
    (registry : list ModelRegistry.ModelDefinition)
    (analysis : ModelSelector.PromptAnalysis)
    (preferences : ModelSelector.SelectionPreferences)
    (sel : ModelSelector.ModelSelection) (cap : Q) :
  ModelSelector.isImage (ModelSelector.taskType analysis) = false ->
  ModelSelector.maxCostPerRequest preferences = Some cap ->
  ~ cap == 0 ->
  ModelSelector.selectModel registry analysis preferences = Returned sel ->
  ModelSelector.estimatedCost sel <= cap \/
  ModelRegistry.getCheapestModel registry ModelRegistry.text
  = Some (ModelSelector.model sel) \/
  ModelRegistry.getCheapestModel registry ModelRegistry.text = None.
Proof.
  intros Img Cap NZ H.
  destruct (selectModel_cases registry analysis preferences sel Img H)
    as [_ [[G _] | (_ & _ & [OC|G] & _)]]; auto.
  left. unfold ModelSelector.overCap in OC. rewrite Cap in OC.
  destruct (Qeq_bool cap 0) eqn:E; [apply Qeq_bool_iff in E; contradiction|].
  cbn [negb andb] in OC. apply negb_false_iff in OC. apply Qle_bool_iff. exact OC.
Qed.

Lemma cost_cap_is_best_effort_witness :
  exists sel,
    ModelSelector.selectModel ModelRegistry.MODEL_REGISTRY shortQuestion tinyCap
    = Returned sel /\
    (ModelSelector.estimatedCost sel <= 1 # 1000000 \/
     ModelRegistry.getCheapestModel ModelRegistry.MODEL_REGISTRY ModelRegistry.text
     = Some (ModelSelector.model sel) \/
     ModelRegistry.getCheapestModel ModelRegistry.MODEL_REGISTRY ModelRegistry.text
     = None).
Proof.
  eexists. split; [reflexivity|].
  apply (cost_cap_is_best_effort ModelRegistry.MODEL_REGISTRY shortQuestion tinyCap
           _ (1 # 1000000)).
  - reflexivity.
  - reflexivity.
  - discriminate.
  - reflexivity.
Defined.

(** X22. When selectModel throws: for an image task, exactly when no
    enabled model has the image capability; for any other task, only when
    no enabled model has the text capability.  With the registry as
    shipped, whose image models are both disabled, every image task throws
    and every other task is answered with one of the three enabled Gemini
    models, whatever the preferences. *)
Theorem selectModel_throws_only_without_models
    (registry : list ModelRegistry.ModelDefinition)
    (analysis : ModelSelector.PromptAnalysis)
    (preferences : ModelSelector.SelectionPreferences) :
  (ModelSelector.isImage (ModelSelector.taskType analysis) = true ->
   (ModelSelector.selectModel registry analysis preferences = Raised <->
    forall m, In m registry -> ModelRegistry.enabled m = true ->
              ModelRegistry.has ModelRegistry.image m = false)) /\
  (ModelSelector.isImage (ModelSelector.taskType analysis) = false ->
   ModelSelector.selectModel registry analysis preferences = Raised ->
   forall m, In m registry -> ModelRegistry.enabled m = true ->
             ModelRegistry.has ModelRegistry.text m = false) /\
  (if ModelSelector.isImage (ModelSelector.taskType analysis)
   then ModelSelector.selectModel ModelRegistry.MODEL_REGISTRY analysis preferences
        = Raised
   else exists sel,
          ModelSelector.selectModel ModelRegistry.MODEL_REGISTRY analysis preferences
          = Returned sel /\
          In (ModelRegistry.id (ModelSelector.model sel))
             ["gemini-2.5-flash"; "gemini-2.5-flash-lite"; "gemini-exp-1206 "]).
Proof.
  assert (NoText : forall reg,
            ModelRegistry.getCheapestModel reg ModelRegistry.text = None ->
            forall m, In m reg -> ModelRegistry.enabled m = true ->
                      ModelRegistry.has ModelRegistry.text m = false).
  { intros reg G m Hm En.
    unfold ModelRegistry.getCheapestModel in G.
    destruct (ModelRegistry.getModelsByCapability reg ModelRegistry.text)
      as [|first rest] eqn:EL; [|discriminate G].
    destruct (ModelRegistry.has ModelRegistry.text m) eqn:Hc; [|reflexivity].
    assert (Hin : In m (ModelRegistry.getModelsByCapability reg ModelRegistry.text)).
    { apply filter_In. rewrite En, Hc. auto. }
    rewrite EL in Hin. destruct Hin. }
  assert (Text : forall reg,
            ModelSelector.isImage (ModelSelector.taskType analysis) = false ->
            ModelSelector.selectModel reg analysis preferences = Raised ->
            ModelRegistry.getCheapestModel reg ModelRegistry.text = None).
  { intros reg Img. unfold ModelSelector.selectModel. rewrite Img.
    destruct (ModelRegistry.getCheapestModel reg ModelRegistry.text) as [c|] eqn:G;
      [|reflexivity].
    assert (Sel : exists m, fst (ModelSelector.orCheapest reg
                                   (ModelSelector.choose reg analysis preferences))
                            = Some m).
    { unfold ModelSelector.orCheapest.
      destruct (fst (ModelSelector.choose reg analysis preferences)) as [x|];
        cbn [fst]; [exists x; reflexivity | exists c; exact G]. }
    destruct Sel as (m & ->).
    destruct (ModelSelector.budgetExhausted preferences); [discriminate|].
    destruct (ModelSelector.overCap preferences _); discriminate. }
  split; [|split].
  - intros Img. unfold ModelSelector.selectModel, ModelSelector.selectImageModel.
    rewrite Img.
    destruct (ModelRegistry.getModelsByCapability registry ModelRegistry.image)
      as [|first rest] eqn:EL.
    + split; [|reflexivity]. intros _ m Hm En.
      destruct (ModelRegistry.has ModelRegistry.image m) eqn:Hc; [|reflexivity].
      assert (Hin : In m (ModelRegistry.getModelsByCapability registry
                            ModelRegistry.image)).
      { apply filter_In. rewrite En, Hc. auto. }
      rewrite EL in Hin. destruct Hin.
    + split; [discriminate|]. intros H. exfalso.
      assert (Hin : In first (ModelRegistry.getModelsByCapability registry
                                ModelRegistry.image))
        by (rewrite EL; left; reflexivity).
      apply byCapability_enabled in Hin. destruct Hin as (Hin & En & Hc).
      rewrite (H first Hin En) in Hc. discriminate Hc.
  - intros Img R. exact (NoText registry (Text registry Img R)).
  - destruct (ModelSelector.isImage (ModelSelector.taskType analysis)) eqn:Img.
    + unfold ModelSelector.selectModel. rewrite Img. reflexivity.
    + destruct (ModelSelector.selectModel ModelRegistry.MODEL_REGISTRY analysis
                  preferences) as [sel|] eqn:S.
      * exists sel. split; [reflexivity|].
        destruct (selectModel_cases ModelRegistry.MODEL_REGISTRY analysis preferences
                    sel Img S) as [_ [[G _] | (Hin & En & _)]].
        { apply cheapest_enabled in G. destruct G as (Hin & En & _).
          cbn in Hin.
          repeat (destruct Hin as [E|Hin];
                  [rewrite <- E in En |- *; first [discriminate En | cbn; auto 6]|]).
          destruct Hin. }
        { cbn in Hin.
          repeat (destruct Hin as [E|Hin];
                  [rewrite <- E in En |- *; first [discriminate En | cbn; auto 6]|]).
          destruct Hin. }
      * specialize (Text _ eq_refl S). discriminate Text.
Qed.

Lemma filter_shorter {A : Type} (P : A -> bool) (l : list A) :
  (List.length (filter P l) <= List.length l)%nat.
Proof.
  induction l as [|x l IH]; cbn [filter List.length]; [lia|].
  destruct (P x); cbn [List.length]; lia.
Qed.

(** X23. list_models lists the enabled models, or the whole registry when
    show_all is set, in registry order: enabled_count never exceeds
    total_count, the number of listed models is enabled_count (total_count
    with show_all), every enabled model of the registry is listed, and
    without show_all no disabled model is. *)
Theorem listModels_counts
    (registry : list ModelRegistry.ModelDefinition) (show_all : bool) :
  let out := ListModels.listModels registry show_all in
  (ListModels.enabled_count out <= ListModels.total_count out)%nat /\
  List.length (ListModels.models out)
  = (if show_all then ListModels.total_count out else ListModels.enabled_count out) /\
  (forall l, In l (ListModels.models out) ->
     exists m, In m registry /\ l = ListModels.listed m /\
               (show_all = false -> ModelRegistry.enabled m = true)) /\
  (forall m, In m registry -> ModelRegistry.enabled m = true ->
     In (ListModels.listed m) (ListModels.models out)).
Proof.
  unfold ListModels.listModels.
  cbn [ListModels.enabled_count ListModels.total_count ListModels.models].
  unfold ModelRegistry.getEnabledModels.
  split; [apply filter_shorter|]. split; [|split].
  - rewrite length_map. destruct show_all; reflexivity.
  - intros l Hl. apply in_map_iff in Hl. destruct Hl as (m & <- & Hm).
    exists m. destruct show_all.
    + split; [exact Hm|]. split; [reflexivity | discriminate].
    + apply filter_In in Hm. destruct Hm as [Hm En]. auto.
  - intros m Hm En. apply in_map. destruct show_all; [exact Hm|].
    apply filter_In. auto.
Qed.

(** ** The prompt analyzer *)

Lemma min_cases (a b : Q) :
  (a <= b /\ PromptAnalyzer.min a b = a) \/ (b < a /\ PromptAnalyzer.min a b = b).
Proof.
  unfold PromptAnalyzer.min. destruct (Qle_bool a b) eqn:E.
  - left. split; [apply Qle_bool_iff; exact E | reflexivity].
  - right. split; [|reflexivity]. apply Qnot_le_lt. intros H.
    apply Qle_bool_iff in H. congruence.
Qed.

(** X24. The confidence of an analysis lies between 0.5 and 0.9, so the cap
    at 1.0 never binds; it is 0.5 exactly when no keyword of the six lists
    occurs in the lowered prompt and the prompt has between 20 and 500
    characters; and every keyword reported occurs in the lowered prompt.
    Nothing is assumed of the lowering. *)
Theorem confidence_is_between_half_and_nine_tenths
    (toLowerCase : string -> string) (prompt : string) (context : option string) :
  let a := PromptAnalyzer.analyzePrompt toLowerCase prompt context in
  let n := String.length (toLowerCase prompt) in
  5 # 10 <= ModelSelector.confidence a /\
  ModelSelector.confidence a <= 9 # 10 /\
  (ModelSelector.confidence a == 5 # 10 <->
   ModelSelector.keywords a = [] /\ (20 <= n <= 500)%nat) /\
  (forall k, In k (ModelSelector.keywords a) ->
     PromptAnalyzer.includes (toLowerCase prompt) k = true).
Proof.
  intros a n. unfold a, PromptAnalyzer.analyzePrompt.
  cbn [ModelSelector.confidence ModelSelector.keywords].
  set (kws := PromptAnalyzer.extractKeywords (toLowerCase prompt)).
  fold n. unfold PromptAnalyzer.calculateConfidence. fold n.
  assert (In_kws : forall k, In k kws ->
            PromptAnalyzer.includes (toLowerCase prompt) k = true).
  { intros k Hk. unfold kws, PromptAnalyzer.extractKeywords in Hk.
    apply filter_In in Hk. apply Hk. }
  set (len := List.length kws).
  assert (Len : len = List.length kws) by reflexivity.
  assert (K : (Nat.ltb 0 len = false /\ kws = []) \/
              (Nat.ltb 0 len = true /\ kws <> [] /\
               1 <= inject_Z (Z.of_nat len))).
  { destruct kws as [|k r]; [left; auto|]. right.
    split; [reflexivity|]. split; [discriminate|].
    rewrite Len. cbn [List.length]. change 1 with (inject_Z 1).
    rewrite <- Zle_Qle. lia. }
  assert (L : ((Nat.ltb n 20 || Nat.ltb 500 n)%bool = false /\ (20 <= n <= 500)%nat) \/
              ((Nat.ltb n 20 || Nat.ltb 500 n)%bool = true /\ ~ (20 <= n <= 500)%nat)).
  { destruct (Nat.ltb_spec n 20); destruct (Nat.ltb_spec 500 n); cbn [orb];
      [right|right|right|left]; split; try reflexivity; lia. }
  destruct K as [[-> ->] | (-> & NE & One)];
    destruct L as [[-> Range] | [-> Range]];
    try destruct (min_cases (inject_Z (Z.of_nat len) * (1 # 10)) (3 # 10))
      as [[M1 ->] | [M1 ->]];
    match goal with
    | |- context [PromptAnalyzer.min ?x 1] =>
        destruct (min_cases x 1) as [[M2 ->] | [M2 ->]]
    end;
    (split; [lra|]); (split; [lra|]); (split; [|exact In_kws]);
    (split; [intros E | intros [E1 E2]]);
    try (split; [reflexivity | exact Range]);
    try contradiction; try lra; try (exfalso; lra).
Qed.

Lemma containsKeywords_true (s : string) (keywords : list string) :
  PromptAnalyzer.containsKeywords s keywords = true <->
  exists k, In k keywords /\ PromptAnalyzer.includes s k = true.
Proof. apply existsb_exists. Qed.

(** X25. The guards of the analysis, whatever the lowering: a task is an
    image task only if the lowered text holds an image keyword, holds
    neither 'code' nor 'function', and holds 'diagram' whenever it holds
    'architecture'; a prompt is simple only if its lowered form holds no
    complex and no medium keyword and has at most 100 characters, the full
    text having at most 500; and a lowered prompt of more than 500
    characters is always complex. *)
Theorem analysis_guards
    (toLowerCase : string -> string) (prompt : string) (context : option string) :
  let a := PromptAnalyzer.analyzePrompt toLowerCase prompt context in
  let lowerPrompt := toLowerCase prompt in
  let fullText :=
    match context with
    | Some c => if JS.truthy c then toLowerCase (prompt ++ " " ++ c) else lowerPrompt
    | None => lowerPrompt
    end in
  (ModelSelector.taskType a = ModelRegistry.image ->
   (exists k, In k PromptAnalyzer.IMAGE_KEYWORDS /\
              PromptAnalyzer.includes fullText k = true) /\
   PromptAnalyzer.includes fullText "code" = false /\
   PromptAnalyzer.includes fullText "function" = false /\
   (PromptAnalyzer.includes fullText "architecture" = true ->
    PromptAnalyzer.includes fullText "diagram" = true)) /\
  (ModelSelector.complexity a = ModelSelector.simple ->
   PromptAnalyzer.containsKeywords lowerPrompt PromptAnalyzer.COMPLEX_KEYWORDS = false /\
   PromptAnalyzer.containsKeywords lowerPrompt PromptAnalyzer.MEDIUM_KEYWORDS = false /\
   (String.length lowerPrompt <= 100)%nat /\
   (String.length fullText <= 500)%nat) /\
  ((500 < String.length lowerPrompt)%nat ->
   ModelSelector.complexity a = ModelSelector.complex).
Proof.
  intros a lowerPrompt fullText. unfold a, PromptAnalyzer.analyzePrompt.
  fold lowerPrompt. fold fullText.
  cbn [ModelSelector.taskType ModelSelector.complexity].
  split; [|split].
  - unfold PromptAnalyzer.detectTaskType.
    destruct (PromptAnalyzer.containsKeywords fullText PromptAnalyzer.IMAGE_KEYWORDS)
      eqn:Img.
    + destruct (PromptAnalyzer.includes fullText "code"); cbn [orb]; [discriminate|].
      destruct (PromptAnalyzer.includes fullText "function"); cbn [orb];
        [discriminate|].
      destruct (PromptAnalyzer.includes fullText "architecture"); cbn [andb].
      * destruct (PromptAnalyzer.includes fullText "diagram"); cbn [negb];
          [|discriminate].
        intros _. split; [apply containsKeywords_true; exact Img | auto].
      * intros _. split; [apply containsKeywords_true; exact Img|].
        repeat split; discriminate.
    + destruct (PromptAnalyzer.containsKeywords fullText PromptAnalyzer.CODE_KEYWORDS);
        [discriminate|].
      destruct (PromptAnalyzer.containsKeywords fullText
                  PromptAnalyzer.REASONING_KEYWORDS); discriminate.
  - unfold PromptAnalyzer.detectComplexity.
    destruct (PromptAnalyzer.containsKeywords lowerPrompt PromptAnalyzer.COMPLEX_KEYWORDS);
      [discriminate|].
    destruct (Nat.ltb_spec 500 (String.length lowerPrompt)); cbn [orb]; [discriminate|].
    destruct (Nat.ltb_spec 2000 (String.length fullText)); [discriminate|].
    destruct (PromptAnalyzer.containsKeywords lowerPrompt PromptAnalyzer.MEDIUM_KEYWORDS);
      [discriminate|].
    destruct (Nat.ltb_spec 100 (String.length lowerPrompt)); cbn [orb]; [discriminate|].
    destruct (Nat.ltb_spec 500 (String.length fullText)); [discriminate|].
    intros _. repeat split; auto.
  - intros Long. unfold PromptAnalyzer.detectComplexity.
    destruct (PromptAnalyzer.containsKeywords lowerPrompt PromptAnalyzer.COMPLEX_KEYWORDS);
      [reflexivity|].
    destruct (Nat.ltb_spec 500 (String.length lowerPrompt)); [reflexivity | lia].
Qed.

Lemma analysis_guards_witness :
  PromptAnalyzer.includes
    (PromptAnalyzer.toLowerCaseAscii "Draw a picture of a Cat") "code" = false.
Proof.
  apply (analysis_guards PromptAnalyzer.toLowerCaseAscii "Draw a picture of a Cat" None).
  reflexivity.
Defined.

(** ** The ledger never holds a negative cost *)

Lemma getTool_In (f : Faults) (st : Store) (X : string) (tool : Tool.t) :
  DatabaseService.getTool f st X = Returned (Some tool) -> In tool (tools st).
Proof.
  unfold DatabaseService.getTool, await.
  destruct (f AtGetTool); cbn [bind error data]; try discriminate.
  destruct (filter (fun t => String.eqb (Tool.id t) X) (tools st))
    as [|x [|y more]] eqn:EF; cbn [single error data]; try discriminate.
  intros H. apply Returned_inj in H. injection H as <-.
  assert (Hin : In x (filter (fun t => String.eqb (Tool.id t) X) (tools st)))
    by (rewrite EF; left; reflexivity).
  apply filter_In in Hin. apply Hin.
Qed.

Lemma upsertAggregate_nonneg (f : Faults) (st st' : Store) (T U X : string)
    (pt : PeriodType) (ps : Date.DateString) (c n : Q) :
  (forall a, In a (usage_aggregates st) -> 0 <= UsageAggregate.total_cost a) ->
  0 <= c ->
  DatabaseService.upsertAggregate f st T U X pt ps c n = Returned st' ->
  forall a, In a (usage_aggregates st') -> 0 <= UsageAggregate.total_cost a.
Proof.
  intros NN Hc.
  assert (St : forall x y tc tu,
            0 <= x -> DatabaseService.stored x y = Some (tc, tu) -> 0 <= tc).
  { intros x y tc tu Hx. unfold DatabaseService.stored.
    destruct (Pg.numeric 10 2 x) as [c'|] eqn:Nc; [|discriminate].
    destruct (Pg.integer y); [|discriminate].
    intros H. injection H as <- _. exact (numeric_nonneg _ _ _ _ Nc Hx). }
  assert (Ins : forall a,
            In a (DatabaseService.insertNew (usage_aggregates st) T U X pt ps c n) ->
            0 <= UsageAggregate.total_cost a).
  { intros a. unfold DatabaseService.insertNew.
    destruct (existsb _ _); [apply NN|].
    destruct (DatabaseService.stored c n) as [[tc tu]|] eqn:S; [|apply NN].
    intros Ha. apply in_app_or in Ha. destruct Ha as [Ha|[<-|[]]]; [apply NN, Ha|].
    exact (St _ _ _ _ Hc S). }
  unfold DatabaseService.upsertAggregate, await.
  destruct (f AtSelectAggregate); cbn [bind data]; try discriminate.
  - destruct (data (DatabaseService.selectExisting (usage_aggregates st) T U X pt ps))
      as [existing|] eqn:Sel.
    + assert (Ex : 0 <= fst existing).
      { unfold DatabaseService.selectExisting in Sel. apply maybeSingle_In in Sel.
        apply in_map_iff in Sel. destruct Sel as (a0 & <- & Ha0).
        apply filter_In in Ha0. cbn [fst]. apply NN, Ha0. }
      destruct (f AtUpdateAggregate); try discriminate; intros H;
        apply Returned_inj in H; subst st'; [|exact NN].
      cbn [usage_aggregates setAggregates]. intros a Ha.
      unfold DatabaseService.updateExisting in Ha.
      destruct (DatabaseService.stored (fst existing + c) (snd existing + n))
        as [[tc tu]|] eqn:S; [|apply NN, Ha].
      apply in_map_iff in Ha.
      destruct Ha as (a0 & <- & Ha0).
      destruct (DatabaseService.sameKey T U X pt ps a0); [|apply NN, Ha0].
      cbn [UsageAggregate.total_cost].
      apply (St (fst existing + c) (snd existing + n) tc tu); [lra | exact S].
    + destruct (f AtInsertAggregate); try discriminate; intros H;
        apply Returned_inj in H; subst st'; [exact Ins | exact NN].
  - destruct (f AtInsertAggregate); try discriminate; intros H;
      apply Returned_inj in H; subst st'; [exact Ins | exact NN].
Qed.

Lemma recordUsage_nonneg (f : Faults) (e : Date.Env) (st : Store)
    (ev : UsageEvent.t) (r : option UsageEvent.t * Store) :
  NonNegativeLedger st ->
  0 <= UsageEvent.cost_estimate ev ->
  DatabaseService.recordUsage f e st ev = Returned r ->
  NonNegativeLedger (snd r).
Proof.
  intros [NA NE] Hc. unfold DatabaseService.recordUsage.
  destruct (f AtInsertEvent); try discriminate; intros H;
    apply Returned_inj in H; subst r; cbn [snd]; [|split; assumption].
  set (st0 := setEvents st (usage_events st ++ [ev])).
  assert (NE0 : forall x, In x (usage_events st0) -> 0 <= UsageEvent.cost_estimate x).
  { intros x Hx. cbn [st0 usage_events setEvents] in Hx.
    apply in_app_or in Hx. destruct Hx as [Hx|[<-|[]]]; [apply NE, Hx | exact Hc]. }
  unfold DatabaseService.updateAggregates. cbv zeta.
  destruct (DatabaseService.upsertAggregate f st0 _ _ _ day _ _ _) as [st1|] eqn:E1;
    cbn [fst]; [|split; assumption].
  pose proof (upsertAggregate_nonneg f st0 st1 _ _ _ _ _ _ _ NA Hc E1) as NA1.
  apply upsertAggregate_events in E1. destruct E1 as (Ev1 & _).
  destruct (DatabaseService.upsertAggregate f st1 _ _ _ month _ _ _) as [st2|] eqn:E2;
    cbn [fst].
  - pose proof (upsertAggregate_nonneg f st1 st2 _ _ _ _ _ _ _ NA1 Hc E2) as NA2.
    apply upsertAggregate_events in E2. destruct E2 as (Ev2 & _).
    split; [exact NA2|]. rewrite Ev2, Ev1. exact NE0.
  - split; [exact NA1|]. rewrite Ev1. exact NE0.
Qed.

(** The event a request records costs nothing or the estimate of a tool of
    the catalog. *)
Ltac priced_event f e st tool :=
  match goal with
  | |- context [DatabaseService.recordUsage f e st ?x] =>
      destruct (DatabaseService.recordUsage f e st x) as [r|] eqn:R;
        cbn [bind snd]; [right; exists x, r | left; reflexivity];
      split; [exact R|]; split; [reflexivity|];
      cbn [UsageEvent.cost_estimate]
  end.

Lemma checkAndRoute_event_cost (f : Faults) (e : Date.Env) (st : Store)
    (input : CheckAndRouteInput.t) :
  snd (checkAndRoute f e st input) = st \/
  exists ev r,
    DatabaseService.recordUsage f e st ev = Returned r /\
    snd (checkAndRoute f e st input) = snd r /\
    (UsageEvent.cost_estimate ev = 0 \/
     exists tool, In tool (tools st) /\
       UsageEvent.cost_estimate ev
       = CostEstimator.estimateCost tool (CheckAndRouteInput.estimated_units input)).
Proof.
  unfold checkAndRoute, route.
  destruct (DatabaseService.getTool f st (CheckAndRouteInput.tool_id input))
    as [[tool|]|] eqn:GT; cbn [bind snd]; auto.
  apply getTool_In in GT.
  destruct (PolicyEngine.isToolAllowedForPlan f st _ _) as [[|]|];
    cbn [bind negb snd]; auto.
  - destruct (PolicyEngine.evaluateRequest f e st _ _ _ _) as [evaluation|];
      cbn [bind snd]; auto.
    destruct (PolicyEvaluationResult.allowed evaluation); cbn [negb].
    + destruct (JS.truthyOpt (PolicyEvaluationResult.suggested_tool evaluation)).
      * destruct (DatabaseService.getTool f st
                    match PolicyEvaluationResult.suggested_tool evaluation with
                    | Some s => s
                    | None => EmptyString
                    end) as [[ft|]|] eqn:GF; cbn [bind snd]; auto.
        -- apply getTool_In in GF. priced_event f e st tool.
           right. exists ft. auto.
        -- priced_event f e st tool. right. exists tool. auto.
      * priced_event f e st tool. right. exists tool. auto.
    + priced_event f e st tool. left. reflexivity.
  - destruct (PolicyEngine.getSuggestedFallback f st _) as [[fb|]|];
      cbn [bind snd]; auto.
    destruct (JS.truthy fb); cbn [snd]; auto.
Qed.

Lemma checkAndRoute_tools (f : Faults) (e : Date.Env) (st : Store)
    (input : CheckAndRouteInput.t) :
  tools (snd (checkAndRoute f e st input)) = tools st.
Proof.
  destruct (checkAndRoute_store_any f e st input) as [E | (ev & r & R & E & _)];
    rewrite E; [reflexivity|].
  apply (recordUsage_frame f e st ev r R).
Qed.

Lemma checkAndRoute_nonneg (f : Faults) (e : Date.Env) (st : Store)
    (input : CheckAndRouteInput.t) :
  NonNegativeLedger st ->
  (forall tool, In tool (tools st) -> 0 <= Tool.cost_per_unit tool) ->
  0 <= CheckAndRouteInput.estimated_units input ->
  NonNegativeLedger (snd (checkAndRoute f e st input)).
Proof.
  intros NN Tools Units.
  destruct (checkAndRoute_event_cost f e st input) as [E | (ev & r & R & E & C)];
    rewrite E; [exact NN|].
  apply (recordUsage_nonneg f e st ev r NN); [|exact R].
  destruct C as [-> | (tool & Ht & ->)]; [lra|].
  unfold CostEstimator.estimateCost. specialize (Tools tool Ht). nra.
Qed.

(** X26. The ledger never holds a negative cost: when no tool of the
    catalog has a negative unit price and no request asks for a negative
    number of units (the schema admits positive ones only), a ledger whose
    event costs and aggregate totals are non-negative stays so through any
    sequence of requests; one request keeps it so whatever the store
    answers. *)
Theorem ledger_stays_non_negative
    (tz : Z) (requests : list (Date.t * CheckAndRouteInput.t)) (st : Store) :
  NonNegativeLedger st ->
  (forall tool, In tool (tools st) -> 0 <= Tool.cost_per_unit tool) ->
  (forall request, In request requests ->
     0 <= CheckAndRouteInput.estimated_units (snd request)) ->
  NonNegativeLedger (serve tz st requests) /\
  forall f e input,
    0 <= CheckAndRouteInput.estimated_units input ->
    NonNegativeLedger (snd (checkAndRoute f e st input)).
Proof.
  intros NN Tools Units. split.
  - revert st NN Tools. induction requests as [|[at_ input] rest IH];
      intros st NN Tools; cbn [serve]; [exact NN|].
    apply IH.
    + intros request Hr. apply Units. right. exact Hr.
    + apply checkAndRoute_nonneg; auto.
      apply (Units (at_, input)). left. reflexivity.
    + rewrite checkAndRoute_tools. exact Tools.
  - intros f e input Hu. apply checkAndRoute_nonneg; auto.
Qed.

Lemma ledger_stays_non_negative_witness :
  NonNegativeLedger (serve 0 Demo.demoStore Cases.twoRequests).
Proof.
  refine (proj1 (ledger_stays_non_negative 0 Cases.twoRequests Demo.demoStore _ _ _)).
  - split; intros x [].
  - intros tool Hin. simpl in Hin.
    repeat (destruct Hin as [<-|Hin]; [discriminate|]). destruct Hin.
  - intros request Hin. simpl in Hin.
    repeat (destruct Hin as [<-|Hin]; [discriminate|]). destruct Hin.
Defined.

(** ** Failures of the ledger and the answer *)

Lemma await_answers {A : Type} (f : Faults) (s : Site) (r : Reply A) :
  f s = NoFault -> await f s r = Returned r.
Proof. unfold await. intros ->. reflexivity. Qed.

Section ReadsAnswer.
Variable f : Faults.
Hypothesis reads : forall s, ledgerSite s = false -> f s = NoFault.

Lemma getTool_reads (st : Store) (X : string) :
  DatabaseService.getTool f st X = DatabaseService.getTool no_faults st X.
Proof.
  unfold DatabaseService.getTool.
  rewrite (await_answers f), await_no_faults by (apply reads; reflexivity).
  reflexivity.
Qed.

Lemma isToolAllowedForPlan_reads (st : Store) (T X : string) :
  PolicyEngine.isToolAllowedForPlan f st T X
  = PolicyEngine.isToolAllowedForPlan no_faults st T X.
Proof.
  unfold PolicyEngine.isToolAllowedForPlan.
  rewrite !(await_answers f), !await_no_faults by (apply reads; reflexivity).
  reflexivity.
Qed.

Lemma getSuggestedFallback_reads (st : Store) (X : string) :
  PolicyEngine.getSuggestedFallback f st X
  = PolicyEngine.getSuggestedFallback no_faults st X.
Proof.
  unfold PolicyEngine.getSuggestedFallback.
  rewrite (await_answers f AtFallbackTool), await_no_faults
    by (apply reads; reflexivity).
  cbn [bind]. destruct (data (single _)); [|reflexivity].
  rewrite (await_answers f), await_no_faults by (apply reads; reflexivity).
  reflexivity.
Qed.

Lemma getCurrentUsage_reads (e : Date.Env) (st : Store) (T U X : string)
    (w : PolicyEngine.Window) :
  PolicyEngine.getCurrentUsage f e st T U X w
  = PolicyEngine.getCurrentUsage no_faults e st T U X w.
Proof.
  unfold PolicyEngine.getCurrentUsage.
  rewrite (await_answers f AtUsageAggregate), await_no_faults
    by (apply reads; reflexivity).
  cbn [bind]. destruct (data (maybeSingle _)); [reflexivity|].
  rewrite (await_answers f), await_no_faults by (apply reads; reflexivity).
  reflexivity.
Qed.

Lemma checkPolicies_reads (e : Date.Env) (st : Store) (T U X : string) (c : Q)
    (ps : list Policy.t) :
  PolicyEngine.checkPolicies f e st T U X c ps
  = PolicyEngine.checkPolicies no_faults e st T U X c ps.
Proof.
  induction ps as [|p rest IH]; [reflexivity|].
  cbn [PolicyEngine.checkPolicies]. rewrite getCurrentUsage_reads, IH. reflexivity.
Qed.

Lemma evaluateRequest_reads (e : Date.Env) (st : Store) (T U X : string) (c : Q) :
  PolicyEngine.evaluateRequest f e st T U X c
  = PolicyEngine.evaluateRequest no_faults e st T U X c.
Proof.
  unfold PolicyEngine.evaluateRequest, PolicyEngine.getApplicablePolicies.
  rewrite (await_answers f), await_no_faults by (apply reads; reflexivity).
  cbn [bind]. destruct (if error _ then _ else _) as [[|first more]|];
    cbn [bind]; try reflexivity.
  rewrite checkPolicies_reads, getCurrentUsage_reads. reflexivity.
Qed.

Lemma recordUsage_swallowed (e : Date.Env) (st : Store) (ev : UsageEvent.t) :
  match f AtInsertEvent with
  | Throws => DatabaseService.recordUsage f e st ev = Raised
  | ErrorReply => DatabaseService.recordUsage f e st ev = Returned (None, st)
  | NoFault => exists st', DatabaseService.recordUsage f e st ev
                           = Returned (Some ev, st')
  end.
Proof.
  unfold DatabaseService.recordUsage.
  destruct (f AtInsertEvent); [eexists|..]; reflexivity.
Qed.

(** The branches of the router that record an event, when the record may
    fail. *)
Ltac maybe_recorded e st :=
  match goal with
  | |- context [DatabaseService.recordUsage f e st ?x] =>
      pose proof (recordUsage_swallowed e st x) as RS;
      rewrite recordUsage_no_faults;
      destruct (f AtInsertEvent);
        [destruct RS as (st' & ->) | rewrite RS | rewrite RS];
      cbn [bind fst snd];
      (split; [|split]); intros H;
      first [ discriminate H
            | exfalso; apply H; reflexivity
            | reflexivity
            | split; [reflexivity | right; split; reflexivity] ]
  end.

Lemma checkAndRoute_reads (e : Date.Env) (st : Store) (input : CheckAndRouteInput.t) :
  (f AtInsertEvent <> Throws ->
   fst (checkAndRoute f e st input) = fst (checkAndRoute no_faults e st input)) /\
  (f AtInsertEvent = ErrorReply -> snd (checkAndRoute f e st input) = st) /\
  (f AtInsertEvent = Throws ->
   snd (checkAndRoute f e st input) = st /\
   (fst (checkAndRoute f e st input) = fst (checkAndRoute no_faults e st input) \/
    CheckAndRouteOutput.decision (fst (checkAndRoute f e st input)) = denied /\
    CheckAndRouteOutput.message (fst (checkAndRoute f e st input)) = ErrorProcessing)).
Proof.
  unfold checkAndRoute, route.
  rewrite getTool_reads.
  destruct (DatabaseService.getTool no_faults st (CheckAndRouteInput.tool_id input))
    as [[tool|]|]; cbn [bind fst snd]; auto.
  rewrite isToolAllowedForPlan_reads.
  destruct (PolicyEngine.isToolAllowedForPlan no_faults st _ _) as [[|]|];
    cbn [bind negb fst snd]; auto.
  - rewrite evaluateRequest_reads.
    destruct (PolicyEngine.evaluateRequest no_faults e st _ _ _ _) as [evaluation|];
      cbn [bind fst snd]; auto.
    destruct (PolicyEvaluationResult.allowed evaluation); cbn [negb].
    + destruct (JS.truthyOpt (PolicyEvaluationResult.suggested_tool evaluation)).
      * rewrite getTool_reads.
        destruct (DatabaseService.getTool no_faults st _) as [ft|];
          cbn [bind fst snd]; auto.
        maybe_recorded e st.
      * maybe_recorded e st.
    + maybe_recorded e st.
  - rewrite getSuggestedFallback_reads.
    destruct (PolicyEngine.getSuggestedFallback no_faults st _) as [[fb|]|];
      cbn [bind fst snd]; auto.
    destruct (JS.truthy fb); cbn [fst snd]; auto.
Qed.

End ReadsAnswer.

(** X27. A failure to record is invisible in the answer: when only the
    ledger accesses fail (the insert of the usage event and the accesses
    of the aggregate upsert) and the insert does not reject, the answer is
    the one given without any failure.  When the insert answers with an
    error the store is left as it was: an allowed request is served
    without a usage event, so its cost is never counted.  When the insert
    rejects, the store is left as it was and the answer is the unchanged
    one or the denial of the catch block. *)
Theorem unrecorded_usage_is_not_noticed
    (f : Faults) (e : Date.Env) (st : Store) (input : CheckAndRouteInput.t) :
  (forall s, ledgerSite s = false -> f s = NoFault) ->
  (f AtInsertEvent <> Throws ->
   fst (checkAndRoute f e st input) = fst (checkAndRoute no_faults e st input)) /\
  (f AtInsertEvent = ErrorReply -> snd (checkAndRoute f e st input) = st) /\
  (f AtInsertEvent = Throws ->
   snd (checkAndRoute f e st input) = st /\
   (fst (checkAndRoute f e st input) = fst (checkAndRoute no_faults e st input) \/
    CheckAndRouteOutput.decision (fst (checkAndRoute f e st input)) = denied /\
    CheckAndRouteOutput.message (fst (checkAndRoute f e st input)) = ErrorProcessing)).
Proof.
  intros reads. exact (checkAndRoute_reads f reads e st input).
Qed.

Lemma unrecorded_usage_is_not_noticed_witness :
  CheckAndRouteOutput.decision
    (fst (checkAndRoute insertFails Demo.utcEnv Demo.demoStore Cases.gpt4Request))
  = allowed /\
  snd (checkAndRoute insertFails Demo.utcEnv Demo.demoStore Cases.gpt4Request)
  = Demo.demoStore.
Proof.
  destruct (unrecorded_usage_is_not_noticed insertFails Demo.utcEnv Demo.demoStore
              Cases.gpt4Request) as (A & B & _).
  - intros s Hs. destruct s; try reflexivity; discriminate Hs.
  - split; [|apply B; reflexivity].
    rewrite A by discriminate. reflexivity.
Defined.

(** ** The target of a downgrade *)

(** X28. The tool a policy downgrades to is taken as it is: when the
    evaluation suggests a tool, the request is answered downgraded to that
    tool and charged for it, whatever the plan gate would say about that
    tool and whether or not the catalog knows it (an unknown fallback is
    charged at the estimate of the requested tool); the recorded event
    names the fallback tool. *)
Theorem downgrade_target_is_not_checked
    (e : Date.Env) (st : Store) (input : CheckAndRouteInput.t) (tool : Tool.t)
    (r : PolicyEvaluationResult.t) (s : string) :
  let T := JS.trim (CheckAndRouteInput.tenant_id input) in
  let U := JS.trim (CheckAndRouteInput.user_id input) in
  let X := CheckAndRouteInput.tool_id input in
  let units := CheckAndRouteInput.estimated_units input in
  let out := fst (checkAndRoute no_faults e st input) in
  DatabaseService.getTool no_faults st X = Returned (Some tool) ->
  PolicyEngine.isToolAllowedForPlan no_faults st T X = Returned true ->
  PolicyEngine.evaluateRequest no_faults e st T U X
    (CostEstimator.estimateCost tool units) = Returned r ->
  PolicyEvaluationResult.allowed r = true ->
  PolicyEvaluationResult.suggested_tool r = Some s ->
  s <> EmptyString ->
  exists charged_cost,
    DatabaseService.getTool no_faults st s
    = Returned (match filter (fun t => String.eqb (Tool.id t) s) (tools st) with
                | [ft] => Some ft
                | _ => None
                end) /\
    charged_cost
    = match filter (fun t => String.eqb (Tool.id t) s) (tools st) with
      | [ft] => CostEstimator.estimateCost ft units
      | _ => CostEstimator.estimateCost tool units
      end /\
    CheckAndRouteOutput.decision out = downgraded /\
    CheckAndRouteOutput.final_tool_used out = s /\
    CheckAndRouteOutput.result out
    = Some (mkRouted s (CheckAndRouteInput.params input)) /\
    CheckAndRouteOutput.cost_estimate out = charged_cost /\
    usage_events (snd (checkAndRoute no_faults e st input))
    = (usage_events st
       ++ [UsageEvent.mk (Date.toISOString (Date.now e)) T U s units charged_cost
             downgraded
             (MetaDowngraded X (PolicyEvaluationResult.reason r)
                (CheckAndRouteInput.params input))])%list.
Proof.
  intros T U X units out GT Gate EV AL SG NE.
  assert (GS : DatabaseService.getTool no_faults st s
               = Returned (match filter (fun t => String.eqb (Tool.id t) s) (tools st) with
                           | [ft] => Some ft
                           | _ => None
                           end)).
  { unfold DatabaseService.getTool. rewrite await_no_faults. cbn [bind].
    destruct (filter (fun t => String.eqb (Tool.id t) s) (tools st)) as [|x [|y more]];
      reflexivity. }
  eexists. split; [exact GS|]. split; [reflexivity|].
  unfold out, checkAndRoute, route. fold T U X units.
  rewrite GT. cbn [bind]. rewrite Gate. cbn [bind negb]. rewrite EV. cbn [bind].
  rewrite AL, SG. cbn [negb JS.truthyOpt].
  apply truthy_nonempty in NE. rewrite NE, GS. cbn [bind].
  rewrite recordUsage_no_faults. cbn [bind fst snd].
  destruct (filter (fun t => String.eqb (Tool.id t) s) (tools st)) as [|x [|y more]];
    repeat split; reflexivity.
Qed.

Lemma downgrade_target_is_not_checked_witness :
  PolicyEngine.isToolAllowedForPlan no_faults upsideDown Demo.FreeCo "gpt-4"
  = Returned false /\
  CheckAndRouteOutput.decision
    (fst (checkAndRoute no_faults Demo.utcEnv upsideDown cheapRequest)) = downgraded /\
  CheckAndRouteOutput.final_tool_used
    (fst (checkAndRoute no_faults Demo.utcEnv upsideDown cheapRequest)) = "gpt-4".
Proof.
  split; [reflexivity|].
  destruct (downgrade_target_is_not_checked Demo.utcEnv upsideDown cheapRequest
              (Tool.mk "gpt-3.5-turbo" "GPT-3.5 Turbo" llm cheap (1 # 1000000) tokens)
              (PolicyEvaluationResult.mk true (DowngradingTo "gpt-4") (Some "gpt-4") 0
                 (JS.Fin 0))
              "gpt-4")
    as (c & _ & _ & D & F & _); try reflexivity; [discriminate|].
  split; [exact D | exact F].
Defined.

(** ** Increments of different keys, interleaved *)

(** One upsert run to its end leaves the rows of the other keys as they
    are. *)
Lemma serial_other (aggs : list UsageAggregate.t) (k0 : AggKey) (c n : Q) (k : AggKey) :
  UniqueKeys aggs ->
  key_eqb k0 k = false ->
  filter (hasKey k) (Interleaving.serial aggs [Interleaving.start k0 c n])
  = filter (hasKey k) aggs.
Proof.
  intros UK Ek. rewrite (serial_one_rows aggs k0 c n k UK), Ek. reflexivity.
Qed.

(** What one upsert run to its end leaves in the rows of its key depends on
    those rows only. *)
Lemma serial_own (aggs aggs' : list UsageAggregate.t) (k : AggKey) (c n : Q) :
  UniqueKeys aggs -> UniqueKeys aggs' ->
  filter (hasKey k) aggs = filter (hasKey k) aggs' ->
  filter (hasKey k) (Interleaving.serial aggs [Interleaving.start k c n])
  = filter (hasKey k) (Interleaving.serial aggs' [Interleaving.start k c n]).
Proof.
  intros UK UK' E.
  rewrite (serial_one_rows aggs k c n k UK), (serial_one_rows aggs' k c n k UK').
  unfold rowTotals, DatabaseService.selectExisting.
  change (DatabaseService.sameKey (key_tenant k) (key_user k) (key_tool k)
            (key_period_type k) (key_period_start k)) with (hasKey k).
  rewrite E. reflexivity.
Qed.

(** The write of a task that has read what is there is the write of the
    upsert run in one go. *)
Lemma step_write (aggs : list UsageAggregate.t) (t : Interleaving.Task)
    (existing : option (Q * Q)) :
  Interleaving.pc t = Interleaving.BeforeWrite existing ->
  existing
  = data (DatabaseService.selectExisting aggs (key_tenant (Interleaving.key t))
            (key_user (Interleaving.key t)) (key_tool (Interleaving.key t))
            (key_period_type (Interleaving.key t))
            (key_period_start (Interleaving.key t))) ->
  Interleaving.step aggs t
  = (Interleaving.serial aggs
       [Interleaving.start (Interleaving.key t) (Interleaving.cost t)
          (Interleaving.units t)],
     Interleaving.mkTask (Interleaving.key t) (Interleaving.cost t)
       (Interleaving.units t) Interleaving.Finished).
Proof.
  intros Pc Ex.
  unfold Interleaving.serial, Interleaving.start, Interleaving.step.
  cbn [Interleaving.pc Interleaving.key Interleaving.cost Interleaving.units].
  rewrite Pc, <- Ex. destruct existing; reflexivity.
Qed.

(** The step of the task at a position. *)
Lemma stepAt_spec (n : nat) (aggs : list UsageAggregate.t)
    (ts : list Interleaving.Task) :
  match nth_error ts n with
  | None => Interleaving.stepAt n aggs ts = (aggs, ts)
  | Some t =>
      fst (Interleaving.stepAt n aggs ts) = fst (Interleaving.step aggs t) /\
      nth_error (snd (Interleaving.stepAt n aggs ts)) n
      = Some (snd (Interleaving.step aggs t)) /\
      forall j, j <> n ->
        nth_error (snd (Interleaving.stepAt n aggs ts)) j = nth_error ts j
  end.
Proof.
  revert n. induction ts as [|t r IH]; intros n.
  - destruct n; reflexivity.
  - destruct n as [|n]; cbn [nth_error Interleaving.stepAt].
    + destruct (Interleaving.step aggs t) as [aggs' t']. cbn [fst snd nth_error].
      split; [reflexivity|]. split; [reflexivity|].
      intros [|j] Hj; [contradiction | reflexivity].
    + specialize (IH n).
      destruct (Interleaving.stepAt n aggs r) as [aggs' r'].
      destruct (nth_error r n) as [x|].
      * cbn [fst snd] in IH |- *. destruct IH as (A & B & C).
        split; [exact A|]. split; [exact B|].
        intros [|j] Hj; cbn [nth_error]; [reflexivity|]. apply C. lia.
      * injection IH as -> ->. reflexivity.
Qed.

Lemma taskState_kept (aggs0 aggs : list UsageAggregate.t) (k0 : AggKey) (c n : Q)
    (t : Interleaving.Task) :
  UniqueKeys aggs ->
  key_eqb k0 (Interleaving.key t) = false ->
  taskState aggs0 aggs t ->
  taskState aggs0 (Interleaving.serial aggs [Interleaving.start k0 c n]) t.
Proof.
  intros UK Ek. unfold taskState.
  pose proof (serial_other aggs k0 c n (Interleaving.key t) UK Ek) as SO.
  destruct (Interleaving.pc t) as [|existing|].
  - intros H. rewrite SO. exact H.
  - intros [H Ex]. split; [rewrite SO; exact H|].
    rewrite Ex. unfold DatabaseService.selectExisting.
    change (DatabaseService.sameKey (key_tenant (Interleaving.key t))
              (key_user (Interleaving.key t)) (key_tool (Interleaving.key t))
              (key_period_type (Interleaving.key t))
              (key_period_start (Interleaving.key t)))
      with (hasKey (Interleaving.key t)).
    rewrite SO. reflexivity.
  - intros H. rewrite SO. exact H.
Qed.

Lemma stepAt_invariant (aggs0 : list UsageAggregate.t) (ts0 : list Interleaving.Task)
    (aggs : list UsageAggregate.t) (ts : list Interleaving.Task) (n : nat) :
  UniqueKeys aggs0 ->
  distinctKeys ts0 ->
  runInvariant aggs0 ts0 aggs ts ->
  runInvariant aggs0 ts0 (fst (Interleaving.stepAt n aggs ts))
    (snd (Interleaving.stepAt n aggs ts)).
Proof.
  intros UK0 DK (UK & Rest & Each).
  pose proof (stepAt_spec n aggs ts) as Spec.
  destruct (nth_error ts n) as [t|] eqn:En; [|rewrite Spec; repeat split; assumption].
  destruct Spec as (A & B & C).
  pose proof (Each n) as Hn. rewrite En in Hn.
  destruct (nth_error ts0 n) as [t0|] eqn:En0; [|contradiction].
  destruct Hn as (Kn & Cn & Un & Sn).
  unfold taskState in Sn.
  destruct (Interleaving.pc t) as [|existing|] eqn:Pc.
  - (* the read *)
    assert (St : Interleaving.step aggs t
                 = (aggs,
                    Interleaving.mkTask (Interleaving.key t) (Interleaving.cost t)
                      (Interleaving.units t)
                      (Interleaving.BeforeWrite
                         (data (DatabaseService.selectExisting aggs
                                  (key_tenant (Interleaving.key t))
                                  (key_user (Interleaving.key t))
                                  (key_tool (Interleaving.key t))
                                  (key_period_type (Interleaving.key t))
                                  (key_period_start (Interleaving.key t))))))).
    { unfold Interleaving.step. rewrite Pc. reflexivity. }
    rewrite St in A, B. cbn [fst snd] in A, B. rewrite A.
    split; [exact UK|]. split; [exact Rest|].
    intros i. destruct (Nat.eq_dec i n) as [->|Ne].
    + rewrite En0, B. cbn [Interleaving.key Interleaving.cost Interleaving.units].
      split; [exact Kn|]. split; [exact Cn|]. split; [exact Un|].
      unfold taskState. cbn [Interleaving.pc Interleaving.key].
      split; [exact Sn | reflexivity].
    + rewrite (C i Ne). exact (Each i).
  - (* the write *)
    destruct Sn as [Sn Ex].
    rewrite (step_write aggs t existing Pc Ex) in A, B. cbn [fst snd] in A, B.
    rewrite A.
    pose proof (serial_one_unique aggs (Interleaving.key t) (Interleaving.cost t)
                  (Interleaving.units t) UK) as UK'.
    split; [exact UK'|]. split.
    { intros k Hk. rewrite serial_other; [apply Rest; exact Hk | exact UK |].
      rewrite Kn. apply Hk. eapply nth_error_In. exact En0. }
    intros i. destruct (Nat.eq_dec i n) as [->|Ne].
    + rewrite En0, B. cbn [Interleaving.key Interleaving.cost Interleaving.units].
      split; [exact Kn|]. split; [exact Cn|]. split; [exact Un|].
      unfold taskState.
      cbn [Interleaving.pc Interleaving.key Interleaving.cost Interleaving.units].
      apply serial_own; assumption.
    + rewrite (C i Ne). pose proof (Each i) as Hi.
      destruct (nth_error ts0 i) as [ti0|] eqn:Ei0;
        destruct (nth_error ts i) as [ti|] eqn:Ei; try contradiction; [|exact I].
      destruct Hi as (Ki & Ci & Ui & Si).
      split; [exact Ki|]. split; [exact Ci|]. split; [exact Ui|].
      apply taskState_kept; [exact UK | | exact Si].
      rewrite Kn, Ki. apply (DK n i t0 ti0 En0 Ei0). congruence.
  - (* nothing left to do *)
    assert (St : Interleaving.step aggs t = (aggs, t)).
    { unfold Interleaving.step. rewrite Pc. reflexivity. }
    rewrite St in A, B. cbn [fst snd] in A, B. rewrite A.
    split; [exact UK|]. split; [exact Rest|].
    intros i. destruct (Nat.eq_dec i n) as [->|Ne].
    + rewrite En0, B. split; [exact Kn|]. split; [exact Cn|]. split; [exact Un|].
      unfold taskState. rewrite Pc. exact Sn.
    + rewrite (C i Ne). exact (Each i).
Qed.

Lemma run_invariant (schedule : list nat) (aggs0 : list UsageAggregate.t)
    (ts0 : list Interleaving.Task) (aggs : list UsageAggregate.t)
    (ts : list Interleaving.Task) :
  UniqueKeys aggs0 ->
  distinctKeys ts0 ->
  runInvariant aggs0 ts0 aggs ts ->
  runInvariant aggs0 ts0 (fst (Interleaving.run schedule aggs ts))
    (snd (Interleaving.run schedule aggs ts)).
Proof.
  intros UK0 DK. revert aggs ts.
  induction schedule as [|n s IH]; intros aggs ts Inv; [exact Inv|].
  cbn [Interleaving.run].
  pose proof (stepAt_invariant aggs0 ts0 aggs ts n UK0 DK Inv) as Inv'.
  destruct (Interleaving.stepAt n aggs ts) as [aggs' ts'].
  apply IH. exact Inv'.
Qed.

Lemma runInvariant_start (aggs : list UsageAggregate.t) (ts : list Interleaving.Task) :
  UniqueKeys aggs ->
  (forall t, In t ts -> Interleaving.pc t = Interleaving.BeforeSelect) ->
  runInvariant aggs ts aggs ts.
Proof.
  intros UK Fresh. split; [exact UK|]. split; [reflexivity|].
  intros i. destruct (nth_error ts i) as [t|] eqn:E; [|exact I].
  split; [reflexivity|]. split; [reflexivity|]. split; [reflexivity|].
  unfold taskState. rewrite (Fresh t (nth_error_In _ _ E)). reflexivity.
Qed.

(** X29. Increments of different keys never lose an update. Tasks that
    all start before their read and have pairwise different keys are run
    under any schedule, to the end or not: the rows keep their unique
    keys; every task keeps its key, and the rows of its key are as they
    were if it has not finished and, if it has, those that the increment
    run alone in one go from the starting rows leaves (the stored totals
    plus the deltas as the columns keep them): the stored total grown by
    the cost when the columns keep the sums as they are; the rows of a key
    of no task are as they were. *)
Theorem distinct_keys_never_lose_updates
    (aggs : list UsageAggregate.t) (ts : list Interleaving.Task)
    (schedule : list nat) :
  UniqueKeys aggs ->
  (forall t, In t ts -> Interleaving.pc t = Interleaving.BeforeSelect) ->
  distinctKeys ts ->
  let after := Interleaving.run schedule aggs ts in
  UniqueKeys (fst after) /\
  (forall i t, nth_error ts i = Some t ->
     exists t', nth_error (snd after) i = Some t' /\
       Interleaving.key t' = Interleaving.key t /\
       filter (hasKey (Interleaving.key t)) (fst after)
       = filter (hasKey (Interleaving.key t))
           (if Interleaving.finished t'
            then Interleaving.serial aggs
                   [Interleaving.start (Interleaving.key t) (Interleaving.cost t)
                      (Interleaving.units t)]
            else aggs) /\
       (accepts aggs (Interleaving.key t) (Interleaving.cost t)
          (Interleaving.units t) ->
        totalCostOf (fst after) (Interleaving.key t)
        == totalCostOf aggs (Interleaving.key t)
           + (if Interleaving.finished t' then Interleaving.cost t else 0))) /\
  (forall k,
     (forall t, In t ts -> key_eqb (Interleaving.key t) k = false) ->
     filter (hasKey k) (fst after) = filter (hasKey k) aggs).
Proof.
  intros UK Fresh DK after.
  destruct (run_invariant schedule aggs ts aggs ts UK DK
              (runInvariant_start aggs ts UK Fresh)) as (UK' & Rest & Each).
  fold after in UK', Rest, Each.
  split; [exact UK'|]. split; [|exact Rest].
  intros i t Ei. specialize (Each i). rewrite Ei in Each.
  destruct (nth_error (snd after) i) as [t'|]; [|contradiction].
  destruct Each as (K & C & U & S).
  exists t'. split; [reflexivity|]. split; [exact K|].
  unfold taskState in S. unfold Interleaving.finished.
  rewrite K, C, U in S.
  assert (Rows : filter (hasKey (Interleaving.key t)) (fst after)
                 = filter (hasKey (Interleaving.key t))
                     match Interleaving.pc t' with
                     | Interleaving.Finished =>
                         Interleaving.serial aggs
                           [Interleaving.start (Interleaving.key t)
                              (Interleaving.cost t) (Interleaving.units t)]
                     | _ => aggs
                     end).
  { destruct (Interleaving.pc t') as [|existing|]; [exact S | apply S | exact S]. }
  split.
  - rewrite Rows. destruct (Interleaving.pc t'); reflexivity.
  - intros Acc. unfold totalCostOf at 1. rewrite Rows.
    destruct (Interleaving.pc t') as [|existing|];
      try (fold (totalCostOf aggs (Interleaving.key t)); lra).
    destruct (serial_one aggs (Interleaving.key t) (Interleaving.cost t)
                (Interleaving.units t) UK Acc) as (_ & T & _).
    specialize (T (Interleaving.key t)). rewrite key_eqb_refl in T. exact T.
Qed.

Lemma distinct_keys_never_lose_updates_witness :
  totalCostOf (fst (Interleaving.run dayThenMonth Cases.oneRow dayAndMonth))
    Cases.userKey == 2 /\
  totalCostOf (fst (Interleaving.run dayThenMonth Cases.oneRow dayAndMonth))
    (mkKey Demo.ProCorp Demo.proUser "gpt-4" month 20758%Z) == 1.
Proof.
  assert (UK : UniqueKeys Cases.oneRow).
  { intros k. unfold Cases.oneRow. cbn [filter].
    destruct (hasKey k _); cbn [List.length]; lia. }
  assert (Fresh : forall t, In t dayAndMonth ->
                    Interleaving.pc t = Interleaving.BeforeSelect).
  { intros t [<-|[<-|[]]]; reflexivity. }
  assert (DK : distinctKeys dayAndMonth).
  { intros [|[|i]] [|[|j]] ti tj Hi Hj Ne; cbn in Hi, Hj;
      try (destruct i; discriminate Hi); try (destruct j; discriminate Hj);
      try (exfalso; apply Ne; reflexivity);
      injection Hi as <-; injection Hj as <-; reflexivity. }
  destruct (distinct_keys_never_lose_updates Cases.oneRow dayAndMonth dayThenMonth
              UK Fresh DK) as (_ & Each & _).
  split.
  - destruct (Each 0%nat _ eq_refl) as (t' & E & _ & _ & T).
    injection E as <-. apply T.
    split; eexists; (split; [vm_compute; reflexivity | reflexivity]).
  - destruct (Each 1%nat _ eq_refl) as (t' & E & _ & _ & T).
    injection E as <-. apply T.
    split; eexists; (split; [vm_compute; reflexivity | reflexivity]).
Defined.

(** * The ledger and the columns that hold it *)

(** ** When the ledger is exact *)

Lemma keeps_numeric_comp (p s : nat) (x y : Q) :
  x == y -> Pg.keeps (Pg.numeric p s) x -> Pg.keeps (Pg.numeric p s) y.
Proof.
  intros E (v & N & Ev). exists v. split; [|lra].
  rewrite <- N. apply numeric_comp. lra.
Qed.

Lemma keeps_integer_comp (x y : Q) :
  x == y -> Pg.keeps Pg.integer x -> Pg.keeps Pg.integer y.
Proof.
  intros E (v & N & Ev). exists v. split; [|lra].
  rewrite <- N. apply integer_comp. lra.
Qed.

Lemma accepts_comp (aggs aggs' : list UsageAggregate.t) (k : AggKey) (c n : Q) :
  totalCostOf aggs' k == totalCostOf aggs k ->
  totalUnitsOf aggs' k == totalUnitsOf aggs k ->
  accepts aggs k c n -> accepts aggs' k c n.
Proof.
  intros Ec Eu [Ac Au]. split.
  - apply (keeps_numeric_comp 10 2 (totalCostOf aggs k + c)); [lra | exact Ac].
  - apply (keeps_integer_comp (totalUnitsOf aggs k + n)); [lra | exact Au].
Qed.

(** An increment of nothing is always kept by rows the table holds. *)
Lemma accepts_nothing (aggs : list UsageAggregate.t) (k : AggKey) (c n : Q) :
  KeptRows aggs -> c == 0 -> n == 0 -> accepts aggs k c n.
Proof.
  intros KR Zc Zn. destruct (KeptRows_totals aggs k KR) as [Kc Ku]. split.
  - apply (keeps_numeric_comp 10 2 (totalCostOf aggs k)); [lra | exact Kc].
  - apply (keeps_integer_comp (totalUnitsOf aggs k)); [lra | exact Ku].
Qed.

(** The update reads the clock in the local day and month of the
    evaluation: it files the event under the keys of the evaluation. *)
Lemma atUpdate_keys (e : Date.Env) :
  startOfLocalDay (Date.tz e) (Date.later e) = startOfLocalDay (Date.tz e) (Date.now e) ->
  startOfLocalMonth (Date.tz e) (Date.later e)
  = startOfLocalMonth (Date.tz e) (Date.now e) ->
  DatabaseService.dayKey (Date.atUpdate e) = DatabaseService.dayKey e /\
  DatabaseService.monthKey (Date.atUpdate e) = DatabaseService.monthKey e.
Proof.
  intros Hd Hm.
  pose proof (periodStartOf_now (Date.atUpdate e) day) as D1.
  pose proof (periodStartOf_now (Date.atUpdate e) month) as M1.
  pose proof (periodStartOf_now e day) as D2.
  pose proof (periodStartOf_now e month) as M2.
  cbv iota in D1, M1, D2, M2. rewrite <- D1, <- M1, <- D2, <- M2.
  unfold Date.atUpdate, periodStartOf. cbn [Date.tz Date.now].
  rewrite Hd, Hm. split; reflexivity.
Qed.

Lemma fold_units_acc (l : list UsageEvent.t) (acc : Q) :
  fold_left (fun sum ev => sum + UsageEvent.units ev) l acc
  == acc + fold_left (fun sum ev => sum + UsageEvent.units ev) l 0.
Proof.
  revert acc. induction l as [|x l IH]; intros acc; cbn [fold_left]; [lra|].
  rewrite (IH (acc + UsageEvent.units x)), (IH (0 + UsageEvent.units x)). lra.
Qed.

Lemma chargedUnits_app (tz : Z) (k : AggKey) (events : list UsageEvent.t)
    (ev : UsageEvent.t) :
  chargedUnits tz k (events ++ [ev])
  == if charged ev && inPeriod tz k ev
     then chargedUnits tz k events + UsageEvent.units ev
     else chargedUnits tz k events.
Proof.
  unfold chargedUnits, chargedEvents. rewrite filter_app. cbn [filter].
  destruct (charged ev && inPeriod tz k ev).
  - rewrite fold_left_app. cbn [fold_left]. reflexivity.
  - rewrite app_nil_r. reflexivity.
Qed.

(** Recording an event keeps the ledger exact when the columns keep the
    new totals of its two keys. *)
Lemma recordUsage_exact (e : Date.Env) (st : Store) (ev : UsageEvent.t)
    (r : option UsageEvent.t * Store) :
  let kd := mkKey (UsageEvent.tenant_id ev) (UsageEvent.user_id ev)
              (UsageEvent.tool_id ev) day (DatabaseService.dayKey e) in
  let km := mkKey (UsageEvent.tenant_id ev) (UsageEvent.user_id ev)
              (UsageEvent.tool_id ev) month (DatabaseService.monthKey e) in
  ExactLedger (Date.tz e) st ->
  UsageEvent.timestamp ev = Date.toISOString (Date.now e) ->
  (charged ev = false ->
   UsageEvent.cost_estimate ev == 0 /\ UsageEvent.units ev == 0) ->
  DatabaseService.dayKey (Date.atUpdate e) = DatabaseService.dayKey e ->
  DatabaseService.monthKey (Date.atUpdate e) = DatabaseService.monthKey e ->
  accepts (usage_aggregates st) kd (UsageEvent.cost_estimate ev) (UsageEvent.units ev) ->
  accepts (usage_aggregates st) km (UsageEvent.cost_estimate ev) (UsageEvent.units ev) ->
  DatabaseService.recordUsage no_faults e st ev = Returned r ->
  ExactLedger (Date.tz e) (snd r) /\
  existsb (hasKey kd) (usage_aggregates (snd r)) = true /\
  existsb (hasKey km) (usage_aggregates (snd r)) = true /\
  forall k, existsb (hasKey k) (usage_aggregates st) = true ->
            existsb (hasKey k) (usage_aggregates (snd r)) = true.
Proof.
  intros kd km ((UK & Tot) & KR & Uni) TS Free Kd Km Ad Am R.
  rewrite recordUsage_no_faults, Kd, Km in R.
  apply Returned_inj in R. subst r. fold kd km.
  set (c := UsageEvent.cost_estimate ev) in *.
  set (n := UsageEvent.units ev) in *.
  destruct (serial_one (usage_aggregates st) kd c n UK Ad) as (UK1 & Tc1 & Tu1).
  assert (DM : forall k, key_eqb kd k = true -> key_eqb km k = false).
  { intros k. apply day_and_month_keys_differ. }
  assert (Dkm : key_eqb kd km = false).
  { unfold kd, km, key_eqb. cbn [key_period_type]. cbn [PeriodType_eqb].
    rewrite andb_false_r. reflexivity. }
  assert (Am1 : accepts (Interleaving.serial (usage_aggregates st)
                           [Interleaving.start kd c n]) km c n).
  { apply (accepts_comp (usage_aggregates st)); [| |exact Am].
    - rewrite (Tc1 km), Dkm. lra.
    - rewrite (Tu1 km), Dkm. lra. }
  destruct (serial_one _ km c n UK1 Am1) as (UK2 & Tc2 & Tu2).
  assert (Rows : forall aggs k0 k, UniqueKeys aggs -> accepts aggs k0 c n ->
            (existsb (hasKey k0)
               (Interleaving.serial aggs [Interleaving.start k0 c n]) = true) /\
            (existsb (hasKey k) aggs = true ->
             existsb (hasKey k)
               (Interleaving.serial aggs [Interleaving.start k0 c n]) = true)).
  { intros aggs k0 k UKa Acc.
    destruct (written_accepted aggs k0 c n UKa Acc) as (tc & tu & W & _).
    assert (Has : forall k' l, existsb (hasKey k') l = true <->
                               filter (hasKey k') l <> []).
    { intros k' l. induction l as [|x l IH]; cbn [existsb filter].
      - split; [discriminate | intros H; contradiction].
      - destruct (hasKey k' x); cbn [orb]; [split; [discriminate | reflexivity]|].
        exact IH. }
    split.
    - apply Has. rewrite (serial_one_rows aggs k0 c n k0 UKa), key_eqb_refl, W.
      discriminate.
    - intros H. apply Has. apply Has in H.
      rewrite (serial_one_rows aggs k0 c n k UKa).
      destruct (key_eqb k0 k); [rewrite W; discriminate | exact H]. }
  assert (CZ : charged ev = false -> c == 0 /\ n == 0) by exact Free.
  unfold ExactLedger, LedgerConsistent.
  cbn [snd usage_aggregates usage_events setAggregates setEvents].
  split; [split; [split|split]|split; [|split]].
  - exact UK2.
  - intros k. rewrite chargedSum_app, (inPeriod_keys e k ev TS). fold kd km.
    specialize (Tc1 k). specialize (Tc2 k). specialize (Tot k).
    specialize (DM k). fold c.
    destruct (key_eqb kd k); destruct (key_eqb km k);
      try (specialize (DM eq_refl); discriminate DM);
      destruct (charged ev); cbn [andb orb]; cbv iota in Tc1, Tc2 |- *;
      try (destruct (CZ eq_refl) as [Zc Zn]); lra.
  - apply serial_one_kept, serial_one_kept. exact KR.
  - intros k. rewrite chargedUnits_app, (inPeriod_keys e k ev TS). fold kd km.
    specialize (Tu1 k). specialize (Tu2 k). specialize (Uni k).
    specialize (DM k). fold n.
    destruct (key_eqb kd k); destruct (key_eqb km k);
      try (specialize (DM eq_refl); discriminate DM);
      destruct (charged ev); cbn [andb orb]; cbv iota in Tu1, Tu2 |- *;
      try (destruct (CZ eq_refl) as [Zc Zn]); lra.
  - apply (proj2 (Rows _ km kd UK1 Am1)). apply (proj1 (Rows _ kd kd UK Ad)).
  - apply (proj1 (Rows _ km km UK1 Am1)).
  - intros k H. apply (proj2 (Rows _ km k UK1 Am1)).
    apply (proj2 (Rows _ kd k UK Ad)). exact H.
Qed.

(** The branches of the router that record an event, with what the event
    holds and what a charged event tells about the evaluation. *)
Ltac recorded_in tool GT GF EV AL :=
  match goal with
  | |- context [DatabaseService.recordUsage no_faults ?e ?st ?x] =>
      right; exists x;
      destruct (DatabaseService.recordUsage no_faults e st x) as [r|] eqn:R;
        [|rewrite recordUsage_no_faults in R; discriminate R];
      exists r; cbn [bind snd];
      split; [reflexivity|]; split; [reflexivity|]; split; [reflexivity|];
      split; [reflexivity|];
      cbn [UsageEvent.decision UsageEvent.cost_estimate UsageEvent.units charged];
      split; [first [discriminate | intros _; split; reflexivity]|];
      first [discriminate
            | intros _; split; [reflexivity|];
              split;
              [first [exists tool; split; [exact GT | reflexivity]
                     | eexists; split; [exact GF | reflexivity]]|];
              exists tool; eexists; split; [exact EV|];
              split; [exact AL|]; first [intros; reflexivity | congruence]]
  end.

Lemma checkAndRoute_recorded (e : Date.Env) (st : Store) (input : CheckAndRouteInput.t) :
  let T := JS.trim (CheckAndRouteInput.tenant_id input) in
  let U := JS.trim (CheckAndRouteInput.user_id input) in
  let X := CheckAndRouteInput.tool_id input in
  let units := CheckAndRouteInput.estimated_units input in
  snd (checkAndRoute no_faults e st input) = st \/
  exists ev r,
    DatabaseService.recordUsage no_faults e st ev = Returned r /\
    snd (checkAndRoute no_faults e st input) = snd r /\
    UsageEvent.timestamp ev = Date.toISOString (Date.now e) /\
    UsageEvent.tenant_id ev = T /\
    (charged ev = false ->
     UsageEvent.cost_estimate ev = 0 /\ UsageEvent.units ev = 0) /\
    (charged ev = true ->
     UsageEvent.units ev = units /\
     (exists priced, In priced (tools st) /\
        UsageEvent.cost_estimate ev = CostEstimator.estimateCost priced units) /\
     exists tool res,
       PolicyEngine.evaluateRequest no_faults e st T U X
         (CostEstimator.estimateCost tool units) = Returned res /\
       PolicyEvaluationResult.allowed res = true /\
       (JS.truthyOpt (PolicyEvaluationResult.suggested_tool res) = false ->
        UsageEvent.cost_estimate ev = CostEstimator.estimateCost tool units)).
Proof.
  intros T U X units. unfold checkAndRoute, route. fold T U X units.
  destruct (DatabaseService.getTool no_faults st X) as [[tool|]|] eqn:GT;
    cbn [bind snd]; auto.
  apply getTool_In in GT.
  destruct (PolicyEngine.isToolAllowedForPlan no_faults st T X) as [[|]|];
    cbn [bind negb snd]; auto.
  - destruct (PolicyEngine.evaluateRequest no_faults e st T U X
                (CostEstimator.estimateCost tool units))
      as [evaluation|] eqn:EV; cbn [bind snd]; auto.
    destruct (PolicyEvaluationResult.allowed evaluation) eqn:AL; cbn [negb].
    + destruct (JS.truthyOpt (PolicyEvaluationResult.suggested_tool evaluation)) eqn:TS.
      * destruct (DatabaseService.getTool no_faults st
                    match PolicyEvaluationResult.suggested_tool evaluation with
                    | Some s => s
                    | None => EmptyString
                    end) as [[ft|]|] eqn:GF; cbn [bind snd]; auto.
        -- apply getTool_In in GF. recorded_in tool GT GF EV AL.
        -- recorded_in tool GT GT EV AL.
      * recorded_in tool GT GT EV AL.
    + recorded_in tool GT GT EV AL.
  - destruct (PolicyEngine.getSuggestedFallback no_faults st X) as [[fb|]|];
      cbn [bind snd]; auto.
    destruct (JS.truthy fb); cbn [snd]; auto.
Qed.

(** What is charged to a key never shrinks when a request is served, as
    long as no price and no number of units is negative. *)
Lemma checkAndRoute_grows (tz : Z) (k : AggKey) (e : Date.Env) (st : Store)
    (input : CheckAndRouteInput.t) :
  (forall tool, In tool (tools st) -> 0 <= Tool.cost_per_unit tool) ->
  0 <= CheckAndRouteInput.estimated_units input ->
  chargedSum tz k (usage_events st)
  <= chargedSum tz k (usage_events (snd (checkAndRoute no_faults e st input))) /\
  chargedUnits tz k (usage_events st)
  <= chargedUnits tz k (usage_events (snd (checkAndRoute no_faults e st input))).
Proof.
  intros Prices Units.
  destruct (checkAndRoute_recorded e st input)
    as [E | (ev & r & R & E & _ & _ & _ & Ch)]; rewrite E; [split; lra|].
  rewrite (recordUsage_events _ _ _ _ _ R eq_refl).
  rewrite chargedSum_app, chargedUnits_app.
  destruct (charged ev) eqn:C; cbn [andb]; [|split; lra].
  destruct (Ch eq_refl) as (Eu & (priced & Hin & Ec) & _).
  rewrite Ec, Eu. unfold CostEstimator.estimateCost.
  specialize (Prices priced Hin).
  destruct (inPeriod tz k ev); split; try lra; nra.
Qed.

Lemma serveEach_tools (requests : list (Date.Env * CheckAndRouteInput.t))
    (st : Store) :
  tools (serveEach st requests) = tools st.
Proof.
  revert st. induction requests as [|[e input] rest IH]; intros st; cbn [serveEach].
  - reflexivity.
  - rewrite IH. apply checkAndRoute_tools.
Qed.

Lemma serveEach_grows (tz : Z) (k : AggKey)
    (requests : list (Date.Env * CheckAndRouteInput.t)) (st : Store) :
  (forall tool, In tool (tools st) -> 0 <= Tool.cost_per_unit tool) ->
  (forall r, In r requests -> 0 <= CheckAndRouteInput.estimated_units (snd r)) ->
  chargedSum tz k (usage_events st)
  <= chargedSum tz k (usage_events (serveEach st requests)) /\
  chargedUnits tz k (usage_events st)
  <= chargedUnits tz k (usage_events (serveEach st requests)).
Proof.
  revert st. induction requests as [|[e input] rest IH]; intros st Prices Units;
    cbn [serveEach].
  - split; lra.
  - destruct (checkAndRoute_grows tz k e st input Prices
                (Units (e, input) (or_introl eq_refl))) as [G1 G2].
    destruct (IH (snd (checkAndRoute no_faults e st input))) as [H1 H2].
    + rewrite checkAndRoute_tools. exact Prices.
    + intros r Hr. apply Units. right. exact Hr.
    + split; lra.
Qed.

(** One steady request, when what is charged after it is within the ranges
    of the columns: the store is left as it was, or an event is recorded,
    the ledger stays exact and holds the rows of the event's day and month
    next to those it held. *)
Lemma recorded_step (tz : Z) (e : Date.Env) (st : Store) (input : CheckAndRouteInput.t) :
  ExactLedger tz st ->
  steadyRequest tz (e, input) ->
  (forall tool, In tool (tools st) -> 0 <= Tool.cost_per_unit tool) ->
  (forall tool, In tool (tools st) ->
     Pg.scaled 2 (CostEstimator.estimateCost tool
                    (CheckAndRouteInput.estimated_units input))) ->
  (forall k,
     chargedSum tz k (usage_events (snd (checkAndRoute no_faults e st input)))
     < 100000000 /\
     chargedUnits tz k (usage_events (snd (checkAndRoute no_faults e st input)))
     <= 2147483647) ->
  snd (checkAndRoute no_faults e st input) = st \/
  exists ev r,
    DatabaseService.recordUsage no_faults e st ev = Returned r /\
    snd (checkAndRoute no_faults e st input) = snd r /\
    UsageEvent.timestamp ev = Date.toISOString (Date.now e) /\
    (charged ev = false -> UsageEvent.cost_estimate ev == 0) /\
    ExactLedger tz (snd r) /\
    existsb (hasKey (mkKey (UsageEvent.tenant_id ev) (UsageEvent.user_id ev)
                       (UsageEvent.tool_id ev) day (DatabaseService.dayKey e)))
      (usage_aggregates (snd r)) = true /\
    existsb (hasKey (mkKey (UsageEvent.tenant_id ev) (UsageEvent.user_id ev)
                       (UsageEvent.tool_id ev) month (DatabaseService.monthKey e)))
      (usage_aggregates (snd r)) = true /\
    forall k, existsb (hasKey k) (usage_aggregates st) = true ->
              existsb (hasKey k) (usage_aggregates (snd r)) = true.
Proof.
  intros EL (Etz & Sd & Sm & Ku & Pu) Prices Cents Room.
  cbn [fst snd] in Etz, Sd, Sm, Ku, Pu. subst tz.
  destruct (checkAndRoute_recorded e st input)
    as [E | (ev & r & R & E & TS & _ & Free & Ch)]; [left; exact E|].
  right. exists ev, r. rewrite E in Room.
  rewrite (recordUsage_events _ _ _ _ _ R eq_refl) in Room.
  destruct (atUpdate_keys e Sd Sm) as [Kd Km].
  assert (Free' : charged ev = false ->
                  UsageEvent.cost_estimate ev == 0 /\ UsageEvent.units ev == 0).
  { intros H. destruct (Free H) as [Zc Zn]. rewrite Zc, Zn. split; reflexivity. }
  assert (Acc : forall k, inPeriod (Date.tz e) k ev = true ->
            accepts (usage_aggregates st) k (UsageEvent.cost_estimate ev)
              (UsageEvent.units ev)).
  { intros k In_k. destruct EL as ((UK & Tot) & KR & Uni).
    destruct (charged ev) eqn:C.
    - destruct (Ch eq_refl) as (Eu & (priced & Hin & Ec) & _).
      destruct (Room k) as [Rc Ru].
      rewrite chargedSum_app, C, In_k in Rc.
      rewrite chargedUnits_app, C, In_k in Ru. cbn [andb] in Rc, Ru.
      destruct (KeptRows_totals (usage_aggregates st) k KR) as [Kc Kn].
      split.
      + apply room_for_cost; [exact Kc | | |].
        * rewrite Ec. apply Cents. exact Hin.
        * rewrite Ec. unfold CostEstimator.estimateCost.
          specialize (Prices priced Hin). nra.
        * rewrite (Tot k). exact Rc.
      + apply room_for_units; [exact Kn | | |].
        * rewrite Eu. exact Ku.
        * rewrite Eu. exact Pu.
        * rewrite (Uni k). exact Ru.
    - destruct (Free' eq_refl) as [Zc Zn].
      apply accepts_nothing; assumption. }
  split; [exact R|]. split; [exact E|]. split; [exact TS|].
  split; [intros H; apply (Free' H)|].
  refine (recordUsage_exact e st ev r EL TS Free' Kd Km _ _ R);
    apply Acc; rewrite (inPeriod_keys e _ ev TS), key_eqb_refl;
    [reflexivity | apply orb_true_r].
Qed.

Lemma exact_step (tz : Z) (e : Date.Env) (st : Store) (input : CheckAndRouteInput.t) :
  ExactLedger tz st ->
  steadyRequest tz (e, input) ->
  (forall tool, In tool (tools st) -> 0 <= Tool.cost_per_unit tool) ->
  (forall tool, In tool (tools st) ->
     Pg.scaled 2 (CostEstimator.estimateCost tool
                    (CheckAndRouteInput.estimated_units input))) ->
  (forall k,
     chargedSum tz k (usage_events (snd (checkAndRoute no_faults e st input)))
     < 100000000 /\
     chargedUnits tz k (usage_events (snd (checkAndRoute no_faults e st input)))
     <= 2147483647) ->
  ExactLedger tz (snd (checkAndRoute no_faults e st input)).
Proof.
  intros EL Steady Prices Cents Room.
  destruct (recorded_step tz e st input EL Steady Prices Cents Room)
    as [E | (ev & r & _ & E & _ & _ & EL' & _)]; rewrite E; assumption.
Qed.

(** The first request of a run the columns keep exactly: what the step
    lemmas ask of it, and the rest of the run is such a run. *)
Lemma exact_run_head (tz : Z) (e : Date.Env) (input : CheckAndRouteInput.t)
    (rest : list (Date.Env * CheckAndRouteInput.t)) (st : Store) :
  ExactRun tz st ((e, input) :: rest) ->
  steadyRequest tz (e, input) /\
  (forall tool, In tool (tools st) -> 0 <= Tool.cost_per_unit tool) /\
  (forall tool, In tool (tools st) ->
     Pg.scaled 2 (CostEstimator.estimateCost tool
                    (CheckAndRouteInput.estimated_units input))) /\
  (forall k,
     chargedSum tz k (usage_events (snd (checkAndRoute no_faults e st input)))
     < 100000000 /\
     chargedUnits tz k (usage_events (snd (checkAndRoute no_faults e st input)))
     <= 2147483647) /\
  ExactRun tz (snd (checkAndRoute no_faults e st input)) rest.
Proof.
  intros (Prices & Steady & Cents & Room). cbn [serveEach] in Room.
  assert (Prices1 : forall tool,
            In tool (tools (snd (checkAndRoute no_faults e st input))) ->
            0 <= Tool.cost_per_unit tool).
  { rewrite checkAndRoute_tools. exact Prices. }
  assert (Units1 : forall r, In r rest ->
            0 <= CheckAndRouteInput.estimated_units (snd r)).
  { intros r Hr. apply (Steady r). right. exact Hr. }
  split; [apply Steady; left; reflexivity|].
  split; [exact Prices|].
  split; [intros tool Hin; refine (proj1 (Cents tool (e, input) Hin _)); left; reflexivity|].
  split.
  - intros k. destruct (Room k) as [Rc Ru].
    destruct (serveEach_grows tz k rest _ Prices1 Units1) as [Gc Gu].
    split; lra.
  - split; [exact Prices1|]. split; [|split; [|exact Room]].
    + intros r Hr. apply Steady. right. exact Hr.
    + intros tool r Hin Hr. rewrite checkAndRoute_tools in Hin.
      apply Cents; [exact Hin | right; exact Hr].
Qed.

(** A run the columns keep exactly leaves the ledger exact. *)
Lemma serveEach_exact (tz : Z) (requests : list (Date.Env * CheckAndRouteInput.t))
    (st : Store) :
  ExactLedger tz st -> ExactRun tz st requests ->
  ExactLedger tz (serveEach st requests).
Proof.
  revert st. induction requests as [|[e input] rest IH]; intros st EL ER;
    cbn [serveEach].
  - exact EL.
  - destruct (exact_run_head tz e input rest st ER)
      as (Steady & Prices & Cents & Room & ER').
    apply IH; [|exact ER'].
    exact (exact_step tz e st input EL Steady Prices Cents Room).
Qed.

Lemma scaled_cents (x : Q) :
  Qeq_bool (x * 100) (inject_Z (Qfloor (x * 100))) = true -> Pg.scaled 2 x.
Proof.
  intros H. apply Qeq_bool_iff in H. exists (Qfloor (x * 100)).
  change (Pg.scale 2) with 100%positive.
  assert (E : Qfloor (x * 100) # 100 == inject_Z (Qfloor (x * 100)) / 100).
  { unfold Qeq, Qdiv, Qmult, Qinv, inject_Z. cbn [Qnum Qden]. lia. }
  rewrite E, <- H. field.
Qed.

(** The conditions of an exact run, checked on a run of two requests over
    the demo catalog. *)
Ltac exact_run_of_two :=
  split; [|split; [|split]];
  [ intros tool Hin; cbn in Hin;
    repeat (destruct Hin as [<-|Hin]; [cbn; discriminate|]); destruct Hin
  | intros r Hin; cbn in Hin;
    repeat (destruct Hin as [<-|Hin];
            [repeat split; try reflexivity;
             [exists 10000; split; reflexivity | cbn; discriminate]|]);
    destruct Hin
  | intros tool r Ht Hr; cbn in Ht, Hr;
    repeat (destruct Hr as [<-|Hr];
            [repeat (destruct Ht as [<-|Ht];
                     [split; [apply scaled_cents|]; vm_compute; reflexivity|]);
             destruct Ht|]);
    destruct Hr
  | intros k;
    match goal with
    | |- context [usage_events ?final] =>
        let events := fresh "events" in
        set (events := usage_events final);
        vm_compute in events; subst events
    end;
    unfold chargedSum, chargedUnits, chargedEvents; cbn [filter];
    repeat match goal with
           | |- context [if ?b then _ else _] => destruct b
           end;
    split; vm_compute; first [reflexivity | discriminate] ].

(** ** The stored total and the charged events *)




(** ** The budget of a tenant *)

Lemma floor_same (m a b : Z) :
  (0 < m)%Z -> (a <= b)%Z -> ((b / m * m <= a)%Z <-> (a / m = b / m)%Z).
Proof.
  intros Hm Hab. split.
  - intros H. apply Z.le_antisymm.
    + apply Z.div_le_mono; assumption.
    + apply Z.div_le_lower_bound; [assumption|]. rewrite Z.mul_comm. exact H.
  - intros H. rewrite <- H, Z.mul_comm. apply Z.mul_div_le. assumption.
Qed.

Lemma day_of_midnight (m d z : Z) :
  (0 < m)%Z -> ((d * m - z) / m = d + (- z) / m)%Z.
Proof.
  intros Hm. replace (d * m - z)%Z with (d * m + - z)%Z by lia.
  apply Z.div_add_l. lia.
Qed.

(** An instant not after the clock is inside the daily window exactly when
    the ledger files it under the day of the clock. *)
Lemma same_local_day (tz ts now later : Z) :
  (ts <= now)%Z ->
  (PolicyEngine.getPeriodStart (Date.mkEnv now tz later) PolicyEngine.Daily <=? ts)%Z
  = (periodStartOf tz day ts =? DatabaseService.dayKey (Date.mkEnv now tz later))%Z.
Proof.
  intros H.
  unfold periodStartOf, startOfLocalDay, startOfUTCDay, DatabaseService.dayKey,
    PolicyEngine.getPeriodStart,
    Date.splitT0, Date.toISOString, Date.setHours0, Date.UTC, Date.MakeDate,
    Date.LocalTime, Date.Day.
  cbn [Date.now Date.tz]. rewrite !Z.add_0_r.
  assert (Hm : (0 < Date.msPerDay)%Z) by reflexivity.
  rewrite !(day_of_midnight _ _ _ Hm).
  assert (Hle : (ts + tz <= now + tz)%Z) by lia.
  pose proof (floor_same Date.msPerDay (ts + tz) (now + tz) Hm Hle) as FS.
  generalize dependent Date.msPerDay. intros m Hm FS.
  set (a := ((ts + tz) / m)%Z) in *. set (b := ((now + tz) / m)%Z) in *.
  set (z := (- tz / m)%Z).
  destruct (Z.leb_spec (b * m - tz) ts) as [L|L];
    destruct (Z.eqb_spec (a + z) (b + z)) as [E|E]; try reflexivity; exfalso.
  - apply E. f_equal. apply FS. lia.
  - assert (E' : a = b) by lia. apply FS in E'. lia.
Qed.

Lemma yearOfEra_mono (a b : Z) :
  (0 <= a <= b)%Z -> (b < 146097)%Z -> (Date.yearOfEra a <= Date.yearOfEra b)%Z.
Proof.
  intros H1 H2. unfold Date.yearOfEra.
  apply Z.div_le_mono; [lia|].
  Z.to_euclidean_division_equations; lia.
Qed.

(** Inside an era, the days from the first of a month to a day of that
    month are days of the same month, numbered in a row. *)
Lemma era_month_interval (doe x : Z) :
  (0 <= doe < 146097)%Z ->
  let d := Date.dayOfMonth (Date.dayOfYear doe) in
  (doe - (d - 1) <= x <= doe)%Z ->
  Date.dayOfMonth (Date.dayOfYear x) = (d - (doe - x))%Z.
Proof.
  intros H d Hx.
  pose proof (era_day doe H) as Ok. cbv zeta in Ok.
  destruct Ok as (Hy & Hm & Hd & Eq & Hf & Ey & Em & _).
  fold d in Hd, Eq, Hf, Ey, Em, Hx.
  set (yoe := Date.yearOfEra doe) in *.
  set (mp := Date.monthIndex (Date.dayOfYear doe)) in *.
  set (first := (doe - (d - 1))%Z) in *.
  assert (Yx : Date.yearOfEra x = yoe).
  { pose proof (yearOfEra_mono first x (conj Hf (proj1 Hx)) ltac:(lia)) as L1.
    pose proof (yearOfEra_mono x doe ltac:(lia) (proj2 H)) as L2.
    rewrite Ey in L1. fold yoe in L2. lia. }
  assert (Base : Date.monthIndex ((153 * mp + 2) / 5) = mp).
  { unfold Date.monthIndex. clear - Hm. Z.to_euclidean_division_equations; lia. }
  assert (Dx : Date.dayOfYear x = ((153 * mp + 2) / 5 + (x - first))%Z).
  { unfold Date.dayOfYear. rewrite Yx. unfold first. lia. }
  assert (Dd : Date.dayOfYear doe = ((153 * mp + 2) / 5 + (d - 1))%Z).
  { unfold Date.dayOfYear. fold yoe. lia. }
  assert (Mx : Date.monthIndex (Date.dayOfYear x) = mp).
  { assert (L1 : (Date.monthIndex ((153 * mp + 2) / 5)
                  <= Date.monthIndex (Date.dayOfYear x))%Z).
    { unfold Date.monthIndex. apply Z.div_le_mono; [lia|]. rewrite Dx. lia. }
    assert (L2 : (Date.monthIndex (Date.dayOfYear x)
                  <= Date.monthIndex (Date.dayOfYear doe))%Z).
    { unfold Date.monthIndex. apply Z.div_le_mono; [lia|]. rewrite Dx, Dd. lia. }
    rewrite Base in L1. fold mp in L2. lia. }
  unfold Date.dayOfMonth at 1. rewrite Mx, Dx. unfold first. lia.
Qed.

Lemma civil_day (z : Z) :
  exists era doe,
    (z + 719468 = era * 146097 + doe)%Z /\ (0 <= doe < 146097)%Z /\
    snd (Date.civil_from_days z) = Date.dayOfMonth (Date.dayOfYear doe).
Proof.
  destruct (civil_from_days_era z) as (era & doe & Ez & Hdoe & ->).
  exists era, doe. auto.
Qed.

(** The day number of the first of the month of a day. *)
Lemma firstOfMonth_day (x : Z) :
  Date.MakeDay (Date.YearFromTime x) (Date.MonthFromTime x) 1
  = (Date.Day x - (snd (Date.civil_from_days (Date.Day x)) - 1))%Z.
Proof.
  unfold Date.MakeDay, Date.YearFromTime, Date.MonthFromTime.
  pose proof (civil_roundtrip (Date.Day x)) as R.
  destruct (Date.civil_from_days (Date.Day x)) as [[y m] d].
  destruct R as (_ & _ & _ & R1 & _). cbn [fst snd].
  replace (m - 1 + 1)%Z with m by lia. lia.
Qed.

(** Days from the first of the month of [z'] to [z'] have the same first
    of the month. *)
Lemma same_month_days (z z' : Z) :
  (z' - (snd (Date.civil_from_days z') - 1) <= z <= z')%Z ->
  (z - (snd (Date.civil_from_days z) - 1)
   = z' - (snd (Date.civil_from_days z') - 1))%Z.
Proof.
  destruct (civil_day z') as (era' & doe' & Ez' & Hdoe' & ->).
  destruct (civil_day z) as (era & doe & Ez & Hdoe & ->).
  intros Hz.
  pose proof (era_day doe' Hdoe') as Ok. cbv zeta in Ok.
  destruct Ok as (_ & _ & _ & _ & Hf & _).
  pose proof (era_month_interval doe' (doe' - (z' - z)) Hdoe') as I.
  cbv zeta in I.
  set (d' := Date.dayOfMonth (Date.dayOfYear doe')) in *.
  assert (era = era' /\ doe = (doe' - (z' - z))%Z) as [-> ->] by nia.
  rewrite I by lia. lia.
Qed.

(** An instant not after the clock is inside the monthly window exactly
    when the ledger files it under the month of the clock. *)
Lemma same_local_month (tz ts now later : Z) :
  (ts <= now)%Z ->
  (PolicyEngine.getPeriodStart (Date.mkEnv now tz later) PolicyEngine.Monthly <=? ts)%Z
  = (periodStartOf tz month ts =? DatabaseService.monthKey (Date.mkEnv now tz later))%Z.
Proof.
  intros H.
  unfold PolicyEngine.getPeriodStart. rewrite month_start_agrees.
  unfold periodStartOf, startOfLocalMonth, startOfUTCMonth,
    DatabaseService.monthKey, Date.splitT0, Date.toISOString,
    Date.ofYearMonth1, Date.getFullYear, Date.getMonth, Date.UTC, Date.MakeDate,
    Date.LocalTime.
  cbn [Date.now Date.tz]. rewrite !Z.add_0_r.
  rewrite !firstOfMonth_day.
  pose proof (same_month_days (Date.Day (ts + tz)) (Date.Day (now + tz))) as SM.
  pose proof (civil_roundtrip (Date.Day (ts + tz))) as R.
  destruct (Date.civil_from_days (Date.Day (ts + tz))) as [[y m] d].
  destruct R as (_ & Hd & _). cbn [snd] in SM |- *.
  set (d' := snd (Date.civil_from_days (Date.Day (now + tz)))) in *.
  clearbody d'. unfold Date.Day in *.
  assert (Hm : (0 < Date.msPerDay)%Z) by reflexivity.
  rewrite !(day_of_midnight _ _ _ Hm).
  assert (Mono : ((ts + tz) / Date.msPerDay <= (now + tz) / Date.msPerDay)%Z)
    by (apply Z.div_le_mono; lia).
  pose proof (Z.mul_div_le (ts + tz) Date.msPerDay Hm) as Lo.
  assert (Up : forall k, (k * Date.msPerDay <= ts + tz)%Z ->
                         (k <= (ts + tz) / Date.msPerDay)%Z).
  { intros k Hk. apply Z.div_le_lower_bound; [exact Hm|]. lia. }
  generalize dependent Date.msPerDay. intros ms SM Hm Mono Lo Up.
  set (a := ((ts + tz) / ms)%Z) in *. set (b := ((now + tz) / ms)%Z) in *.
  set (z := (- tz / ms)%Z).
  destruct (Z.leb_spec ((b - (d' - 1)) * ms - tz) ts) as [L|L];
    destruct (Z.eqb_spec (a - (d - 1) + z) (b - (d' - 1) + z)) as [E|E];
    try reflexivity; exfalso.
  - apply E. f_equal. apply SM. split; [apply Up; lia | exact Mono].
  - assert (E' : (a - (d - 1) = b - (d' - 1))%Z) by lia.
    assert ((b - (d' - 1)) * ms <= a * ms)%Z by nia. lia.
Qed.

Lemma same_period (w : PolicyEngine.Window) (e : Date.Env) (ts : Z) :
  (ts <= Date.now e)%Z ->
  (PolicyEngine.getPeriodStart e w <=? ts)%Z
  = (periodStartOf (Date.tz e) (PolicyEngine.windowPeriod w) ts
     =? periodStartOf (Date.tz e) (PolicyEngine.windowPeriod w) (Date.now e))%Z.
Proof.
  intros H. rewrite periodStartOf_now. destruct e as [now tz later].
  cbn [Date.now Date.tz] in H |- *.
  destruct w; cbn [PolicyEngine.windowPeriod].
  - apply same_local_day. exact H.
  - apply same_local_month. exact H.
Qed.

Lemma tenantSpend_app (tz : Z) (T : string) (pt : PeriodType) (P : Date.DateString)
    (events : list UsageEvent.t) (ev : UsageEvent.t) :
  tenantSpend tz T pt P (events ++ [ev])
  = if charged ev && String.eqb (UsageEvent.tenant_id ev) T &&
       Z.eqb (periodStartOf tz pt (UsageEvent.timestamp ev)) P
    then tenantSpend tz T pt P events + UsageEvent.cost_estimate ev
    else tenantSpend tz T pt P events.
Proof.
  unfold tenantSpend, tenantPeriodEvents. rewrite filter_app. cbn [filter].
  destruct (charged ev && String.eqb (UsageEvent.tenant_id ev) T &&
            Z.eqb (periodStartOf tz pt (UsageEvent.timestamp ev)) P).
  - apply sumCosts_app.
  - rewrite app_nil_r. reflexivity.
Qed.

(** What the usage read returns on a ledger the router has kept: the spend
    of the tenant in the period of the clock. *)
Lemma getCurrentUsage_is_spend (t : Date.t) (e : Date.Env) (st : Store)
    (T U X : string) (w : PolicyEngine.Window) (u : Q) :
  RouterLedger (Date.tz e) t st ->
  (t <= Date.now e)%Z ->
  PolicyEngine.getCurrentUsage no_faults e st T U X w = Returned u ->
  u == tenantSpend (Date.tz e) T (PolicyEngine.windowPeriod w)
         (periodStartOf (Date.tz e) (PolicyEngine.windowPeriod w) (Date.now e))
         (usage_events st).
Proof.
  intros (((UK & Tot) & _) & Rows & DZ & Past) Ht.
  assert (PA : Date.castToDate (PolicyEngine.getPeriodStart e w)
               = periodStartOf (Date.tz e) (PolicyEngine.windowPeriod w) (Date.now e)).
  { rewrite periodStartOf_now. destruct (period_start_agrees e) as [PD PM].
    destruct w; [exact PD | exact PM]. }
  assert (Win : forall ev, In ev (usage_events st) ->
            Z.leb (PolicyEngine.getPeriodStart e w) (UsageEvent.timestamp ev)
            = Z.eqb (periodStartOf (Date.tz e) (PolicyEngine.windowPeriod w)
                       (UsageEvent.timestamp ev))
                    (periodStartOf (Date.tz e) (PolicyEngine.windowPeriod w)
                       (Date.now e))).
  { intros ev Hev. specialize (Past ev Hev). apply same_period. lia. }
  unfold PolicyEngine.getCurrentUsage.
  rewrite await_no_faults. cbn [bind].
  set (ps := PolicyEngine.getPeriodStart e w) in *.
  set (pt := PolicyEngine.windowPeriod w) in *.
  generalize dependent (periodStartOf (Date.tz e) pt (Date.now e)). intros D PA Win.
  assert (Events :
    PolicyEngine.sumCosts (filter (PolicyEngine.usageEvent T ps) (usage_events st))
    == tenantSpend (Date.tz e) T pt D (usage_events st)).
  { unfold tenantSpend, tenantPeriodEvents. apply sumCosts_filter_zero.
    intros ev Hev. unfold PolicyEngine.usageEvent. rewrite (Win ev Hev).
    unfold charged. destruct (UsageEvent.decision ev) eqn:Dec; cbn [andb]; auto.
    destruct (String.eqb (UsageEvent.tenant_id ev) T &&
              Z.eqb (periodStartOf (Date.tz e) pt (UsageEvent.timestamp ev)) D);
      auto. }
  assert (Fallback : forall l, l = filter (PolicyEngine.usageEvent T ps) (usage_events st) ->
            match l with
            | [] => Returned 0
            | _ :: _ => Returned (PolicyEngine.sumCosts l)
            end = Returned u ->
            u == tenantSpend (Date.tz e) T pt D (usage_events st)).
  { intros l El H. rewrite <- Events, <- El.
    destruct l; apply Returned_inj in H; subst u; reflexivity. }
  assert (Row : forall a, PolicyEngine.usageRow T w ps a = true <->
            UsageAggregate.tenant_id a = T /\ UsageAggregate.period_type a = pt /\
            UsageAggregate.period_start a = D).
  { intros a. unfold PolicyEngine.usageRow. fold pt. rewrite PA.
    rewrite !andb_true_iff, String.eqb_eq, PeriodType_eqb_eq, Z.eqb_eq. tauto. }
  assert (Key : forall ev a, hasKey (keyOf (Date.tz e) pt ev) a = true <->
            (UsageAggregate.tenant_id a = UsageEvent.tenant_id ev /\
             UsageAggregate.user_id a = UsageEvent.user_id ev /\
             UsageAggregate.tool_id a = UsageEvent.tool_id ev /\
             UsageAggregate.period_type a = pt /\
             UsageAggregate.period_start a
             = periodStartOf (Date.tz e) pt (UsageEvent.timestamp ev))).
  { intros ev a. unfold hasKey, keyOf, DatabaseService.sameKey.
    cbn [key_tenant key_user key_tool key_period_type key_period_start].
    rewrite !andb_true_iff, !String.eqb_eq, PeriodType_eqb_eq, Z.eqb_eq. tauto. }
  destruct (filter (PolicyEngine.usageRow T w ps) (usage_aggregates st))
    as [|a [|b more]] eqn:EF; cbn [maybeSingle data].
  - rewrite await_no_faults. cbn [bind rows data]. apply Fallback. reflexivity.
  - intros H. apply Returned_inj in H. subst u.
    assert (Ha : In a (usage_aggregates st) /\ PolicyEngine.usageRow T w ps a = true).
    { apply filter_In. rewrite EF. left. reflexivity. }
    destruct Ha as [Hin Hrow]. apply Row in Hrow. destruct Hrow as (HT & HP & HD).
    set (k := mkKey (UsageAggregate.tenant_id a) (UsageAggregate.user_id a)
                (UsageAggregate.tool_id a) (UsageAggregate.period_type a)
                (UsageAggregate.period_start a)).
    pose proof (Tot k) as Tk. unfold totalCostOf in Tk.
    rewrite (unique_row _ k a UK Hin (hasKey_own a)) in Tk.
    rewrite Tk. unfold chargedSum, chargedEvents, tenantSpend, tenantPeriodEvents.
    rewrite (filter_ext_in
               (fun ev => charged ev && inPeriod (Date.tz e) k ev)
               (fun ev => charged ev && String.eqb (UsageEvent.tenant_id ev) T &&
                          Z.eqb (periodStartOf (Date.tz e) pt (UsageEvent.timestamp ev)) D));
      [reflexivity|].
    intros ev Hev. rewrite <- andb_assoc. f_equal.
    unfold inPeriod, k.
    cbn [key_tenant key_user key_tool key_period_type key_period_start].
    rewrite HT, HP, HD.
    destruct (String.eqb (UsageEvent.tenant_id ev) T) eqn:ET; cbn [andb]; [|reflexivity].
    destruct (Z.eqb (periodStartOf (Date.tz e) pt (UsageEvent.timestamp ev)) D) eqn:ED;
      [|rewrite andb_false_r; reflexivity].
    rewrite andb_true_r.
    apply String.eqb_eq in ET. apply Z.eqb_eq in ED.
    destruct (Rows ev pt Hev) as (a' & Hin' & Hk').
    apply Key in Hk'. destruct Hk' as (K1 & K2 & K3 & K4 & K5).
    assert (a' = a).
    { assert (Hf : In a' (filter (PolicyEngine.usageRow T w ps) (usage_aggregates st))).
      { apply filter_In. split; [exact Hin'|]. apply Row.
        repeat split; congruence. }
      rewrite EF in Hf. destruct Hf as [->|[]]. reflexivity. }
    subst a'. rewrite K2, K3, !String.eqb_refl. reflexivity.
  - rewrite await_no_faults. cbn [bind rows data]. apply Fallback. reflexivity.
Qed.

(** One steady request keeps the ledger as the router leaves it. *)
Lemma checkAndRoute_ledger (tz : Z) (t : Date.t) (e : Date.Env) (st : Store)
    (input : CheckAndRouteInput.t) :
  RouterLedger tz t st ->
  (t <= Date.now e)%Z ->
  steadyRequest tz (e, input) ->
  (forall tool, In tool (tools st) -> 0 <= Tool.cost_per_unit tool) ->
  (forall tool, In tool (tools st) ->
     Pg.scaled 2 (CostEstimator.estimateCost tool
                    (CheckAndRouteInput.estimated_units input))) ->
  (forall k,
     chargedSum tz k (usage_events (snd (checkAndRoute no_faults e st input)))
     < 100000000 /\
     chargedUnits tz k (usage_events (snd (checkAndRoute no_faults e st input)))
     <= 2147483647) ->
  RouterLedger tz (Date.now e) (snd (checkAndRoute no_faults e st input)).
Proof.
  intros (EL & Rows & DZ & Past) Ht Steady Prices Cents Room.
  assert (Etz : Date.tz e = tz) by apply Steady.
  destruct (recorded_step tz e st input EL Steady Prices Cents Room)
    as [E | (ev & r & R & E & TS & Free & EL' & Hd & Hm & Keep)]; rewrite E.
  - split; [exact EL|]. split; [exact Rows|]. split; [exact DZ|].
    intros x Hx. specialize (Past x Hx). lia.
  - assert (Kd : keyOf tz day ev
                 = mkKey (UsageEvent.tenant_id ev) (UsageEvent.user_id ev)
                     (UsageEvent.tool_id ev) day (DatabaseService.dayKey e)).
    { unfold keyOf. rewrite TS, <- Etz. unfold Date.toISOString.
      rewrite (periodStartOf_now e day). reflexivity. }
    assert (Km : keyOf tz month ev
                 = mkKey (UsageEvent.tenant_id ev) (UsageEvent.user_id ev)
                     (UsageEvent.tool_id ev) month (DatabaseService.monthKey e)).
    { unfold keyOf. rewrite TS, <- Etz. unfold Date.toISOString.
      rewrite (periodStartOf_now e month). reflexivity. }
    split; [exact EL'|].
    rewrite (recordUsage_events _ _ _ _ _ R eq_refl).
    split; [|split].
    + intros x pt Hx. apply existsb_exists.
      apply in_app_or in Hx. destruct Hx as [Hx|[<-|[]]].
      * apply Keep. apply existsb_exists. exact (Rows x pt Hx).
      * destruct pt; [rewrite Kd; exact Hd | rewrite Km; exact Hm].
    + intros x Hx. apply in_app_or in Hx. destruct Hx as [Hx|[<-|[]]].
      * exact (DZ x Hx).
      * intros Den. apply Free. unfold charged. rewrite Den. reflexivity.
    + intros x Hx. apply in_app_or in Hx. destruct Hx as [Hx|[<-|[]]].
      * specialize (Past x Hx). lia.
      * rewrite TS. unfold Date.toISOString. lia.
Qed.

Lemma checkAndRoute_policies (f : Faults) (e : Date.Env) (st : Store)
    (input : CheckAndRouteInput.t) :
  policies (snd (checkAndRoute f e st input)) = policies st.
Proof.
  destruct (checkAndRoute_store_any f e st input) as [E | (ev & r & R & E & _)];
    rewrite E; [reflexivity|].
  apply (recordUsage_frame f e st ev r R).
Qed.

(** One request keeps the spend of every period within a blocking limit
    of the tenant. *)
Lemma checkAndRoute_within_budget (t : Date.t) (e : Date.Env) (st : Store)
    (input : CheckAndRouteInput.t) (p : Policy.t) :
  RouterLedger (Date.tz e) t st ->
  (t <= Date.now e)%Z ->
  In p (policies st) ->
  Policy.scope p = scope_tenant ->
  Policy.decision p = deny \/ Policy.decision p = require_approval ->
  (forall q, In q (policies st) -> Policy.tenant_id q = Policy.tenant_id p ->
             canDowngrade q = false) ->
  (forall P, tenantSpend (Date.tz e) (Policy.tenant_id p) (policyPeriod p) P
               (usage_events st)
             <= Policy.limit_value p) ->
  forall P,
    tenantSpend (Date.tz e) (Policy.tenant_id p) (policyPeriod p) P
      (usage_events (snd (checkAndRoute no_faults e st input)))
    <= Policy.limit_value p.
Proof.
  intros RL Ht Hp Sc Blocks NoDown Before P.
  destruct (checkAndRoute_recorded e st input)
    as [E | (ev & r & R & E & TS & TE & _ & Ch)]; rewrite E; [apply Before|].
  rewrite (recordUsage_events no_faults e st ev r R eq_refl), tenantSpend_app.
  destruct (charged ev) eqn:C; cbn [andb]; [|apply Before].
  destruct (String.eqb (UsageEvent.tenant_id ev) (Policy.tenant_id p)) eqn:ET;
    cbn [andb]; [|apply Before].
  destruct (Z.eqb (periodStartOf (Date.tz e) (policyPeriod p) (UsageEvent.timestamp ev)) P)
    eqn:ED; [|apply Before].
  apply String.eqb_eq in ET. apply Z.eqb_eq in ED.
  destruct (Ch eq_refl) as (_ & _ & tool & res & EV & AL & Cost).
  rewrite TE in ET. rewrite ET in EV.
  assert (NS : JS.truthyOpt (PolicyEvaluationResult.suggested_tool res) = false).
  { destruct (JS.truthyOpt (PolicyEvaluationResult.suggested_tool res)) eqn:S;
      [|reflexivity].
    destruct (evaluateRequest_suggested_by _ _ _ _ _ _ _ _ EV S) as (q & Hq & App & Down).
    apply applicable_tenant in App. apply String.eqb_eq in App.
    rewrite (NoDown q Hq App) in Down. discriminate Down. }
  assert (App : PolicyEngine.applicable (Policy.tenant_id p)
                  (JS.trim (CheckAndRouteInput.user_id input))
                  (CheckAndRouteInput.tool_id input) p = true).
  { unfold PolicyEngine.applicable. rewrite String.eqb_refl, Sc. reflexivity. }
  destruct (evaluateRequest_pass_within _ _ _ _ _ _ _ p EV AL NS Hp App Blocks)
    as (u & EU & Le).
  pose proof (getCurrentUsage_is_spend t e st _ _ _ _ u RL Ht EU) as Spend.
  fold (policyPeriod p) in Spend.
  assert (Now : P = periodStartOf (Date.tz e) (policyPeriod p) (Date.now e)).
  { rewrite <- ED, TS. reflexivity. }
  rewrite (Cost NS), Now, <- Spend. exact Le.
Qed.


